(** * light-play: the M4A container parser and the RAOP/RTSP session engine

    A shallow embedding of the C sources (m4afile.c, rtsprequest.c,
    rtspresponse.c, rtspclient.c, raopclient.c) and the properties of the
    specification that were checked against them.

    Conventions of the embedding.
    - Fixed-width C integers are values of [Z]; every conversion to a
      narrower or unsigned type is written out ([u8], [u16], [u32], [i64]).
      The data model is LP64: [long], [time_t], [size_t] are 64 bits wide.
    - A [FILE*] is a record with the file bytes, the position and the
      end-of-file and error indicators of stdio.
    - A C function that receives a pointer to a struct and updates it is a
      function that returns the updated record next to its C result.
    - The recursive descent of the box parser carries a recursion budget;
      [Fuel] is the answer of a call whose budget ran out, [Fault] the answer
      of a call whose behaviour C leaves undefined (a call through a NULL
      function pointer, a store beyond an allocated block).
    - A socket is a record with the messages handed to it and a script of
      what its peer does.  Memory allocation is taken to succeed.
    - [float] and [double] are the binary32 and binary64 formats of
      IEEE 754, as values of [spec_float]. *)

From Stdlib Require Import ZArith Bool String Ascii List Lia SpecFloat.
Import ListNotations.
Local Open Scope Z_scope.

(* ================================================================== *)
(** * C integer types *)

Definition u8  (x : Z) : Z := x mod 2^8.
Definition u16 (x : Z) : Z := x mod 2^16.
Definition u32 (x : Z) : Z := x mod 2^32.
Definition u64 (x : Z) : Z := x mod 2^64.

(** Conversion to a signed 64-bit integer ([long], [time_t]); signed
    arithmetic that leaves the range wraps, as the generated code does. *)
Definition i64 (x : Z) : Z := (x + 2^63) mod 2^64 - 2^63.

(** Conversion to [int16_t]. *)
Definition i16 (x : Z) : Z := (x + 2^15) mod 2^16 - 2^15.

(** Code of a character constant. *)
Definition chr (a : ascii) : Z := Z.of_N (N_of_ascii a).

(** The bytes of a string constant. *)
Fixpoint bytes_of_string (s : string) : list Z :=
  match s with
  | EmptyString => []
  | String a r => chr a :: bytes_of_string r
  end.

(* ================================================================== *)
(** * stdio streams over an in-memory file *)

Record FILE : Type := mkFILE {
  content : list Z;      (* the bytes of the file, each in 0..255 *)
  position : Z;          (* the file position indicator *)
  eof_flag : bool;       (* end-of-file indicator *)
  error_flag : bool      (* error indicator *)
}.

Definition EOF : Z := -1.

Definition fopen (bytes : list Z) : FILE := mkFILE bytes 0 false false.

Definition feof (s : FILE) : bool := eof_flag s.
Definition ferror (s : FILE) : bool := error_flag s.
Definition ftell (s : FILE) : Z := position s.

(** [fgetc]: the next byte, or [EOF] with the end-of-file indicator set. *)
Definition fgetc (s : FILE) : Z * FILE :=
  if (0 <=? position s) && (position s <? Z.of_nat (length (content s))) then
    (nth (Z.to_nat (position s)) (content s) 0,
     mkFILE (content s) (position s + 1) (eof_flag s) (error_flag s))
  else
    (EOF, mkFILE (content s) (position s) true (error_flag s)).

(** [fseek(stream, offset, SEEK_SET)] and [fseek(stream, offset, SEEK_CUR)]:
    0 on success; the end-of-file indicator is cleared.  Seeking past the
    end of the file is allowed; a negative or unrepresentable target is
    refused. *)
Definition fseek_to (s : FILE) (target : Z) : Z * FILE :=
  if (0 <=? target) && (target <? 2^63) then
    (0, mkFILE (content s) target false (error_flag s))
  else (-1, s).

Definition fseek_SET (s : FILE) (offset : Z) : Z * FILE := fseek_to s offset.
Definition fseek_CUR (s : FILE) (offset : Z) : Z * FILE :=
  fseek_to s (position s + offset).
Definition fseek_END (s : FILE) (offset : Z) : Z * FILE :=
  fseek_to s (Z.of_nat (length (content s)) + offset).

(** [fread(data, 1, n, stream)]: the bytes read and the stream; a short
    read sets the end-of-file indicator. *)
Definition fread (n : Z) (s : FILE) : list Z * FILE :=
  let avail := skipn (Z.to_nat (position s)) (content s) in
  let got := firstn (Z.to_nat n) avail in
  let len := Z.of_nat (length got) in
  (got, mkFILE (content s) (position s + len)
               (if len <? n then true else eof_flag s) (error_flag s)).

(* ================================================================== *)
(** * m4afile.c: constants and types *)

Definition UNUSED_OFFSET : Z := 0xffffffff.
Definition DEFAULT_FRAMES_PER_PACKET : Z := 4096.
Definition ONE_SECOND_IN_NANO_SECONDS : Z := 1000000000.

Definition ASCII_TO_INT32 (char1 char2 char3 char4 : Z) : Z :=
  u32 (Z.lor (Z.lor (Z.lor (Z.shiftl char1 24) (Z.shiftl char2 16))
                    (Z.shiftl char3 8)) char4).

(** A four-character code written as a string constant. *)
Definition FOURCC (s : string) : Z :=
  match s with
  | String a (String b (String c (String d EmptyString))) =>
      ASCII_TO_INT32 (chr a) (chr b) (chr c) (chr d)
  | _ => 0
  end.

(** A four-character code whose first character is the byte 0xa9. *)
Definition FOURCC_A9 (s : string) : Z :=
  match s with
  | String b (String c (String d EmptyString)) =>
      ASCII_TO_INT32 0xa9 (chr b) (chr c) (chr d)
  | _ => 0
  end.

Definition NO_BOXTYPE : Z := FOURCC "<no>".
Definition APPLE_FILE_TYPE : Z := FOURCC "M4A ".
Definition ALAC_ENCODING_TYPE : Z := FOURCC "alac".
Definition AAC_ENCODING_TYPE : Z := FOURCC "mp4a".
Definition METADATA_DATA_TYPE : Z := FOURCC "data".
Definition METADATA_NAME_TYPE : Z := FOURCC "name".
Definition METADATA_MEAN_TYPE : Z := FOURCC "mean".
Definition ITUNES_ANNOTATION_TYPE : Z := FOURCC "----".

Inductive M4AFileStatus : Type :=
| M4AFILE_OK
| M4AFILE_ERROR
| M4AFILE_PARSED_WITH_WARNINGS.

Inductive M4AFileEncoding : Type :=
| ENCODING_UNKNOWN
| ENCODING_ALAC
| ENCODING_AAC.

Definition status_eqb (a b : M4AFileStatus) : bool :=
  match a, b with
  | M4AFILE_OK, M4AFILE_OK => true
  | M4AFILE_ERROR, M4AFILE_ERROR => true
  | M4AFILE_PARSED_WITH_WARNINGS, M4AFILE_PARSED_WITH_WARNINGS => true
  | _, _ => false
  end.

Definition encoding_eqb (a b : M4AFileEncoding) : bool :=
  match a, b with
  | ENCODING_UNKNOWN, ENCODING_UNKNOWN => true
  | ENCODING_ALAC, ENCODING_ALAC => true
  | ENCODING_AAC, ENCODING_AAC => true
  | _, _ => false
  end.

(** One call of the metadata handler: box type, payload, metadata type. *)
Definition MetadataCall : Type := (Z * list Z * Z)%type.

(** [struct M4AFileStruct].  [metadataHandler] tells whether a handler is
    registered; [metadataCalls] collects the calls made to it, latest
    first. *)
Record M4AFile : Type := mkM4AFile {
  dataStream : FILE;
  sizeStream : FILE;
  dataOffset : Z;
  sizeOffset : Z;
  totalSize : Z;
  samplesCount : Z;
  totalSampleSize : Z;
  largestSampleSize : Z;
  timescale : Z;
  duration : Z;
  encoding : M4AFileEncoding;
  status : M4AFileStatus;
  metadataHandler : bool;
  metadataCalls : list MetadataCall
}.

(** Field updates ([m4aFile->field = value]). *)
Definition set_dataStream (m : M4AFile) (s : FILE) : M4AFile :=
  mkM4AFile s (sizeStream m) (dataOffset m) (sizeOffset m) (totalSize m)
    (samplesCount m) (totalSampleSize m) (largestSampleSize m) (timescale m)
    (duration m) (encoding m) (status m) (metadataHandler m) (metadataCalls m).
Definition set_sizeStream (m : M4AFile) (s : FILE) : M4AFile :=
  mkM4AFile (dataStream m) s (dataOffset m) (sizeOffset m) (totalSize m)
    (samplesCount m) (totalSampleSize m) (largestSampleSize m) (timescale m)
    (duration m) (encoding m) (status m) (metadataHandler m) (metadataCalls m).
Definition set_dataOffset (m : M4AFile) (v : Z) : M4AFile :=
  mkM4AFile (dataStream m) (sizeStream m) v (sizeOffset m) (totalSize m)
    (samplesCount m) (totalSampleSize m) (largestSampleSize m) (timescale m)
    (duration m) (encoding m) (status m) (metadataHandler m) (metadataCalls m).
Definition set_sizeOffset (m : M4AFile) (v : Z) : M4AFile :=
  mkM4AFile (dataStream m) (sizeStream m) (dataOffset m) v (totalSize m)
    (samplesCount m) (totalSampleSize m) (largestSampleSize m) (timescale m)
    (duration m) (encoding m) (status m) (metadataHandler m) (metadataCalls m).
Definition set_totalSize (m : M4AFile) (v : Z) : M4AFile :=
  mkM4AFile (dataStream m) (sizeStream m) (dataOffset m) (sizeOffset m) v
    (samplesCount m) (totalSampleSize m) (largestSampleSize m) (timescale m)
    (duration m) (encoding m) (status m) (metadataHandler m) (metadataCalls m).
Definition set_samplesCount (m : M4AFile) (v : Z) : M4AFile :=
  mkM4AFile (dataStream m) (sizeStream m) (dataOffset m) (sizeOffset m)
    (totalSize m) v (totalSampleSize m) (largestSampleSize m) (timescale m)
    (duration m) (encoding m) (status m) (metadataHandler m) (metadataCalls m).
Definition set_totalSampleSize (m : M4AFile) (v : Z) : M4AFile :=
  mkM4AFile (dataStream m) (sizeStream m) (dataOffset m) (sizeOffset m)
    (totalSize m) (samplesCount m) v (largestSampleSize m) (timescale m)
    (duration m) (encoding m) (status m) (metadataHandler m) (metadataCalls m).
Definition set_largestSampleSize (m : M4AFile) (v : Z) : M4AFile :=
  mkM4AFile (dataStream m) (sizeStream m) (dataOffset m) (sizeOffset m)
    (totalSize m) (samplesCount m) (totalSampleSize m) v (timescale m)
    (duration m) (encoding m) (status m) (metadataHandler m) (metadataCalls m).
Definition set_timescale (m : M4AFile) (v : Z) : M4AFile :=
  mkM4AFile (dataStream m) (sizeStream m) (dataOffset m) (sizeOffset m)
    (totalSize m) (samplesCount m) (totalSampleSize m) (largestSampleSize m) v
    (duration m) (encoding m) (status m) (metadataHandler m) (metadataCalls m).
Definition set_duration (m : M4AFile) (v : Z) : M4AFile :=
  mkM4AFile (dataStream m) (sizeStream m) (dataOffset m) (sizeOffset m)
    (totalSize m) (samplesCount m) (totalSampleSize m) (largestSampleSize m)
    (timescale m) v (encoding m) (status m) (metadataHandler m)
    (metadataCalls m).
Definition set_encoding (m : M4AFile) (v : M4AFileEncoding) : M4AFile :=
  mkM4AFile (dataStream m) (sizeStream m) (dataOffset m) (sizeOffset m)
    (totalSize m) (samplesCount m) (totalSampleSize m) (largestSampleSize m)
    (timescale m) (duration m) v (status m) (metadataHandler m)
    (metadataCalls m).
Definition set_status (m : M4AFile) (v : M4AFileStatus) : M4AFile :=
  mkM4AFile (dataStream m) (sizeStream m) (dataOffset m) (sizeOffset m)
    (totalSize m) (samplesCount m) (totalSampleSize m) (largestSampleSize m)
    (timescale m) (duration m) (encoding m) v (metadataHandler m)
    (metadataCalls m).
Definition set_metadataHandler (m : M4AFile) (v : bool) : M4AFile :=
  mkM4AFile (dataStream m) (sizeStream m) (dataOffset m) (sizeOffset m)
    (totalSize m) (samplesCount m) (totalSampleSize m) (largestSampleSize m)
    (timescale m) (duration m) (encoding m) (status m) v (metadataCalls m).
Definition add_metadataCall (m : M4AFile) (c : MetadataCall) : M4AFile :=
  mkM4AFile (dataStream m) (sizeStream m) (dataOffset m) (sizeOffset m)
    (totalSize m) (samplesCount m) (totalSampleSize m) (largestSampleSize m)
    (timescale m) (duration m) (encoding m) (status m) (metadataHandler m)
    (c :: metadataCalls m).

(** [struct timespec]. *)
Record timespec : Type := mkTimespec { tv_sec : Z; tv_nsec : Z }.

(** The answer of a call of the recursive descent. *)
Inductive outcome (A : Type) : Type :=
| Ret (a : A)      (* the call returns [a] *)
| Fuel             (* the recursion budget of the embedding ran out *)
| Fault.           (* undefined behaviour: a call through a NULL function
                      pointer, a store beyond an allocated block *)
Arguments Ret {A} a.
Arguments Fuel {A}.
Arguments Fault {A}.

(* ================================================================== *)
(** * m4afile.c: reading primitives *)

(** [read4ByteUnsignedInt32]: four [fgetc] calls, most significant byte
    first; no error checking. *)
Definition read4ByteUnsignedInt32 (stream : FILE) : Z * FILE :=
  let '(c1, stream) := fgetc stream in
  let result := u32 c1 in
  let result := u32 (Z.shiftl result 8) in
  let '(c2, stream) := fgetc stream in
  let result := Z.lor result (u32 c2) in
  let result := u32 (Z.shiftl result 8) in
  let '(c3, stream) := fgetc stream in
  let result := Z.lor result (u32 c3) in
  let result := u32 (Z.shiftl result 8) in
  let '(c4, stream) := fgetc stream in
  let result := Z.lor result (u32 c4) in
  (result, stream).

Definition didReadErrorOccur (stream : FILE) : bool :=
  if feof stream || ferror stream then true else false.

(** [m4aFileReadUnsignedLong]: the C result, the value stored in [*result]
    (0 when nothing is stored) and the file. *)
Definition m4aFileReadUnsignedLong (m : M4AFile) (boxType : Z)
  : bool * Z * M4AFile :=
  let '(value, ds) := read4ByteUnsignedInt32 (dataStream m) in
  let m := set_dataStream m ds in
  if feof (dataStream m) then (false, 0, set_status m M4AFILE_ERROR)
  else if ferror (dataStream m) then (false, 0, set_status m M4AFILE_ERROR)
  else (true, value, m).

(** [m4aFileReadData]: the C result, the bytes stored in [data] and the
    file. *)
Definition m4aFileReadData (m : M4AFile) (dataSize : Z)
  : bool * list Z * M4AFile :=
  let '(data, ds) := fread dataSize (dataStream m) in
  let m := set_dataStream m ds in
  if negb (Z.of_nat (length data) =? dataSize) then
    (false, data, set_status m M4AFILE_ERROR)
  else (true, data, m).

Definition m4aFileSkipBytes (m : M4AFile) (boxType byteCount : Z)
  : bool * M4AFile :=
  let '(r, ds) := fseek_CUR (dataStream m) byteCount in
  let m := set_dataStream m ds in
  if negb (r =? 0) then (false, set_status m M4AFILE_ERROR)
  else (true, m).

(* ================================================================== *)
(** * m4afile.c: internal setters *)

(** [m4aFileInitialize].  [samplesCount] and [totalSampleSize] are not
    assigned by the C function: they keep what the allocated memory held. *)
Definition m4aFileInitialize (m : M4AFile) : M4AFile :=
  mkM4AFile (dataStream m) (sizeStream m) UNUSED_OFFSET UNUSED_OFFSET 0
    (samplesCount m) (totalSampleSize m) 0 0 0 ENCODING_UNKNOWN M4AFILE_OK
    false [].

(** [m4aFileSetTimeValue]; the pointer [timeField] is a getter/setter
    pair. *)
Definition m4aFileSetTimeValue (m : M4AFile) (timeValue : Z)
    (get : M4AFile -> Z) (set : M4AFile -> Z -> M4AFile) : M4AFile :=
  if negb (timeValue =? 0) && negb (timeValue =? 0xffffffff) then
    if negb (get m =? timeValue) then
      if get m =? 0 then set m timeValue
      else set_status m M4AFILE_PARSED_WITH_WARNINGS
    else m
  else m.

Definition m4aFileSetTimescale (m : M4AFile) (v : Z) : M4AFile :=
  m4aFileSetTimeValue m v timescale set_timescale.

Definition m4aFileSetDuration (m : M4AFile) (v : Z) : M4AFile :=
  m4aFileSetTimeValue m v duration set_duration.

Definition setTotalSampleSize (m : M4AFile) (v : Z) : bool * M4AFile :=
  if totalSampleSize m =? 0 then (true, set_totalSampleSize m v)
  else if negb (totalSampleSize m =? v) then
    if v <? totalSampleSize m then (true, set_totalSampleSize m v)
    else (true, m)
  else (true, m).

Definition m4aFileSetOffsetValue (m : M4AFile)
    (set : M4AFile -> Z -> M4AFile) : bool * M4AFile :=
  let m := set m (u32 (ftell (dataStream m))) in
  if ferror (dataStream m) then (false, set_status m M4AFILE_ERROR)
  else (true, m).

Definition m4aFileSetDataOffset (m : M4AFile) : bool * M4AFile :=
  m4aFileSetOffsetValue m set_dataOffset.

Definition m4aFileSetSizeOffset (m : M4AFile) : bool * M4AFile :=
  m4aFileSetOffsetValue m set_sizeOffset.

(** [m4aFileCheckVersionAndFlags]: the C result, the version byte, the
    flags and the file.  The out-parameters [boxVersion] and [boxFlags] are
    returned whether or not the caller passed NULL for them. *)
Definition m4aFileCheckVersionAndFlags (m : M4AFile) (boxType : Z)
    (expectedVersion expectedFlagBitsOn expectedFlagBitsOff : Z)
  : bool * Z * Z * M4AFile :=
  let '(ok, versionAndFlags, m) := m4aFileReadUnsignedLong m boxType in
  if negb ok then (false, 0, 0, m)
  else
    let version := u8 (Z.shiftr (Z.land versionAndFlags 0xff000000) 24) in
    let m := if negb (version =? expectedVersion)
             then set_status m M4AFILE_PARSED_WITH_WARNINGS else m in
    let flags := Z.land versionAndFlags 0x00ffffff in
    let m := if negb (Z.land flags expectedFlagBitsOn =? expectedFlagBitsOn)
                || negb (Z.land flags expectedFlagBitsOff =? 0)
             then set_status m M4AFILE_PARSED_WITH_WARNINGS else m in
    (true, version, flags, m).

(** [m4aFileReadDuration]: the C result, the value stored in [*duration]
    (0 when nothing is stored) and the file.  The two refusals of a 64-bit
    duration log an error and return false; they do not assign
    [m4aFile->status]. *)
Definition m4aFileReadDuration (m : M4AFile) (boxType boxVersion : Z)
  : bool * Z * M4AFile :=
  let hasUnknownDuration := false in
  let upper :=
    if boxVersion =? 0x01 then
      let '(ok, value, m) := m4aFileReadUnsignedLong m boxType in
      if negb ok then (false, hasUnknownDuration, m)
      else if value =? 0xffffffff then (true, true, m)
      else if negb (value =? 0) then (false, hasUnknownDuration, m)
      else (true, hasUnknownDuration, m)
    else (true, hasUnknownDuration, m) in
  let '(go, hasUnknownDuration, m) := upper in
  if negb go then (false, 0, m)
  else
    let '(ok, value, m) := m4aFileReadUnsignedLong m boxType in
    if negb ok then (false, 0, m)
    else if negb (value =? 0xffffffff) && hasUnknownDuration then (false, 0, m)
    else (true, value, m4aFileSetDuration m value).

(** [m4aFileReadMetadataContent].  With a handler registered the payload is
    read and handed to it, otherwise it is skipped. *)
Definition m4aFileReadMetadataContent (m : M4AFile)
    (annotationBoxType boxType metadataType dataSize : Z) : bool * M4AFile :=
  if metadataHandler m then
    let '(ok, data, m) := m4aFileReadData m dataSize in
    if negb ok then (false, m)
    else
      (true, add_metadataCall m
               (if annotationBoxType =? ITUNES_ANNOTATION_TYPE
                then boxType else annotationBoxType, data, metadataType))
  else
    let '(ok, m) := m4aFileSkipBytes m boxType dataSize in
    if negb ok then (false, m) else (true, m).

(* ================================================================== *)
(** * m4afile.c: box parsers without sub-boxes

    Every box parser returns the number of bytes it reports as read and/or
    skipped, next to the file. *)

Definition mp4BoxSkip (m : M4AFile) (boxType boxBytesLeft : Z)
  : Z * M4AFile :=
  let '(ok, m) := m4aFileSkipBytes m boxType boxBytesLeft in
  if negb ok then (0, m) else (boxBytesLeft, m).

Definition mp4BoxParseFileType (m : M4AFile) (boxType boxBytesLeft : Z)
  : Z * M4AFile :=
  let '(ok, mainType, m) := m4aFileReadUnsignedLong m boxType in
  if negb ok then (0, m) else
  let '(ok, mainVersion, m) := m4aFileReadUnsignedLong m boxType in
  if negb ok then (0, m) else
  let m := if negb (mainType =? APPLE_FILE_TYPE) || negb (mainVersion =? 0)
           then set_status m M4AFILE_PARSED_WITH_WARNINGS else m in
  let '(ok, m) := m4aFileSkipBytes m boxType (u32 (boxBytesLeft - 8)) in
  if negb ok then (0, m) else
  (boxBytesLeft, m).

Definition mp4BoxParseMediaHeader (m : M4AFile) (boxType boxBytesLeft : Z)
  : Z * M4AFile :=
  let '(ok, boxVersion, _, m) :=
    m4aFileCheckVersionAndFlags m boxType 0x00 0x00000000 0x00ffffff in
  if negb ok then (0, m) else
  if boxBytesLeft <? (if boxVersion =? 0 then 20 else 32) then
    (0, set_status m M4AFILE_ERROR)
  else
  let '(ok, m) :=
    m4aFileSkipBytes m boxType (if boxVersion =? 0 then 8 else 16) in
  if negb ok then (0, m) else
  let '(ok, ts, m) := m4aFileReadUnsignedLong m boxType in
  if negb ok then (0, m) else
  let m := m4aFileSetTimescale m ts in
  let '(ok, _, m) := m4aFileReadDuration m boxType boxVersion in
  if negb ok then (0, m) else
  let '(ok, m) :=
    m4aFileSkipBytes m boxType
      (u32 (boxBytesLeft - (if boxVersion =? 0 then 20 else 32))) in
  if negb ok then (0, m) else
  (boxBytesLeft, m).

Definition mp4BoxParseTrackHeader (m : M4AFile) (boxType boxBytesLeft : Z)
  : Z * M4AFile :=
  let '(ok, boxVersion, _, m) :=
    m4aFileCheckVersionAndFlags m boxType 0x00 0x00000000 0x00fffff8 in
  if negb ok then (0, m) else
  if boxBytesLeft <? (if boxVersion =? 0 then 28 else 40) then
    (0, set_status m M4AFILE_ERROR)
  else
  let '(ok, m) :=
    m4aFileSkipBytes m boxType (if boxVersion =? 0 then 16 else 24) in
  if negb ok then (0, m) else
  let '(ok, undocumentedDuration, m) := m4aFileReadUnsignedLong m boxType in
  if negb ok then (0, m) else
  let m := m4aFileSetDuration m undocumentedDuration in
  let '(ok, _, m) := m4aFileReadDuration m boxType boxVersion in
  if negb ok then (0, m) else
  let '(ok, m) :=
    m4aFileSkipBytes m boxType
      (u32 (boxBytesLeft - (if boxVersion =? 0 then 28 else 40))) in
  if negb ok then (0, m) else
  (boxBytesLeft, m).

Definition mp4BoxParseSampleDescription (m : M4AFile)
    (boxType boxBytesLeft : Z) : Z * M4AFile :=
  let m :=
    if boxType =? ALAC_ENCODING_TYPE then
      if negb (encoding_eqb (encoding m) ENCODING_UNKNOWN)
         && negb (encoding_eqb (encoding m) ENCODING_ALAC)
      then set_status m M4AFILE_PARSED_WITH_WARNINGS
      else set_encoding m ENCODING_ALAC
    else if boxType =? AAC_ENCODING_TYPE then
      if negb (encoding_eqb (encoding m) ENCODING_UNKNOWN)
         && negb (encoding_eqb (encoding m) ENCODING_AAC)
      then set_status m M4AFILE_PARSED_WITH_WARNINGS
      else set_status (set_encoding m ENCODING_AAC)
                      M4AFILE_PARSED_WITH_WARNINGS
    else m in
  mp4BoxSkip m boxType boxBytesLeft.

(** The [for] loop of [mp4BoxParseSampleTimes]: [n] entries still to read;
    the answer is false as soon as a read fails. *)
Fixpoint readSampleTimes (n : nat) (m : M4AFile) (boxType totalDuration : Z)
  : bool * Z * M4AFile :=
  match n with
  | O => (true, totalDuration, m)
  | S n' =>
      let '(ok, frameCount, m) := m4aFileReadUnsignedLong m boxType in
      if negb ok then (false, totalDuration, m) else
      let '(ok, dur, m) := m4aFileReadUnsignedLong m boxType in
      if negb ok then (false, totalDuration, m) else
      readSampleTimes n' m boxType (u32 (totalDuration + u32 (frameCount * dur)))
  end.

Definition mp4BoxParseSampleTimes (m : M4AFile) (boxType boxBytesLeft : Z)
  : Z * M4AFile :=
  let '(ok, _, _, m) :=
    m4aFileCheckVersionAndFlags m boxType 0x00 0x00000000 0x00ffffff in
  if negb ok then (0, m) else
  let '(ok, numberOfTimings, m) := m4aFileReadUnsignedLong m boxType in
  if negb ok then (0, m) else
  let boxBytesRead := 8 in
  let '(ok, totalDuration, m) :=
    readSampleTimes (Z.to_nat numberOfTimings) m boxType 0 in
  if negb ok then (0, m) else
  let m := m4aFileSetDuration m totalDuration in
  let boxBytesRead := u32 (boxBytesRead + u32 (numberOfTimings * 8)) in
  (boxBytesRead, m).

(** The [for] loop of [mp4BoxParseSampleSizes]. *)
Fixpoint readSampleSizes (n : nat) (m : M4AFile)
    (boxType totalSampleSize largestSampleSize : Z)
  : bool * Z * Z * M4AFile :=
  match n with
  | O => (true, totalSampleSize, largestSampleSize, m)
  | S n' =>
      let '(ok, sampleSize, m) := m4aFileReadUnsignedLong m boxType in
      if negb ok then (false, totalSampleSize, largestSampleSize, m) else
      readSampleSizes n' m boxType (u32 (totalSampleSize + sampleSize))
        (if largestSampleSize <? sampleSize then sampleSize
         else largestSampleSize)
  end.

Definition mp4BoxParseSampleSizes (m : M4AFile) (boxType boxBytesLeft : Z)
  : Z * M4AFile :=
  let '(ok, _, _, m) :=
    m4aFileCheckVersionAndFlags m boxType 0x00 0x00000000 0x00ffffff in
  if negb ok then (0, m) else
  let '(ok, sampleSizeForAll, m) := m4aFileReadUnsignedLong m boxType in
  if negb ok then (0, m) else
  let m := if negb (sampleSizeForAll =? 0)
           then set_status m M4AFILE_PARSED_WITH_WARNINGS else m in
  let '(ok, count, m) := m4aFileReadUnsignedLong m boxType in
  if negb ok then (0, m) else
  let m := set_samplesCount m count in
  let boxBytesRead := 12 in
  let '(ok, m) := m4aFileSetSizeOffset m in
  if negb ok then (0, m) else
  let '(ok, total, largest, m) :=
    readSampleSizes (Z.to_nat count) m boxType 0 0 in
  if negb ok then (0, m) else
  let '(ok, m) := setTotalSampleSize m total in
  if negb ok then (0, m) else
  let m := set_largestSampleSize m largest in
  let boxBytesRead := u32 (boxBytesRead + u32 (count * 4)) in
  (boxBytesRead, m).

Definition mp4BoxParseMediaData (m : M4AFile) (boxType boxBytesLeft : Z)
  : Z * M4AFile :=
  let '(ok, m) := m4aFileSetDataOffset m in
  if negb ok then (0, m) else
  let '(ok, m) := setTotalSampleSize m boxBytesLeft in
  if negb ok then (0, m) else
  mp4BoxSkip m boxType boxBytesLeft.

(** [mp4BoxParseAppleData]: the generic parser of the [mean], [name] and
    [data] boxes inside an annotation. *)
Definition mp4BoxParseAppleData (m : M4AFile) (annotationBoxType : Z)
  : Z * M4AFile :=
  let '(ok, boxSize, m) := m4aFileReadUnsignedLong m annotationBoxType in
  if negb ok then (0, m) else
  let '(ok, boxType, m) := m4aFileReadUnsignedLong m annotationBoxType in
  if negb ok then (0, m) else
  let isDataBox := boxType =? METADATA_DATA_TYPE in
  let '(ok, _, boxFlags, m) :=
    m4aFileCheckVersionAndFlags m boxType 0x00 0x00000000 0x00ffffe0 in
  if negb ok then (0, m) else
  let boxBytesRead := 12 in
  let '(ok, boxBytesRead, m) :=
    if isDataBox then
      let '(ok, m) := m4aFileSkipBytes m boxType 4 in
      if negb ok then (false, boxBytesRead, m)
      else (true, u32 (boxBytesRead + 4), m)
    else (true, boxBytesRead, m) in
  if negb ok then (0, m) else
  if boxBytesRead <? boxSize then
    let '(ok, m) :=
      m4aFileReadMetadataContent m annotationBoxType boxType boxFlags
        (u32 (boxSize - boxBytesRead)) in
    if negb ok then (0, m) else (boxSize, m)
  else if boxBytesRead >? boxSize then
    (boxBytesRead, set_status m M4AFILE_PARSED_WITH_WARNINGS)
  else (boxBytesRead, m).

(* ================================================================== *)
(** * m4afile.c: containers and the dispatch table *)

(** The type [mp4BoxParserGeneric] of the function pointer handed to
    [mp4BoxParseContainerInternal]. *)
Definition mp4BoxParserGeneric : Type :=
  M4AFile -> Z -> outcome (Z * M4AFile).

(** The [while] loop of [mp4BoxParseContainerInternal]; [n] bounds the
    number of iterations. *)
Fixpoint containerLoop (n : nat) (boxParser : mp4BoxParserGeneric)
    (m : M4AFile) (boxType boxBytesLeft containerSize : Z)
  : outcome (Z * M4AFile) :=
  if negb (status_eqb (status m) M4AFILE_ERROR)
     && (containerSize <? boxBytesLeft) then
    match n with
    | O => Fuel
    | S n' =>
        match boxParser m boxType with
        | Ret (r, m) =>
            containerLoop n' boxParser m boxType boxBytesLeft
              (u32 (containerSize + r))
        | Fuel => Fuel
        | Fault => Fault
        end
    end
  else Ret (containerSize, m).

Definition mp4BoxParseContainerInternal (n : nat) (m : M4AFile)
    (boxType boxBytesLeft : Z) (boxParser : mp4BoxParserGeneric)
  : outcome (Z * M4AFile) :=
  match containerLoop n boxParser m boxType boxBytesLeft 0 with
  | Ret (containerSize, m) =>
      let m := if negb (status_eqb (status m) M4AFILE_ERROR)
                  && (containerSize >? boxBytesLeft)
               then set_status m M4AFILE_PARSED_WITH_WARNINGS else m in
      Ret (containerSize, m)
  | Fuel => Fuel
  | Fault => Fault
  end.

(** The box parsers the table refers to. *)
Inductive BoxParser : Type :=
| ParseFileType | ParseContainer | ParseMediaHeader | ParseTrackHeader
| ParseSampleDescriptions | ParseSampleDescription | ParseSampleTimes
| ParseSampleSizes | ParseMetadata | ParseAppleAnnotation | ParseMediaData
| Skip.

(** [mp4BoxParserTable]; the last entry is the terminator [{ 0, NULL }]. *)
Definition mp4BoxParserTable : list (Z * option BoxParser) :=
  [ (FOURCC "ftyp", Some ParseFileType);
    (FOURCC "moov", Some ParseContainer);
    (FOURCC "mvhd", Some ParseMediaHeader);
    (FOURCC "trak", Some ParseContainer);
    (FOURCC "tkhd", Some ParseTrackHeader);
    (FOURCC "udta", Some ParseContainer);
    (FOURCC "mdia", Some ParseContainer);
    (FOURCC "mdhd", Some ParseMediaHeader);
    (FOURCC "hdlr", Some Skip);
    (FOURCC "minf", Some ParseContainer);
    (FOURCC "smhd", Some Skip);
    (FOURCC "dinf", Some ParseContainer);
    (FOURCC "dref", Some Skip);
    (FOURCC "stbl", Some ParseContainer);
    (FOURCC "stsd", Some ParseSampleDescriptions);
    (FOURCC "alac", Some ParseSampleDescription);
    (FOURCC "mp4a", Some ParseSampleDescription);
    (FOURCC "stts", Some ParseSampleTimes);
    (FOURCC "stsc", Some Skip);
    (FOURCC "stsz", Some ParseSampleSizes);
    (FOURCC "stco", Some Skip);
    (FOURCC "meta", Some ParseMetadata);
    (FOURCC "ilst", Some ParseContainer);
    (ITUNES_ANNOTATION_TYPE, Some ParseAppleAnnotation);
    (FOURCC "free", Some Skip);
    (FOURCC "mdat", Some ParseMediaData) ]
  ++ map (fun t => (t, Some ParseAppleAnnotation))
    [ FOURCC_A9 "nam"; FOURCC_A9 "ART"; FOURCC "aART"; FOURCC_A9 "alb";
      FOURCC_A9 "grp"; FOURCC_A9 "wrt"; FOURCC_A9 "cmt"; FOURCC "gnre";
      FOURCC_A9 "gen"; FOURCC_A9 "day"; FOURCC "trkn"; FOURCC "disk";
      FOURCC "tmpo"; FOURCC "cpil"; FOURCC "desc"; FOURCC "ldes";
      FOURCC_A9 "lyr"; FOURCC "sonm"; FOURCC "soar"; FOURCC "soaa";
      FOURCC "soal"; FOURCC "soco"; FOURCC "sosn"; FOURCC "covr";
      FOURCC "cprt"; FOURCC_A9 "too"; FOURCC_A9 "enc"; FOURCC "purd";
      FOURCC "pcst"; FOURCC "purl"; FOURCC "keyw"; FOURCC "catg";
      FOURCC "stik"; FOURCC "rtng"; FOURCC "pgap"; FOURCC "apID";
      FOURCC "akID"; FOURCC "cnID"; FOURCC "sfID"; FOURCC "atID";
      FOURCC "plID"; FOURCC "geID"; FOURCC_A9 "st3" ]
  ++ [ (0, None) ].

(** The sequential search of [mp4BoxParse]: the first entry whose type is 0
    or [boxType]. *)
Fixpoint findBoxParser (table : list (Z * option BoxParser)) (boxType : Z)
  : Z * option BoxParser :=
  match table with
  | [] => (0, None)
  | (t, p) :: rest =>
      if negb (t =? 0) && negb (t =? boxType) then findBoxParser rest boxType
      else (t, p)
  end.

(** The box parsers that read sub-boxes; [self] is the function pointer
    [&mp4BoxParse] and [n] the iteration bound of the container loop. *)
Definition mp4BoxParseContainer (self : mp4BoxParserGeneric) (n : nat)
    (m : M4AFile) (boxType boxBytesLeft : Z) : outcome (Z * M4AFile) :=
  mp4BoxParseContainerInternal n m boxType boxBytesLeft self.

Definition mp4BoxParseSampleDescriptions (self : mp4BoxParserGeneric)
    (n : nat) (m : M4AFile) (boxType boxBytesLeft : Z)
  : outcome (Z * M4AFile) :=
  let '(ok, _, _, m) :=
    m4aFileCheckVersionAndFlags m boxType 0x00 0x00000000 0x00ffffff in
  if negb ok then Ret (0, m) else
  let '(ok, m) := m4aFileSkipBytes m boxType 4 in
  if negb ok then Ret (0, m) else
  let boxBytesRead := 8 in
  match mp4BoxParseContainerInternal n m boxType
          (u32 (boxBytesLeft - boxBytesRead)) self with
  | Ret (r, m) => Ret (u32 (boxBytesRead + r), m)
  | Fuel => Fuel
  | Fault => Fault
  end.

Definition mp4BoxParseMetadata (self : mp4BoxParserGeneric) (n : nat)
    (m : M4AFile) (boxType boxBytesLeft : Z) : outcome (Z * M4AFile) :=
  let '(ok, _, _, m) :=
    m4aFileCheckVersionAndFlags m boxType 0x00 0x00000000 0x00ffffff in
  if negb ok then Ret (0, m) else
  let boxBytesRead := 4 in
  match mp4BoxParseContainerInternal n m boxType
          (u32 (boxBytesLeft - boxBytesRead)) self with
  | Ret (r, m) => Ret (u32 (boxBytesRead + r), m)
  | Fuel => Fuel
  | Fault => Fault
  end.

Definition mp4BoxParseAppleAnnotation (n : nat) (m : M4AFile)
    (boxType boxBytesLeft : Z) : outcome (Z * M4AFile) :=
  mp4BoxParseContainerInternal n m boxType boxBytesLeft
    (fun m t => Ret (mp4BoxParseAppleData m t)).

(** The call [mp4BoxParserTable[index].boxParser(m4aFile, boxType,
    boxBytesLeft)]. *)
Definition callBoxParser (p : BoxParser) (self : mp4BoxParserGeneric)
    (n : nat) (m : M4AFile) (boxType boxBytesLeft : Z)
  : outcome (Z * M4AFile) :=
  match p with
  | ParseFileType => Ret (mp4BoxParseFileType m boxType boxBytesLeft)
  | ParseContainer => mp4BoxParseContainer self n m boxType boxBytesLeft
  | ParseMediaHeader => Ret (mp4BoxParseMediaHeader m boxType boxBytesLeft)
  | ParseTrackHeader => Ret (mp4BoxParseTrackHeader m boxType boxBytesLeft)
  | ParseSampleDescriptions =>
      mp4BoxParseSampleDescriptions self n m boxType boxBytesLeft
  | ParseSampleDescription =>
      Ret (mp4BoxParseSampleDescription m boxType boxBytesLeft)
  | ParseSampleTimes => Ret (mp4BoxParseSampleTimes m boxType boxBytesLeft)
  | ParseSampleSizes => Ret (mp4BoxParseSampleSizes m boxType boxBytesLeft)
  | ParseMetadata => mp4BoxParseMetadata self n m boxType boxBytesLeft
  | ParseAppleAnnotation => mp4BoxParseAppleAnnotation n m boxType boxBytesLeft
  | ParseMediaData => Ret (mp4BoxParseMediaData m boxType boxBytesLeft)
  | Skip => Ret (mp4BoxSkip m boxType boxBytesLeft)
  end.

(** First half of [mp4BoxParse] after the header: the table search and the
    call of the box-specific parser.  The answer is the value of
    [boxBytesRead] after the call; [entryType] is
    [mp4BoxParserTable[index].type]. *)
Definition mp4BoxParseDispatch (self : mp4BoxParserGeneric) (n : nat)
    (m : M4AFile) (boxType boxSize : Z) : outcome (Z * M4AFile) :=
  let boxBytesRead := 8 in
  let '(entryType, entryParser) := findBoxParser mp4BoxParserTable boxType in
  if entryType =? boxType then
    match entryParser with
    | Some p =>
        match callBoxParser p self n m boxType (u32 (boxSize - boxBytesRead))
        with
        | Ret (r, m) => Ret (u32 (boxBytesRead + r), m)
        | Fuel => Fuel
        | Fault => Fault
        end
    | None => Fault
    end
  else Ret (boxBytesRead, m).

(** Second half of [mp4BoxParse]: the comparison of [boxBytesRead] with
    [boxSize]. *)
Definition mp4BoxParseTrailer (m : M4AFile) (boxType boxSize boxBytesRead : Z)
  : Z * M4AFile :=
  if boxBytesRead <? boxSize then
    let m := set_status m M4AFILE_PARSED_WITH_WARNINGS in
    let '(ok, m) :=
      m4aFileSkipBytes m boxType (u32 (boxSize - boxBytesRead)) in
    if negb ok then (0, m) else (boxSize, m)
  else if boxBytesRead >? boxSize then
    (boxBytesRead, set_status m M4AFILE_PARSED_WITH_WARNINGS)
  else (boxBytesRead, m).

(** The body of [mp4BoxParse], with the recursive call abstracted. *)
Definition mp4BoxParseBody (self : mp4BoxParserGeneric) (n : nat)
    (m : M4AFile) (containerBoxType : Z) : outcome (Z * M4AFile) :=
  let '(ok, boxSize, m) := m4aFileReadUnsignedLong m containerBoxType in
  if negb ok then
    if feof (dataStream m) then Ret (0, set_status m M4AFILE_OK)
    else Ret (0, m)
  else
  let '(ok, boxType, m) := m4aFileReadUnsignedLong m containerBoxType in
  if negb ok then Ret (0, m) else
  match mp4BoxParseDispatch self n m boxType boxSize with
  | Ret (boxBytesRead, m) =>
      Ret (mp4BoxParseTrailer m boxType boxSize boxBytesRead)
  | Fuel => Fuel
  | Fault => Fault
  end.

(** [mp4BoxParse]; [fuel] bounds the nesting depth and the number of
    iterations of each container loop. *)
Fixpoint mp4BoxParse (fuel : nat) (m : M4AFile) (containerBoxType : Z)
  : outcome (Z * M4AFile) :=
  match fuel with
  | O => Fuel
  | S k => mp4BoxParseBody (mp4BoxParse k) k m containerBoxType
  end.

(* ================================================================== *)
(** * m4afile.c: public functions *)

(** [m4aFileOpen]; [allocated] is what the memory returned by the
    allocator holds, [fileBytes] the file found under [fileName]. *)
Definition m4aFileOpen (allocated : M4AFile) (fileBytes : list Z) : M4AFile :=
  let m := m4aFileInitialize allocated in
  let m := set_dataStream m (fopen fileBytes) in
  let '(_, ds) := fseek_END (dataStream m) 0 in
  let m := set_dataStream m ds in
  let m := set_totalSize m (u32 (ftell (dataStream m))) in
  let '(_, ds) := fseek_SET (dataStream m) 0 in
  let m := set_dataStream m ds in
  set_sizeStream m (fopen fileBytes).

(** A block of memory that holds zeros. *)
Definition zeroed : M4AFile :=
  mkM4AFile (fopen []) (fopen []) 0 0 0 0 0 0 0 0 ENCODING_UNKNOWN M4AFILE_OK
    false [].

Definition m4aFileSetMetadataHandler (m : M4AFile) : bool * M4AFile :=
  (true, set_metadataHandler m true).

(** The [while] loop of [m4aFileParse]. *)
Fixpoint m4aFileParseLoop (n fuel : nat) (m : M4AFile) : outcome M4AFile :=
  if negb (status_eqb (status m) M4AFILE_ERROR) then
    match n with
    | O => Fuel
    | S n' =>
        match mp4BoxParse fuel m NO_BOXTYPE with
        | Ret (r, m) => if r >? 0 then m4aFileParseLoop n' fuel m else Ret m
        | Fuel => Fuel
        | Fault => Fault
        end
    end
  else Ret m.

Definition m4aFileParse (fuel : nat) (m : M4AFile) : outcome (bool * M4AFile) :=
  match m4aFileParseLoop fuel fuel m with
  | Ret m =>
      let m :=
        if negb (status_eqb (status m) M4AFILE_ERROR) then
          let '(_, ds) := fseek_SET (dataStream m) (dataOffset m) in
          let m := set_dataStream m ds in
          let '(_, ss) := fseek_SET (sizeStream m) (sizeOffset m) in
          set_sizeStream m ss
        else m in
      Ret (negb (status_eqb (status m) M4AFILE_ERROR), m)
  | Fuel => Fuel
  | Fault => Fault
  end.

Definition m4aFileHasParsedWithWarnings (m : M4AFile) : bool :=
  status_eqb (status m) M4AFILE_PARSED_WITH_WARNINGS.

Definition m4aFileGetEncoding (m : M4AFile) : M4AFileEncoding := encoding m.
Definition m4aFileGetTimescale (m : M4AFile) : Z := timescale m.
Definition m4aFileGetSamplesCount (m : M4AFile) : Z := samplesCount m.
Definition m4aFileGetLargestSampleSize (m : M4AFile) : Z :=
  largestSampleSize m.

(** [m4aFileGetLength].  Both statements divide by [m4aFile->timescale];
    [None] is the division by zero, which C leaves undefined.  The first
    quotient is computed on [uint32_t], the second statement on [long]. *)
Definition m4aFileGetLength (m : M4AFile) : option (bool * timespec) :=
  if timescale m =? 0 then None
  else
    let sec := u32 (duration m / timescale m) in
    let nsec :=
      Z.quot (i64 (ONE_SECOND_IN_NANO_SECONDS
                   * i64 (duration m - i64 (sec * timescale m))))
             (timescale m) in
    Some (true, mkTimespec sec nsec).

(** The [while(sampleOffset > 0)] loop of [m4aFileSetSampleOffset]. *)
Fixpoint skipSamples (sampleOffset : nat) (m : M4AFile) : bool * M4AFile :=
  match sampleOffset with
  | O => (true, m)
  | S n =>
      let '(sampleSize, ss) := read4ByteUnsignedInt32 (sizeStream m) in
      let m := set_sizeStream m ss in
      if didReadErrorOccur (sizeStream m) then (false, m) else
      let '(r, ds) := fseek_CUR (dataStream m) sampleSize in
      let m := set_dataStream m ds in
      if negb (r =? 0) then (false, m) else
      skipSamples n m
  end.

(** [m4aFileSetSampleOffset].  The product is computed on [long]
    ([time_t]), the quotient is converted to [uint32_t]. *)
Definition m4aFileSetSampleOffset (m : M4AFile) (timeOffset : timespec)
  : bool * M4AFile :=
  let sampleOffset :=
    u32 (Z.quot (i64 (timescale m * tv_sec timeOffset))
                DEFAULT_FRAMES_PER_PACKET) in
  if sampleOffset >=? samplesCount m then (false, m) else
  let '(r, ss) := fseek_SET (sizeStream m) (sizeOffset m) in
  let m := set_sizeStream m ss in
  if negb (r =? 0) then (false, m) else
  let '(r, ds) := fseek_SET (dataStream m) (dataOffset m) in
  let m := set_dataStream m ds in
  if negb (r =? 0) then (false, m) else
  skipSamples (Z.to_nat sampleOffset) m.

Definition m4aFileGetCurrentSampleIndex (m : M4AFile) : Z :=
  let offset := u32 (ftell (sizeStream m)) in
  u32 (offset - sizeOffset m) / 4.

Definition m4aFileHasMoreSamples (m : M4AFile) : bool :=
  m4aFileGetCurrentSampleIndex m <? samplesCount m.

(** A byte buffer owned by the caller: the size it was allocated with and
    the bytes stored from its first byte on.  Only the address of the buffer
    is passed to [m4aFileGetNextSample]; [stored] may grow longer than
    [capacity], which is a write past the end of the buffer. *)
Record Buffer : Type := mkBuffer { capacity : Z; stored : list Z }.

Definition overrun (b : Buffer) : bool :=
  capacity b <? Z.of_nat (length (stored b)).

(** [m4aFileGetNextSample]: the C result, the buffer, the value stored in
    [*sampleSize] (0 when nothing is stored) and the file. *)
Definition m4aFileGetNextSample (m : M4AFile) (sampleBuffer : Buffer)
  : bool * Buffer * Z * M4AFile :=
  let '(dataSize, ss) := read4ByteUnsignedInt32 (sizeStream m) in
  let m := set_sizeStream m ss in
  if didReadErrorOccur (sizeStream m) then (false, sampleBuffer, 0, m) else
  let '(ok, data, m) := m4aFileReadData m dataSize in
  let sampleBuffer := mkBuffer (capacity sampleBuffer) data in
  if negb ok then (false, sampleBuffer, 0, m) else
  (true, sampleBuffer, dataSize, m).

(* ================================================================== *)
(** * Building test files *)

(** Big-endian image of a 32-bit value. *)
Definition be32 (x : Z) : list Z :=
  [ (x / 2^24) mod 256; (x / 2^16) mod 256; (x / 2^8) mod 256; x mod 256 ].

(** A box: size (header included), type, body. *)
Definition box (type : string) (body : list Z) : list Z :=
  be32 (8 + Z.of_nat (length body)) ++ bytes_of_string type ++ body.

(** A box whose declared size is chosen freely. *)
Definition box_sized (size : Z) (type : string) (body : list Z) : list Z :=
  be32 size ++ bytes_of_string type ++ body.

Definition zeros (n : nat) : list Z := repeat 0 n.

(* ================================================================== *)
(** * C strings and formatted output *)

Local Open Scope string_scope.
Local Open Scope Z_scope.

(** Concatenation of strings. *)
Infix "+++" := String.append (right associativity, at level 60).

Definition strlen (s : string) : Z := Z.of_nat (String.length s).

Definition CRLF : string := String "013" (String "010" EmptyString).
Definition NUL : ascii := "000"%char.
Definition QUOTE : string := String "034" EmptyString.

(** The characters of a char array up to, and without, its first NUL: what
    [%s] prints and what [strlen] counts. *)
Fixpoint cstr (s : string) : string :=
  match s with
  | EmptyString => EmptyString
  | String a r => if Ascii.eqb a NUL then EmptyString else String a (cstr r)
  end.

(** First [n] characters of a string. *)
Definition take (n : Z) (s : string) : string := substring 0 (Z.to_nat n) s.

(** Suffix of a string after its first [n] characters. *)
Fixpoint drop (n : nat) (s : string) : string :=
  match n, s with
  | O, _ => s
  | S n', EmptyString => EmptyString
  | S n', String _ r => drop n' r
  end.

(** [snprintf(buffer, size, ...)]: the formatted text [s] cut to the
    [size - 1] characters that fit before the terminating NUL. *)
Definition snprintf (size : Z) (s : string) : string := take (size - 1) s.

Definition digit_char (d : Z) : ascii :=
  ascii_of_N (Z.to_N (if d <? 10 then 48 + d else 55 + d)).

(** Digits of [n] in base [base] (upper-case letters), most significant
    first. *)
Fixpoint digits (fuel : nat) (base n : Z) (acc : string) : string :=
  match fuel with
  | O => acc
  | S k =>
      let acc := String (digit_char (n mod base)) acc in
      if n / base =? 0 then acc else digits k base (n / base) acc
  end.

(** [%u] / [%lu] and [%X] of a non-negative value (at most 64 bits). *)
Definition print_u (n : Z) : string := digits 64 10 n "".
Definition print_X (n : Z) : string := digits 64 16 n "".

(** [%02X] of a byte. *)
Definition print_02X (b : Z) : string :=
  String (digit_char (b / 16 mod 16)) (String (digit_char (b mod 16)) "").

(* ================================================================== *)
(** * network.c: a connection with a scripted peer *)

(** What the next [recv] on the socket yields. *)
Inductive RecvEvent (A : Type) : Type :=
| RecvData (data : A)     (* bytes that arrived *)
| RecvError.              (* recv returns -1 *)
Arguments RecvData {A} data.
Arguments RecvError {A}.

(** [NetworkConnection].  [sent] lists the messages handed to [send], oldest
    first, each with the answer of [networkSendMessage]; [sendResults]
    scripts the outcome of the coming [send] calls (success once the script
    is exhausted); [incoming] scripts what arrives. *)
Record NetworkConnection (A : Type) : Type := mkConnection {
  sent : list (A * bool);
  sendResults : list bool;
  incoming : list (RecvEvent A);
  localAddressName : string;
  remoteAddressName : string
}.
Arguments mkConnection {A}.
Arguments sent {A}.
Arguments sendResults {A}.
Arguments incoming {A}.
Arguments localAddressName {A}.
Arguments remoteAddressName {A}.

Definition networkSendMessage {A} (c : NetworkConnection A) (message : A)
  : bool * NetworkConnection A :=
  let result := match sendResults c with [] => true | r :: _ => r end in
  (result,
   mkConnection (sent c ++ [(message, result)]) (tl (sendResults c))
     (incoming c) (localAddressName c) (remoteAddressName c)).

(** [networkReceiveMessage] on the control connection: at most
    [maxMessageSize] characters of what arrived; an exhausted script is a
    peer that closed the connection (empty message, success). *)
Definition networkReceiveMessage (c : NetworkConnection string)
    (maxMessageSize : Z) : bool * string * NetworkConnection string :=
  match incoming c with
  | [] => (true, "", c)
  | RecvError :: rest =>
      (false, "", mkConnection (sent c) (sendResults c) rest
                    (localAddressName c) (remoteAddressName c))
  | RecvData data :: rest =>
      if strlen data <=? maxMessageSize then
        (true, data, mkConnection (sent c) (sendResults c) rest
                       (localAddressName c) (remoteAddressName c))
      else
        (true, take maxMessageSize data,
         mkConnection (sent c) (sendResults c)
           (RecvData (drop (Z.to_nat maxMessageSize) data) :: rest)
           (localAddressName c) (remoteAddressName c))
  end.

(** [networkIsMessageAvailable]: a one-byte peek. *)
Definition networkIsMessageAvailable (c : NetworkConnection string) : bool :=
  match incoming c with
  | RecvData data :: _ => 0 <? strlen data
  | _ => false
  end.

(** [networkGetAddressName]: [inet_ntop] refuses a buffer that cannot hold
    the name and its terminating NUL. *)
Definition networkGetAddressName (name : string) (maxAddressNameSize : Z)
  : bool * string :=
  if strlen (cstr name) + 1 <=? maxAddressNameSize then (true, cstr name)
  else (false, "").

Definition networkGetLocalAddressName {A} (c : NetworkConnection A)
    (maxAddressNameSize : Z) : bool * string :=
  networkGetAddressName (localAddressName c) maxAddressNameSize.
Definition networkGetRemoteAddressName {A} (c : NetworkConnection A)
    (maxAddressNameSize : Z) : bool * string :=
  networkGetAddressName (remoteAddressName c) maxAddressNameSize.

(* ================================================================== *)
(** * buffer.c *)

(** The [while] loop of [voidBufferMakeRoom] that picks the new size. *)
Fixpoint growSize (fuel : nat) (newSize needed incrementSize : Z) : Z :=
  match fuel with
  | O => newSize
  | S k =>
      if needed >? newSize
      then growSize k (newSize + incrementSize) needed incrementSize
      else newSize
  end.

(** [bufferMakeRoom]: the value of [*maxBufferSize] afterwards.  The
    allocation is taken to succeed. *)
Definition bufferMakeRoom (maxBufferSize bufferSize requiredSize
    incrementSize : Z) : Z :=
  if bufferSize + requiredSize <=? maxBufferSize then maxBufferSize
  else growSize (Z.to_nat (bufferSize + requiredSize))
         (maxBufferSize + incrementSize) (bufferSize + requiredSize)
         incrementSize.

(* ================================================================== *)
(** * rtsprequest.c *)

Inductive RTSPRequestMethod : Type :=
| RTSP_METHOD_OPTIONS
| RTSP_METHOD_ANNOUNCE
| RTSP_METHOD_SETUP
| RTSP_METHOD_RECORD
| RTSP_METHOD_SET_PARAMETER
| RTSP_METHOD_FLUSH
| RTSP_METHOD_TEARDOWN.

Definition METHOD_NAMES (requestMethod : RTSPRequestMethod) : string :=
  match requestMethod with
  | RTSP_METHOD_OPTIONS => "OPTIONS"
  | RTSP_METHOD_ANNOUNCE => "ANNOUNCE"
  | RTSP_METHOD_SETUP => "SETUP"
  | RTSP_METHOD_RECORD => "RECORD"
  | RTSP_METHOD_SET_PARAMETER => "SET_PARAMETER"
  | RTSP_METHOD_FLUSH => "FLUSH"
  | RTSP_METHOD_TEARDOWN => "TEARDOWN"
  end.

Definition MAX_ADDR_STRING_LENGTH : Z := 46.
Definition MAX_EXTRA_URL_STRING_SIZE : Z := 10.
Definition MAX_URL_STRING_SIZE : Z :=
  MAX_ADDR_STRING_LENGTH + MAX_EXTRA_URL_STRING_SIZE.
Definition MAX_COMMAND_STRING_SIZE : Z := 13.

(** [struct RTSPRequestStruct].  [headerBuffer] is [None] for a NULL pointer
    and otherwise holds the header text without its terminating NUL (so
    [headerBufferSize] is its length plus one); [contentBuffer] keeps its
    bytes across a reset, [contentBufferSize] tells how many are in use. *)
Record RTSPRequest : Type := mkRequest {
  requestMethod : RTSPRequestMethod;
  headerBuffer : option string;
  contentBuffer : option string;
  contentBufferSize : Z
}.

Definition headerBufferSize (r : RTSPRequest) : Z :=
  match headerBuffer r with
  | None => 0
  | Some h => strlen h + 1
  end.

Definition rtspRequestCreate (requestMethod : RTSPRequestMethod)
  : RTSPRequest := mkRequest requestMethod None None 0.

Definition rtspRequestReset (r : RTSPRequest)
    (requestMethod : RTSPRequestMethod) : bool * RTSPRequest :=
  (true,
   mkRequest requestMethod
     (match headerBuffer r with Some _ => Some "" | None => None end)
     (contentBuffer r) 0).

Definition rtspRequestGetMethodName (r : RTSPRequest) : string :=
  METHOD_NAMES (requestMethod r).

(** [rtspRequestAddHeaderField]: appends ["<name>: <value>\r\n"]. *)
Definition rtspRequestAddHeaderField (r : RTSPRequest)
    (fieldName fieldValue : string) : bool * RTSPRequest :=
  let header := match headerBuffer r with Some h => h | None => "" end in
  (true,
   mkRequest (requestMethod r)
     (Some (header +++ cstr fieldName +++ ": " +++ cstr fieldValue +++ CRLF))
     (contentBuffer r) (contentBufferSize r)).

Definition rtspRequestSetContent (r : RTSPRequest) (content : string)
    (contentSize : Z) (contentType : string) : bool * RTSPRequest :=
  let '(ok, r) := rtspRequestAddHeaderField r "Content-Type" contentType in
  if negb ok then (false, r) else
  let '(ok, r) :=
    rtspRequestAddHeaderField r "Content-Length" (print_u contentSize) in
  if negb ok then (false, r) else
  (true,
   mkRequest (requestMethod r) (headerBuffer r)
     (Some (take contentSize content)) contentSize).

Definition method_is_options (m : RTSPRequestMethod) : bool :=
  match m with RTSP_METHOD_OPTIONS => true | _ => false end.

(** [rtspRequestSend]: the request line, the header fields, an empty line
    and the content, sent as one message. *)
Definition rtspRequestSend (r : RTSPRequest) (url : string)
    (c : NetworkConnection string) : bool * NetworkConnection string :=
  let maxRequestBufferSize :=
    12 + MAX_COMMAND_STRING_SIZE + MAX_URL_STRING_SIZE
    + headerBufferSize r - 1 + 2 + contentBufferSize r in
  let line :=
    METHOD_NAMES (requestMethod r) +++ " "
    +++ (if method_is_options (requestMethod r) then "*" else cstr url)
    +++ " RTSP/1.0" +++ CRLF in
  let charsWritten := strlen line in
  if charsWritten + headerBufferSize r - 1 + 2 + contentBufferSize r
     >? maxRequestBufferSize
  then (false, c) else
  let header := match headerBuffer r with Some h => h | None => "" end in
  let content :=
    match contentBuffer r with
    | Some b => take (contentBufferSize r) b
    | None => ""
    end in
  networkSendMessage c (line +++ header +++ CRLF +++ content).

(* ================================================================== *)
(** * Scanning text: ctype.h, memcmp and sscanf *)

Definition code (a : ascii) : Z := chr a.

Definition isdigit (a : ascii) : bool := (48 <=? code a) && (code a <=? 57).

Definition isspace (a : ascii) : bool :=
  (code a =? 32) || ((9 <=? code a) && (code a <=? 13)).

(** Value of a digit in the given base, if it is one. *)
Definition digit_value (base : Z) (a : ascii) : option Z :=
  let c := code a in
  let v := if (48 <=? c) && (c <=? 57) then c - 48
           else if (65 <=? c) && (c <=? 70) then c - 55
           else if (97 <=? c) && (c <=? 102) then c - 87
           else 99 in
  if v <? base then Some v else None.

(** [memcmp(s, prefix, strlen(prefix)) == 0] with the bound check that the
    callers pair it with. *)
Definition starts_with (pre s : string) : bool := String.prefix pre s.

Fixpoint skip_while (p : ascii -> bool) (s : string) : string :=
  match s with
  | EmptyString => EmptyString
  | String a r => if p a then skip_while p r else s
  end.

(** The longest run of digits at the start of [s]: its value and whether it
    is non-empty. *)
Fixpoint scan_digits (base : Z) (s : string) (acc : Z) (any : bool)
  : Z * bool :=
  match s with
  | EmptyString => (acc, any)
  | String a r =>
      match digit_value base a with
      | Some v => scan_digits base r (acc * base + v) true
      | None => (acc, any)
      end
  end.

(** An optional sign. *)
Definition scan_sign (s : string) : bool * string :=
  match s with
  | String "-"%char r => (true, r)
  | String "+"%char r => (false, r)
  | _ => (false, s)
  end.

Definition signed (neg : bool) (v : Z) : Z := if neg then - v else v.

(** [sscanf(s, "%u", &v)] with [SCNu32]: [Some v] when one item was
    converted.  The three scans below read the characters that were
    received and end with them; the C functions read on until a character
    that ends the number, so the scans stand for them on a text in which
    such a character follows the number.  A number that leaves the range
    of [long] is reduced modulo here, where the C library limits it to
    that range. *)
Definition sscanf_u32 (s : string) : option Z :=
  let '(neg, s) := scan_sign (skip_while isspace s) in
  let '(v, any) := scan_digits 10 s 0 false in
  if any then Some (u32 (signed neg v)) else None.

(** [sscanf(s, "%x", &v)] with [SCNx32]. *)
Definition sscanf_x32 (s : string) : option Z :=
  let '(neg, s) := scan_sign (skip_while isspace s) in
  let s := if starts_with "0x" s || starts_with "0X" s
           then drop 2 s else s in
  let '(v, any) := scan_digits 16 s 0 false in
  if any then Some (u32 (signed neg v)) else None.

(** [sscanf(s, "%hi", &v)] with [SCNi16]: the base follows the prefix. *)
Definition sscanf_i16 (s : string) : option Z :=
  let '(neg, s) := scan_sign (skip_while isspace s) in
  let '(v, any) :=
    if starts_with "0x" s || starts_with "0X" s
    then scan_digits 16 (drop 2 s) 0 false
    else if starts_with "0" s then scan_digits 8 s 0 false
    else scan_digits 10 s 0 false in
  if any then Some (i16 (signed neg v)) else None.

(* ================================================================== *)
(** * rtspresponse.c *)

Definition RESPONSE_BUFFER_INITIAL_SIZE : Z := 1024.
Definition RESPONSE_BUFFER_INCREMENT_SIZE : Z := 512.
Definition NEWLINE_CHARACTER : ascii := "010"%char.
Definition SUBKEY_SEPARATOR_CHARACTER : ascii := ";"%char.

(** [struct RTSPResponseStruct]; [responseBuffer] is [None] for a NULL
    pointer and otherwise holds the [responseBufferSize] characters
    received. *)
Record RTSPResponse : Type := mkResponse {
  responseBuffer : option string;
  maxResponseBufferSize : Z
}.

Definition responseBufferSize (r : RTSPResponse) : Z :=
  match responseBuffer r with
  | None => 0
  | Some b => strlen b
  end.

Definition rtspResponseCreate : RTSPResponse := mkResponse None 0.

(** The [do ... while] loop of [rtspResponseReceive]. *)
Fixpoint receiveLoop (fuel : nat) (buffer : string) (maxSize : Z)
    (c : NetworkConnection string)
  : bool * string * Z * NetworkConnection string :=
  let maxSize :=
    bufferMakeRoom maxSize (strlen buffer) RESPONSE_BUFFER_INCREMENT_SIZE
      RESPONSE_BUFFER_INCREMENT_SIZE in
  let '(ok, data, c) := networkReceiveMessage c maxSize in
  if negb ok then (false, buffer, maxSize, c) else
  let buffer := buffer +++ data in
  if (strlen buffer =? maxSize) && networkIsMessageAvailable c then
    match fuel with
    | O => (true, buffer, maxSize, c)
    | S k => receiveLoop k buffer maxSize c
    end
  else (true, buffer, maxSize, c).

(** Number of characters the script still holds. *)
Definition pending (c : NetworkConnection string) : nat :=
  fold_right (fun e n =>
    match e with RecvData d => (String.length d + n)%nat | RecvError => n end)
    O (incoming c).

Definition rtspResponseReceive (r : RTSPResponse)
    (c : NetworkConnection string)
  : bool * RTSPResponse * NetworkConnection string :=
  let maxSize := match responseBuffer r with
                 | None => RESPONSE_BUFFER_INITIAL_SIZE
                 | Some _ => maxResponseBufferSize r
                 end in
  let '(ok, buffer, maxSize, c) := receiveLoop (pending c) "" maxSize c in
  (ok, mkResponse (Some buffer) maxSize, c).

Definition nth_char (n : nat) (s : string) : ascii :=
  match String.get n s with Some a => a | None => NUL end.

Definition rtspResponseGetStatus (r : RTSPResponse) : bool * Z :=
  match responseBuffer r with
  | None => (false, 0)
  | Some b =>
      if strlen b <? 12 then (false, 0)
      else if negb (starts_with "RTSP/" b) || negb (isdigit (nth_char 5 b))
              || negb (Ascii.eqb (nth_char 6 b) "."%char)
              || negb (isdigit (nth_char 7 b))
              || negb (Ascii.eqb (nth_char 8 b) " "%char)
      then (false, 0)
      else match sscanf_i16 (drop 9 b) with
           | Some v => (true, v)
           | None => (false, 0)
           end
  end.

Definition is_newline (a : ascii) : bool := Ascii.eqb a NEWLINE_CHARACTER.
Definition is_separator (a : ascii) : bool :=
  Ascii.eqb a SUBKEY_SEPARATOR_CHARACTER.

(** The sub-key loop of [rtspResponseFindValueForKey].  [v] is the text from
    [valueLocation] to [responseEnd].  The answer is [inl] of the location
    returned by the function, or [inr] of [valueLocation] when the loop ends
    without a match. *)
Fixpoint findSubkey (fuel : nat) (subkey v : string) : string + string :=
  match fuel with
  | O => inr v
  | S k =>
      match v with
      | EmptyString => inr v
      | String a _ =>
          if is_newline a then inr v else
          let v := skip_while
                     (fun c => negb (is_separator c) && negb (is_newline c))
                     v in
          let v := skip_while is_separator v in
          if starts_with subkey v then
            let after := drop (String.length subkey) v in
            if (strlen subkey + 1 + 1 <=? strlen v) && starts_with "=" after
            then inl (drop 1 after)
            else if starts_with ";" after then inl after
            else findSubkey k subkey v
          else findSubkey k subkey v
      end
  end.

(** The outer loop of [rtspResponseFindValueForKey]. *)
Fixpoint findKey (fuel : nat) (key : string) (subkey : option string)
    (v : string) : option string :=
  match fuel with
  | O => None
  | S k =>
      match v with
      | EmptyString => None
      | _ =>
          let v := skip_while (fun c => negb (is_newline c)) v in
          let v := skip_while is_newline v in
          if (strlen key + 2 + 1 <=? strlen v) && starts_with key v
             && starts_with ": " (drop (String.length key) v)
          then
            let v := drop (String.length key + 2) v in
            match subkey with
            | Some sk =>
                match findSubkey (S (String.length v)) sk v with
                | inl found => Some found
                | inr v => findKey k key subkey v
                end
            | None => Some v
            end
          else findKey k key subkey v
      end
  end.

(** [rtspResponseFindValueForKey]: the text from the returned location to
    the end of the response, or [None] for NULL. *)
Definition rtspResponseFindValueForKey (r : RTSPResponse) (key : string)
    (subkey : option string) : option string :=
  match responseBuffer r with
  | None => None
  | Some b => findKey (S (String.length b)) key subkey b
  end.

(** [rtspResponseGetSequenceNumber]: the C result and the value stored,
    if any.  A response without CSeq is accepted with a warning. *)
Definition rtspResponseGetSequenceNumber (r : RTSPResponse)
  : bool * option Z :=
  match rtspResponseFindValueForKey r "CSeq" None with
  | Some value =>
      match sscanf_u32 value with
      | Some v => (true, Some v)
      | None => (false, None)
      end
  | None => (true, None)
  end.

Definition rtspResponseGetSession (r : RTSPResponse) : bool * Z :=
  match rtspResponseFindValueForKey r "Session" None with
  | None => (false, 0)
  | Some value =>
      match sscanf_x32 value with
      | Some v => (true, v)
      | None => (false, 0)
      end
  end.

Definition rtspResponseGetServerPort (r : RTSPResponse) : bool * Z :=
  match rtspResponseFindValueForKey r "Transport" (Some "server_port") with
  | None => (false, 0)
  | Some value =>
      match sscanf_i16 value with
      | Some v => (true, v)
      | None => (false, 0)
      end
  end.

(** Text before the first newline ([memchr]), if there is one. *)
Fixpoint before_newline (s : string) : option string :=
  match s with
  | EmptyString => None
  | String a r =>
      if is_newline a then Some EmptyString
      else match before_newline r with
           | Some l => Some (String a l)
           | None => None
           end
  end.

(** Text before the first double quote and the text from that quote on. *)
Fixpoint until_quote (s : string) : string * string :=
  match s with
  | EmptyString => (EmptyString, EmptyString)
  | String a r =>
      if Ascii.eqb a "034"%char then (EmptyString, s)
      else let '(l, rest) := until_quote r in (String a l, rest)
  end.

Definition last_char (s : string) : option ascii :=
  match String.length s with
  | O => None
  | S n => String.get n s
  end.

(** The field loop of [rtspResponseGetAuthenticationResponse]; [value] is
    the text from [value] to [endValue].  [None] is a return of false. *)
Fixpoint authenticationFields (fuel : nat) (value : string)
    (realmValue nonceValue : option string)
  : option (option string * option string) :=
  match fuel with
  | O => Some (realmValue, nonceValue)
  | S k =>
      let both := match realmValue, nonceValue with
                  | Some _, Some _ => true
                  | _, _ => false
                  end in
      if (0 <? strlen value) && negb both then
        let value := skip_while (fun c => Ascii.eqb c " "%char) value in
        if 0 <? strlen value then
          (* which field is this? 1 = realm, 2 = nonce, 0 = unknown *)
          let field :=
            if (7 <=? strlen value) && starts_with ("realm=" +++ QUOTE) value
            then Some (1, drop 7 value)
            else if (7 <=? strlen value)
                    && starts_with ("nonce=" +++ QUOTE) value
            then Some (2, drop 7 value)
            else
              let '(name, rest) := until_quote value in
              match rest, last_char name with
              | String _ afterQuote, Some "="%char => Some (0, afterQuote)
              | _, _ => None
              end in
          match field with
          | None => None
          | Some (which, value) =>
              let '(fieldValue, rest) := until_quote value in
              match rest with
              | EmptyString => None
              | String _ afterQuote =>
                  let realmValue :=
                    if which =? 1 then Some fieldValue else realmValue in
                  let nonceValue :=
                    if which =? 2 then Some fieldValue else nonceValue in
                  let value :=
                    skip_while (fun c => Ascii.eqb c " "%char
                                         || Ascii.eqb c ","%char) afterQuote in
                  authenticationFields k value realmValue nonceValue
              end
          end
        else Some (realmValue, nonceValue)
      else Some (realmValue, nonceValue)
  end.

(** [rtspResponseGetAuthenticationResponse]: the realm and the nonce copied
    to the caller's buffers, or [None] when the function returns false. *)
Definition rtspResponseGetAuthenticationResponse (r : RTSPResponse)
    (maxRealmBufferSize maxNonceBufferSize : Z) : option (string * string) :=
  match rtspResponseFindValueForKey r "WWW-Authenticate" None with
  | None => None
  | Some value =>
      match before_newline value with
      | None => None
      | Some line =>
          if (strlen line <? 7) || negb (starts_with "Digest " line)
          then None
          else
            match authenticationFields (S (String.length line))
                    (drop 7 line) None None with
            | Some (Some realmValue, Some nonceValue) =>
                if (maxRealmBufferSize <? strlen realmValue)
                   || (maxNonceBufferSize <? strlen nonceValue)
                then None
                else Some (realmValue, nonceValue)
            | _ => None
            end
      end
  end.

(* ================================================================== *)
(** * MD5 *)

(** Modelled from the spec: the MD5 routine (md5/md5.c and md5/md5.h are
    not part of the sources at hand).  The specification names it as "MD5:
    standard RFC 1321 interface (init/update/final)", replaceable by any
    conformant MD5; the definitions below follow RFC 1321 on a whole
    message, which is what a sequence of [MD5_Update] calls followed by
    [MD5_Final] computes for the concatenation of the pieces. *)
Definition md5_T : list Z :=
  [ 0xd76aa478; 0xe8c7b756; 0x242070db; 0xc1bdceee; 0xf57c0faf; 0x4787c62a;
    0xa8304613; 0xfd469501; 0x698098d8; 0x8b44f7af; 0xffff5bb1; 0x895cd7be;
    0x6b901122; 0xfd987193; 0xa679438e; 0x49b40821; 0xf61e2562; 0xc040b340;
    0x265e5a51; 0xe9b6c7aa; 0xd62f105d; 0x02441453; 0xd8a1e681; 0xe7d3fbc8;
    0x21e1cde6; 0xc33707d6; 0xf4d50d87; 0x455a14ed; 0xa9e3e905; 0xfcefa3f8;
    0x676f02d9; 0x8d2a4c8a; 0xfffa3942; 0x8771f681; 0x6d9d6122; 0xfde5380c;
    0xa4beea44; 0x4bdecfa9; 0xf6bb4b60; 0xbebfbc70; 0x289b7ec6; 0xeaa127fa;
    0xd4ef3085; 0x04881d05; 0xd9d4d039; 0xe6db99e5; 0x1fa27cf8; 0xc4ac5665;
    0xf4292244; 0x432aff97; 0xab9423a7; 0xfc93a039; 0x655b59c3; 0x8f0ccc92;
    0xffeff47d; 0x85845dd1; 0x6fa87e4f; 0xfe2ce6e0; 0xa3014314; 0x4e0811a1;
    0xf7537e82; 0xbd3af235; 0x2ad7d2bb; 0xeb86d391 ].

Definition md5_S : list Z :=
  [ 7; 12; 17; 22; 7; 12; 17; 22; 7; 12; 17; 22; 7; 12; 17; 22;
    5; 9; 14; 20; 5; 9; 14; 20; 5; 9; 14; 20; 5; 9; 14; 20;
    4; 11; 16; 23; 4; 11; 16; 23; 4; 11; 16; 23; 4; 11; 16; 23;
    6; 10; 15; 21; 6; 10; 15; 21; 6; 10; 15; 21; 6; 10; 15; 21 ].

Definition rotl32 (x s : Z) : Z :=
  u32 (Z.lor (Z.shiftl x s) (Z.shiftr x (32 - s))).

Definition not32 (x : Z) : Z := 0xffffffff - x.

(** The message with the padding bit, the zero bytes and the 64-bit length
    in bits, low-order byte first. *)
Definition md5_pad (msg : list Z) : list Z :=
  let len := Z.of_nat (length msg) in
  let zerosNeeded := (55 - len) mod 64 in
  let bits := u64 (len * 8) in
  msg ++ [0x80] ++ repeat 0 (Z.to_nat zerosNeeded)
      ++ map (fun i => (bits / 2 ^ (8 * i)) mod 256) [0; 1; 2; 3; 4; 5; 6; 7].

(** Little-endian 32-bit words of a byte sequence. *)
Fixpoint md5_words (fuel : nat) (bytes : list Z) : list Z :=
  match fuel with
  | O => []
  | S k =>
      match bytes with
      | b0 :: b1 :: b2 :: b3 :: rest =>
          (b0 + 2^8 * b1 + 2^16 * b2 + 2^24 * b3) :: md5_words k rest
      | _ => []
      end
  end.

(** One of the 64 steps on the state (a, b, c, d) with the block [X]. *)
Definition md5_step (X : list Z) (st : Z * Z * Z * Z) (i : Z)
  : Z * Z * Z * Z :=
  let '(a, b, c, d) := st in
  let '(f, g) :=
    if i <? 16 then (Z.lor (Z.land b c) (Z.land (not32 b) d), i)
    else if i <? 32
    then (Z.lor (Z.land d b) (Z.land (not32 d) c), (5 * i + 1) mod 16)
    else if i <? 48 then (Z.lxor (Z.lxor b c) d, (3 * i + 5) mod 16)
    else (Z.lxor c (Z.lor b (not32 d)), (7 * i) mod 16) in
  let sum := u32 (a + f + nth (Z.to_nat i) md5_T 0 + nth (Z.to_nat g) X 0) in
  (d, u32 (b + rotl32 sum (nth (Z.to_nat i) md5_S 0)), b, c).

Definition md5_block (st : Z * Z * Z * Z) (X : list Z) : Z * Z * Z * Z :=
  let '(a0, b0, c0, d0) := st in
  let '(a, b, c, d) :=
    fold_left (md5_step X) (map Z.of_nat (seq 0 64)) st in
  (u32 (a0 + a), u32 (b0 + b), u32 (c0 + c), u32 (d0 + d)).

Fixpoint md5_blocks (fuel : nat) (st : Z * Z * Z * Z) (words : list Z)
  : Z * Z * Z * Z :=
  match fuel with
  | O => st
  | S k =>
      match words with
      | [] => st
      | _ => md5_blocks k (md5_block st (firstn 16 words)) (skipn 16 words)
      end
  end.

Definition le32 (x : Z) : list Z :=
  [ x mod 256; (x / 2^8) mod 256; (x / 2^16) mod 256; (x / 2^24) mod 256 ].

(** The 16-byte digest of a message. *)
Definition MD5 (msg : list Z) : list Z :=
  let padded := md5_pad msg in
  let words := md5_words (length padded) padded in
  let '(a, b, c, d) :=
    md5_blocks (length words)
      (0x67452301, 0xefcdab89, 0x98badcfe, 0x10325476) words in
  le32 a ++ le32 b ++ le32 c ++ le32 d.

(** The digest rendered by the [sprintf("%02X")] loops. *)
Definition hex_string (digest : list Z) : string :=
  fold_right (fun b acc => print_02X b +++ acc) "" digest.

(* ================================================================== *)
(** * rtspclient.c *)

Definition MAX_REALM_SIZE : Z := 20.
Definition MAX_NONCE_SIZE : Z := 41.
Definition MAX_AUTHENTICATION_BUFFER_SIZE : Z := 200.
Definition MAX_NUMBER_STRING_SIZE : Z := 11.
Definition MAX_HEXNUMBER_STRING_SIZE : Z := 9.
Definition RTSP_RESPONSE_LOW_BANDWIDTH : Z := 354.
Definition RTSP_RESPONSE_NEED_AUTHENTICATION : Z := 401.

(** [struct RTSPClientStruct].  [realm] and [nonce] hold the [realmSize]
    and [nonceSize] characters in use of the two char arrays. *)
Record RTSPClient : Type := mkClient {
  networkConnection : NetworkConnection string;
  url : string;
  rtspRequest : option RTSPRequest;
  rtspResponse : option RTSPResponse;
  sessionId : Z;
  sequenceNumber : Z;
  needAuthentication : bool;
  realm : string;
  nonce : string
}.

Definition realmSize (c : RTSPClient) : Z := strlen (realm c).
Definition nonceSize (c : RTSPClient) : Z := strlen (nonce c).

Definition set_connection (c : RTSPClient) (n : NetworkConnection string) :=
  mkClient n (url c) (rtspRequest c) (rtspResponse c) (sessionId c)
    (sequenceNumber c) (needAuthentication c) (realm c) (nonce c).
Definition set_request (c : RTSPClient) (r : RTSPRequest) :=
  mkClient (networkConnection c) (url c) (Some r) (rtspResponse c)
    (sessionId c) (sequenceNumber c) (needAuthentication c) (realm c)
    (nonce c).
Definition set_response (c : RTSPClient) (r : RTSPResponse) :=
  mkClient (networkConnection c) (url c) (rtspRequest c) (Some r)
    (sessionId c) (sequenceNumber c) (needAuthentication c) (realm c)
    (nonce c).
Definition set_sessionId (c : RTSPClient) (v : Z) :=
  mkClient (networkConnection c) (url c) (rtspRequest c) (rtspResponse c) v
    (sequenceNumber c) (needAuthentication c) (realm c) (nonce c).
Definition set_sequenceNumber (c : RTSPClient) (v : Z) :=
  mkClient (networkConnection c) (url c) (rtspRequest c) (rtspResponse c)
    (sessionId c) v (needAuthentication c) (realm c) (nonce c).
Definition set_needAuthentication (c : RTSPClient) (v : bool) :=
  mkClient (networkConnection c) (url c) (rtspRequest c) (rtspResponse c)
    (sessionId c) (sequenceNumber c) v (realm c) (nonce c).
Definition set_realm_nonce (c : RTSPClient) (r n : string) :=
  mkClient (networkConnection c) (url c) (rtspRequest c) (rtspResponse c)
    (sessionId c) (sequenceNumber c) (needAuthentication c) r n.

(** The request under construction ([rtspClient->rtspRequest], which
    [rtspClientSendRequest] has made non-NULL). *)
Definition currentRequest (c : RTSPClient) : RTSPRequest :=
  match rtspRequest c with
  | Some r => r
  | None => rtspRequestCreate RTSP_METHOD_OPTIONS
  end.

(** [rtspClientOpenConnection], given the connection that
    [networkOpenConnection] returned; [None] is the NULL answer.  The C
    function does not assign the request and response pointers of the
    block it allocates: the block is taken to hold zeros, so that the two
    start as NULL. *)
Definition rtspClientOpenConnection (n : NetworkConnection string)
  : option RTSPClient :=
  let url := "rtsp://" in
  let '(ok, address) := networkGetRemoteAddressName n MAX_ADDR_STRING_LENGTH in
  if negb ok then None else
  let url := url +++ address in
  let url := url +++ take (MAX_URL_STRING_SIZE - strlen url - 1) "/1" in
  Some (mkClient n url None None 0 0 false "" "").

(** The text of the Authorization header: the three digests of the Digest
    scheme with the fixed user name "iTunes" and password "geheim", cut to
    the size of [authenticationValue].  (The NUL that the last [sprintf] of
    each loop writes one byte behind its array of 32 characters is left
    out.) *)
Definition authenticationValue (methodName url realm nonce : string)
  : string :=
  let ha1String :=
    hex_string (MD5 (bytes_of_string
      ("iTunes" +++ ":" +++ realm +++ ":" +++ "geheim"))) in
  let ha2String :=
    hex_string (MD5 (bytes_of_string
      (cstr methodName +++ ":" +++ cstr url))) in
  let responseString :=
    hex_string (MD5 (bytes_of_string
      (ha1String +++ ":" +++ nonce +++ ":" +++ ha2String))) in
  snprintf MAX_AUTHENTICATION_BUFFER_SIZE
    ("Digest username=" +++ QUOTE +++ "iTunes" +++ QUOTE
     +++ ", realm=" +++ QUOTE +++ cstr realm +++ QUOTE
     +++ ", nonce=" +++ QUOTE +++ cstr nonce +++ QUOTE
     +++ ", uri=" +++ QUOTE +++ cstr url +++ QUOTE
     +++ ", response=" +++ QUOTE +++ take 32 (cstr responseString) +++ QUOTE).

Definition rtspClientAddAuthenticationFields (c : RTSPClient)
  : bool * RTSPClient :=
  let fetched :=
    if (realmSize c =? 0) || (nonceSize c =? 0) then
      match rtspResponse c with
      | None => None
      | Some response =>
          match rtspResponseGetAuthenticationResponse response
                  MAX_REALM_SIZE MAX_NONCE_SIZE with
          | Some (r, n) => Some (set_realm_nonce c r n)
          | None => None
          end
      end
    else Some c in
  match fetched with
  | None => (false, c)
  | Some c =>
      let value :=
        authenticationValue (rtspRequestGetMethodName (currentRequest c))
          (url c) (realm c) (nonce c) in
      let '(ok, r) :=
        rtspRequestAddHeaderField (currentRequest c) "Authorization" value in
      if negb ok then (false, set_request c r) else (true, set_request c r)
  end.

Definition rtspClientClientGeneralHeaderFieldsSupplier (c : RTSPClient)
  : bool * RTSPClient :=
  let c := set_sequenceNumber c (u32 (sequenceNumber c + 1)) in
  let sequenceNumberString :=
    snprintf MAX_NUMBER_STRING_SIZE (print_u (sequenceNumber c)) in
  if strlen (print_u (sequenceNumber c)) <? 1 then (false, c) else
  let '(ok, r) :=
    rtspRequestAddHeaderField (currentRequest c) "CSeq" sequenceNumberString in
  if negb ok then (false, set_request c r) else (true, set_request c r).

(** Adds one header field to the request under construction. *)
Definition addField (c : RTSPClient) (name value : string)
  : bool * RTSPClient :=
  let '(ok, r) := rtspRequestAddHeaderField (currentRequest c) name value in
  (ok, set_request c r).

Definition rtspClientOptionsHeaderFieldsSupplier (c : RTSPClient)
  : bool * RTSPClient :=
  let '(ok, c) := rtspClientClientGeneralHeaderFieldsSupplier c in
  if negb ok then (false, c) else (true, c).

Definition rtspClientAnnounceHeaderFieldsSupplier (c : RTSPClient)
  : bool * RTSPClient :=
  let '(ok, c) := rtspClientClientGeneralHeaderFieldsSupplier c in
  if negb ok then (false, c) else (true, c).

Definition rtspClientSetupHeaderFieldsSupplier (c : RTSPClient)
  : bool * RTSPClient :=
  let '(ok, c) := rtspClientClientGeneralHeaderFieldsSupplier c in
  if negb ok then (false, c) else
  let '(ok, c) :=
    addField c "Transport" "RTP/AVP/TCP;unicast;interleaved=0-1;mode=record" in
  if negb ok then (false, c) else (true, c).

Definition sessionIdString (c : RTSPClient) : string :=
  snprintf MAX_HEXNUMBER_STRING_SIZE (print_X (sessionId c)).

Definition rtspClientRecordHeaderFieldsSupplier (c : RTSPClient)
  : bool * RTSPClient :=
  let '(ok, c) := rtspClientClientGeneralHeaderFieldsSupplier c in
  if negb ok then (false, c) else
  if strlen (print_X (sessionId c)) <? 1 then (false, c) else
  let '(ok, c) := addField c "Session" (sessionIdString c) in
  if negb ok then (false, c) else
  let '(ok, c) := addField c "Range" "npt=0-" in
  if negb ok then (false, c) else
  let '(ok, c) := addField c "RTP-Info" "seq=0;rtptime=0" in
  if negb ok then (false, c) else (true, c).

Definition rtspClientSetParameterHeaderFieldsSupplier (c : RTSPClient)
  : bool * RTSPClient :=
  let '(ok, c) := rtspClientClientGeneralHeaderFieldsSupplier c in
  if negb ok then (false, c) else (true, c).

Definition rtspClientFlushHeaderFieldsSupplier (c : RTSPClient)
  : bool * RTSPClient :=
  let '(ok, c) := rtspClientClientGeneralHeaderFieldsSupplier c in
  if negb ok then (false, c) else
  if strlen (print_X (sessionId c)) <? 1 then (false, c) else
  let '(ok, c) := addField c "Session" (sessionIdString c) in
  if negb ok then (false, c) else
  let '(ok, c) := addField c "RTP-Info" "seq=0;rtptime=0" in
  if negb ok then (false, c) else (true, c).

Definition rtspClientTeardownHeaderFieldsSupplier (c : RTSPClient)
  : bool * RTSPClient :=
  let '(ok, c) := rtspClientClientGeneralHeaderFieldsSupplier c in
  if negb ok then (false, c) else
  if strlen (print_X (sessionId c)) <? 1 then (false, c) else
  let '(ok, c) := addField c "Session" (sessionIdString c) in
  if negb ok then (false, c) else (true, c).

(** [headerFieldsSupplierTable]: every method has a supplier. *)
Definition headerFieldsSupplierTable (requestMethod : RTSPRequestMethod)
  : RTSPClient -> bool * RTSPClient :=
  match requestMethod with
  | RTSP_METHOD_OPTIONS => rtspClientOptionsHeaderFieldsSupplier
  | RTSP_METHOD_ANNOUNCE => rtspClientAnnounceHeaderFieldsSupplier
  | RTSP_METHOD_SETUP => rtspClientSetupHeaderFieldsSupplier
  | RTSP_METHOD_RECORD => rtspClientRecordHeaderFieldsSupplier
  | RTSP_METHOD_SET_PARAMETER => rtspClientSetParameterHeaderFieldsSupplier
  | RTSP_METHOD_FLUSH => rtspClientFlushHeaderFieldsSupplier
  | RTSP_METHOD_TEARDOWN => rtspClientTeardownHeaderFieldsSupplier
  end.

(** [rtspClientAddHeaderFields]; the answer of
    [rtspClientAddAuthenticationFields] is not looked at. *)
Definition rtspClientAddHeaderFields (c : RTSPClient)
    (requestMethod : RTSPRequestMethod) : bool * RTSPClient :=
  let '(ok, c) := headerFieldsSupplierTable requestMethod c in
  if negb ok then (false, c) else
  let c :=
    if needAuthentication c || ((realmSize c >? 0) && (nonceSize c >? 0))
    then snd (rtspClientAddAuthenticationFields c) else c in
  (true, c).

(** [rtspClientReceiveResponse].  A status of 401 makes the function set
    [needAuthentication] and return true. *)
Definition rtspClientReceiveResponse (c : RTSPClient) : bool * RTSPClient :=
  let response := match rtspResponse c with
                  | Some r => r
                  | None => rtspResponseCreate
                  end in
  let '(ok, response, n) :=
    rtspResponseReceive response (networkConnection c) in
  let c := set_connection (set_response c response) n in
  if negb ok then (false, c) else
  let '(ok, int16Value) := rtspResponseGetStatus response in
  if negb ok then (false, c) else
  let c := set_needAuthentication c false in
  if negb (int16Value =? 200) then
    if (int16Value >? 200) && (int16Value <? 300) then (true, c)
    else if negb (int16Value =? RTSP_RESPONSE_NEED_AUTHENTICATION)
    then (false, c)
    else (true, set_needAuthentication c true)
  else (true, c).

(* ================================================================== *)
(** * Floating point: [float], [double] and [printf("%.1f")] *)

(** A [double] with an integer value. *)
Definition double_of_Z (n : Z) : spec_float :=
  binary_normalize 53 1024 n 0 false.

(** Conversions between the two formats (the first one is exact). *)
Definition double_of_float (x : spec_float) : spec_float :=
  match x with
  | S754_finite s m e => binary_round 53 1024 s m e
  | _ => x
  end.

Definition float_of_double (x : spec_float) : spec_float :=
  match x with
  | S754_finite s m e => binary_round 24 128 s m e
  | _ => x
  end.

Definition is_nan (x : spec_float) : bool :=
  match x with S754_nan => true | _ => false end.

(** The C comparisons on [double] operands. *)
Definition double_lt (x y : spec_float) : bool := SFltb x y.
Definition double_gt (x y : spec_float) : bool := SFltb y x.
Definition double_ge (x y : spec_float) : bool := SFleb y x.

(** [m * 2^e * 10] rounded to the nearest integer, ties to even. *)
Definition tenths (m : positive) (e : Z) : Z :=
  if 0 <=? e then Zpos m * 2 ^ e * 10
  else
    let num := Zpos m * 10 in
    let den := 2 ^ (- e) in
    let q := num / den in
    let r := num mod den in
    if 2 * r >? den then q + 1
    else if 2 * r =? den then (if Z.even q then q else q + 1)
    else q.

(** [%.1f]: the value rounded to one decimal; the sign is printed for
    every operand whose sign bit is set. *)
Definition print_f1 (x : spec_float) : string :=
  match x with
  | S754_nan => "nan"
  | S754_infinity s => if s then "-inf" else "inf"
  | S754_zero s => if s then "-0.0" else "0.0"
  | S754_finite s m e =>
      let t := tenths m e in
      (if s then "-" else "") +++ print_u (t / 10) +++ "." +++ print_u (t mod 10)
  end.

(* ================================================================== *)
(** * raopclient.c: the client record *)

Definition VOLUME_DEFAULT : spec_float := double_of_Z 15.
Definition VOLUME_MUTED : spec_float := double_of_Z 0.
Definition VOLUME_MIN_VALUE : spec_float :=
  SFdiv 53 1024 (double_of_Z 1) (double_of_Z 100).
Definition VOLUME_MAX_VALUE : spec_float := double_of_Z 30.
Definition VOLUME_INTERNAL_OFFSET : spec_float := double_of_Z (-30).
Definition VOLUME_INTERNAL_MUTED : spec_float := double_of_Z (-144).
Definition UNUSED_PORT_NUMBER : Z := 0.
Definition MAX_ANNOUNCE_CONTENT_SIZE : Z :=
  160 + MAX_ADDR_STRING_LENGTH + MAX_ADDR_STRING_LENGTH.
Definition MAX_SET_PARAMETER_CONTENT_SIZE : Z := 20.
Definition AUDIO_MESSAGE_HEADER_SIZE : Z := 16.

(** [struct RAOPClientStruct] without its pointer to the RTSP client, which
    the functions below receive next to it.  [volume] is a [float]. *)
Record RAOPClient : Type := mkRaop {
  hostName : string;
  audioConnection : option (NetworkConnection (list Z));
  audioPort : Z;
  audioThreadJoinable : bool;
  volume : spec_float;
  m4aFile : option M4AFile;
  isSendingAudio : bool;
  playingTimeOffset : timespec;
  startTime : timespec
}.

Definition set_audioConnection (r : RAOPClient)
    (c : NetworkConnection (list Z)) : RAOPClient :=
  mkRaop (hostName r) (Some c) (audioPort r) (audioThreadJoinable r)
    (volume r) (m4aFile r) (isSendingAudio r) (playingTimeOffset r)
    (startTime r).
Definition set_audioPort (r : RAOPClient) (v : Z) : RAOPClient :=
  mkRaop (hostName r) (audioConnection r) v (audioThreadJoinable r)
    (volume r) (m4aFile r) (isSendingAudio r) (playingTimeOffset r)
    (startTime r).
Definition set_volume (r : RAOPClient) (v : spec_float) : RAOPClient :=
  mkRaop (hostName r) (audioConnection r) (audioPort r)
    (audioThreadJoinable r) v (m4aFile r) (isSendingAudio r)
    (playingTimeOffset r) (startTime r).
Definition set_m4aFile (r : RAOPClient) (m : M4AFile) : RAOPClient :=
  mkRaop (hostName r) (audioConnection r) (audioPort r)
    (audioThreadJoinable r) (volume r) (Some m) (isSendingAudio r)
    (playingTimeOffset r) (startTime r).
Definition set_isSendingAudio (r : RAOPClient) (v : bool) : RAOPClient :=
  mkRaop (hostName r) (audioConnection r) (audioPort r)
    (audioThreadJoinable r) (volume r) (m4aFile r) v (playingTimeOffset r)
    (startTime r).

Definition raopClientSetAudioPort (r : RAOPClient) (audioPort : Z)
  : bool * RAOPClient := (true, set_audioPort r audioPort).

(** The type of the content suppliers
    [bool (*)(RAOPClient *, RTSPRequest *)]; a supplier reads the RTSP client
    through [raopClient->rtspClient]. *)
Definition ContentSupplier : Type :=
  RAOPClient -> RTSPClient -> RTSPRequest -> bool * RTSPRequest.

(* ================================================================== *)
(** * rtspclient.c: requests and commands *)

Definition rtspClientSendRequest (c : RTSPClient)
    (requestMethod : RTSPRequestMethod) (raopClient : RAOPClient)
    (raopClientContentSupplier : option ContentSupplier)
  : bool * RTSPClient :=
  let '(ok, r) :=
    match rtspRequest c with
    | None => (true, rtspRequestCreate requestMethod)
    | Some r => rtspRequestReset r requestMethod
    end in
  let c := set_request c r in
  if negb ok then (false, c) else
  let '(ok, c) := rtspClientAddHeaderFields c requestMethod in
  if negb ok then (false, c) else
  let '(ok, c) :=
    match raopClientContentSupplier with
    | Some supplier =>
        let '(ok, r) := supplier raopClient c (currentRequest c) in
        (ok, set_request c r)
    | None => (true, c)
    end in
  if negb ok then (false, c) else
  let '(ok, n) :=
    rtspRequestSend (currentRequest c) (url c) (networkConnection c) in
  let c := set_connection c n in
  if negb ok then (false, c) else (true, c).

Definition method_is_setup (m : RTSPRequestMethod) : bool :=
  match m with RTSP_METHOD_SETUP => true | _ => false end.

(** [rtspClientSendCommand].  After the repeated request its response is
    not examined for a second 401. *)
Definition rtspClientSendCommand (c : RTSPClient)
    (requestMethod : RTSPRequestMethod) (raopClient : RAOPClient)
    (raopClientContentSupplier : option ContentSupplier)
  : bool * RTSPClient * RAOPClient :=
  let '(ok, c) :=
    rtspClientSendRequest c requestMethod raopClient
      raopClientContentSupplier in
  if negb ok then (false, c, raopClient) else
  let '(ok, c) := rtspClientReceiveResponse c in
  if negb ok then (false, c, raopClient) else
  let '(ok, c) :=
    if needAuthentication c then
      let '(ok, c) :=
        rtspClientSendRequest c requestMethod raopClient
          raopClientContentSupplier in
      if negb ok then (false, c) else
      let '(ok, c) := rtspClientReceiveResponse c in
      if negb ok then (false, c) else (true, c)
    else (true, c) in
  if negb ok then (false, c, raopClient) else
  let response := match rtspResponse c with
                  | Some r => r
                  | None => rtspResponseCreate
                  end in
  let '(ok, _) := rtspResponseGetSequenceNumber response in
  if negb ok then (false, c, raopClient) else
  if method_is_setup requestMethod then
    let '(ok, uint32Value) := rtspResponseGetSession response in
    if negb ok then (false, c, raopClient) else
    let c := set_sessionId c uint32Value in
    let '(ok, int16Value) := rtspResponseGetServerPort response in
    if negb ok then (false, c, raopClient) else
    let '(_, raopClient) := raopClientSetAudioPort raopClient int16Value in
    (true, c, raopClient)
  else (true, c, raopClient).

(* ================================================================== *)
(** * raopclient.c: content suppliers, volume and the audio messages *)

Definition rtspClientGetLocalAddressName (c : RTSPClient)
    (maxAddressNameSize : Z) : bool * string :=
  networkGetLocalAddressName (networkConnection c) maxAddressNameSize.
Definition rtspClientGetRemoteAddressName (c : RTSPClient)
    (maxAddressNameSize : Z) : bool * string :=
  networkGetRemoteAddressName (networkConnection c) maxAddressNameSize.

Definition raopClientAnnounceContentSupplier : ContentSupplier :=
  fun raopClient rtspClient rtspRequest =>
  let '(ok, localAddress) :=
    rtspClientGetLocalAddressName rtspClient MAX_ADDR_STRING_LENGTH in
  if negb ok then (false, rtspRequest) else
  let '(ok, remoteAddress) :=
    rtspClientGetRemoteAddressName rtspClient MAX_ADDR_STRING_LENGTH in
  if negb ok then (false, rtspRequest) else
  let ts := match m4aFile raopClient with
            | Some m => m4aFileGetTimescale m
            | None => 0
            end in
  let content :=
    snprintf MAX_ANNOUNCE_CONTENT_SIZE
      ("v=0" +++ CRLF
       +++ "o=iTunes 1 O IN IP4 " +++ localAddress +++ CRLF
       +++ "s=iTunes" +++ CRLF
       +++ "c=IN IP4 " +++ remoteAddress +++ CRLF
       +++ "t=0 0" +++ CRLF
       +++ "m=audio 0 RTP/AVP 96" +++ CRLF
       +++ "a=rtpmap:96 AppleLossless" +++ CRLF
       +++ "a=fmtp:96 4096 0 16 40 10 14 2 255 0 0 " +++ print_u ts +++ CRLF) in
  let contentSize := strlen content in
  rtspRequestSetContent rtspRequest content contentSize "application/sdp".

(** The value printed by [raopClientSetVolumeContentSupplier]; the
    [float] field is promoted to [double]. *)
Definition internalVolume (v : spec_float) : spec_float :=
  if double_ge (double_of_float v) VOLUME_MIN_VALUE
  then SFadd 53 1024 VOLUME_INTERNAL_OFFSET (double_of_float v)
  else VOLUME_INTERNAL_MUTED.

Definition raopClientSetVolumeContentSupplier : ContentSupplier :=
  fun raopClient rtspClient rtspRequest =>
  let content :=
    snprintf MAX_SET_PARAMETER_CONTENT_SIZE
      ("volume: " +++ print_f1 (internalVolume (volume raopClient)) +++ CRLF) in
  let contentSize := strlen content in
  rtspRequestSetContent rtspRequest content contentSize "text/parameters".

(** [raopClientSetVolume]; the parameter [v] is a [float]. *)
Definition raopClientSetVolume (raopClient : RAOPClient)
    (rtspClient : RTSPClient) (v : spec_float)
  : bool * RAOPClient * RTSPClient :=
  let v := if double_lt (double_of_float v) VOLUME_MIN_VALUE
           then float_of_double VOLUME_MUTED else v in
  let v := if double_gt (double_of_float v) VOLUME_MAX_VALUE
           then float_of_double VOLUME_MAX_VALUE else v in
  let raopClient := set_volume raopClient v in
  if isSendingAudio raopClient then
    let '(ok, rtspClient, raopClient) :=
      rtspClientSendCommand rtspClient RTSP_METHOD_SET_PARAMETER raopClient
        (Some raopClientSetVolumeContentSupplier) in
    if negb ok then (false, raopClient, rtspClient)
    else (true, raopClient, rtspClient)
  else (true, raopClient, rtspClient).

(** Memory image of the [uint16_t] that [htons] returns for [x]: high byte
    first on every host. *)
Definition htons (x : Z) : list Z := [ u16 x / 256; u16 x mod 256 ].

(** [p[i] = v] on a byte array. *)
Fixpoint store (p : list Z) (i : nat) (v : Z) : list Z :=
  match p, i with
  | [], _ => []
  | _ :: r, O => v :: r
  | a :: r, S j => a :: store r j v
  end.

(** The 16 header bytes that [raopClientSendAudioMessages] writes in front
    of a sample of [sampleSize] bytes. *)
Definition audioMessageHeader (sampleSize : Z) : list Z :=
  let h := repeat 0 16 in                       (* memset *)
  let h := store h 0 0x24 in
  let h := store h 4 0xf0 in
  let h := store h 5 0xff in
  let packetLength := htons (u32 (sampleSize + 12)) in
  let h := store h 2 (nth 0 packetLength 0) in  (* memcpy of two bytes *)
  store h 3 (nth 1 packetLength 0).

(** The [while] loop of [raopClientSendAudioMessages].  The flag
    [isSendingAudio] is written by the thread that stops the playback:
    [flag i] is the value that the [i]-th evaluation of the loop condition
    reads.  [sampleCapacity] is the number of bytes that the block
    [audioMessage] has behind its 16 header bytes; it is negative when the
    block is shorter than the header, and then [audioMessage +
    AUDIO_MESSAGE_HEADER_SIZE] points beyond the block.  The sample is
    read into the block behind the header bytes by [m4aFileGetNextSample],
    which is given the address only: bytes stored beyond the block are
    undefined behaviour ([Fault]).  The message is the header followed by
    the first [sampleSize] bytes stored behind it. *)
Fixpoint sendAudioLoop (fuel : nat) (i : nat) (flag : nat -> bool)
    (sampleCapacity : Z) (m : M4AFile) (audio : NetworkConnection (list Z))
  : outcome (bool * M4AFile * NetworkConnection (list Z)) :=
  if m4aFileHasMoreSamples m && flag i then
    match fuel with
    | O => Fuel
    | S k =>
        if sampleCapacity <? 0 then Fault else
        let '(ok, sampleBuffer, sampleSize, m) :=
          m4aFileGetNextSample m (mkBuffer sampleCapacity []) in
        if overrun sampleBuffer then Fault else
        if negb ok then Ret (false, m, audio) else
        let audioMessage :=
          (audioMessageHeader sampleSize
           ++ firstn (Z.to_nat sampleSize) (stored sampleBuffer))%list in
        let '(ok, audio) := networkSendMessage audio audioMessage in
        if negb ok then Ret (false, m, audio) else
        sendAudioLoop k (S i) flag sampleCapacity m audio
    end
  else Ret (true, m, audio).

(** [raopClientSendAudioMessages]: the C result and the client with its
    file and its audio connection updated.  The block for the audio message
    is allocated once, with [AUDIO_MESSAGE_HEADER_SIZE +
    m4aFileGetLargestSampleSize(...)] bytes, a sum of type [uint32_t]; the
    allocation is taken to succeed and to deliver a block of that size. *)
Definition raopClientSendAudioMessages (fuel : nat) (flag : nat -> bool)
    (raopClient : RAOPClient) : outcome (bool * RAOPClient) :=
  match m4aFile raopClient, audioConnection raopClient with
  | Some m, Some audio =>
      let audioMessageSize :=
        u32 (AUDIO_MESSAGE_HEADER_SIZE + m4aFileGetLargestSampleSize m) in
      match sendAudioLoop fuel 0 flag
              (audioMessageSize - AUDIO_MESSAGE_HEADER_SIZE) m audio with
      | Ret (ok, m, audio) =>
          Ret (ok, set_audioConnection (set_m4aFile raopClient m) audio)
      | Fuel => Fuel
      | Fault => Fault
      end
  | _, _ => Fault
  end.

(* ================================================================== *)
(** * Test data *)

Local Open Scope list_scope.

(** A media header box of version 0. *)
Definition mdhd_v0 (ts dur : Z) : list Z :=
  box "mdhd" (be32 0 ++ zeros 8 ++ be32 ts ++ be32 dur ++ zeros 4).

(** A media header box of version 1 whose 64-bit duration has the given
    upper and lower halves. *)
Definition mdhd_v1 (ts upper lower : Z) : list Z :=
  box "mdhd" (be32 0x01000000 ++ zeros 16 ++ be32 ts ++ be32 upper
              ++ be32 lower ++ zeros 4).

(** A sample size box listing the given sizes. *)
Definition stsz (sizes : list Z) : list Z :=
  box "stsz" (be32 0 ++ be32 0 ++ be32 (Z.of_nat (length sizes))
              ++ flat_map be32 sizes).

(** A small ALAC file: 44100 Hz, 441000 ticks, three samples of 3, 4 and 2
    bytes. *)
Definition alacFile : list Z :=
  box "ftyp" (bytes_of_string "M4A " ++ be32 0 ++ bytes_of_string "M4A mp42")
  ++ box "moov"
       (box "trak"
          (box "mdia"
             (mdhd_v0 44100 441000
              ++ box "minf"
                   (box "stbl"
                      (box "stsd" (be32 0 ++ be32 1 ++ box "alac" (zeros 28))
                       ++ stsz [3; 4; 2])))))
  ++ box "mdat" [1; 2; 3; 4; 5; 6; 7; 8; 9].

(** The file a successful [m4aFileParse] leaves behind ([zeroed] when the
    parse does not return true). *)
Definition parsed (fileBytes : list Z) : M4AFile :=
  match m4aFileParse 20 (m4aFileOpen zeroed fileBytes) with
  | Ret (true, m) => m
  | _ => zeroed
  end.


(** An audio connection on which nothing was sent yet and every [send]
    succeeds. *)
Definition freshAudio : NetworkConnection (list Z) :=
  mkConnection [] [] [] "192.168.1.2" "192.168.1.10".

(** A RAOP client that streams the file [m] over [freshAudio]. *)
Definition streaming (m : M4AFile) : RAOPClient :=
  mkRaop "airport" (Some freshAudio) 6000 true
    (float_of_double VOLUME_DEFAULT) (Some m) true
    (mkTimespec 0 0) (mkTimespec 0 0).


(** The samples as the file holds them, seen from the state [m] of the
    file.  [sampleSizeAt m k] is the number in the entry of the size table
    that lies [k] entries behind the place of the size stream: four bytes,
    most significant byte first.  [sampleStart m k] is the place in the
    data stream where the sample of that entry starts, behind the samples
    of the entries before it, and [sampleAt m k] are its bytes. *)
Definition sampleSizeAt (m : M4AFile) (k : nat) : Z :=
  let c := content (sizeStream m) in
  let p := (Z.to_nat (position (sizeStream m)) + 4 * k)%nat in
  nth p c 0 * 2^24 + nth (p + 1) c 0 * 2^16 + nth (p + 2) c 0 * 2^8
  + nth (p + 3) c 0.






(** A 401 response with a Digest challenge, and a 200 response. *)
Definition challenge (cseq : string) : string :=
  "RTSP/1.0 401 Unauthorized" +++ CRLF
  +++ "CSeq: " +++ cseq +++ CRLF
  +++ "WWW-Authenticate: Digest realm=" +++ QUOTE +++ "AppleTV" +++ QUOTE
  +++ ", nonce=" +++ QUOTE +++ "abcdef" +++ QUOTE +++ CRLF +++ CRLF.

Definition ok200 (cseq : string) : string :=
  "RTSP/1.0 200 OK" +++ CRLF +++ "CSeq: " +++ cseq +++ CRLF +++ CRLF.

(** A control connection to 192.168.1.10 whose peer answers with the given
    messages and on which every [send] succeeds. *)
Definition scripted (answers : list string) : NetworkConnection string :=
  mkConnection [] [] (map RecvData answers) "192.168.1.2" "192.168.1.10".

(** A RAOP client that is not streaming. *)
Definition idle : RAOPClient :=
  mkRaop "airport" None UNUSED_PORT_NUMBER false
    (float_of_double VOLUME_DEFAULT) None false
    (mkTimespec 0 0) (mkTimespec 0 0).

(** The content suppliers that raopclient.c passes to
    [rtspClientSendCommand]. *)
Inductive Content : Type :=
| NoContent          (* NULL *)
| AnnounceContent    (* raopClientAnnounceContentSupplier *)
| VolumeContent.     (* raopClientSetVolumeContentSupplier *)

Definition supplierOf (content : Content) : option ContentSupplier :=
  match content with
  | NoContent => None
  | AnnounceContent => Some raopClientAnnounceContentSupplier
  | VolumeContent => Some raopClientSetVolumeContentSupplier
  end.

(** A session: the commands are sent one after the other, whatever their
    answers. *)
Fixpoint runCommands (commands : list (RTSPRequestMethod * Content))
    (c : RTSPClient) (raopClient : RAOPClient) : RTSPClient * RAOPClient :=
  match commands with
  | [] => (c, raopClient)
  | (requestMethod, content) :: rest =>
      let '(_, c, raopClient) :=
        rtspClientSendCommand c requestMethod raopClient (supplierOf content)
      in
      runCommands rest c raopClient
  end.

(** The request line of a request. *)
Definition requestLine (requestMethod : RTSPRequestMethod) (url : string)
  : string :=
  METHOD_NAMES requestMethod +++ " "
  +++ (if method_is_options requestMethod then "*" else cstr url)
  +++ " RTSP/1.0" +++ CRLF.

(** [message] is a request whose first header field is CSeq with the value
    [v]. *)
Definition carriesCSeq (v : Z) (url : string) (message : string) : Prop :=
  exists (requestMethod : RTSPRequestMethod) (rest : string),
    message
    = requestLine requestMethod url +++ "CSeq: " +++ print_u v +++ CRLF
      +++ rest.

(** A client in the middle of a long session: 4294967295 requests were
    built. *)
Definition lateClient : RTSPClient :=
  mkClient (scripted [ok200 "0"]) "rtsp://192.168.1.10/1" None None 0
    4294967295 false "" "".

(** The header of the request [r] starts with the CSeq field of value
    [v]. *)
Definition headedByCSeq (v : Z) (r : RTSPRequest) : Prop :=
  exists rest : string,
    headerBuffer r = Some ("CSeq: " +++ print_u v +++ CRLF +++ rest).

(** The address names of the connection are texts that [inet_ntop] can
    deliver into a buffer of [MAX_ADDR_STRING_LENGTH] bytes. *)
Definition namesFit {A} (n : NetworkConnection A) : Prop :=
  strlen (cstr (localAddressName n)) + 1 <= MAX_ADDR_STRING_LENGTH
  /\ strlen (cstr (remoteAddressName n)) + 1 <= MAX_ADDR_STRING_LENGTH.

(** The state of a session with the URL [u]: the sequence number counts the
    requests handed to the connection (modulo [2^32]), and the request
    number [k + 1] carries the CSeq value [(k + 1) mod 2^32]. *)
Definition sessionInvariant (u : string) (c : RTSPClient) : Prop :=
  url c = u
  /\ strlen (cstr u) <= MAX_URL_STRING_SIZE - 1
  /\ namesFit (networkConnection c)
  /\ sequenceNumber c
     = u32 (Z.of_nat (length (sent (networkConnection c))))
  /\ forall (k : nat) (message : string) (result : bool),
       nth_error (sent (networkConnection c)) k = Some (message, result) ->
       carriesCSeq (u32 (Z.of_nat k + 1)) u message.


(** A connection whose peer challenges the first request and accepts the
    following ones, the client that [rtspClientOpenConnection] returns for
    it, and the request that is sent again after the challenge. *)
Definition challenged : NetworkConnection string :=
  scripted [challenge "1"; ok200 "2"; ok200 "3"].

Definition challengedClient : RTSPClient :=
  mkClient challenged "rtsp://192.168.1.10/1" None None 0 0 false "" "".

Definition retransmission : string :=
  "OPTIONS * RTSP/1.0" +++ CRLF +++ "CSeq: 2" +++ CRLF
  +++ "Authorization: Digest username=" +++ QUOTE +++ "iTunes"
  +++ QUOTE +++ ", realm=" +++ QUOTE +++ "AppleTV" +++ QUOTE
  +++ ", nonce=" +++ QUOTE +++ "abcdef" +++ QUOTE
  +++ ", uri=" +++ QUOTE +++ "rtsp://192.168.1.10/1" +++ QUOTE
  +++ ", response=" +++ QUOTE +++ "61FB2FBF1F264223B7CF0AC87E8B0AEF"
  +++ QUOTE +++ CRLF +++ CRLF.

(** The messages handed to the connection in a session. *)
Definition requestsOf (commands : list (RTSPRequestMethod * Content))
    (c : RTSPClient) (raopClient : RAOPClient) : list (string * bool) :=
  sent (networkConnection (fst (runCommands commands c raopClient))).

(** A session of [2^32] OPTIONS commands. *)
Definition longSession : list (RTSPRequestMethod * Content) :=
  repeat (RTSP_METHOD_OPTIONS, NoContent) (Z.to_nat 4294967296).


(** The volume that the claim C8 lets [raopClientSetVolume] keep: below
    0.01 muted, above 30 the maximum, [v] otherwise. *)
Definition clamped (v : spec_float) : spec_float :=
  if double_lt (double_of_float v) VOLUME_MIN_VALUE
  then float_of_double VOLUME_MUTED
  else if double_gt (double_of_float v) VOLUME_MAX_VALUE
       then float_of_double VOLUME_MAX_VALUE
       else v.

(** The value [x] of the claim C8: -144.0 when [v < 0.01], and the clamped
    volume minus 30.0 otherwise. *)
Definition claimedInternalVolume (v : spec_float) : spec_float :=
  if double_lt (double_of_float v) VOLUME_MIN_VALUE
  then double_of_Z (-144)
  else SFsub 53 1024 (double_of_float (clamped v)) (double_of_Z 30).

(** The text ["volume: <x>\r\n"] with [x] printed with one decimal. *)
Definition volumeText (x : spec_float) : string :=
  "volume: " +++ print_f1 x +++ CRLF.

(** [message] is a SET_PARAMETER request with the content [body] of type
    text/parameters. *)
Definition carriesBody (u body message : string) : Prop :=
  exists fields : string,
    message
    = requestLine RTSP_METHOD_SET_PARAMETER u +++ fields
      +++ "Content-Type: text/parameters" +++ CRLF
      +++ "Content-Length: " +++ print_u (strlen body) +++ CRLF
      +++ CRLF +++ body.

(** A [float] with an integer value. *)
Definition float_of_Z (n : Z) : spec_float := float_of_double (double_of_Z n).

(** A RAOP client that is streaming, and the RTSP client of its session
    after four requests. *)
Definition playing : RAOPClient := set_isSendingAudio idle true.

Definition recording : RTSPClient :=
  mkClient (scripted [ok200 "5"]) "rtsp://192.168.1.10/1" None None 0 4 false
    "" "".

(** The content of the requests that [raopClientSetVolume] sends on
    [recording] for the volume [v]. *)
Definition transmittedFor (v : spec_float) : list string :=
  map fst (sent (networkConnection (snd (raopClientSetVolume playing recording
                                           v)))).

Definition setParameter (cseq body : string) : string :=
  "SET_PARAMETER rtsp://192.168.1.10/1 RTSP/1.0" +++ CRLF
  +++ "CSeq: " +++ cseq +++ CRLF
  +++ "Content-Type: text/parameters" +++ CRLF
  +++ "Content-Length: " +++ print_u (strlen body) +++ CRLF
  +++ CRLF +++ body.


(** The Authorization value of the claim C9, in its words: the five fields
    in full, the response being the digest of [HA1 ":" nonce ":" HA2] in 32
    upper-case hexadecimal digits, with the user name iTunes and the
    password geheim. *)
Definition claimedAuthorization (methodName url realm nonce : string)
  : string :=
  let HA1 :=
    hex_string (MD5 (bytes_of_string
      ("iTunes" +++ ":" +++ realm +++ ":" +++ "geheim"))) in
  let HA2 :=
    hex_string (MD5 (bytes_of_string (methodName +++ ":" +++ url))) in
  let resp :=
    hex_string (MD5 (bytes_of_string (HA1 +++ ":" +++ nonce +++ ":" +++ HA2)))
  in
  "Digest username=" +++ QUOTE +++ "iTunes" +++ QUOTE
  +++ ", realm=" +++ QUOTE +++ realm +++ QUOTE
  +++ ", nonce=" +++ QUOTE +++ nonce +++ QUOTE
  +++ ", uri=" +++ QUOTE +++ url +++ QUOTE
  +++ ", response=" +++ QUOTE +++ resp +++ QUOTE.

(** A peer with an IPv6 address of 39 characters that challenges the first
    request with a realm of 20 and a nonce of 40 characters, the sizes that
    [MAX_REALM_SIZE] and [MAX_NONCE_SIZE] admit. *)
Definition longRealm : string := "AirPort-Express-0001".
Definition longNonce : string := "0123456789abcdef0123456789abcdef01234567".
Definition ipv6Url : string :=
  "rtsp://2001:1db8:85a3:1234:5678:8a2e:1370:7334/1".

Definition ipv6Peer : NetworkConnection string :=
  mkConnection [] []
    [ RecvData
        ("RTSP/1.0 401 Unauthorized" +++ CRLF +++ "CSeq: 1" +++ CRLF
         +++ "WWW-Authenticate: Digest realm=" +++ QUOTE +++ longRealm
         +++ QUOTE +++ ", nonce=" +++ QUOTE +++ longNonce +++ QUOTE
         +++ CRLF +++ CRLF);
      RecvData (ok200 "2") ]
    "2001:1db8:85a3:1234:5678:8a2e:1370:7001"
    "2001:1db8:85a3:1234:5678:8a2e:1370:7334".

Definition ipv6Client : RTSPClient :=
  mkClient ipv6Peer ipv6Url None None 0 0 false "" "".


(** The first 199 characters of the Authorization value for the OPTIONS
    request to [ipv6Peer]; the digest is 06F898FD85D756AE874CEA8F281007C5. *)
Definition cutAuthorization : string :=
  "Digest username=" +++ QUOTE +++ "iTunes" +++ QUOTE
  +++ ", realm=" +++ QUOTE +++ "AirPort-Express-0001" +++ QUOTE
  +++ ", nonce=" +++ QUOTE +++ "0123456789abcdef0123456789abcdef01234567"
  +++ QUOTE
  +++ ", uri=" +++ QUOTE +++ "rtsp://2001:1db8:85a3:1234:5678:8a2e:1370:7334/1"
  +++ QUOTE
  +++ ", response=" +++ QUOTE +++ "06F898FD85D756AE874CEA8F281".


(* ================================================================== *)
(** * utils.c *)

(** [timespecInitialize] and [timespecCopy]. *)
Definition timespecInitialize : timespec := mkTimespec 0 0.
Definition timespecCopy (srcTime : timespec) : timespec :=
  mkTimespec (tv_sec srcTime) (tv_nsec srcTime).

(** [timespecAdd]: the value of [*time] afterwards.  [tv_sec] and
    [tv_nsec] are 64-bit signed fields. *)
Definition timespecAdd (time delta : timespec) : timespec :=
  let sec := i64 (tv_sec time + tv_sec delta) in
  let nsec := i64 (tv_nsec time + tv_nsec delta) in
  if nsec >=? ONE_SECOND_IN_NANO_SECONDS
  then mkTimespec (i64 (sec + 1)) (i64 (nsec - ONE_SECOND_IN_NANO_SECONDS))
  else mkTimespec sec nsec.

(** [timespecSubtract]: the value of [*delta] afterwards. *)
Definition timespecSubtract (time1 time2 : timespec) : timespec :=
  if tv_sec time1 >=? tv_sec time2 then
    if tv_nsec time1 >=? tv_nsec time2 then
      mkTimespec (i64 (tv_sec time1 - tv_sec time2))
        (i64 (tv_nsec time1 - tv_nsec time2))
    else if tv_sec time1 >? tv_sec time2 then
      mkTimespec (i64 (i64 (tv_sec time1 - tv_sec time2) - 1))
        (i64 (i64 (ONE_SECOND_IN_NANO_SECONDS + tv_nsec time1)
              - tv_nsec time2))
    else mkTimespec 0 0
  else mkTimespec 0 0.

(** A time in nanoseconds, and the times whose nanoseconds are below one
    second. *)
Definition nanoseconds (t : timespec) : Z :=
  tv_sec t * ONE_SECOND_IN_NANO_SECONDS + tv_nsec t.

Definition normalized (t : timespec) : Prop :=
  0 <= tv_nsec t < ONE_SECOND_IN_NANO_SECONDS.

(** Seconds far from the ends of [time_t]. *)
Definition moderate (t : timespec) : Prop := - 2^62 <= tv_sec t < 2^62.

(** [raopClientGetProgress]; [clock] is what [clock_gettime] delivers,
    [None] when it fails (then [*progress] is left as it was). *)
Definition raopClientGetProgress (raopClient : RAOPClient)
    (clock : option timespec) (progress : timespec) : bool * timespec :=
  match clock with
  | None => (false, progress)
  | Some currentTime =>
      let progress :=
        timespecSubtract currentTime (playingTimeOffset raopClient) in
      (true, timespecAdd progress (startTime raopClient))
  end.


(* ================================================================== *)
(** * log.c *)

Inductive LogLevel : Type :=
| LOG_LEVEL_FATAL
| LOG_LEVEL_ERROR
| LOG_LEVEL_WARNING
| LOG_LEVEL_INFO
| LOG_LEVEL_DEBUG.

(** The value of the enumeration constant. *)
Definition logLevelValue (l : LogLevel) : Z :=
  match l with
  | LOG_LEVEL_FATAL => 0
  | LOG_LEVEL_ERROR => 1
  | LOG_LEVEL_WARNING => 2
  | LOG_LEVEL_INFO => 3
  | LOG_LEVEL_DEBUG => 4
  end.

Definition LOG_LEVEL_NAMES (l : LogLevel) : string :=
  match l with
  | LOG_LEVEL_FATAL => "FATAL"
  | LOG_LEVEL_ERROR => "ERROR"
  | LOG_LEVEL_WARNING => "WARNING"
  | LOG_LEVEL_INFO => "INFO"
  | LOG_LEVEL_DEBUG => "DEBUG"
  end.

Definition LOG_BUFFER_SIZE : Z := 512.
Definition LOG_MESSAGE_ENDLINE : string := String "010" EmptyString.
Definition LOG_MESSAGE_ENDLINE_SIZE : Z := 2.
Definition LOG_MESSAGE_TOO_BIG_ENDLINE : string :=
  "..." +++ String "010" EmptyString.
Definition LOG_MESSAGE_TOO_BIG_ENDLINE_SIZE : Z := 5.

(** Where a log line goes. *)
Inductive LogStream : Type :=
| Stderr
| LogFileStream (fileName : string).

(** The three variables of log.c. *)
Record LogState : Type := mkLogState {
  defaultLogLevel : LogLevel;
  logFile : option LogStream;
  logFileOpenedLocally : bool
}.

(** [logSetLogLevel]. *)
Definition logSetLogLevel (s : LogState) (newDefaultlogLevel : LogLevel)
  : LogState :=
  mkLogState newDefaultlogLevel (logFile s) (logFileOpenedLocally s).

(** The fields of [struct tm] that the log line shows. *)
Record tm : Type := mkTm {
  tm_year : Z; tm_mon : Z; tm_mday : Z; tm_hour : Z; tm_min : Z; tm_sec : Z
}.

(** [%0<width>d]: the sign, then zeros up to the width, then the digits. *)
Definition zeros_string (n : nat) : string :=
  string_of_list_ascii (repeat "0"%char n).

Definition print_0d (width : nat) (n : Z) : string :=
  if n <? 0 then
    "-" +++ zeros_string (width - 1 - String.length (print_u (- n)))
        +++ print_u (- n)
  else zeros_string (width - String.length (print_u n)) +++ print_u n.

(** The text that the first [snprintf] of [logWriteMessage] prints. *)
Definition logPrefix (timeValue : tm) (logLevel : LogLevel)
    (componentName : option string) : string :=
  print_0d 4 (tm_year timeValue + 1900) +++ "-"
  +++ print_0d 2 (tm_mon timeValue + 1) +++ "-"
  +++ print_0d 2 (tm_mday timeValue) +++ " "
  +++ print_0d 2 (tm_hour timeValue) +++ ":"
  +++ print_0d 2 (tm_min timeValue) +++ ":"
  +++ print_0d 2 (tm_sec timeValue)
  +++ " - [" +++ LOG_LEVEL_NAMES logLevel +++ "] - ["
  +++ match componentName with
      | Some name => cstr name
      | None => "<unknown>"
      end
  +++ "] - ".

(** [logWriteMessage].  [message] is the text that the format and its
    arguments expand to ([None] when [vsnprintf] fails), [fputsResult] is
    what [fputs] answers.  The result is the text handed to [fputs], if
    any, and the value returned. *)
Definition logWriteMessage (timeValue : tm) (logLevel : LogLevel)
    (componentName : option string) (message : option string)
    (fputsResult : Z) : option string * bool :=
  let prefix := logPrefix timeValue logLevel componentName in
  let charsWritten := strlen prefix in
  if (charsWritten >=? 0) && (charsWritten <? LOG_BUFFER_SIZE) then
    match message with
    | None => (None, false)
    | Some message =>
        let additionalCharsWritten := strlen message in
        let logBuffer := take (LOG_BUFFER_SIZE - 1) (prefix +++ message) in
        let logBuffer :=
          if additionalCharsWritten + charsWritten + LOG_MESSAGE_ENDLINE_SIZE
             >? LOG_BUFFER_SIZE
          then take (LOG_BUFFER_SIZE - LOG_MESSAGE_TOO_BIG_ENDLINE_SIZE)
                 logBuffer
               +++ LOG_MESSAGE_TOO_BIG_ENDLINE
          else logBuffer +++ LOG_MESSAGE_ENDLINE in
        (Some (cstr logBuffer), fputsResult >? 0)
    end
  else (None, charsWritten >? 0).

(** [logWrite]: the stream and the text written, if any, and the value
    returned. *)
Definition logWrite (s : LogState) (timeValue : tm) (logLevel : LogLevel)
    (componentName : option string) (message : option string)
    (fputsResult : Z) : option (LogStream * string) * bool :=
  if logLevelValue logLevel >? logLevelValue (defaultLogLevel s)
  then (None, true)
  else
    let privateLogFile := match logFile s with
                          | Some f => f
                          | None => Stderr
                          end in
    let '(written, result) :=
      logWriteMessage timeValue logLevel componentName message fputsResult in
    (match written with
     | Some text => Some (privateLogFile, text)
     | None => None
     end, result).

(* ================================================================== *)
(** * Vocabulary for statements about responses *)

(** Every character of [s] satisfies [p]. *)
Fixpoint all_chars (p : ascii -> bool) (s : string) : bool :=
  match s with
  | EmptyString => true
  | String a r => p a && all_chars p r
  end.

(** A text without the newline character. *)
Definition no_newline (s : string) : bool :=
  all_chars (fun a => negb (is_newline a)) s.

(** The lines [lines], each followed by CR LF. *)
Definition headerLines (lines : list string) : string :=
  fold_right (fun l acc => l +++ CRLF +++ acc) "" lines.

(** The text that follows a number: the end, or a character that is no
    digit of the base. *)
Definition ends_number (base : Z) (rest : string) : Prop :=
  match rest with
  | EmptyString => True
  | String a _ => digit_value base a = None
  end.

(** A line that does not hold the header field [key]. *)
Definition other_line (key l : string) : bool :=
  no_newline l && negb (starts_with (key +++ ": ") (l +++ CRLF)).

(** A text without the sub-key separator and without the newline. *)
Definition plain (s : string) : bool :=
  all_chars (fun a => negb (is_separator a) && negb (is_newline a)) s.

(** A field of a header value that does not start with [subkey]. *)
Definition other_field (subkey f : string) : bool :=
  plain f && (0 <? strlen f) && negb (starts_with subkey (f +++ ";")).

(** The fields [fields], each followed by the separator. *)
Definition fieldsText (fields : list string) : string :=
  fold_right (fun f acc => f +++ ";" +++ acc) "" fields.

(** [raopClientSetupAudioConnection].  [networkOpenConnection] stands for
    the call of that function for a TCP client: the connection, or [None]
    for NULL.  The [int] port is printed with [PRIu32]. *)
Definition raopClientSetupAudioConnection
    (networkOpenConnection
       : string -> string -> option (NetworkConnection (list Z)))
    (raopClient : RAOPClient) : bool * RAOPClient :=
  let text := print_u (u32 (audioPort raopClient)) in
  let portNumberString := cstr (snprintf MAX_NUMBER_STRING_SIZE text) in
  if strlen text <? 1 then (false, raopClient) else
  match networkOpenConnection (hostName raopClient) portNumberString with
  | Some c => (true, set_audioConnection raopClient c)
  | None =>
      (false,
       mkRaop (hostName raopClient) None (audioPort raopClient)
         (audioThreadJoinable raopClient) (volume raopClient)
         (m4aFile raopClient) (isSendingAudio raopClient)
         (playingTimeOffset raopClient) (startTime raopClient))
  end.

(** A text without the double quote and without the newline. *)
Definition unquoted (s : string) : bool :=
  all_chars (fun a => negb (Ascii.eqb a "034") && negb (is_newline a)) s.

(* ================================================================== *)
(** * raopclient.c: starting and stopping *)

(** [message] is a request of the method [requestMethod]. *)
Definition requestOf (requestMethod : RTSPRequestMethod) (url : string)
    (message : string) : Prop :=
  exists rest : string, message = requestLine requestMethod url +++ rest.

Definition set_audioThreadJoinable (r : RAOPClient) (v : bool) : RAOPClient :=
  mkRaop (hostName r) (audioConnection r) (audioPort r) v (volume r)
    (m4aFile r) (isSendingAudio r) (playingTimeOffset r) (startTime r).

Definition set_startTime (r : RAOPClient) (v : timespec) : RAOPClient :=
  mkRaop (hostName r) (audioConnection r) (audioPort r)
    (audioThreadJoinable r) (volume r) (m4aFile r) (isSendingAudio r)
    (playingTimeOffset r) v.

(** [raopClientStartPlaying]; [pthreadCreate] is the answer of
    [pthread_create].  The thread that it starts runs
    [raopClientSendAudio] beside the caller. *)
Definition raopClientStartPlaying (pthreadCreate : Z) (raopClient : RAOPClient)
  : bool * RAOPClient :=
  let raopClient := set_isSendingAudio raopClient true in
  if negb (pthreadCreate =? 0)
  then (false, set_isSendingAudio raopClient false)
  else (true, set_audioThreadJoinable raopClient true).

(** [raopClientPlayM4AFile]; [startTime] is [None] for NULL. *)
Definition raopClientPlayM4AFile
    (networkOpenConnection
       : string -> string -> option (NetworkConnection (list Z)))
    (pthreadCreate : Z)
    (raopClient : RAOPClient) (rtspClient : RTSPClient) (m4aFile : M4AFile)
    (startTime : option timespec) : bool * RAOPClient * RTSPClient :=
  let raopClient := set_m4aFile raopClient m4aFile in
  let raopClient :=
    match startTime with
    | Some t => set_startTime raopClient (timespecCopy t)
    | None => raopClient
    end in
  let '(ok, rtspClient, raopClient) :=
    rtspClientSendCommand rtspClient RTSP_METHOD_OPTIONS raopClient None in
  if negb ok then (false, raopClient, rtspClient) else
  let '(ok, rtspClient, raopClient) :=
    rtspClientSendCommand rtspClient RTSP_METHOD_ANNOUNCE raopClient
      (Some raopClientAnnounceContentSupplier) in
  if negb ok then (false, raopClient, rtspClient) else
  let '(ok, rtspClient, raopClient) :=
    rtspClientSendCommand rtspClient RTSP_METHOD_SETUP raopClient None in
  if negb ok then (false, raopClient, rtspClient) else
  let '(ok, raopClient) :=
    raopClientSetupAudioConnection networkOpenConnection raopClient in
  if negb ok then (false, raopClient, rtspClient) else
  let '(ok, rtspClient, raopClient) :=
    rtspClientSendCommand rtspClient RTSP_METHOD_RECORD raopClient None in
  if negb ok then (false, raopClient, rtspClient) else
  let '(ok, rtspClient, raopClient) :=
    rtspClientSendCommand rtspClient RTSP_METHOD_SET_PARAMETER raopClient
      (Some raopClientSetVolumeContentSupplier) in
  if negb ok then (false, raopClient, rtspClient) else
  let '(ok, raopClient) := raopClientStartPlaying pthreadCreate raopClient in
  if negb ok then (false, raopClient, rtspClient) else
  (true, raopClient, rtspClient).

(** [raopClientStopPlaying]; [pthreadJoin] is the answer of [pthread_join],
    which is called for a joinable audio thread only. *)
Definition raopClientStopPlaying (pthreadJoin : Z) (raopClient : RAOPClient)
    (rtspClient : RTSPClient) : bool * RAOPClient * RTSPClient :=
  if negb (isSendingAudio raopClient) then (true, raopClient, rtspClient)
  else
    let raopClient := set_isSendingAudio raopClient false in
    let result := true in
    let '(result, raopClient) :=
      if audioThreadJoinable raopClient then
        let raopClient := set_audioThreadJoinable raopClient false in
        if negb (pthreadJoin =? 0) then (false, raopClient)
        else (result, raopClient)
      else (result, raopClient) in
    let '(ok, rtspClient, raopClient) :=
      rtspClientSendCommand rtspClient RTSP_METHOD_FLUSH raopClient None in
    let result := if negb ok then false else result in
    let '(ok, rtspClient, raopClient) :=
      rtspClientSendCommand rtspClient RTSP_METHOD_TEARDOWN raopClient None in
    let result := if negb ok then false else result in
    (result, raopClient, rtspClient).

(** [raopClientWait]. *)
Definition raopClientWait (pthreadJoin : Z) (raopClient : RAOPClient)
  : bool * RAOPClient :=
  if audioThreadJoinable raopClient then
    let raopClient := set_audioThreadJoinable raopClient false in
    if negb (pthreadJoin =? 0) then (false, raopClient)
    else (true, set_isSendingAudio raopClient false)
  else (true, raopClient).

(** The box types that [mp4BoxParserTable] hands to
    [mp4BoxParseContainer]. *)
Definition plainContainers : list string :=
  ["moov"; "trak"; "udta"; "mdia"; "minf"; "dinf"; "stbl"; "ilst"]%string.

(* ================================================================== *)
(** * light-play.c: the command line *)

(** [strtoul(s, &ptr, 10)] on 64 bits: white space, an optional sign and
    the longest run of decimal digits.  The answer is the value and the
    text that [ptr] is left at; without a digit nothing is converted and
    [ptr] is [s].  A value that does not fit is answered as [ULONG_MAX]. *)
Fixpoint scan_decimal (s : string) (acc : Z) (any : bool)
  : Z * bool * string :=
  match s with
  | EmptyString => (acc, any, s)
  | String a r =>
      match digit_value 10 a with
      | Some v => scan_decimal r (acc * 10 + v) true
      | None => (acc, any, s)
      end
  end.

Definition strtoul (s : string) : Z * string :=
  let '(neg, t) := scan_sign (skip_while isspace s) in
  let '(v, any, rest) := scan_decimal t 0 false in
  if any then
    (if v >? 2^64 - 1 then 2^64 - 1 else u64 (signed neg v), rest)
  else (0, s).

Module LightPlay.

(** The local variables of [main] that the command line sets. *)
Record Arguments : Type := mkArguments {
  url : option string;
  password : option string;
  portName : string;
  fileName : option string;
  logLevel : LogLevel;
  logFileName : option string;
  playingOffset : timespec
}.

(** The calls of [printUsage], each followed by [return 1]. *)
Inductive Usage : Type :=
| Help
| ValueNotSpecified (option : ascii)
| UnsupportedAfterV (text : string)
| AdditionalAfterV (text : string) (level : ascii)
| AdditionalAfterOffset (text : string)
| UnknownParameter (argument : string)
| UnknownParameterSpecified (argument : string)
| TooManyParameters (argument : string)
| RequiredUrlAndFilename
| RequiredFilename.

Definition initial : Arguments :=
  mkArguments None None "5000" None LOG_LEVEL_WARNING None (mkTimespec 0 0).

Definition set_password (a : Arguments) (v : string) : Arguments :=
  mkArguments (url a) (Some v) (portName a) (fileName a) (logLevel a)
    (logFileName a) (playingOffset a).
Definition set_portName (a : Arguments) (v : string) : Arguments :=
  mkArguments (url a) (password a) v (fileName a) (logLevel a)
    (logFileName a) (playingOffset a).
Definition set_logLevel (a : Arguments) (v : LogLevel) : Arguments :=
  mkArguments (url a) (password a) (portName a) (fileName a) v
    (logFileName a) (playingOffset a).
Definition set_logFileName (a : Arguments) (v : string) : Arguments :=
  mkArguments (url a) (password a) (portName a) (fileName a) (logLevel a)
    (Some v) (playingOffset a).
Definition set_offset (a : Arguments) (v : Z) : Arguments :=
  mkArguments (url a) (password a) (portName a) (fileName a) (logLevel a)
    (logFileName a) (mkTimespec v (tv_nsec (playingOffset a))).
Definition set_url (a : Arguments) (v : string) : Arguments :=
  mkArguments (Some v) (password a) (portName a) (fileName a) (logLevel a)
    (logFileName a) (playingOffset a).
Definition set_fileName (a : Arguments) (v : string) : Arguments :=
  mkArguments (url a) (password a) (portName a) (Some v) (logLevel a)
    (logFileName a) (playingOffset a).

Definition is_char (c a : ascii) : bool := Ascii.eqb a c.

(** The offset that option [o] stores, or the text left behind the
    number. *)
Definition offsetOf (text : string) : string + Z :=
  let '(v, ptr) := strtoul text in
  if negb (is_char NUL (nth_char 0 ptr)) then inl ptr else inr (i64 v).

(** The [while] loop of [main] over [argv[i]], ..., [argv[argc - 1]]. *)
Fixpoint parse (argv : list string) (a : Arguments) : Usage + Arguments :=
  match argv with
  | [] => inr a
  | arg :: rest =>
      if is_char "-" (nth_char 0 arg) && negb (is_char "-" (nth_char 1 arg))
      then
        let c := nth_char 1 arg in
        if is_char "?" c || is_char "h" c then inl Help
        else if is_char "c" c then
          if is_char NUL (nth_char 2 arg) then
            match rest with
            | value :: rest => parse rest (set_password a value)
            | [] => inl (ValueNotSpecified "c")
            end
          else parse rest (set_password a (drop 2 arg))
        else if is_char "p" c then
          if is_char NUL (nth_char 2 arg) then
            match rest with
            | value :: rest => parse rest (set_portName a value)
            | [] => inl (ValueNotSpecified "p")
            end
          else parse rest (set_portName a (drop 2 arg))
        else if is_char "v" c then
          let level := nth_char 2 arg in
          let chosen :=
            if is_char "e" level then Some LOG_LEVEL_ERROR
            else if is_char "w" level || is_char NUL level
            then Some LOG_LEVEL_WARNING
            else if is_char "i" level then Some LOG_LEVEL_INFO
            else if is_char "d" level then Some LOG_LEVEL_DEBUG
            else None in
          match chosen with
          | None => inl (UnsupportedAfterV (drop 2 arg))
          | Some l =>
              if negb (is_char NUL level)
                 && negb (is_char NUL (nth_char 3 arg))
              then inl (AdditionalAfterV (drop 3 arg) level)
              else parse rest (set_logLevel a l)
          end
        else if is_char "l" c then
          if is_char NUL (nth_char 2 arg) then
            match rest with
            | value :: rest => parse rest (set_logFileName a value)
            | [] => inl (ValueNotSpecified "l")
            end
          else parse rest (set_logFileName a (drop 2 arg))
        else if is_char "o" c then
          if is_char NUL (nth_char 2 arg) then
            match rest with
            | value :: rest =>
                match offsetOf value with
                | inl ptr => inl (AdditionalAfterOffset ptr)
                | inr v => parse rest (set_offset a v)
                end
            | [] => inl (ValueNotSpecified "o")
            end
          else
            match offsetOf (drop 2 arg) with
            | inl ptr => inl (AdditionalAfterOffset ptr)
            | inr v => parse rest (set_offset a v)
            end
        else inl (UnknownParameter arg)
      else if is_char "-" (nth_char 0 arg) then
        match url a with
        | None => inl (UnknownParameterSpecified arg)
        | Some _ => parse rest (set_fileName a (drop 1 arg))
        end
      else
        match url a, fileName a with
        | None, _ => parse rest (set_url a arg)
        | Some _, None => parse rest (set_fileName a arg)
        | Some _, Some _ => inl (TooManyParameters arg)
        end
  end.

(** [main] up to the check of the parameters; [argv] is the command line
    without [argv[0]]. *)
Definition arguments (argv : list string) : Usage + Arguments :=
  match parse argv initial with
  | inl usage => inl usage
  | inr a =>
      match url a with
      | None =>
          match fileName a with
          | None => inl RequiredUrlAndFilename
          | Some _ => inl RequiredFilename
          end
      | Some _ => inr a
      end
  end.

End LightPlay.

(** The session description that [raopClientAnnounceContentSupplier]
    prints. *)
Definition announceText (localAddress remoteAddress : string) (ts : Z)
  : string :=
  "v=0" +++ CRLF
  +++ "o=iTunes 1 O IN IP4 " +++ localAddress +++ CRLF
  +++ "s=iTunes" +++ CRLF
  +++ "c=IN IP4 " +++ remoteAddress +++ CRLF
  +++ "t=0 0" +++ CRLF
  +++ "m=audio 0 RTP/AVP 96" +++ CRLF
  +++ "a=rtpmap:96 AppleLossless" +++ CRLF
  +++ "a=fmtp:96 4096 0 16 40 10 14 2 255 0 0 " +++ print_u ts +++ CRLF.


(** A file whose only sample has 100 bytes and whose size table, which
    announces two samples, ends behind its first entry. *)
Definition cutTableFile : list Z :=
  box "mdat" (repeat 7 100)
  ++ box_sized 28 "stsz" (be32 0 ++ be32 0 ++ be32 2 ++ be32 100).

(** A peer that accepts the first request and refuses the second. *)
Definition refusing : RTSPClient :=
  mkClient
    (scripted [ ok200 "1";
                "RTSP/1.0 403 Forbidden" +++ CRLF +++ "CSeq: 2" +++ CRLF
                +++ CRLF ])
    "rtsp://192.168.1.10/1" None None 0 0 false "" "".

(* ================================================================== *)
(** * Arithmetic of the C integer types *)

Lemma u32_small (x : Z) : 0 <= x < 2^32 -> u32 x = x.
Proof. intros H. unfold u32. apply Z.mod_small. exact H. Qed.

Lemma u32_range (x : Z) : 0 <= u32 x < 2^32.
Proof. unfold u32. apply Z.mod_pos_bound. lia. Qed.

Lemma i64_small (x : Z) : - 2^63 <= x < 2^63 -> i64 x = x.
Proof.
  intros H. unfold i64.
  rewrite Z.mod_small by lia. lia.
Qed.

Lemma lor_range (a b : Z) :
  0 <= a < 2^32 -> 0 <= b < 2^32 -> 0 <= Z.lor a b < 2^32.
Proof.
  intros Ha Hb. split.
  - apply Z.lor_nonneg. lia.
  - destruct (Z.eq_dec a 0) as [->|Na].
    + rewrite Z.lor_0_l. lia.
    + destruct (Z.eq_dec b 0) as [->|Nb].
      * rewrite Z.lor_0_r. lia.
      * apply Z.log2_lt_pow2.
        { assert (0 <= Z.lor a b) by (apply Z.lor_nonneg; lia).
          assert (Z.lor a b <> 0).
          { intros E. apply Z.lor_eq_0_iff in E. lia. }
          lia. }
        rewrite Z.log2_lor by lia.
        apply Z.max_lub_lt; apply Z.log2_lt_pow2; lia.
Qed.

(* ================================================================== *)
(** * Streams *)

Lemma fgetc_inside (s : FILE) :
  0 <= position s -> position s < Z.of_nat (length (content s)) ->
  exists c, fgetc s = (c, mkFILE (content s) (position s + 1) (eof_flag s)
                             (error_flag s)).
Proof.
  intros H0 H1. unfold fgetc.
  replace (0 <=? position s) with true by (symmetry; apply Z.leb_le; lia).
  replace (position s <? Z.of_nat (length (content s))) with true
    by (symmetry; apply Z.ltb_lt; lia).
  simpl. eexists. reflexivity.
Qed.

(** Four bytes inside the file are read without touching the indicators. *)
Lemma read4ByteUnsignedInt32_inside (s : FILE) :
  0 <= position s -> position s + 4 <= Z.of_nat (length (content s)) ->
  exists v,
    read4ByteUnsignedInt32 s
    = (v, mkFILE (content s) (position s + 4) (eof_flag s) (error_flag s))
    /\ 0 <= v < 2^32.
Proof.
  intros H0 H1. unfold read4ByteUnsignedInt32.
  destruct (fgetc_inside s) as [c1 E1]; [lia | lia |]. rewrite E1.
  destruct (fgetc_inside (mkFILE (content s) (position s + 1) (eof_flag s)
                            (error_flag s))) as [c2 E2];
    [simpl; lia | simpl; lia |]. rewrite E2. simpl.
  destruct (fgetc_inside (mkFILE (content s) (position s + 1 + 1) (eof_flag s)
                            (error_flag s))) as [c3 E3];
    [simpl; lia | simpl; lia |]. rewrite E3. simpl.
  destruct (fgetc_inside (mkFILE (content s) (position s + 1 + 1 + 1)
                            (eof_flag s) (error_flag s))) as [c4 E4];
    [simpl; lia | simpl; lia |]. rewrite E4. simpl.
  eexists. split.
  - f_equal. f_equal. lia.
  - apply lor_range; apply u32_range.
Qed.

(* ================================================================== *)
(** * m4aFileGetLength *)

(** C10.  [m4aFileGetLength] divides the stored duration by the stored
    timescale without a guard.  For a file whose timescale is not zero (both
    fields being [uint32_t]) it returns true with
    [tv_sec = duration / timescale] and
    [tv_nsec = (duration - tv_sec * timescale) * 10^9 / timescale]; for a
    timescale of zero the division by zero is reached; and a parse that
    meets no [mvhd] or [mdhd] box succeeds and leaves the timescale at
    zero. *)
Theorem m4aFileGetLength_needs_timescale :
  (forall m : M4AFile,
      0 <= duration m < 2^32 -> 0 <= timescale m < 2^32 ->
      timescale m <> 0 ->
      m4aFileGetLength m
      = Some (true,
              mkTimespec (duration m / timescale m)
                ((duration m - duration m / timescale m * timescale m)
                 * 10^9 / timescale m)))
  /\ (forall m : M4AFile, timescale m = 0 -> m4aFileGetLength m = None)
  /\ (exists m : M4AFile,
         m4aFileParse 20 (m4aFileOpen zeroed (box "free" (zeros 4)))
         = Ret (true, m)
         /\ timescale m = 0 /\ m4aFileGetLength m = None).
Proof.
  split; [| split].
  - intros m Hd Ht Hnz. unfold m4aFileGetLength.
    destruct (Z.eqb_spec (timescale m) 0) as [E|_]; [contradiction|].
    set (d := duration m) in *. set (t := timescale m) in *.
    assert (Hq : 0 <= d / t <= d).
    { split; [apply Z.div_pos; lia|]. apply Z.div_le_upper_bound; nia. }
    assert (Hm : d / t * t <= d).
    { rewrite Z.mul_comm. apply Z.mul_div_le. lia. }
    assert (Hr : d - d / t * t < t).
    { pose proof (Z.mod_pos_bound d t ltac:(lia)) as B.
      rewrite Z.mod_eq in B by lia. lia. }
    rewrite (u32_small (d / t)) by lia.
    rewrite (i64_small (d / t * t)) by lia.
    rewrite (i64_small (d - d / t * t)) by lia.
    unfold ONE_SECOND_IN_NANO_SECONDS.
    rewrite i64_small by nia.
    rewrite Z.quot_div_nonneg by nia.
    do 3 f_equal. f_equal. lia.
  - intros m E. unfold m4aFileGetLength. rewrite E. reflexivity.
  - eexists. split; [vm_compute; reflexivity|]. split; reflexivity.
Qed.

(** The theorem applied to the parsed ALAC test file: ten seconds. *)
Lemma m4aFileGetLength_needs_timescale_witness :
  (0 <= duration (parsed alacFile) < 2^32
   /\ 0 <= timescale (parsed alacFile) < 2^32
   /\ timescale (parsed alacFile) <> 0)
  /\ m4aFileGetLength (parsed alacFile) = Some (true, mkTimespec 10 0).
Proof.
  split.
  - vm_compute. repeat split; congruence.
  - pose proof (proj1 m4aFileGetLength_needs_timescale (parsed alacFile)) as H.
    rewrite H.
    + vm_compute. reflexivity.
    + vm_compute. split; congruence.
    + vm_compute. split; congruence.
    + vm_compute. congruence.
Defined.

(* ================================================================== *)
(** * m4aFileGetNextSample *)

(** C2, as the claim states it, fails: the parsed ALAC test file has a
    largest sample of 4 bytes; handed a buffer of 2 bytes,
    [m4aFileGetNextSample] returns true and stores the 3 bytes of the first
    sample, one byte past the end of the buffer. *)
Lemma m4aFileGetNextSample_short_buffer_accepted :
  capacity (mkBuffer 2 []) < largestSampleSize (parsed alacFile)
  /\ exists b n m,
       m4aFileGetNextSample (parsed alacFile) (mkBuffer 2 []) = (true, b, n, m)
       /\ n = 3 /\ stored b = [1; 2; 3] /\ overrun b = true.
Proof.
  split; [vm_compute; reflexivity|].
  do 3 eexists. split; [vm_compute; reflexivity|].
  repeat split; reflexivity.
Qed.

(** C2, amended.  [m4aFileGetNextSample] receives the address of the
    buffer only and makes no check of its length: the C result, the sample
    size, the bytes stored and the file are the same for every buffer.  When
    it returns true, the sample size is the 32-bit value read from the size
    stream and exactly that many bytes are stored, past the end of the
    buffer if the buffer is shorter. *)
Theorem m4aFileGetNextSample_ignores_capacity :
  forall (m : M4AFile) (b : Buffer) (ok : bool) (b' : Buffer) (n : Z)
         (m' : M4AFile),
    m4aFileGetNextSample m b = (ok, b', n, m') ->
    capacity b' = capacity b
    /\ (forall b2 : Buffer,
           m4aFileGetNextSample m b2
           = (ok, mkBuffer (capacity b2)
                    (if didReadErrorOccur
                          (snd (read4ByteUnsignedInt32 (sizeStream m)))
                     then stored b2 else stored b'), n, m'))
    /\ (ok = true ->
        n = fst (read4ByteUnsignedInt32 (sizeStream m))
        /\ Z.of_nat (length (stored b')) = n
        /\ (capacity b < n -> overrun b' = true)).
Proof.
  intros m b ok b' n m' H. unfold m4aFileGetNextSample in *.
  destruct (read4ByteUnsignedInt32 (sizeStream m)) as [dataSize ss] eqn:E4.
  simpl fst. simpl snd.
  change (sizeStream (set_sizeStream m ss)) with ss in *.
  destruct (didReadErrorOccur ss) eqn:Ed.
  - inversion H; subst. split; [reflexivity|]. split.
    + intros b2. destruct b2; reflexivity.
    + discriminate.
  - unfold m4aFileReadData in *.
    destruct (fread dataSize (dataStream (set_sizeStream m ss)))
      as [data ds] eqn:Ef.
    destruct (Z.eqb_spec (Z.of_nat (length data)) dataSize) as [El|Nl];
      simpl in H |- *; inversion H; subst; simpl.
    + split; [reflexivity|]. split; [reflexivity|]. intros _.
      split; [reflexivity|]. split; [reflexivity|].
      intros Hc. unfold overrun. simpl. apply Z.ltb_lt. lia.
    + split; [reflexivity|]. split; [reflexivity|]. discriminate.
Qed.

(** The theorem applied to the parsed ALAC test file and a buffer of two
    bytes. *)
Lemma m4aFileGetNextSample_ignores_capacity_witness :
  m4aFileGetNextSample (parsed alacFile) (mkBuffer 2 [])
  = (true, mkBuffer 2 [1; 2; 3], 3,
     snd (m4aFileGetNextSample (parsed alacFile) (mkBuffer 2 [])))
  /\ (3 = fst (read4ByteUnsignedInt32 (sizeStream (parsed alacFile)))
      /\ Z.of_nat (length [1; 2; 3]) = 3
      /\ (2 < 3 -> overrun (mkBuffer 2 [1; 2; 3]) = true)).
Proof.
  assert (E : m4aFileGetNextSample (parsed alacFile) (mkBuffer 2 [])
              = (true, mkBuffer 2 [1; 2; 3], 3,
                 snd (m4aFileGetNextSample (parsed alacFile) (mkBuffer 2 []))))
    by (vm_compute; reflexivity).
  split; [exact E|].
  exact (proj2 (proj2 (m4aFileGetNextSample_ignores_capacity _ _ _ _ _ _ E))
           eq_refl).
Defined.

(* ================================================================== *)
(** * The 64-bit duration of a version-1 header *)

(** A refused 64-bit duration makes [m4aFileReadDuration] return false
    with the status it found. *)
Lemma m4aFileReadDuration_refusal_keeps_status
    (m m1 : M4AFile) (boxType upper : Z) :
  m4aFileReadUnsignedLong m boxType = (true, upper, m1) ->
  upper <> 0 -> upper <> 0xffffffff ->
  m4aFileReadDuration m boxType 1 = (false, 0, m1).
Proof.
  intros E N0 N1. unfold m4aFileReadDuration. simpl. rewrite E. simpl.
  destruct (Z.eqb_spec upper 4294967295) as [->|_]; [contradiction|].
  destruct (Z.eqb_spec upper 0) as [->|_]; [contradiction|].
  reflexivity.
Qed.

(** C3.  A file with a version-1 [mdhd] box whose 64-bit duration has the
    upper half 0 parses with the lower half as duration; one whose two
    halves are 0xFFFFFFFF parses with the duration left unknown (zero); the
    file whose upper half is 1 is not ended with the status [Error]:
    [m4aFileParse] returns true, the status is [M4AFILE_OK] and no duration
    is stored. *)
Theorem m4aFileParse_version1_duration :
  (exists m, m4aFileParse 20 (m4aFileOpen zeroed (mdhd_v1 44100 0 5))
             = Ret (true, m) /\ duration m = 5)
  /\ (exists m,
         m4aFileParse 20
           (m4aFileOpen zeroed (mdhd_v1 44100 0xffffffff 0xffffffff))
         = Ret (true, m) /\ duration m = 0)
  /\ (exists m, m4aFileParse 20 (m4aFileOpen zeroed (mdhd_v1 44100 1 5))
                = Ret (true, m)
                /\ status m = M4AFILE_OK /\ duration m = 0).
Proof.
  split; [| split].
  - eexists. split; [vm_compute; reflexivity | reflexivity].
  - eexists. split; [vm_compute; reflexivity | reflexivity].
  - eexists. split; [vm_compute; reflexivity |]. split; reflexivity.
Qed.

(* ================================================================== *)
(** * The size bookkeeping of mp4BoxParse *)




(** A box of a type that the table does not list is booked with the 8
    bytes of its header. *)
Lemma mp4BoxParseDispatch_unknown (self : mp4BoxParserGeneric) (n : nat)
    (m : M4AFile) (boxType boxSize : Z) :
  fst (findBoxParser mp4BoxParserTable boxType) <> boxType ->
  mp4BoxParseDispatch self n m boxType boxSize = Ret (8, m).
Proof.
  intros H. unfold mp4BoxParseDispatch.
  destruct (findBoxParser mp4BoxParserTable boxType) as [entryType entryParser].
  simpl in H. destruct (Z.eqb_spec entryType boxType); [contradiction|].
  reflexivity.
Qed.

Lemma fseek_to_ok (s : FILE) (target : Z) :
  0 <= target < 2^63 ->
  fseek_to s target = (0, mkFILE (content s) target false (error_flag s)).
Proof.
  intros H. unfold fseek_to.
  destruct (Z.leb_spec 0 target); [|lia].
  destruct (Z.ltb_spec target (2^63)); [|lia].
  reflexivity.
Qed.

Lemma m4aFileSkipBytes_ok (m : M4AFile) (boxType byteCount : Z) :
  0 <= position (dataStream m) + byteCount < 2^63 ->
  m4aFileSkipBytes m boxType byteCount
  = (true,
     set_dataStream m
       (mkFILE (content (dataStream m)) (position (dataStream m) + byteCount)
          false (error_flag (dataStream m)))).
Proof.
  intros H. unfold m4aFileSkipBytes, fseek_CUR.
  rewrite fseek_to_ok by exact H. reflexivity.
Qed.









(* ================================================================== *)
(** * m4aFileSetSampleOffset *)

(** Unfolds the projections of the stream and file records. *)
Ltac projections :=
  cbn [position content eof_flag error_flag dataStream sizeStream dataOffset
       sizeOffset samplesCount set_dataStream set_sizeStream] in *.

(** Skipping [n] samples whose sizes lie inside the file succeeds and moves
    the size stream by [4 * n] bytes. *)
Lemma skipSamples_inside (n : nat) :
  forall m : M4AFile,
    0 <= position (sizeStream m) ->
    position (sizeStream m) + 4 * Z.of_nat n
    <= Z.of_nat (length (content (sizeStream m))) ->
    eof_flag (sizeStream m) = false ->
    error_flag (sizeStream m) = false ->
    0 <= position (dataStream m) ->
    position (dataStream m) + Z.of_nat n * 2^32 < 2^63 ->
    exists m',
      skipSamples n m = (true, m')
      /\ position (sizeStream m') = position (sizeStream m) + 4 * Z.of_nat n
      /\ sizeOffset m' = sizeOffset m.
Proof.
  induction n as [|n IH]; intros m Hp Hl He Hr Hd Hb.
  - exists m. simpl. repeat split; lia.
  - cbn [skipSamples].
    destruct (read4ByteUnsignedInt32_inside (sizeStream m)) as (v & Ev & Rv);
      [lia | lia |].
    rewrite Ev. cbn [sizeStream set_sizeStream].
    unfold didReadErrorOccur, feof, ferror. cbn [eof_flag error_flag].
    rewrite He, Hr. cbn [orb].
    unfold fseek_CUR. cbn [dataStream set_sizeStream].
    rewrite fseek_to_ok by lia.
    cbn [negb Z.eqb].
    edestruct IH as (m' & Es & Ps & Os); cycle 6.
    + exists m'. split; [exact Es|]. split.
      * rewrite Ps. projections. lia.
      * rewrite Os. reflexivity.
    + projections. lia.
    + projections. lia.
    + projections. reflexivity.
    + projections. reflexivity.
    + projections. lia.
    + projections. lia.
Qed.

(** C5.  The claim fails: on the parsed ALAC test file
    (44100 Hz, 3 samples) and a time offset of [2^42] seconds the quotient
    [timescale * seconds / 4096] is far beyond the number of samples, yet
    [m4aFileSetSampleOffset] returns true and positions the file at sample
    0: the quotient is converted to [uint32_t]. *)
Lemma m4aFileSetSampleOffset_large_offset_accepted :
  let m := parsed alacFile in
  let t := mkTimespec (2^42) 0 in
  samplesCount m <= timescale m * tv_sec t / 4096
  /\ exists m',
       m4aFileSetSampleOffset m t = (true, m')
       /\ m4aFileGetCurrentSampleIndex m' = 0.
Proof.
  split; [vm_compute; congruence|].
  eexists. split; [vm_compute; reflexivity | reflexivity].
Qed.

(** What the code does in general, and where the two parts of the claim
    hold.  For every M4AFile whose sample size table lies inside a file
    shorter than 4 GiB and every time offset [t] with [0 <= t.seconds] and
    [timescale * t.seconds < 2^63], let [q] be
    [timescale * t.seconds / 4096] converted to [uint32_t], that is taken
    modulo [2^32].  If [q < samplesCount], [m4aFileSetSampleOffset] returns
    true and [m4aFileGetCurrentSampleIndex] is [q] afterwards; if
    [q >= samplesCount] it returns false.  While the quotient is below
    [2^32] this [q] is the quotient of the claim. *)
Theorem m4aFileSetSampleOffset_spec :
  forall (m : M4AFile) (t : timespec),
    0 <= timescale m < 2^32 ->
    0 <= samplesCount m < 2^32 ->
    0 <= sizeOffset m < 2^32 ->
    0 <= dataOffset m < 2^32 ->
    sizeOffset m + 4 * samplesCount m
    <= Z.of_nat (length (content (sizeStream m))) < 2^32 ->
    error_flag (sizeStream m) = false ->
    0 <= tv_sec t ->
    timescale m * tv_sec t < 2^63 ->
    let q := (timescale m * tv_sec t / 4096) mod 2^32 in
    (q < samplesCount m ->
     exists m', m4aFileSetSampleOffset m t = (true, m')
                /\ m4aFileGetCurrentSampleIndex m' = q)
    /\ (samplesCount m <= q -> fst (m4aFileSetSampleOffset m t) = false).
Proof.
  intros m t Hts Hsc Hso Hdo Hlen Herr Ht Hprod q.
  assert (Hq : 0 <= q < 2^32) by (apply Z.mod_pos_bound; lia).
  assert (Eq : u32 (Z.quot (i64 (timescale m * tv_sec t))
                       DEFAULT_FRAMES_PER_PACKET) = q).
  { rewrite i64_small by nia. unfold DEFAULT_FRAMES_PER_PACKET.
    rewrite Z.quot_div_nonneg by nia. reflexivity. }
  unfold m4aFileSetSampleOffset. rewrite Eq. split.
  - intros Hlt.
    destruct (Z.geb_spec q (samplesCount m)) as [Hge|_]; [lia|].
    unfold fseek_SET. rewrite fseek_to_ok by lia. cbn [negb Z.eqb].
    projections. rewrite fseek_to_ok by lia.
    cbn [negb Z.eqb].
    edestruct (skipSamples_inside (Z.to_nat q)) as (m' & Es & Ps & Os);
      cycle 6.
    + exists m'. split; [exact Es|].
      unfold m4aFileGetCurrentSampleIndex, ftell.
      rewrite Ps, Os. projections. rewrite Z2Nat.id by lia.
      rewrite (u32_small (sizeOffset m + 4 * q)) by lia.
      replace (sizeOffset m + 4 * q - sizeOffset m) with (q * 4) by lia.
      rewrite u32_small by lia. apply Z.div_mul. lia.
    + projections. lia.
    + projections. rewrite Z2Nat.id by lia. lia.
    + projections. reflexivity.
    + projections. exact Herr.
    + projections. lia.
    + projections. rewrite Z2Nat.id by lia. nia.
  - intros Hge.
    destruct (Z.geb_spec q (samplesCount m)) as [_|Hlt]; [reflexivity | lia].
Qed.

(** The theorem applied to the parsed ALAC test file and an offset of one
    second: sample [44100 / 4096 = 10] is beyond the three samples of the
    file; an offset of zero seconds selects sample 0. *)
Lemma m4aFileSetSampleOffset_spec_witness :
  let m := parsed alacFile in
  (0 <= timescale m < 2^32
   /\ 0 <= samplesCount m < 2^32
   /\ 0 <= sizeOffset m < 2^32
   /\ 0 <= dataOffset m < 2^32
   /\ sizeOffset m + 4 * samplesCount m
      <= Z.of_nat (length (content (sizeStream m))) < 2^32
   /\ error_flag (sizeStream m) = false)
  /\ fst (m4aFileSetSampleOffset m (mkTimespec 1 0)) = false
  /\ exists m', m4aFileSetSampleOffset m (mkTimespec 0 0) = (true, m')
                /\ m4aFileGetCurrentSampleIndex m' = 0.
Proof.
  intros m.
  assert (H1 : 0 <= timescale m < 2^32) by (vm_compute; split; congruence).
  assert (H2 : 0 <= samplesCount m < 2^32) by (vm_compute; split; congruence).
  assert (H3 : 0 <= sizeOffset m < 2^32) by (vm_compute; split; congruence).
  assert (H4 : 0 <= dataOffset m < 2^32) by (vm_compute; split; congruence).
  assert (H5 : sizeOffset m + 4 * samplesCount m
               <= Z.of_nat (length (content (sizeStream m))) < 2^32)
    by (vm_compute; split; congruence).
  assert (H6 : error_flag (sizeStream m) = false) by reflexivity.
  split; [repeat split; try assumption; first [apply H1 | apply H2 | apply H3
                                               | apply H4 | apply H5]|].
  split.
  - apply (m4aFileSetSampleOffset_spec m (mkTimespec 1 0) H1 H2 H3 H4 H5 H6).
    + vm_compute. congruence.
    + vm_compute. reflexivity.
    + vm_compute. congruence.
  - apply (m4aFileSetSampleOffset_spec m (mkTimespec 0 0) H1 H2 H3 H4 H5 H6).
    + vm_compute. congruence.
    + vm_compute. reflexivity.
    + vm_compute. reflexivity.
Defined.

(* ================================================================== *)
(** * The audio messages

    The header of a message and the sample whose length field wraps.  The
    theorem on the messages of a call follows in the section on the audio
    frames, behind the lemmas on the reading of 32-bit numbers that its
    proof uses. *)




(* ================================================================== *)
(** * The authentication retry of rtspClientSendCommand *)

(** C1.  The first part of the claim at work and the second part failing:
    the peer answers the OPTIONS request with 401 and a Digest challenge, so
    the request is built again with an Authorization header and sent once
    more; the peer answers 401 again, and [rtspClientSendCommand] returns
    true, with [needAuthentication] still set and two requests sent. *)
Theorem rtspClientSendCommand_second_401_returns_true :
  exists (c0 c : RTSPClient) (raopClient : RAOPClient),
    rtspClientOpenConnection (scripted [challenge "1"; challenge "2"])
    = Some c0
    /\ rtspClientSendCommand c0 RTSP_METHOD_OPTIONS idle None
       = (true, c, raopClient)
    /\ needAuthentication c = true
    /\ incoming (networkConnection c) = []
    /\ map fst (sent (networkConnection c))
       = [ "OPTIONS * RTSP/1.0" +++ CRLF +++ "CSeq: 1" +++ CRLF +++ CRLF;
           "OPTIONS * RTSP/1.0" +++ CRLF +++ "CSeq: 2" +++ CRLF
           +++ "Authorization: Digest username=" +++ QUOTE +++ "iTunes"
           +++ QUOTE +++ ", realm=" +++ QUOTE +++ "AppleTV" +++ QUOTE
           +++ ", nonce=" +++ QUOTE +++ "abcdef" +++ QUOTE
           +++ ", uri=" +++ QUOTE +++ "rtsp://192.168.1.10/1" +++ QUOTE
           +++ ", response=" +++ QUOTE +++ "61FB2FBF1F264223B7CF0AC87E8B0AEF"
           +++ QUOTE +++ CRLF +++ CRLF ].
Proof.
  do 3 eexists. split; [vm_compute; reflexivity|].
  split; [vm_compute; reflexivity|].
  split; [reflexivity|]. split; [reflexivity|].
  vm_compute. reflexivity.
Qed.

(** With any other status outside 2xx the response to the repeated request
    ends the command with false: the same exchange with a second answer of
    403. *)
Lemma rtspClientSendCommand_403_after_retry_returns_false :
  exists (c0 c : RTSPClient) (raopClient : RAOPClient),
    rtspClientOpenConnection
      (scripted [challenge "1";
                 "RTSP/1.0 403 Forbidden" +++ CRLF +++ "CSeq: 2" +++ CRLF
                 +++ CRLF])
    = Some c0
    /\ rtspClientSendCommand c0 RTSP_METHOD_OPTIONS idle None
       = (false, c, raopClient).
Proof.
  do 3 eexists. split; [vm_compute; reflexivity | vm_compute; reflexivity].
Qed.
(* ================================================================== *)
(** * Strings *)

Lemma append_assoc (a b c : string) : (a +++ b) +++ c = a +++ (b +++ c).
Proof. induction a as [|x a IH]; simpl; [reflexivity | rewrite IH; reflexivity]. Qed.

Lemma append_nil_r (a : string) : a +++ "" = a.
Proof. induction a as [|x a IH]; simpl; [reflexivity | rewrite IH; reflexivity]. Qed.

Lemma length_append (a b : string) :
  String.length (a +++ b) = (String.length a + String.length b)%nat.
Proof. induction a as [|x a IH]; simpl; [reflexivity | rewrite IH; reflexivity]. Qed.

Lemma strlen_append (a b : string) : strlen (a +++ b) = strlen a + strlen b.
Proof. unfold strlen. rewrite length_append. lia. Qed.

Lemma strlen_nonneg (a : string) : 0 <= strlen a.
Proof. unfold strlen. lia. Qed.

Lemma substring_all (s : string) :
  forall n : nat, (String.length s <= n)%nat -> substring 0 n s = s.
Proof.
  induction s as [|x s IH]; intros n H.
  - destruct n; reflexivity.
  - destruct n as [|n]; simpl in H; [lia|].
    simpl. rewrite IH by lia. reflexivity.
Qed.

(** A text that fits is not cut. *)
Lemma take_all (n : Z) (s : string) : strlen s <= n -> take n s = s.
Proof. unfold strlen, take. intros H. apply substring_all. lia. Qed.

Lemma length_substring_le (s : string) :
  forall n : nat, (String.length (substring 0 n s) <= n)%nat.
Proof.
  induction s as [|x s IH]; intros n.
  - destruct n; simpl; lia.
  - destruct n as [|n]; simpl; [lia|]. specialize (IH n). lia.
Qed.

Lemma cstr_cons (a : ascii) (s : string) :
  a <> NUL -> cstr s = s -> cstr (String a s) = String a s.
Proof.
  intros Ha Hs. simpl. destruct (Ascii.eqb_spec a NUL) as [E|_];
    [contradiction|]. rewrite Hs. reflexivity.
Qed.

Lemma cstr_append (a b : string) :
  cstr a = a -> cstr b = b -> cstr (a +++ b) = a +++ b.
Proof.
  induction a as [|x a IH]; simpl; intros Ha Hb; [exact Hb|].
  destruct (Ascii.eqb x NUL); [discriminate|].
  injection Ha as Ha. rewrite IH by assumption. reflexivity.
Qed.

Lemma cstr_idempotent (s : string) : cstr (cstr s) = cstr s.
Proof.
  induction s as [|x s IH]; simpl; [reflexivity|].
  destruct (Ascii.eqb x NUL) eqn:E; [reflexivity|].
  simpl. rewrite E, IH. reflexivity.
Qed.

Lemma digit_char_not_NUL (d : Z) : 0 <= d < 36 -> digit_char d <> NUL.
Proof.
  intros H E. unfold digit_char, NUL in E.
  apply (f_equal N_of_ascii) in E.
  rewrite N_ascii_embedding in E.
  - change (N_of_ascii "000") with 0%N in E. destruct (d <? 10); lia.
  - destruct (d <? 10); apply N2Z.inj_lt; rewrite Z2N.id by lia;
      change (Z.of_N 256) with 256; lia.
Qed.

Lemma digits_S (fuel : nat) (base n : Z) (acc : string) :
  digits (S fuel) base n acc
  = if n / base =? 0 then String (digit_char (n mod base)) acc
    else digits fuel base (n / base) (String (digit_char (n mod base)) acc).
Proof. reflexivity. Qed.

Lemma digits_length_ge (base : Z) (fuel : nat) :
  forall (n : Z) (acc : string),
    (String.length acc <= String.length (digits fuel base n acc))%nat.
Proof.
  induction fuel as [|fuel IH]; intros n acc; [simpl; lia|].
  rewrite digits_S. destruct (n / base =? 0); [simpl; lia|].
  specialize (IH (n / base) (String (digit_char (n mod base)) acc)).
  simpl in IH. lia.
Qed.

Lemma digits_nonempty (fuel : nat) (base n : Z) :
  1 <= strlen (digits (S fuel) base n "").
Proof.
  rewrite digits_S. unfold strlen.
  destruct (n / base =? 0); [simpl; lia|].
  pose proof (digits_length_ge base fuel (n / base)
                (String (digit_char (n mod base)) "")) as H.
  simpl String.length in H. lia.
Qed.

(** The digits of a non-negative number hold no NUL. *)
Lemma digits_clean (base : Z) (fuel : nat) :
  2 <= base <= 36 ->
  forall (n : Z) (acc : string),
    0 <= n -> cstr acc = acc ->
    cstr (digits fuel base n acc) = digits fuel base n acc.
Proof.
  intros Hb. induction fuel as [|fuel IH]; intros n acc Hn Ha;
    [exact Ha|].
  rewrite digits_S.
  assert (Hc : cstr (String (digit_char (n mod base)) acc)
               = String (digit_char (n mod base)) acc).
  { apply cstr_cons; [|exact Ha]. apply digit_char_not_NUL.
    pose proof (Z.mod_pos_bound n base ltac:(lia)). lia. }
  destruct (n / base =? 0); [exact Hc|].
  apply IH; [apply Z.div_pos; lia | exact Hc].
Qed.

Lemma digits_length_le (fuel : nat) :
  forall (n : Z) (acc : string) (k : nat),
    (1 <= k)%nat -> 0 <= n < 10 ^ Z.of_nat k ->
    (String.length (digits fuel 10 n acc) <= String.length acc + k)%nat.
Proof.
  induction fuel as [|fuel IH]; intros n acc k Hk Hn; [simpl; lia|].
  rewrite digits_S. destruct (Z.eqb_spec (n / 10) 0) as [E|N]; [simpl; lia|].
  assert (H10 : 10 <= n).
  { destruct (Z.lt_ge_cases n 10) as [L|G]; [|exact G].
    rewrite Z.div_small in N by lia. contradiction. }
  destruct k as [|[|k]]; [lia | simpl in Hn; lia |].
  specialize (IH (n / 10) (String (digit_char (n mod 10)) acc) (S k)
                ltac:(lia)).
  simpl String.length in IH.
  assert (Hd : 0 <= n / 10 < 10 ^ Z.of_nat (S k)).
  { split; [apply Z.div_pos; lia|].
    apply Z.div_lt_upper_bound; [lia|].
    replace (Z.of_nat (S (S k))) with (Z.of_nat (S k) + 1) in Hn by lia.
    rewrite Z.pow_add_r in Hn by lia. lia. }
  specialize (IH Hd). lia.
Qed.

(** The decimal text of a [uint32_t]: between 1 and 10 characters, no NUL;
    [snprintf] into 11 bytes and [%s] leave it as it is. *)
Lemma print_u_u32 (v : Z) :
  0 <= v < 2^32 ->
  1 <= strlen (print_u v)
  /\ cstr (snprintf MAX_NUMBER_STRING_SIZE (print_u v)) = print_u v.
Proof.
  intros Hv. unfold print_u. split.
  - apply digits_nonempty.
  - unfold snprintf, MAX_NUMBER_STRING_SIZE.
    rewrite take_all.
    + apply digits_clean; [lia | lia | reflexivity].
    + unfold strlen.
      pose proof (digits_length_le 64 v "" 10 ltac:(lia)) as H.
      assert (Hb : 0 <= v < 10 ^ Z.of_nat 10)
        by (change (10 ^ Z.of_nat 10) with 10000000000; lia).
      specialize (H Hb). change (String.length "") with 0%nat in H. lia.
Qed.

(* ================================================================== *)
(** * The sequence numbers of a session *)

Lemma u32_succ (a : Z) : u32 (u32 a + 1) = u32 (a + 1).
Proof. unfold u32. apply Z.add_mod_idemp_l. lia. Qed.

Lemma print_X_nonempty (v : Z) : 1 <= strlen (print_X v).
Proof. unfold print_X. apply digits_nonempty. Qed.

(** Adding a field keeps the fields that are there. *)
Lemma rtspRequestAddHeaderField_headed (v : Z) (r : RTSPRequest)
    (name value : string) :
  headedByCSeq v r ->
  exists r',
    rtspRequestAddHeaderField r name value = (true, r')
    /\ headedByCSeq v r' /\ requestMethod r' = requestMethod r.
Proof.
  intros [rest H]. unfold rtspRequestAddHeaderField. rewrite H.
  eexists. split; [reflexivity|]. split; [|reflexivity].
  exists (rest +++ cstr name +++ ": " +++ cstr value +++ CRLF).
  cbn [headerBuffer]. f_equal.
  rewrite !append_assoc. reflexivity.
Qed.

Lemma rtspRequestSetContent_headed (v : Z) (r : RTSPRequest)
    (content contentType : string) (contentSize : Z) :
  headedByCSeq v r ->
  exists r',
    rtspRequestSetContent r content contentSize contentType = (true, r')
    /\ headedByCSeq v r' /\ requestMethod r' = requestMethod r.
Proof.
  intros H. unfold rtspRequestSetContent.
  destruct (rtspRequestAddHeaderField_headed v r "Content-Type" contentType H)
    as (r1 & E1 & H1 & M1).
  rewrite E1. cbn [negb].
  destruct (rtspRequestAddHeaderField_headed v r1 "Content-Length"
              (print_u contentSize) H1) as (r2 & E2 & H2 & M2).
  rewrite E2. cbn [negb].
  eexists. split; [reflexivity|]. split.
  - destruct H2 as [rest H2]. exists rest. exact H2.
  - cbn [requestMethod]. congruence.
Qed.

(** The effect of [addField] on a client whose request carries the CSeq
    field. *)
Lemma addField_headed (v : Z) (c : RTSPClient) (r : RTSPRequest)
    (name value : string) :
  rtspRequest c = Some r -> headedByCSeq v r ->
  exists r',
    addField c name value = (true, set_request c r')
    /\ headedByCSeq v r' /\ requestMethod r' = requestMethod r.
Proof.
  intros Er H. unfold addField, currentRequest. rewrite Er.
  destruct (rtspRequestAddHeaderField_headed v r name value H)
    as (r' & E & H' & M).
  rewrite E. exists r'. repeat split; assumption.
Qed.

(** The general supplier on a request that was just created or reset. *)
Lemma general_supplier_headed (c : RTSPClient) (r : RTSPRequest) :
  rtspRequest c = Some r ->
  headerBuffer r = None \/ headerBuffer r = Some "" ->
  exists r',
    rtspClientClientGeneralHeaderFieldsSupplier c
    = (true, set_request (set_sequenceNumber c (u32 (sequenceNumber c + 1)))
               r')
    /\ headedByCSeq (u32 (sequenceNumber c + 1)) r'
    /\ requestMethod r' = requestMethod r.
Proof.
  intros Er Hh. unfold rtspClientClientGeneralHeaderFieldsSupplier.
  cbn [sequenceNumber set_sequenceNumber].
  destruct (print_u_u32 (u32 (sequenceNumber c + 1)) (u32_range _))
    as [Hlen Hclean].
  destruct (Z.ltb_spec (strlen (print_u (u32 (sequenceNumber c + 1)))) 1);
    [lia|].
  unfold rtspRequestAddHeaderField, currentRequest.
  cbn [rtspRequest set_sequenceNumber]. rewrite Er.
  eexists. split; [reflexivity|]. split; [|reflexivity].
  exists "". cbn [headerBuffer]. rewrite Hclean.
  destruct Hh as [-> | ->]; f_equal; cbn [append cstr Ascii.eqb];
    rewrite append_nil_r; reflexivity.
Qed.

Ltac next_field v :=
  match goal with
  | |- context [addField ?c ?name ?value] =>
      let r := fresh "r" in
      let E := fresh "E" in
      let H := fresh "H" in
      let M := fresh "M" in
      let P := fresh "P" in
      pose proof (fun r0 => addField_headed v c r0 name value) as P;
      edestruct P as (r & E & H & M);
      [reflexivity | eassumption | clear P; rewrite E; clear E; cbn [negb]]
  end.

Lemma headerFieldsSupplierTable_headed (requestMethod0 : RTSPRequestMethod)
    (c : RTSPClient) (r : RTSPRequest) :
  rtspRequest c = Some r ->
  headerBuffer r = None \/ headerBuffer r = Some "" ->
  exists r',
    headerFieldsSupplierTable requestMethod0 c
    = (true, set_request (set_sequenceNumber c (u32 (sequenceNumber c + 1)))
               r')
    /\ headedByCSeq (u32 (sequenceNumber c + 1)) r'
    /\ requestMethod r' = requestMethod r.
Proof.
  intros Er Hh.
  destruct (general_supplier_headed c r Er Hh) as (r1 & E1 & H1 & M1).
  set (v := u32 (sequenceNumber c + 1)) in *.
  destruct requestMethod0; cbn [headerFieldsSupplierTable];
    unfold rtspClientOptionsHeaderFieldsSupplier,
      rtspClientAnnounceHeaderFieldsSupplier,
      rtspClientSetupHeaderFieldsSupplier,
      rtspClientRecordHeaderFieldsSupplier,
      rtspClientSetParameterHeaderFieldsSupplier,
      rtspClientFlushHeaderFieldsSupplier,
      rtspClientTeardownHeaderFieldsSupplier;
    rewrite E1; cbn [negb];
    repeat match goal with
           | |- context [strlen (print_X ?s) <? 1] =>
               destruct (Z.ltb_spec (strlen (print_X s)) 1);
               [pose proof (print_X_nonempty s); lia|]
           end;
    repeat next_field v;
    eexists; (split; [reflexivity|]); split;
      first [assumption | congruence].
Qed.

(** [rtspClientAddAuthenticationFields] leaves the CSeq field, the sequence
    number, the URL and the connection as they are. *)
Lemma rtspClientAddAuthenticationFields_headed (v : Z) (c : RTSPClient)
    (r : RTSPRequest) :
  rtspRequest c = Some r -> headedByCSeq v r ->
  exists r',
    rtspRequest (snd (rtspClientAddAuthenticationFields c)) = Some r'
    /\ headedByCSeq v r' /\ requestMethod r' = requestMethod r
    /\ url (snd (rtspClientAddAuthenticationFields c)) = url c
    /\ sequenceNumber (snd (rtspClientAddAuthenticationFields c))
       = sequenceNumber c
    /\ networkConnection (snd (rtspClientAddAuthenticationFields c))
       = networkConnection c.
Proof.
  intros Er H. unfold rtspClientAddAuthenticationFields.
  assert (Hkeep : exists r', rtspRequest c = Some r' /\ headedByCSeq v r'
                             /\ requestMethod r' = requestMethod r)
    by (exists r; repeat split; assumption).
  assert (Hadd : forall c2 : RTSPClient,
             rtspRequest c2 = Some r -> url c2 = url c ->
             sequenceNumber c2 = sequenceNumber c ->
             networkConnection c2 = networkConnection c ->
             let res :=
               (let '(ok, r0) :=
                  rtspRequestAddHeaderField (currentRequest c2) "Authorization"
                    (authenticationValue
                       (rtspRequestGetMethodName (currentRequest c2))
                       (url c2) (realm c2) (nonce c2)) in
                if negb ok then (false, set_request c2 r0)
                else (true, set_request c2 r0)) in
             exists r',
               rtspRequest (snd res) = Some r'
               /\ headedByCSeq v r' /\ requestMethod r' = requestMethod r
               /\ url (snd res) = url c
               /\ sequenceNumber (snd res) = sequenceNumber c
               /\ networkConnection (snd res) = networkConnection c).
  { intros c2 E2 U2 S2 N2. unfold currentRequest. rewrite E2.
    destruct (rtspRequestAddHeaderField_headed v r "Authorization"
                (authenticationValue (rtspRequestGetMethodName r) (url c2)
                   (realm c2) (nonce c2)) H) as (r' & E & H' & M).
    cbn zeta. rewrite E. cbn [negb snd]. exists r'.
    repeat split; assumption. }
  destruct ((realmSize c =? 0) || (nonceSize c =? 0)).
  - destruct (rtspResponse c) as [response|].
    + destruct (rtspResponseGetAuthenticationResponse response MAX_REALM_SIZE
                  MAX_NONCE_SIZE) as [[rl nc]|].
      * apply (Hadd (set_realm_nonce c rl nc)); first [exact Er | reflexivity].
      * cbn [snd]. destruct Hkeep as (r' & E' & H' & M').
        exists r'. repeat split; assumption.
    + cbn [snd]. destruct Hkeep as (r' & E' & H' & M').
      exists r'. repeat split; assumption.
  - apply (Hadd c); first [exact Er | reflexivity].
Qed.

(** [rtspClientAddHeaderFields] on a request that was just created or
    reset. *)
Lemma rtspClientAddHeaderFields_headed (requestMethod0 : RTSPRequestMethod)
    (c : RTSPClient) (r : RTSPRequest) :
  rtspRequest c = Some r ->
  headerBuffer r = None \/ headerBuffer r = Some "" ->
  exists c' r',
    rtspClientAddHeaderFields c requestMethod0 = (true, c')
    /\ rtspRequest c' = Some r'
    /\ headedByCSeq (u32 (sequenceNumber c + 1)) r'
    /\ requestMethod r' = requestMethod r
    /\ url c' = url c
    /\ sequenceNumber c' = u32 (sequenceNumber c + 1)
    /\ networkConnection c' = networkConnection c.
Proof.
  intros Er Hh. unfold rtspClientAddHeaderFields.
  destruct (headerFieldsSupplierTable_headed requestMethod0 c r Er Hh)
    as (r1 & E1 & H1 & M1).
  rewrite E1. cbn [negb].
  set (c1 := set_request (set_sequenceNumber c (u32 (sequenceNumber c + 1)))
               r1).
  destruct (needAuthentication c1
            || (realmSize c1 >? 0) && (nonceSize c1 >? 0)).
  - destruct (rtspClientAddAuthenticationFields_headed _ c1 r1 eq_refl H1)
      as (r2 & E2 & H2 & M2 & U2 & S2 & N2).
    eexists. exists r2. split; [reflexivity|].
    rewrite U2, S2, N2. repeat split; first [assumption | congruence].
  - eexists. exists r1. split; [reflexivity|].
    repeat split; assumption.
Qed.

(** The content suppliers of raopclient.c succeed and add their fields
    behind the CSeq field. *)
Lemma supplierOf_headed (v : Z) (content : Content)
    (supplier : ContentSupplier) (raopClient : RAOPClient) (c : RTSPClient)
    (r : RTSPRequest) :
  supplierOf content = Some supplier ->
  namesFit (networkConnection c) -> headedByCSeq v r ->
  exists r',
    supplier raopClient c r = (true, r')
    /\ headedByCSeq v r' /\ requestMethod r' = requestMethod r.
Proof.
  intros Es [Hl Hr] H.
  destruct content; cbn [supplierOf] in Es; inversion Es; subst supplier.
  - unfold raopClientAnnounceContentSupplier, rtspClientGetLocalAddressName,
      rtspClientGetRemoteAddressName, networkGetLocalAddressName,
      networkGetRemoteAddressName, networkGetAddressName.
    destruct (Z.leb_spec (strlen (cstr (localAddressName (networkConnection c)))
                          + 1) MAX_ADDR_STRING_LENGTH); [|lia].
    destruct (Z.leb_spec (strlen (cstr (remoteAddressName (networkConnection c)))
                          + 1) MAX_ADDR_STRING_LENGTH); [|lia].
    cbn [negb]. apply rtspRequestSetContent_headed. exact H.
  - unfold raopClientSetVolumeContentSupplier.
    apply rtspRequestSetContent_headed. exact H.
Qed.

Lemma METHOD_NAMES_length (requestMethod0 : RTSPRequestMethod) :
  strlen (METHOD_NAMES requestMethod0) <= MAX_COMMAND_STRING_SIZE.
Proof. destruct requestMethod0; vm_compute; discriminate. Qed.

(** The message that [rtspRequestSend] hands to the connection; the request
    line always fits into the room reserved for it. *)
Lemma rtspRequestSend_message (r : RTSPRequest) (u : string)
    (n : NetworkConnection string) :
  strlen (cstr u) <= MAX_URL_STRING_SIZE - 1 ->
  rtspRequestSend r u n
  = networkSendMessage n
      (requestLine (requestMethod r) u
       +++ match headerBuffer r with Some h => h | None => "" end
       +++ CRLF
       +++ match contentBuffer r with
           | Some b => take (contentBufferSize r) b
           | None => ""
           end).
Proof.
  intros Hu. unfold rtspRequestSend, requestLine.
  set (line := METHOD_NAMES (requestMethod r) +++ " "
     +++ (if method_is_options (requestMethod r) then "*" else cstr u)
     +++ " RTSP/1.0" +++ CRLF).
  assert (Hline : strlen line <= 12 + MAX_COMMAND_STRING_SIZE
                                 + MAX_URL_STRING_SIZE).
  { subst line. rewrite !strlen_append.
    pose proof (METHOD_NAMES_length (requestMethod r)) as Hm.
    change (strlen " ") with 1. change (strlen " RTSP/1.0") with 9.
    change (strlen CRLF) with 2.
    assert (strlen (if method_is_options (requestMethod r)
                    then "*" else cstr u) <= MAX_URL_STRING_SIZE - 1).
    { destruct (method_is_options (requestMethod r)); [vm_compute; discriminate
                                                      | exact Hu]. }
    lia. }
  match goal with
  | |- context [?a >? ?b] => destruct (Z.gtb_spec a b) as [Hgt|Hle]
  end; [lia|].
  reflexivity.
Qed.

(** [rtspRequestSend] on a request whose header starts with the CSeq
    field. *)
Lemma rtspRequestSend_headed (v : Z) (r : RTSPRequest) (u : string)
    (n : NetworkConnection string) :
  strlen (cstr u) <= MAX_URL_STRING_SIZE - 1 -> headedByCSeq v r ->
  exists message : string,
    rtspRequestSend r u n = networkSendMessage n message
    /\ carriesCSeq v u message.
Proof.
  intros Hu [rest H]. rewrite (rtspRequestSend_message r u n Hu).
  eexists. split; [reflexivity|].
  exists (requestMethod r). eexists.
  rewrite H, !append_assoc. reflexivity.
Qed.

(** The invariant after one more message was handed to the connection. *)
Lemma sessionInvariant_step (u : string) (c c' : RTSPClient)
    (message : string) (result : bool) :
  sessionInvariant u c ->
  url c' = url c ->
  sequenceNumber c' = u32 (sequenceNumber c + 1) ->
  networkConnection c'
  = snd (networkSendMessage (networkConnection c) message) ->
  carriesCSeq (u32 (sequenceNumber c + 1)) u message ->
  sessionInvariant u c'.
Proof.
  intros (Hu & Hlen & Hfit & Hseq & Hall) U S N Hm.
  unfold sessionInvariant. rewrite U, S, N.
  unfold networkSendMessage. cbn [snd sent].
  split; [exact Hu|]. split; [exact Hlen|]. split; [exact Hfit|]. split.
  - rewrite Hseq, u32_succ, length_app. cbn [length]. f_equal. lia.
  - intros k message0 result0 Hk.
    destruct (Nat.lt_ge_cases k (length (sent (networkConnection c))))
      as [Hlt|Hge].
    + rewrite nth_error_app1 in Hk by exact Hlt.
      exact (Hall k message0 result0 Hk).
    + rewrite nth_error_app2 in Hk by exact Hge.
      destruct (k - length (sent (networkConnection c)))%nat as [|j] eqn:Ej.
      * cbn [nth_error] in Hk. inversion Hk; subst message0.
        replace (u32 (Z.of_nat k + 1)) with (u32 (sequenceNumber c + 1));
          [exact Hm|].
        rewrite Hseq, u32_succ. f_equal. lia.
      * cbn [nth_error] in Hk. destruct j; discriminate Hk.
Qed.

(** The invariant does not look at the request, the response, the session
    identifier, the authentication data or the script of the peer. *)
Lemma sessionInvariant_ext (u : string) (c c' : RTSPClient) :
  sessionInvariant u c ->
  url c' = url c ->
  sequenceNumber c' = sequenceNumber c ->
  sent (networkConnection c') = sent (networkConnection c) ->
  localAddressName (networkConnection c')
  = localAddressName (networkConnection c) ->
  remoteAddressName (networkConnection c')
  = remoteAddressName (networkConnection c) ->
  sessionInvariant u c'.
Proof.
  intros (Hu & Hlen & Hfit & Hseq & Hall) U S N L R.
  unfold sessionInvariant, namesFit in *. rewrite U, S, N, L, R.
  repeat split; tauto.
Qed.

(** [rtspClientSendRequest] hands exactly one message to the connection,
    whatever the method and the content supplier. *)
Lemma rtspClientSendRequest_session (u : string) (c : RTSPClient)
    (requestMethod0 : RTSPRequestMethod) (raopClient : RAOPClient)
    (content : Content) :
  sessionInvariant u c ->
  exists (ok : bool) (c' : RTSPClient) (message : string) (result : bool),
    rtspClientSendRequest c requestMethod0 raopClient (supplierOf content)
    = (ok, c')
    /\ sent (networkConnection c')
       = sent (networkConnection c) ++ [(message, result)]
    /\ carriesCSeq (u32 (sequenceNumber c + 1)) u message
    /\ sessionInvariant u c'.
Proof.
  intros Hinv. pose proof Hinv as (Hu & Hlen & Hfit & Hseq & Hall).
  unfold rtspClientSendRequest.
  assert (Hfresh : exists r0,
             match rtspRequest c with
             | None => (true, rtspRequestCreate requestMethod0)
             | Some r => rtspRequestReset r requestMethod0
             end = (true, r0)
             /\ (headerBuffer r0 = None \/ headerBuffer r0 = Some "")).
  { destruct (rtspRequest c) as [r|].
    - eexists. split; [reflexivity|]. cbn [headerBuffer].
      destruct (headerBuffer r); [right|left]; reflexivity.
    - eexists. split; [reflexivity|]. left. reflexivity. }
  destruct Hfresh as (r0 & -> & Hh). cbn [negb].
  destruct (rtspClientAddHeaderFields_headed requestMethod0 (set_request c r0)
              r0 eq_refl Hh) as (c2 & r2 & E2 & Er2 & H2 & M2 & U2 & S2 & N2).
  rewrite E2. cbn [negb].
  cbn [url sequenceNumber networkConnection set_request] in H2, U2, S2, N2.
  assert (Hcontent : exists c3 r3,
             match supplierOf content with
             | Some supplier =>
                 let '(ok, r) := supplier raopClient c2 (currentRequest c2) in
                 (ok, set_request c2 r)
             | None => (true, c2)
             end = (true, c3)
             /\ rtspRequest c3 = Some r3
             /\ headedByCSeq (u32 (sequenceNumber c + 1)) r3
             /\ url c3 = url c
             /\ sequenceNumber c3 = u32 (sequenceNumber c + 1)
             /\ networkConnection c3 = networkConnection c).
  { destruct (supplierOf content) as [supplier|] eqn:Es.
    - unfold currentRequest. rewrite Er2.
      destruct (supplierOf_headed (u32 (sequenceNumber c + 1)) content supplier
                  raopClient c2 r2 Es) as (r3 & E3 & H3 & M3);
        [rewrite N2; exact Hfit | exact H2 |].
      rewrite E3. eexists. exists r3. split; [reflexivity|].
      cbn [rtspRequest url sequenceNumber networkConnection set_request].
      repeat split; assumption.
    - exists c2, r2. repeat split; assumption. }
  destruct Hcontent as (c3 & r3 & -> & Er3 & H3 & U3 & S3 & N3). cbn [negb].
  unfold currentRequest. rewrite Er3, N3, U3, Hu.
  destruct (rtspRequestSend_headed (u32 (sequenceNumber c + 1)) r3 u
              (networkConnection c) Hlen H3) as (message & Es & Hm).
  rewrite Es.
  destruct (networkSendMessage (networkConnection c) message)
    as [result n'] eqn:En.
  assert (Hn' : n' = snd (networkSendMessage (networkConnection c) message))
    by (rewrite En; reflexivity).
  assert (Hsent : sent n'
                  = sent (networkConnection c)
                    ++ [(message, fst (networkSendMessage
                                         (networkConnection c) message))]).
  { rewrite Hn'. reflexivity. }
  assert (Hstep : sessionInvariant u (set_connection c3 n')).
  { apply (sessionInvariant_step u c (set_connection c3 n') message result Hinv);
      cbn [url sequenceNumber networkConnection set_connection];
      first [assumption | congruence]. }
  exists (if negb result then false else true), (set_connection c3 n'),
    message. eexists.
  split; [destruct result; reflexivity|].
  split; [exact Hsent|]. split; assumption.
Qed.

(** Receiving touches the script of the peer only. *)
Lemma networkReceiveMessage_outbound (n : NetworkConnection string)
    (maxMessageSize : Z) :
  sent (snd (networkReceiveMessage n maxMessageSize)) = sent n
  /\ localAddressName (snd (networkReceiveMessage n maxMessageSize))
     = localAddressName n
  /\ remoteAddressName (snd (networkReceiveMessage n maxMessageSize))
     = remoteAddressName n.
Proof.
  unfold networkReceiveMessage.
  destruct (incoming n) as [|[data|] rest];
    [| destruct (strlen data <=? maxMessageSize) |];
    cbn [snd sent localAddressName remoteAddressName]; repeat split.
Qed.

Lemma receiveLoop_outbound (fuel : nat) :
  forall (buffer : string) (maxSize : Z) (n : NetworkConnection string),
    sent (snd (receiveLoop fuel buffer maxSize n)) = sent n
    /\ localAddressName (snd (receiveLoop fuel buffer maxSize n))
       = localAddressName n
    /\ remoteAddressName (snd (receiveLoop fuel buffer maxSize n))
       = remoteAddressName n.
Proof.
  induction fuel as [|k IH]; intros buffer maxSize n; cbn [receiveLoop];
    pose proof (networkReceiveMessage_outbound n
                  (bufferMakeRoom maxSize (strlen buffer)
                     RESPONSE_BUFFER_INCREMENT_SIZE
                     RESPONSE_BUFFER_INCREMENT_SIZE)) as Hn;
    destruct (networkReceiveMessage n _) as [[ok data] n'];
    cbn [snd] in Hn; destruct ok; cbn [negb snd]; try exact Hn;
    destruct ((strlen (buffer +++ data) =? _) && networkIsMessageAvailable n');
    cbn [snd]; try exact Hn.
  destruct (IH (buffer +++ data)
              (bufferMakeRoom maxSize (strlen buffer)
                 RESPONSE_BUFFER_INCREMENT_SIZE RESPONSE_BUFFER_INCREMENT_SIZE)
              n') as (Hs & Hl & Hr).
  destruct Hn as (Hs' & Hl' & Hr').
  rewrite Hs, Hl, Hr. repeat split; assumption.
Qed.

Lemma rtspResponseReceive_outbound (r : RTSPResponse)
    (n : NetworkConnection string) :
  sent (snd (rtspResponseReceive r n)) = sent n
  /\ localAddressName (snd (rtspResponseReceive r n)) = localAddressName n
  /\ remoteAddressName (snd (rtspResponseReceive r n)) = remoteAddressName n.
Proof.
  unfold rtspResponseReceive.
  match goal with
  | |- context [receiveLoop ?f ?b ?m n] =>
      pose proof (receiveLoop_outbound f b m n) as H;
      destruct (receiveLoop f b m n) as [[[ok buffer] maxSize] n']
  end.
  exact H.
Qed.

(** [rtspClientReceiveResponse] sends nothing and keeps the sequence
    number. *)
Lemma rtspClientReceiveResponse_session (u : string) (c : RTSPClient) :
  sessionInvariant u c ->
  sessionInvariant u (snd (rtspClientReceiveResponse c))
  /\ sent (networkConnection (snd (rtspClientReceiveResponse c)))
     = sent (networkConnection c).
Proof.
  intros Hinv. unfold rtspClientReceiveResponse.
  match goal with
  | |- context [rtspResponseReceive ?r ?n] =>
      pose proof (rtspResponseReceive_outbound r n) as (Hs & Hl & Hr);
      destruct (rtspResponseReceive r n) as [[ok response] n']
  end.
  cbn [snd] in Hs, Hl, Hr.
  assert (Hinv' : forall c' : RTSPClient,
             url c' = url c -> sequenceNumber c' = sequenceNumber c ->
             networkConnection c' = n' ->
             sessionInvariant u c'
             /\ sent (networkConnection c') = sent (networkConnection c)).
  { intros c' U S N. split; [|rewrite N; exact Hs].
    apply (sessionInvariant_ext u c c' Hinv U S); rewrite N; assumption. }
  destruct ok; cbn [negb]; [|apply Hinv'; reflexivity].
  destruct (rtspResponseGetStatus response) as [ok status].
  destruct ok; cbn [negb]; [|apply Hinv'; reflexivity].
  destruct (status =? 200); cbn [negb]; [apply Hinv'; reflexivity|].
  destruct ((status >? 200) && (status <? 300)); [apply Hinv'; reflexivity|].
  destruct (status =? RTSP_RESPONSE_NEED_AUTHENTICATION); cbn [negb];
    apply Hinv'; reflexivity.
Qed.

(** [rtspClientSendCommand] keeps the invariant and sends at least one
    message; the repeated request of the authentication is one more message
    of the same numbering. *)
Lemma rtspClientSendCommand_session (u : string) (c : RTSPClient)
    (requestMethod0 : RTSPRequestMethod) (raopClient : RAOPClient)
    (content : Content) :
  sessionInvariant u c ->
  sessionInvariant u
    (snd (fst (rtspClientSendCommand c requestMethod0 raopClient
                 (supplierOf content))))
  /\ (length (sent (networkConnection c))
      < length (sent (networkConnection
          (snd (fst (rtspClientSendCommand c requestMethod0 raopClient
                       (supplierOf content)))))))%nat.
Proof.
  intros Hinv. unfold rtspClientSendCommand.
  destruct (rtspClientSendRequest_session u c requestMethod0 raopClient content
              Hinv) as (ok1 & c1 & m1 & res1 & E1 & Hs1 & _ & Hinv1).
  rewrite E1.
  assert (Hl1 : (length (sent (networkConnection c))
                 < length (sent (networkConnection c1)))%nat)
    by (rewrite Hs1, length_app; cbn [length]; lia).
  destruct ok1; cbn [negb fst snd]; [|split; assumption].
  destruct (rtspClientReceiveResponse_session u c1 Hinv1) as [Hinv2 Hs2].
  destruct (rtspClientReceiveResponse c1) as [ok2 c2].
  cbn [snd] in Hinv2, Hs2.
  assert (Hl2 : (length (sent (networkConnection c))
                 < length (sent (networkConnection c2)))%nat)
    by (rewrite Hs2; exact Hl1).
  destruct ok2; cbn [negb fst snd]; [|split; assumption].
  assert (Htail : forall c' : RTSPClient,
    sessionInvariant u c' ->
    (length (sent (networkConnection c))
     < length (sent (networkConnection c')))%nat ->
    let res :=
      (let response := match rtspResponse c' with
                       | Some r => r
                       | None => rtspResponseCreate
                       end in
       let '(ok, _) := rtspResponseGetSequenceNumber response in
       if negb ok then (false, c', raopClient) else
       if method_is_setup requestMethod0 then
         let '(ok, uint32Value) := rtspResponseGetSession response in
         if negb ok then (false, c', raopClient) else
         let c'' := set_sessionId c' uint32Value in
         let '(ok, int16Value) := rtspResponseGetServerPort response in
         if negb ok then (false, c'', raopClient) else
         let '(_, raopClient') := raopClientSetAudioPort raopClient int16Value in
         (true, c'', raopClient')
       else (true, c', raopClient)) in
    sessionInvariant u (snd (fst res))
    /\ (length (sent (networkConnection c))
        < length (sent (networkConnection (snd (fst res)))))%nat).
  { intros c' Hinv' Hl'. cbn zeta.
    destruct (rtspResponseGetSequenceNumber _) as [ok ?].
    destruct ok; cbn [negb fst snd]; [|split; assumption].
    destruct (method_is_setup requestMethod0); [|split; assumption].
    destruct (rtspResponseGetSession _) as [ok v].
    destruct ok; cbn [negb fst snd]; [|split; assumption].
    assert (Hset : sessionInvariant u (set_sessionId c' v))
      by (apply (sessionInvariant_ext u c' _ Hinv'); reflexivity).
    destruct (rtspResponseGetServerPort _) as [ok p].
    destruct ok; cbn [negb fst snd]; [|split; assumption].
    destruct (raopClientSetAudioPort raopClient p) as [? raopClient'].
    cbn [fst snd]. split; assumption. }
  destruct (needAuthentication c2).
  - destruct (rtspClientSendRequest_session u c2 requestMethod0 raopClient
                content Hinv2) as (ok3 & c3 & m3 & res3 & E3 & Hs3 & _ & Hinv3).
    rewrite E3.
    assert (Hl3 : (length (sent (networkConnection c))
                   < length (sent (networkConnection c3)))%nat)
      by (rewrite Hs3, length_app; cbn [length]; lia).
    destruct ok3; cbn [negb fst snd]; [|split; assumption].
    destruct (rtspClientReceiveResponse_session u c3 Hinv3) as [Hinv4 Hs4].
    destruct (rtspClientReceiveResponse c3) as [ok4 c4].
    cbn [snd] in Hinv4, Hs4.
    assert (Hl4 : (length (sent (networkConnection c))
                   < length (sent (networkConnection c4)))%nat)
      by (rewrite Hs4; exact Hl3).
    destruct ok4; cbn [negb fst snd]; [|split; assumption].
    exact (Htail c4 Hinv4 Hl4).
  - cbn [negb]. exact (Htail c2 Hinv2 Hl2).
Qed.

(** A session keeps the invariant and sends at least one message for each
    command. *)
Lemma runCommands_session (u : string)
    (commands : list (RTSPRequestMethod * Content)) :
  forall (c : RTSPClient) (raopClient : RAOPClient),
    sessionInvariant u c ->
    sessionInvariant u (fst (runCommands commands c raopClient))
    /\ (length (sent (networkConnection c)) + length commands
        <= length (sent (networkConnection
                           (fst (runCommands commands c raopClient)))))%nat.
Proof.
  induction commands as [|[requestMethod0 content] rest IH];
    intros c raopClient Hinv; cbn [runCommands length].
  - cbn [fst]. split; [exact Hinv | lia].
  - destruct (rtspClientSendCommand_session u c requestMethod0 raopClient
                content Hinv) as [Hinv' Hl].
    destruct (rtspClientSendCommand c requestMethod0 raopClient
                (supplierOf content)) as [[ok c'] raopClient'].
    cbn [fst snd] in Hinv', Hl.
    destruct (IH c' raopClient' Hinv') as [Hinv'' Hl''].
    split; [exact Hinv'' | lia].
Qed.

Lemma strlen_cstr_le (s : string) : strlen (cstr s) <= strlen s.
Proof.
  unfold strlen. induction s as [|x s IH]; cbn [cstr]; [lia|].
  destruct (Ascii.eqb x NUL); cbn [String.length]; lia.
Qed.

(** The client that [rtspClientOpenConnection] returns starts a session. *)
Lemma rtspClientOpenConnection_session (n : NetworkConnection string)
    (c : RTSPClient) :
  sent n = [] -> namesFit n -> rtspClientOpenConnection n = Some c ->
  sessionInvariant (url c) c /\ networkConnection c = n.
Proof.
  intros Hs Hfit. unfold rtspClientOpenConnection, networkGetRemoteAddressName,
    networkGetAddressName.
  pose proof Hfit as [_ Hr].
  destruct (Z.leb_spec (strlen (cstr (remoteAddressName n)) + 1)
              MAX_ADDR_STRING_LENGTH); [|lia].
  cbn [negb].
  match goal with
  | |- Some (mkClient n ?x _ _ _ _ _ _ _) = Some c -> _ =>
      remember x as u0 eqn:Hu0
  end.
  intros [= <-]. split; [|reflexivity].
  unfold sessionInvariant. cbn [url networkConnection sequenceNumber].
  rewrite Hs. split; [reflexivity|]. split.
  - subst u0. eapply Z.le_trans; [apply strlen_cstr_le|].
    rewrite !strlen_append.
    assert (strlen (take (MAX_URL_STRING_SIZE
                          - (strlen "rtsp://"
                             + strlen (cstr (remoteAddressName n))) - 1)
                      "/1") <= 2).
    { unfold take. destruct (Z.to_nat _) as [|[|[|m]]]; vm_compute;
        discriminate. }
    change (strlen "rtsp://") with 7 in *.
    change MAX_URL_STRING_SIZE with 56 in *.
    change MAX_ADDR_STRING_LENGTH with 46 in *. lia.
  - split; [exact Hfit|]. split; [reflexivity|].
    intros k message result Hk. destruct k; discriminate Hk.
Qed.

(** The numbering of the requests of a session: the request handed to the
    connection after [k] others carries the CSeq value [(k + 1) mod 2^32]. *)
Lemma session_numbering (n : NetworkConnection string) (c0 : RTSPClient)
    (commands : list (RTSPRequestMethod * Content)) (raopClient : RAOPClient) :
  sent n = [] -> namesFit n -> rtspClientOpenConnection n = Some c0 ->
  (length commands <= length (requestsOf commands c0 raopClient))%nat
  /\ forall (k : nat) (message : string) (result : bool),
       nth_error (requestsOf commands c0 raopClient) k
       = Some (message, result) ->
       carriesCSeq (u32 (Z.of_nat k + 1)) (url c0) message.
Proof.
  intros Hs Hfit Ho.
  destruct (rtspClientOpenConnection_session n c0 Hs Hfit Ho) as [Hinv Hn].
  destruct (runCommands_session (url c0) commands c0 raopClient Hinv)
    as [(_ & _ & _ & _ & Hall) Hlen].
  unfold requestsOf. split; [lia | exact Hall].
Qed.

(** C7, amended.  On a session that [rtspClientOpenConnection] starts on a
    connection on which nothing was sent yet and whose two address names
    fit into [MAX_ADDR_STRING_LENGTH] bytes, whatever the commands and the
    answers of the peer, the request handed to the connection after [k]
    others (the repeated request of an authentication included, which is
    one more request of the list) starts with its request line and the
    field CSeq of value [(k + 1) mod 2^32]: 1 for the first request, 1 more
    for each following one, and 0 after 4294967295. *)
Theorem rtspClient_CSeq_counts_requests (n : NetworkConnection string)
    (c0 : RTSPClient) (commands : list (RTSPRequestMethod * Content))
    (raopClient : RAOPClient) (k : nat) (message : string) (result : bool) :
  sent n = [] -> namesFit n -> rtspClientOpenConnection n = Some c0 ->
  nth_error (requestsOf commands c0 raopClient) k = Some (message, result) ->
  carriesCSeq ((Z.of_nat k + 1) mod 2^32) (url c0) message.
Proof.
  intros Hs Hfit Ho Hk.
  exact (proj2 (session_numbering n c0 commands raopClient Hs Hfit Ho)
           k message result Hk).
Qed.

(** The theorem applied to a session of an OPTIONS and an ANNOUNCE command
    whose first request is challenged: the second message of the session is
    the OPTIONS request sent again, with CSeq 2. *)
Lemma rtspClient_CSeq_counts_requests_witness :
  (sent challenged = [] /\ namesFit challenged
   /\ rtspClientOpenConnection challenged = Some challengedClient
   /\ nth_error
        (requestsOf [(RTSP_METHOD_OPTIONS, NoContent);
                     (RTSP_METHOD_ANNOUNCE, AnnounceContent)]
           challengedClient idle) 1
      = Some (retransmission, true))
  /\ carriesCSeq 2 "rtsp://192.168.1.10/1" retransmission.
Proof.
  assert (Hs : sent challenged = []) by reflexivity.
  assert (Hfit : namesFit challenged) by (split; vm_compute; discriminate).
  assert (Ho : rtspClientOpenConnection challenged = Some challengedClient)
    by (vm_compute; reflexivity).
  assert (Hk : nth_error
                 (requestsOf [(RTSP_METHOD_OPTIONS, NoContent);
                              (RTSP_METHOD_ANNOUNCE, AnnounceContent)]
                    challengedClient idle) 1
               = Some (retransmission, true)) by (vm_compute; reflexivity).
  split; [split; [exact Hs|]; split; [exact Hfit|]; split; [exact Ho|exact Hk]|].
  exact (rtspClient_CSeq_counts_requests challenged challengedClient _ idle 1
           retransmission true Hs Hfit Ho Hk).
Defined.

(** The claim C7 as it stands fails when the counter, a [uint32_t], is at
    its largest value: the client that has built 4294967295 requests sends
    its next request with CSeq 0. *)
Lemma rtspClient_CSeq_wraps_to_zero :
  sequenceNumber lateClient = 4294967295
  /\ map fst (sent (networkConnection
        (snd (fst (rtspClientSendCommand lateClient RTSP_METHOD_OPTIONS idle
                     None)))))
     = [ "OPTIONS * RTSP/1.0" +++ CRLF +++ "CSeq: 0" +++ CRLF +++ CRLF ].
Proof. split; [reflexivity | vm_compute; reflexivity]. Qed.

(** That state is reached: in a session of [2^32] OPTIONS commands the
    request number 4294967295 carries CSeq 4294967295 and the next one
    carries CSeq 0. *)
Lemma longSession_wraps :
  exists (last next : string) (result result' : bool),
    nth_error (requestsOf longSession challengedClient idle)
      (Z.to_nat 4294967294) = Some (last, result)
    /\ nth_error (requestsOf longSession challengedClient idle)
         (Z.to_nat 4294967295) = Some (next, result')
    /\ carriesCSeq 4294967295 "rtsp://192.168.1.10/1" last
    /\ carriesCSeq 0 "rtsp://192.168.1.10/1" next.
Proof.
  assert (Hs : sent challenged = []) by reflexivity.
  assert (Hfit : namesFit challenged) by (split; vm_compute; discriminate).
  assert (Ho : rtspClientOpenConnection challenged = Some challengedClient)
    by (vm_compute; reflexivity).
  destruct (session_numbering challenged challengedClient longSession idle
              Hs Hfit Ho) as [Hlen Hall].
  assert (Hlong : length longSession = Z.to_nat 4294967296)
    by apply repeat_length.
  rewrite Hlong in Hlen.
  destruct (nth_error (requestsOf longSession challengedClient idle)
              (Z.to_nat 4294967294)) as [[last result]|] eqn:E1;
    [|apply nth_error_None in E1; lia].
  destruct (nth_error (requestsOf longSession challengedClient idle)
              (Z.to_nat 4294967295)) as [[next result']|] eqn:E2;
    [|apply nth_error_None in E2; lia].
  exists last, next, result, result'.
  split; [reflexivity|]. split; [reflexivity|]. split.
  - pose proof (Hall _ _ _ E1) as H.
    rewrite Z2Nat.id in H by lia. exact H.
  - pose proof (Hall _ _ _ E2) as H.
    rewrite Z2Nat.id in H by lia. exact H.
Qed.

(* ================================================================== *)
(** * The volume *)

(** Swapping the operands of a comparison reverses its answer. *)
Lemma SFcompare_antisym (x y : spec_float) :
  SFcompare y x = option_map CompOpp (SFcompare x y).
Proof.
  assert (Hm : forall p q : positive,
             Pos.compare_cont Eq q p = CompOpp (Pos.compare_cont Eq p q))
    by (intros p q; rewrite Pos.compare_cont_antisym; reflexivity).
  destruct x as [sx|sx| |sx mx ex], y as [sy|sy| |sy my ey];
    try destruct sx; try destruct sy; try reflexivity;
    cbn [SFcompare option_map]; rewrite (Z.compare_antisym ex ey), (Hm mx my);
    destruct (ex ?= ey); cbn [CompOpp]; try reflexivity;
    destruct (Pos.compare_cont Eq mx my); reflexivity.
Qed.

(** [!(x < y)] is [x >= y] when the operands are comparable. *)
Lemma double_lt_false_ge (x y : spec_float) :
  SFcompare x y <> None -> double_lt x y = false -> double_ge x y = true.
Proof.
  unfold double_lt, double_ge, SFltb, SFleb. rewrite (SFcompare_antisym x y).
  destruct (SFcompare x y) as [[| |]|]; cbn [option_map CompOpp];
    congruence.
Qed.

(** A number is comparable with a constant that is a number. *)
Lemma SFcompare_number (x y : spec_float) :
  is_nan x = false -> is_nan y = false -> SFcompare x y <> None.
Proof.
  destruct x as [| | |sx mx ex], y as [| | |sy my ey]; cbn [is_nan SFcompare];
    congruence.
Qed.

(** The constants of raopclient.c as binary64 numbers. *)
Lemma volume_constants :
  VOLUME_MUTED = S754_zero false
  /\ VOLUME_MIN_VALUE = S754_finite false 5764607523034235 (-59)
  /\ VOLUME_MAX_VALUE = S754_finite false 8444249301319680 (-48)
  /\ VOLUME_INTERNAL_OFFSET = S754_finite true 8444249301319680 (-48)
  /\ double_of_Z 30 = S754_finite false 8444249301319680 (-48).
Proof. split; [|split; [|split; [|split]]]; vm_compute; reflexivity. Qed.

(** [-30.0 + x] is [x - 30.0]. *)
Lemma offset_is_subtraction (x : spec_float) :
  SFadd 53 1024 VOLUME_INTERNAL_OFFSET x
  = SFsub 53 1024 x (double_of_Z 30).
Proof.
  destruct volume_constants as (_ & _ & _ & -> & ->).
  destruct x as [s|s| |s m e]; try reflexivity.
  cbn [SFadd SFsub]. rewrite (Z.min_comm e (-48)).
  f_equal. cbn [cond_Zopp]. lia.
Qed.

(** The three cases of [raopClientSetVolume] for a volume that is a number:
    what is kept is the clamped volume, it lies between 0 and 30, and what
    the content supplier prints for it is the value of the claim. *)
Lemma volume_cases (v : spec_float) :
  is_nan (double_of_float v) = false ->
  let v1 := if double_lt (double_of_float v) VOLUME_MIN_VALUE
            then float_of_double VOLUME_MUTED else v in
  let v2 := if double_gt (double_of_float v1) VOLUME_MAX_VALUE
            then float_of_double VOLUME_MAX_VALUE else v1 in
  v2 = clamped v
  /\ double_ge (double_of_float (clamped v)) VOLUME_MUTED = true
  /\ double_ge VOLUME_MAX_VALUE (double_of_float (clamped v)) = true
  /\ internalVolume (clamped v) = claimedInternalVolume v.
Proof.
  intros Hn. unfold claimedInternalVolume, internalVolume, clamped.
  pose proof volume_constants as (Emuted & Emin & Emax & _ & _).
  destruct (double_lt (double_of_float v) VOLUME_MIN_VALUE) eqn:Hlt.
  - cbv zeta. split; [|split; [|split]]; vm_compute; reflexivity.
  - cbv zeta.
    destruct (double_gt (double_of_float v) VOLUME_MAX_VALUE) eqn:Hgt.
    + split; [|split; [|split]]; vm_compute; reflexivity.
    + assert (Hmin : double_ge (double_of_float v) VOLUME_MIN_VALUE = true).
      { apply double_lt_false_ge; [|exact Hlt].
        apply SFcompare_number; [exact Hn | rewrite Emin; reflexivity]. }
      assert (Hmax : double_ge VOLUME_MAX_VALUE (double_of_float v) = true).
      { apply double_lt_false_ge; [|exact Hgt].
        apply SFcompare_number; [rewrite Emax; reflexivity | exact Hn]. }
      rewrite Hmin, offset_is_subtraction.
      split; [reflexivity|]. split; [|split; [exact Hmax | reflexivity]].
      revert Hmin. unfold double_ge, SFleb. rewrite Emin, Emuted.
      destruct (double_of_float v) as [s|s| |s m e]; try destruct s;
        cbn [SFcompare]; congruence.
Qed.

(* ================================================================== *)
(** * The size of a rounded binary number *)

(** [digits2_pos] counts the binary digits. *)
Lemma digits2_pos_size (p : positive) : digits2_pos p = Pos.size p.
Proof. induction p as [p IH|p IH|]; cbn; congruence. Qed.

Lemma Zdigits2_nonneg (z : Z) : 0 <= z -> 0 <= Zdigits2 z.
Proof. destruct z; cbn; lia. Qed.

Lemma Zdigits2_upper (p : positive) : Zpos p < 2 ^ Zdigits2 (Zpos p).
Proof.
  cbn [Zdigits2]. rewrite digits2_pos_size.
  pose proof (Pos.size_gt p) as H.
  apply Pos2Z.pos_lt_pos in H. rewrite Pos2Z.inj_pow in H. exact H.
Qed.

Lemma Zdigits2_lower (p : positive) : 2 ^ Zdigits2 (Zpos p) <= 2 * Zpos p.
Proof.
  cbn [Zdigits2]. rewrite digits2_pos_size.
  pose proof (Pos.size_le p) as H.
  apply Pos2Z.pos_le_pos in H. rewrite Pos2Z.inj_pow in H. exact H.
Qed.

(** A positive number below [2^k] has at most [k] digits. *)
Lemma Zdigits2_below (p : positive) (k : Z) :
  0 <= k -> Zpos p < 2 ^ k -> Zdigits2 (Zpos p) <= k.
Proof.
  intros Hk Hp. destruct (Z.le_gt_cases (Zdigits2 (Zpos p)) k) as [H|H];
    [exact H|].
  pose proof (Zdigits2_lower p) as Hl.
  assert (Hpow : 2 ^ (k + 1) <= 2 ^ Zdigits2 (Zpos p))
    by (apply Z.pow_le_mono_r; lia).
  rewrite Z.pow_add_r in Hpow by lia. change (2 ^ 1) with 2 in Hpow. lia.
Qed.

(** One step of [shr] takes one digit away. *)
Lemma shr_1_digits (mrs : shr_record) :
  0 <= shr_m mrs ->
  0 <= shr_m (shr_1 mrs)
  /\ Zdigits2 (shr_m (shr_1 mrs)) = Z.max 0 (Zdigits2 (shr_m mrs) - 1).
Proof.
  destruct mrs as [m r s]. cbn [shr_m]. intros Hm.
  destruct m as [|[p|p|]|p]; cbn [shr_1 shr_m Zdigits2 digits2_pos];
    try lia; rewrite ?Pos2Z.inj_succ; lia.
Qed.

Lemma iter_pos_shr_1_digits (n : positive) :
  forall mrs : shr_record,
    0 <= shr_m mrs ->
    0 <= shr_m (iter_pos shr_1 n mrs)
    /\ Zdigits2 (shr_m (iter_pos shr_1 n mrs))
       = Z.max 0 (Zdigits2 (shr_m mrs) - Zpos n).
Proof.
  induction n as [n IH|n IH|]; intros mrs Hm; cbn [iter_pos].
  - destruct (shr_1_digits mrs Hm) as [H1 D1].
    destruct (IH _ H1) as [H2 D2]. destruct (IH _ H2) as [H3 D3].
    split; [exact H3|]. rewrite D3, D2, D1, Pos2Z.inj_xI. lia.
  - destruct (IH _ Hm) as [H2 D2]. destruct (IH _ H2) as [H3 D3].
    split; [exact H3|]. rewrite D3, D2, Pos2Z.inj_xO. lia.
  - apply shr_1_digits. exact Hm.
Qed.

Lemma shr_m_of_loc (m : Z) (l : location) :
  shr_m (shr_record_of_loc m l) = m.
Proof. destruct l as [|[| |]]; reflexivity. Qed.

(** [shr_fexp] leaves at most [prec] digits and does not enlarge the
    number beyond the exponent it aims at. *)
Lemma shr_fexp_digits (prec emax m e : Z) (l : location) :
  0 <= prec -> 0 <= m ->
  0 <= shr_m (fst (shr_fexp prec emax m e l))
  /\ Zdigits2 (shr_m (fst (shr_fexp prec emax m e l))) <= prec
  /\ Zdigits2 (shr_m (fst (shr_fexp prec emax m e l)))
     + snd (shr_fexp prec emax m e l)
     <= Z.max (Zdigits2 m + e) (fexp prec emax (Zdigits2 m + e)).
Proof.
  intros Hp Hm. unfold shr_fexp, shr.
  pose proof (Zdigits2_nonneg m Hm) as Hd.
  assert (Hf : Zdigits2 m + e - prec <= fexp prec emax (Zdigits2 m + e))
    by (unfold fexp; lia).
  destruct (fexp prec emax (Zdigits2 m + e) - e) as [|n|n] eqn:En;
    cbn [fst snd]; rewrite ?shr_m_of_loc.
  - repeat split; lia.
  - destruct (iter_pos_shr_1_digits n (shr_record_of_loc m l)) as [H D];
      [rewrite shr_m_of_loc; exact Hm|].
    rewrite shr_m_of_loc in D. rewrite D. repeat split; lia.
  - repeat split; lia.
Qed.

(** Rounding adds at most one digit. *)
Lemma round_nearest_even_digits (mx : Z) (lx : location) :
  0 <= mx ->
  0 <= round_nearest_even mx lx
  /\ Zdigits2 (round_nearest_even mx lx) <= Zdigits2 mx + 1.
Proof.
  intros Hm.
  assert (Hs : 0 <= mx + 1 /\ Zdigits2 (mx + 1) <= Zdigits2 mx + 1).
  { split; [lia|]. destruct mx as [|p|p]; [cbn; lia| |lia].
    replace (Z.pos p + 1) with (Z.pos (p + 1)) by lia.
    apply Zdigits2_below.
    - pose proof (Zdigits2_nonneg (Zpos p)). lia.
    - pose proof (Zdigits2_upper p) as Hu.
      rewrite Z.pow_add_r by (pose proof (Zdigits2_nonneg (Zpos p)); lia).
      change (2 ^ 1) with 2. lia. }
  unfold round_nearest_even.
  destruct lx as [|[| |]]; try destruct (Z.even mx); first [exact Hs | lia].
Qed.

Lemma fexp_le (prec emax x : Z) :
  0 <= prec -> fexp prec emax x <= Z.max x (emin prec emax).
Proof. intros Hp. unfold fexp. lia. Qed.

(** What [binary_round_aux] returns as a finite number has at most [prec]
    digits, and one digit more than its operand at the most. *)
Lemma binary_round_aux_digits (prec emax : Z) (sx : bool) (mx ex : Z)
    (lx : location) (s : bool) (m : positive) (e : Z) :
  0 <= prec -> 0 <= mx ->
  binary_round_aux prec emax sx mx ex lx = S754_finite s m e ->
  Zdigits2 (Zpos m) <= prec
  /\ (emin prec emax <= Zdigits2 mx + ex ->
      Zdigits2 (Zpos m) + e <= Zdigits2 mx + ex + 1).
Proof.
  intros Hp Hm. unfold binary_round_aux.
  destruct (shr_fexp_digits prec emax mx ex lx Hp Hm) as (H1 & D1 & M1).
  destruct (shr_fexp prec emax mx ex lx) as [mrs' e'].
  cbn [fst snd] in H1, D1, M1.
  destruct (round_nearest_even_digits (shr_m mrs') (loc_of_shr_record mrs') H1)
    as [Hr Dr].
  set (mr := round_nearest_even (shr_m mrs') (loc_of_shr_record mrs')) in *.
  destruct (shr_fexp_digits prec emax mr e' loc_Exact Hp Hr) as (H2 & D2 & M2).
  destruct (shr_fexp prec emax mr e' loc_Exact) as [mrs'' e''].
  cbn [fst snd] in H2, D2, M2.
  pose proof (fexp_le prec emax (Zdigits2 mx + ex) Hp) as F1.
  pose proof (fexp_le prec emax (Zdigits2 mr + e') Hp) as F2.
  destruct (shr_m mrs'') as [|p|p] eqn:Em; [discriminate| |discriminate].
  destruct (e'' <=? emax - prec); [|discriminate].
  intros [= _ <- <-]. split; [exact D2 | intros Hmin; lia].
Qed.

Lemma iter_xO_digits (mx d : positive) :
  Zdigits2 (Zpos (Pos.iter xO mx d)) = Zdigits2 (Zpos mx) + Zpos d.
Proof.
  induction d as [|d IH] using Pos.peano_ind.
  - cbn [Pos.iter Zdigits2 digits2_pos]. rewrite Pos2Z.inj_succ. lia.
  - rewrite Pos.iter_succ. cbn [Zdigits2 digits2_pos] in *.
    rewrite !Pos2Z.inj_succ, IH. lia.
Qed.

(** [shl_align] keeps the sum of the digits and the exponent. *)
Lemma shl_align_digits (mx : positive) (ex ex' : Z) :
  Zdigits2 (Zpos (fst (shl_align mx ex ex'))) + snd (shl_align mx ex ex')
  = Zdigits2 (Zpos mx) + ex.
Proof.
  unfold shl_align. destruct (ex' - ex) as [|d|d] eqn:Ed; cbn [fst snd];
    [reflexivity | reflexivity |].
  rewrite iter_xO_digits. lia.
Qed.

(** The same for [binary_round]. *)
Lemma binary_round_digits (prec emax : Z) (sx : bool) (mx : positive) (ex : Z)
    (s : bool) (m : positive) (e : Z) :
  0 <= prec ->
  binary_round prec emax sx mx ex = S754_finite s m e ->
  Zdigits2 (Zpos m) <= prec
  /\ (emin prec emax <= Zdigits2 (Zpos mx) + ex ->
      Zdigits2 (Zpos m) + e <= Zdigits2 (Zpos mx) + ex + 1).
Proof.
  intros Hp. unfold binary_round.
  pose proof (shl_align_digits mx ex
                (fexp prec emax (Zpos (digits2_pos mx) + ex))) as Ha.
  destruct (shl_align mx ex (fexp prec emax (Zpos (digits2_pos mx) + ex)))
    as [mz ez].
  cbn [fst snd] in Ha. intros E.
  destruct (binary_round_aux_digits prec emax sx (Zpos mz) ez loc_Exact s m e
              Hp) as [D M]; [lia | exact E |].
  split; [exact D | intros Hmin; lia].
Qed.

Lemma shl_align_exponent (mx : positive) (ex ez : Z) :
  ez <= ex -> snd (shl_align mx ex ez) = ez.
Proof.
  intros H. unfold shl_align. destruct (ez - ex) as [|d|d] eqn:Ed;
    cbn [snd]; lia.
Qed.

(** The difference of two finite numbers has at most two digits more (in
    front of the binary point) than the larger of them. *)
Lemma SFsub_digits (prec emax : Z) (sx sy s : bool) (mx my m : positive)
    (ex ey e : Z) :
  0 <= prec -> emin prec emax <= Z.min ex ey ->
  SFsub prec emax (S754_finite sx mx ex) (S754_finite sy my ey)
  = S754_finite s m e ->
  Zdigits2 (Zpos m) + e
  <= Z.max (Zdigits2 (Zpos mx) + ex) (Zdigits2 (Zpos my) + ey) + 2.
Proof.
  intros Hp Hmin. cbn [SFsub].
  set (ez := Z.min ex ey) in *.
  pose proof (shl_align_digits mx ex ez) as Da.
  pose proof (shl_align_digits my ey ez) as Db.
  rewrite shl_align_exponent in Da by (subst ez; lia).
  rewrite shl_align_exponent in Db by (subst ez; lia).
  set (a := fst (shl_align mx ex ez)) in *.
  set (b := fst (shl_align my ey ez)) in *.
  set (k := Z.max (Zdigits2 (Zpos a)) (Zdigits2 (Zpos b)) + 1).
  assert (Hk : 0 <= k)
    by (pose proof (Zdigits2_nonneg (Zpos a)); subst k; lia).
  assert (Hsum : Zpos a + Zpos b < 2 ^ k).
  { pose proof (Zdigits2_upper a) as Ha. pose proof (Zdigits2_upper b) as Hb.
    assert (2 ^ Zdigits2 (Zpos a) <= 2 ^ (k - 1))
      by (apply Z.pow_le_mono_r; subst k; lia).
    assert (2 ^ Zdigits2 (Zpos b) <= 2 ^ (k - 1))
      by (apply Z.pow_le_mono_r; subst k; lia).
    replace k with (k - 1 + 1) by lia.
    rewrite Z.pow_add_r
      by (pose proof (Zdigits2_nonneg (Zpos a)); subst k; lia).
    change (2 ^ 1) with 2. lia. }
  assert (Hd : forall p : positive,
             Zpos p <= Zpos a + Zpos b -> Zdigits2 (Zpos p) <= k)
    by (intros p Hle; apply Zdigits2_below; lia).
  unfold binary_normalize.
  destruct (cond_Zopp sx (Zpos a) - cond_Zopp sy (Zpos b)) as [|p|p] eqn:Ed;
    [discriminate| |]; intros E;
    (assert (Hp' : Zpos p <= Zpos a + Zpos b)
       by (destruct sx, sy; cbn [cond_Zopp] in Ed; lia));
    pose proof (Hd p Hp') as Hdp;
    (edestruct (binary_round_digits prec emax) as [_ M];
     [exact Hp | exact E |]);
    (assert (Hmag : emin prec emax <= Zdigits2 (Zpos p) + ez)
       by (pose proof (Zdigits2_nonneg (Zpos p)); cbn [Zdigits2] in *; lia));
    specialize (M Hmag); subst k; lia.
Qed.

(** [tenths] of a number below [2^7]. *)
Lemma tenths_small (m : positive) (e : Z) :
  Zdigits2 (Zpos m) + e <= 7 -> 0 <= tenths m e <= 1280.
Proof.
  intros H. pose proof (Zdigits2_upper m) as Hu.
  assert (Hd : 1 <= Zdigits2 (Zpos m)) by (cbn; lia).
  unfold tenths. destruct (Z.leb_spec 0 e) as [He|He].
  - assert (Hpow : 2 ^ Zdigits2 (Zpos m) <= 2 ^ (7 - e))
      by (apply Z.pow_le_mono_r; lia).
    assert (Hprod : 2 ^ (7 - e) * 2 ^ e = 2 ^ 7)
      by (rewrite <- Z.pow_add_r by lia; f_equal; lia).
    assert (0 < 2 ^ e) by (apply Z.pow_pos_nonneg; lia).
    change (2 ^ 7) with 128 in Hprod. nia.
  - assert (Hden : 0 < 2 ^ (- e)) by (apply Z.pow_pos_nonneg; lia).
    assert (Hpow : 2 ^ Zdigits2 (Zpos m) <= 2 ^ (7 + - e))
      by (apply Z.pow_le_mono_r; lia).
    rewrite Z.pow_add_r in Hpow by lia. change (2 ^ 7) with 128 in Hpow.
    set (den := 2 ^ (- e)) in *.
    assert (Hq : 0 <= Zpos m * 10 / den < 1280).
    { split; [apply Z.div_pos; lia|].
      apply Z.div_lt_upper_bound; [lia | nia]. }
    destruct (2 * (Zpos m * 10 mod den) >? den); [lia|].
    destruct (2 * (Zpos m * 10 mod den) =? den);
      [destruct (Z.even (Zpos m * 10 / den)); lia | lia].
Qed.

Lemma print_u_length (n : Z) (k : nat) :
  (1 <= k)%nat -> 0 <= n < 10 ^ Z.of_nat k ->
  strlen (print_u n) <= Z.of_nat k.
Proof.
  intros Hk Hn. unfold print_u, strlen.
  pose proof (digits_length_le 64 n "" k Hk Hn) as H.
  cbn [String.length] in H. lia.
Qed.

(** A number below [2^7] is printed with six characters at the most. *)
Lemma print_f1_short (s : bool) (m : positive) (e : Z) :
  Zdigits2 (Zpos m) + e <= 7 -> strlen (print_f1 (S754_finite s m e)) <= 6.
Proof.
  intros H. pose proof (tenths_small m e H) as Ht.
  cbn [print_f1]. cbv zeta. rewrite !strlen_append.
  assert (H1 : strlen (print_u (tenths m e / 10)) <= 3).
  { apply (print_u_length _ 3); [lia|]. change (10 ^ Z.of_nat 3) with 1000.
    split; [apply Z.div_pos; lia|].
    apply Z.div_lt_upper_bound; lia. }
  assert (H2 : strlen (print_u (tenths m e mod 10)) <= 1).
  { apply (print_u_length _ 1); [lia|]. change (10 ^ Z.of_nat 1) with 10.
    apply Z.mod_pos_bound. lia. }
  assert (Hs : strlen (if s then "-" else "") <= 1)
    by (destruct s; vm_compute; discriminate).
  change (strlen ".") with 1. lia.
Qed.

Lemma snprintf_fits (size : Z) (s : string) :
  strlen s <= size - 1 -> snprintf size s = s.
Proof. intros H. unfold snprintf. apply take_all. exact H. Qed.

(** The text of the volume is never cut: it has 16 characters at the
    most. *)
Lemma volumeText_fits (v : spec_float) :
  is_nan (double_of_float v) = false ->
  strlen (volumeText (claimedInternalVolume v)) <= 16.
Proof.
  intros Hn. unfold claimedInternalVolume, clamped.
  pose proof volume_constants as (_ & Emin & Emax & _ & E30).
  destruct (double_lt (double_of_float v) VOLUME_MIN_VALUE) eqn:Hlt;
    [vm_compute; discriminate|].
  destruct (double_gt (double_of_float v) VOLUME_MAX_VALUE) eqn:Hgt;
    [vm_compute; discriminate|].
  assert (Hx : strlen (print_f1 (SFsub 53 1024 (double_of_float v)
                                   (double_of_Z 30))) <= 6).
  { rewrite E30. unfold double_lt, double_gt, SFltb in Hlt, Hgt.
    rewrite Emin in Hlt. rewrite Emax in Hgt.
    assert (Hd : forall (s : bool) (m : positive) (e : Z),
               double_of_float v = S754_finite s m e ->
               Zdigits2 (Zpos m) <= 53).
    { intros s m e E. destruct v as [s0|s0| |s0 m0 e0];
        cbn [double_of_float] in E; try discriminate.
      apply (binary_round_digits 53 1024 s0 m0 e0 s m e); [lia | exact E]. }
    destruct (double_of_float v) as [s|s| |s m e] eqn:Ed.
    - destruct s; cbn in Hlt; discriminate.
    - destruct s; cbn in Hlt, Hgt; discriminate.
    - discriminate.
    - specialize (Hd s m e eq_refl).
      destruct s; [cbn in Hlt; discriminate|].
      cbn [SFcompare] in Hlt, Hgt.
      assert (He : -59 <= e <= -48).
      { destruct (Z.compare_spec e (-59)); destruct (Z.compare_spec (-48) e);
          try discriminate; lia. }
      destruct (SFsub 53 1024 (S754_finite false m e)
                  (S754_finite false 8444249301319680 (-48)))
        as [s'|s'| |s' m' e'] eqn:Es.
      + destruct s'; vm_compute; discriminate.
      + destruct s'; vm_compute; discriminate.
      + vm_compute; discriminate.
      + apply print_f1_short.
        pose proof (SFsub_digits 53 1024 false false s' m 8444249301319680 m'
                      e (-48) e') as H.
        change (emin 53 1024) with (-1074) in H.
        change (Zdigits2 (Zpos 8444249301319680)) with 53 in H.
        specialize (H ltac:(lia) ltac:(lia) Es). lia. }
  unfold volumeText. rewrite !strlen_append.
  change (strlen "volume: ") with 8. change (strlen CRLF) with 2. lia.
Qed.

(** [rtspClientReceiveResponse] keeps the URL and what was sent. *)
Lemma rtspClientReceiveResponse_keeps (c : RTSPClient) :
  url (snd (rtspClientReceiveResponse c)) = url c
  /\ sent (networkConnection (snd (rtspClientReceiveResponse c)))
     = sent (networkConnection c).
Proof.
  unfold rtspClientReceiveResponse.
  match goal with
  | |- context [rtspResponseReceive ?r ?n] =>
      pose proof (rtspResponseReceive_outbound r n) as (Hs & _ & _);
      destruct (rtspResponseReceive r n) as [[ok response] n']
  end.
  cbn [snd] in Hs.
  destruct ok; cbn [negb]; [|split; [reflexivity | exact Hs]].
  destruct (rtspResponseGetStatus response) as [ok status].
  destruct ok; cbn [negb]; [|split; [reflexivity | exact Hs]].
  destruct (status =? 200); cbn [negb]; [split; [reflexivity | exact Hs]|].
  destruct ((status >? 200) && (status <? 300));
    [split; [reflexivity | exact Hs]|].
  destruct (status =? RTSP_RESPONSE_NEED_AUTHENTICATION); cbn [negb];
    split; first [reflexivity | exact Hs].
Qed.

(** The SET_PARAMETER request that carries the volume: one message, whose
    content is the text that the content supplier wrote into its buffer of
    [MAX_SET_PARAMETER_CONTENT_SIZE] bytes. *)
Lemma rtspClientSendRequest_volume (c : RTSPClient) (raopClient : RAOPClient) :
  strlen (cstr (url c)) <= MAX_URL_STRING_SIZE - 1 ->
  exists (ok : bool) (c' : RTSPClient) (message : string) (result : bool),
    rtspClientSendRequest c RTSP_METHOD_SET_PARAMETER raopClient
      (Some raopClientSetVolumeContentSupplier) = (ok, c')
    /\ sent (networkConnection c')
       = sent (networkConnection c) ++ [(message, result)]
    /\ carriesBody (url c)
         (snprintf MAX_SET_PARAMETER_CONTENT_SIZE
            (volumeText (internalVolume (volume raopClient)))) message
    /\ url c' = url c.
Proof.
  intros Hu. unfold rtspClientSendRequest.
  assert (Hfresh : exists r0,
             match rtspRequest c with
             | None => (true, rtspRequestCreate RTSP_METHOD_SET_PARAMETER)
             | Some r => rtspRequestReset r RTSP_METHOD_SET_PARAMETER
             end = (true, r0)
             /\ (headerBuffer r0 = None \/ headerBuffer r0 = Some "")
             /\ requestMethod r0 = RTSP_METHOD_SET_PARAMETER).
  { destruct (rtspRequest c) as [r|].
    - eexists. split; [reflexivity|]. cbn [headerBuffer requestMethod].
      split; [|reflexivity]. destruct (headerBuffer r); [right|left]; reflexivity.
    - eexists. split; [reflexivity|]. split; [left|]; reflexivity. }
  destruct Hfresh as (r0 & -> & Hh & Hm0). cbn [negb].
  destruct (rtspClientAddHeaderFields_headed RTSP_METHOD_SET_PARAMETER
              (set_request c r0) r0 eq_refl Hh)
    as (c2 & r2 & E2 & Er2 & [fields H2] & M2 & U2 & S2 & N2).
  rewrite E2. cbn [negb].
  cbn [url networkConnection set_request] in U2, N2.
  unfold currentRequest. rewrite Er2.
  unfold raopClientSetVolumeContentSupplier, rtspRequestSetContent,
    rtspRequestAddHeaderField.
  cbn [headerBuffer requestMethod contentBuffer contentBufferSize negb].
  rewrite H2.
  cbn [rtspRequest set_request networkConnection url].
  set (body := snprintf MAX_SET_PARAMETER_CONTENT_SIZE _).
  rewrite (rtspRequestSend_message _ (url c2) (networkConnection c2))
    by (rewrite U2; exact Hu).
  cbn [headerBuffer requestMethod contentBuffer contentBufferSize].
  rewrite U2, N2, M2, Hm0.
  match goal with
  | |- context [networkSendMessage ?n ?m] =>
      set (message := m);
      destruct (networkSendMessage n message) as [result n'] eqn:En
  end.
  exists (if negb result then false else true). eexists.
  exists message, result.
  split; [destruct result; reflexivity|].
  cbn [networkConnection set_connection url set_request].
  split; [|split; [|exact U2]].
  - unfold networkSendMessage in En. injection En as Er En.
    rewrite <- En, Er. reflexivity.
  - exists ("CSeq: " +++ print_u (u32 (sequenceNumber c + 1)) +++ CRLF
            +++ fields).
    subst message.
    rewrite (take_all (strlen body) (take (strlen body) body))
      by (rewrite take_all; lia).
    rewrite (take_all (strlen body) body) by lia.
    assert (Hc : cstr (print_u (strlen body)) = print_u (strlen body)).
    { unfold print_u. apply digits_clean; [lia | apply strlen_nonneg
                                          | reflexivity]. }
    rewrite Hc.
    change (cstr "Content-Type") with "Content-Type".
    change (cstr "text/parameters") with "text/parameters".
    change (cstr "Content-Length") with "Content-Length".
    rewrite !append_assoc. reflexivity.
Qed.

(** [rtspClientSendCommand] with the volume supplier: the RAOP client comes
    back as it went in, and every request sent (there are two when the peer
    asks for authentication) carries the volume text. *)
Lemma rtspClientSendCommand_volume (c : RTSPClient) (raopClient : RAOPClient) :
  strlen (cstr (url c)) <= MAX_URL_STRING_SIZE - 1 ->
  let res := rtspClientSendCommand c RTSP_METHOD_SET_PARAMETER raopClient
               (Some raopClientSetVolumeContentSupplier) in
  snd res = raopClient
  /\ exists extra : list (string * bool),
       extra <> []
       /\ sent (networkConnection (snd (fst res)))
          = sent (networkConnection c) ++ extra
       /\ Forall (fun m =>
            carriesBody (url c)
              (snprintf MAX_SET_PARAMETER_CONTENT_SIZE
                 (volumeText (internalVolume (volume raopClient)))) (fst m))
            extra.
Proof.
  intros Hu. cbv zeta. unfold rtspClientSendCommand.
  destruct (rtspClientSendRequest_volume c raopClient Hu)
    as (ok1 & c1 & m1 & res1 & E1 & Hs1 & Hb1 & U1).
  rewrite E1.
  set (body := snprintf MAX_SET_PARAMETER_CONTENT_SIZE _) in *.
  assert (Hone : forall c' : RTSPClient,
             sent (networkConnection c') = sent (networkConnection c1) ->
             exists extra : list (string * bool),
               extra <> []
               /\ sent (networkConnection c')
                  = sent (networkConnection c) ++ extra
               /\ Forall (fun m => carriesBody (url c) body (fst m)) extra).
  { intros c' Hs. exists [(m1, res1)]. split; [discriminate|].
    split; [rewrite Hs; exact Hs1|]. constructor; [exact Hb1 | constructor]. }
  destruct ok1; cbn [negb fst snd]; [|split; [reflexivity|apply Hone; reflexivity]].
  destruct (rtspClientReceiveResponse_keeps c1) as [U2 Hs2].
  destruct (rtspClientReceiveResponse c1) as [ok2 c2].
  cbn [snd] in U2, Hs2.
  destruct ok2; cbn [negb fst snd]; [|split; [reflexivity|apply Hone; exact Hs2]].
  destruct (needAuthentication c2).
  - assert (Hu2 : strlen (cstr (url c2)) <= MAX_URL_STRING_SIZE - 1)
      by (rewrite U2, U1; exact Hu).
    destruct (rtspClientSendRequest_volume c2 raopClient Hu2)
      as (ok3 & c3 & m3 & res3 & E3 & Hs3 & Hb3 & U3).
    rewrite E3. fold body in Hb3. rewrite U2, U1 in Hb3.
    assert (Htwo : forall c' : RTSPClient,
               sent (networkConnection c') = sent (networkConnection c3) ->
               exists extra : list (string * bool),
                 extra <> []
                 /\ sent (networkConnection c')
                    = sent (networkConnection c) ++ extra
                 /\ Forall (fun m => carriesBody (url c) body (fst m)) extra).
    { intros c' Hs. exists [(m1, res1); (m3, res3)]. split; [discriminate|].
      split.
      - rewrite Hs, Hs3, Hs2, Hs1, <- app_assoc. reflexivity.
      - constructor; [exact Hb1|]. constructor; [exact Hb3 | constructor]. }
    destruct ok3; cbn [negb fst snd];
      [|split; [reflexivity|apply Htwo; reflexivity]].
    destruct (rtspClientReceiveResponse_keeps c3) as [U4 Hs4].
    destruct (rtspClientReceiveResponse c3) as [ok4 c4].
    cbn [snd] in U4, Hs4.
    destruct ok4; cbn [negb fst snd];
      [|split; [reflexivity|apply Htwo; exact Hs4]].
    cbv zeta. destruct (rtspResponseGetSequenceNumber _) as [ok5 ?].
    destruct ok5; cbn [negb fst snd method_is_setup];
      (split; [reflexivity | apply Htwo; exact Hs4]).
  - cbv zeta. cbn [negb].
    destruct (rtspResponseGetSequenceNumber _) as [ok5 ?].
    destruct ok5; cbn [negb fst snd method_is_setup];
      (split; [reflexivity | apply Hone; exact Hs2]).
Qed.

(** C8, amended.  For a volume [v] that is a number, [raopClientSetVolume]
    keeps the clamped volume, which lies between 0 and 30, and, on a client
    that is streaming (with an RTSP client whose URL has at most
    [MAX_URL_STRING_SIZE - 1] characters, as [rtspClientOpenConnection]
    builds it), sends SET_PARAMETER requests (one, and a second one when
    the peer asks for authentication) of type text/parameters whose content
    is the text ["volume: <x>\r\n"], where [x], printed with one decimal,
    is -144.0 when [v < 0.01] and the clamped volume minus 30.0 otherwise;
    the text has 16 characters at the most, so the buffer of 20 bytes holds
    it in full. *)
Theorem raopClientSetVolume_clamps_and_transmits (raopClient : RAOPClient)
    (rtspClient : RTSPClient) (v : spec_float) :
  is_nan (double_of_float v) = false ->
  isSendingAudio raopClient = true ->
  strlen (cstr (url rtspClient)) <= MAX_URL_STRING_SIZE - 1 ->
  let res := raopClientSetVolume raopClient rtspClient v in
  volume (snd (fst res)) = clamped v
  /\ double_ge (double_of_float (clamped v)) VOLUME_MUTED = true
  /\ double_ge VOLUME_MAX_VALUE (double_of_float (clamped v)) = true
  /\ exists extra : list (string * bool),
       extra <> []
       /\ sent (networkConnection (snd res))
          = sent (networkConnection rtspClient) ++ extra
       /\ Forall (fun m =>
            carriesBody (url rtspClient)
              (volumeText (claimedInternalVolume v)) (fst m))
            extra.
Proof.
  intros Hn Hs Hu. cbv zeta.
  destruct (volume_cases v Hn) as (Ev & H0 & H30 & Ex).
  cbv zeta in Ev. unfold raopClientSetVolume.
  rewrite Ev. cbn [isSendingAudio set_volume]. rewrite Hs.
  destruct (rtspClientSendCommand_volume rtspClient
              (set_volume raopClient (clamped v)) Hu)
    as (Er & extra & Hne & Hsent & Hall).
  cbn [volume set_volume] in Hall. rewrite Ex in Hall.
  rewrite snprintf_fits in Hall
    by (pose proof (volumeText_fits v Hn);
        change MAX_SET_PARAMETER_CONTENT_SIZE with 20; lia).
  destruct (rtspClientSendCommand rtspClient RTSP_METHOD_SET_PARAMETER
              (set_volume raopClient (clamped v))
              (Some raopClientSetVolumeContentSupplier))
    as [[ok rtspClient'] raopClient'].
  cbn [fst snd] in Er, Hsent. subst raopClient'.
  assert (Hres : volume (set_volume raopClient (clamped v)) = clamped v)
    by reflexivity.
  destruct ok; cbn [negb fst snd];
    (split; [exact Hres|]; split; [exact H0|]; split; [exact H30|];
     exists extra; split; [exact Hne|]; split; [exact Hsent | exact Hall]).
Qed.

(** The theorem applied to the volume 20 on a streaming client: the volume
    kept is 20 and the request carries ["volume: -10.0\r\n"]. *)
Lemma raopClientSetVolume_clamps_and_transmits_witness :
  (is_nan (double_of_float (float_of_Z 20)) = false
   /\ isSendingAudio playing = true
   /\ strlen (cstr (url recording)) <= MAX_URL_STRING_SIZE - 1)
  /\ volume (snd (fst (raopClientSetVolume playing recording (float_of_Z 20))))
     = float_of_Z 20
  /\ exists extra : list (string * bool),
       extra <> []
       /\ sent (networkConnection
                  (snd (raopClientSetVolume playing recording (float_of_Z 20))))
          = sent (networkConnection recording) ++ extra
       /\ Forall (fun m =>
            carriesBody (url recording) ("volume: -10.0" +++ CRLF) (fst m))
            extra.
Proof.
  assert (Hn : is_nan (double_of_float (float_of_Z 20)) = false)
    by (vm_compute; reflexivity).
  assert (Hs : isSendingAudio playing = true) by reflexivity.
  assert (Hu : strlen (cstr (url recording)) <= MAX_URL_STRING_SIZE - 1)
    by (vm_compute; discriminate).
  assert (Ec : clamped (float_of_Z 20) = float_of_Z 20)
    by (vm_compute; reflexivity).
  assert (Eb : volumeText (claimedInternalVolume (float_of_Z 20))
               = "volume: -10.0" +++ CRLF) by (vm_compute; reflexivity).
  split; [split; [exact Hn|]; split; [exact Hs | exact Hu]|].
  pose proof (raopClientSetVolume_clamps_and_transmits playing recording
                (float_of_Z 20) Hn Hs Hu) as H.
  cbv zeta in H. rewrite Ec, Eb in H.
  destruct H as (Hv & _ & _ & Hx). split; [exact Hv | exact Hx].
Defined.

(** The three examples of the claim C8, on a streaming client whose
    session has sent four requests. *)
Lemma raopClientSetVolume_examples :
  transmittedFor (float_of_Z 0)
  = [setParameter "5" ("volume: -144.0" +++ CRLF)]
  /\ transmittedFor (float_of_Z 20)
     = [setParameter "5" ("volume: -10.0" +++ CRLF)]
  /\ transmittedFor (float_of_Z 42)
     = [setParameter "5" ("volume: 0.0" +++ CRLF)].
Proof. split; [|split]; vm_compute; reflexivity. Qed.

(** The claim C8 as it stands fails for the [float] that is not a number:
    it is not below 0.01, [raopClientSetVolume] keeps it as it is, outside
    of the range from 0 to 30, and the request carries -144.0 and not the
    volume minus 30.0, which prints as nan. *)
Lemma raopClientSetVolume_nan_not_clamped :
  double_lt (double_of_float S754_nan) VOLUME_MIN_VALUE = false
  /\ volume (snd (fst (raopClientSetVolume playing recording S754_nan)))
     = S754_nan
  /\ double_ge (double_of_float S754_nan) VOLUME_MUTED = false
  /\ double_ge VOLUME_MAX_VALUE (double_of_float S754_nan) = false
  /\ transmittedFor S754_nan
     = [setParameter "5" ("volume: -144.0" +++ CRLF)]
  /\ volumeText (SFsub 53 1024 (double_of_float S754_nan) (double_of_Z 30))
     = "volume: nan" +++ CRLF.
Proof. split; [|split; [|split; [|split; [|split]]]]; vm_compute; reflexivity. Qed.

(** A client that is not streaming keeps the volume and sends nothing. *)
Lemma raopClientSetVolume_not_streaming (raopClient : RAOPClient)
    (rtspClient : RTSPClient) (v : spec_float) :
  isSendingAudio raopClient = false ->
  exists v' : spec_float,
    raopClientSetVolume raopClient rtspClient v
    = (true, set_volume raopClient v', rtspClient).
Proof.
  intros Hs. unfold raopClientSetVolume.
  cbn [isSendingAudio set_volume]. rewrite Hs. eexists. reflexivity.
Qed.

(* ================================================================== *)
(** * The Authorization header *)

Lemma hex_digit_range (x : Z) : 0 <= x mod 16 < 36.
Proof. pose proof (Z.mod_pos_bound x 16). lia. Qed.

(** A digest is rendered as 32 characters, none of them NUL. *)
Lemma hex_string_MD5 (msg : list Z) :
  strlen (hex_string (MD5 msg)) = 32
  /\ cstr (hex_string (MD5 msg)) = hex_string (MD5 msg).
Proof.
  unfold MD5.
  destruct (md5_blocks _ _ _) as [[[a b] c] d].
  unfold le32, hex_string, print_02X.
  cbn [app fold_right append]. split; [reflexivity|].
  repeat (apply cstr_cons;
          [apply digit_char_not_NUL, hex_digit_range|]).
  reflexivity.
Qed.

(** When the text fits into the buffer of [MAX_AUTHENTICATION_BUFFER_SIZE]
    bytes, the Authorization value is the one of the claim: the fixed text
    and the digest take 97 characters, which leaves 102 for the realm, the
    nonce and the URL. *)
Lemma authenticationValue_fits (methodName url realm nonce : string) :
  cstr methodName = methodName -> cstr url = url ->
  cstr realm = realm -> cstr nonce = nonce ->
  strlen realm + strlen nonce + strlen url <= 102 ->
  authenticationValue methodName url realm nonce
  = claimedAuthorization methodName url realm nonce.
Proof.
  intros Hm Hu Hr Hn Hlen. unfold authenticationValue, claimedAuthorization.
  rewrite Hm, Hu, Hr, Hn. cbv zeta.
  set (resp := hex_string (MD5 _)).
  assert (Hresp : strlen resp = 32 /\ cstr resp = resp)
    by apply hex_string_MD5.
  destruct Hresp as [Hl Hc]. rewrite Hc, (take_all 32 resp) by lia.
  apply take_all. rewrite !strlen_append.
  rewrite Hl.
  change (strlen "Digest username=") with 16.
  change (strlen QUOTE) with 1. change (strlen "iTunes") with 6.
  change (strlen ", realm=") with 8. change (strlen ", nonce=") with 8.
  change (strlen ", uri=") with 6. change (strlen ", response=") with 11.
  change MAX_AUTHENTICATION_BUFFER_SIZE with 200. lia.
Qed.

(** In general the Authorization value is what [snprintf] leaves of the
    claimed text in the buffer: its first 199 characters. *)
Lemma authenticationValue_is_prefix (methodName url realm nonce : string) :
  cstr methodName = methodName -> cstr url = url ->
  cstr realm = realm -> cstr nonce = nonce ->
  authenticationValue methodName url realm nonce
  = take (MAX_AUTHENTICATION_BUFFER_SIZE - 1)
      (claimedAuthorization methodName url realm nonce).
Proof.
  intros Hm Hu Hr Hn. unfold authenticationValue, claimedAuthorization.
  rewrite Hm, Hu, Hr, Hn. cbv zeta.
  set (resp := hex_string (MD5 _)).
  assert (Hresp : strlen resp = 32 /\ cstr resp = resp)
    by apply hex_string_MD5.
  destruct Hresp as [Hl Hc]. rewrite Hc, (take_all 32 resp) by lia.
  reflexivity.
Qed.

(** C9.  The claim fails on a session with a peer of a long IPv6 address
    that sends a realm of 20 and a nonce of 40 characters: the Authorization
    value of the claim has 205 characters, and the request that
    [rtspClientSendCommand] sends after the challenge carries its first 199
    characters only, without the last five digits of the response and the
    closing quote. *)
Theorem rtspClientAddAuthenticationFields_cuts_long_header :
  rtspClientOpenConnection ipv6Peer = Some ipv6Client
  /\ map fst (sent (networkConnection
        (snd (fst (rtspClientSendCommand ipv6Client RTSP_METHOD_OPTIONS idle
                     None)))))
     = [ "OPTIONS * RTSP/1.0" +++ CRLF +++ "CSeq: 1" +++ CRLF +++ CRLF;
         "OPTIONS * RTSP/1.0" +++ CRLF +++ "CSeq: 2" +++ CRLF
         +++ "Authorization: " +++ cutAuthorization +++ CRLF +++ CRLF ]
  /\ authenticationValue "OPTIONS" ipv6Url longRealm longNonce
     = cutAuthorization
  /\ claimedAuthorization "OPTIONS" ipv6Url longRealm longNonce
     = cutAuthorization +++ "007C5" +++ QUOTE
  /\ strlen cutAuthorization = 199
  /\ strlen (claimedAuthorization "OPTIONS" ipv6Url longRealm longNonce)
     = 205.
Proof.
  split; [vm_compute; reflexivity|].
  split; [vm_compute; reflexivity|].
  split; [vm_compute; reflexivity|].
  split; [vm_compute; reflexivity|].
  split; vm_compute; reflexivity.
Qed.

(* ================================================================== *)
(** * utils.c: adding and subtracting times *)

(** X1.  [timespecAdd] on two times whose nanoseconds are below one second
    (and whose seconds are far from the ends of [time_t]) yields the sum:
    the nanoseconds of the result are again below one second, and the
    result stands for the sum of the two times. *)
Theorem timespecAdd_sum (time delta : timespec) :
  normalized time -> normalized delta -> moderate time -> moderate delta ->
  normalized (timespecAdd time delta)
  /\ nanoseconds (timespecAdd time delta)
     = nanoseconds time + nanoseconds delta.
Proof.
  unfold normalized, moderate, nanoseconds, timespecAdd.
  change ONE_SECOND_IN_NANO_SECONDS with 1000000000.
  intros Ht Hd Mt Md.
  change (2^62) with 4611686018427387904 in *.
  rewrite (i64_small (tv_sec time + tv_sec delta))
    by (change (2^63) with 9223372036854775808; lia).
  rewrite (i64_small (tv_nsec time + tv_nsec delta))
    by (change (2^63) with 9223372036854775808; lia).
  destruct (Z.geb_spec (tv_nsec time + tv_nsec delta) 1000000000) as [H|H];
    cbn [tv_sec tv_nsec].
  - rewrite !i64_small by (change (2^63) with 9223372036854775808; lia). lia.
  - lia.
Qed.

Lemma timespecAdd_sum_witness :
  let time := mkTimespec 5 900000000 in
  let delta := mkTimespec 2 300000000 in
  (normalized time /\ normalized delta /\ moderate time /\ moderate delta)
  /\ timespecAdd time delta = mkTimespec 8 200000000
  /\ nanoseconds (timespecAdd time delta) = 8200000000.
Proof.
  intros time delta.
  assert (Ht : normalized time) by (vm_compute; split; congruence).
  assert (Hd : normalized delta) by (vm_compute; split; congruence).
  assert (Mt : moderate time) by (vm_compute; split; congruence).
  assert (Md : moderate delta) by (vm_compute; split; congruence).
  split; [tauto|]. split; [vm_compute; reflexivity|].
  rewrite (proj2 (timespecAdd_sum time delta Ht Hd Mt Md)).
  vm_compute. reflexivity.
Defined.

(** X2.  [timespecSubtract] on two times whose nanoseconds are below one
    second and whose seconds lie from [-2^62] to below [2^62] (far from the
    ends of [time_t], where the difference of the seconds wraps) yields
    their difference when the first is not the earlier one, and zero
    otherwise: within this range never a negative time. *)
Theorem timespecSubtract_difference (time1 time2 : timespec) :
  normalized time1 -> normalized time2 -> moderate time1 -> moderate time2 ->
  normalized (timespecSubtract time1 time2)
  /\ nanoseconds (timespecSubtract time1 time2)
     = Z.max 0 (nanoseconds time1 - nanoseconds time2).
Proof.
  unfold normalized, moderate, nanoseconds, timespecSubtract.
  change ONE_SECOND_IN_NANO_SECONDS with 1000000000.
  change (2^62) with 4611686018427387904.
  intros H1 H2 M1 M2.
  destruct (Z.geb_spec (tv_sec time1) (tv_sec time2)) as [Hs|Hs].
  - destruct (Z.geb_spec (tv_nsec time1) (tv_nsec time2)) as [Hn|Hn].
    + cbn [tv_sec tv_nsec].
      rewrite !i64_small by (change (2^63) with 9223372036854775808; lia). lia.
    + destruct (Z.gtb_spec (tv_sec time1) (tv_sec time2)) as [Hg|Hg];
        cbn [tv_sec tv_nsec].
      * rewrite (i64_small (tv_sec time1 - tv_sec time2))
          by (change (2^63) with 9223372036854775808; lia).
        rewrite (i64_small (1000000000 + tv_nsec time1))
          by (change (2^63) with 9223372036854775808; lia).
        rewrite !i64_small by (change (2^63) with 9223372036854775808; lia).
        lia.
      * lia.
  - cbn [tv_sec tv_nsec]. lia.
Qed.

Lemma timespecSubtract_difference_witness :
  let time1 := mkTimespec 8 200000000 in
  let time2 := mkTimespec 5 900000000 in
  (normalized time1 /\ normalized time2 /\ moderate time1 /\ moderate time2)
  /\ timespecSubtract time1 time2 = mkTimespec 2 300000000
  /\ timespecSubtract time2 time1 = mkTimespec 0 0
  /\ nanoseconds (timespecSubtract time1 time2) = 2300000000.
Proof.
  intros time1 time2.
  assert (H1 : normalized time1) by (vm_compute; split; congruence).
  assert (H2 : normalized time2) by (vm_compute; split; congruence).
  assert (M1 : moderate time1) by (vm_compute; split; congruence).
  assert (M2 : moderate time2) by (vm_compute; split; congruence).
  split; [tauto|]. split; [vm_compute; reflexivity|].
  split; [vm_compute; reflexivity|].
  rewrite (proj2 (timespecSubtract_difference time1 time2 H1 H2 M1 M2)).
  vm_compute. reflexivity.
Defined.

(** X3.  Adding a time span and subtracting the start again gives the span
    back: [timespecSubtract (timespecAdd t d) t = d] for times whose
    nanoseconds are below one second, a start whose seconds lie from
    [-2^62] to below [2^62] and a span that is not negative and shorter
    than [2^62] seconds. *)
Theorem timespecAdd_Subtract_round_trip (time delta : timespec) :
  normalized time -> normalized delta -> moderate time ->
  0 <= tv_sec delta < 2^62 ->
  timespecSubtract (timespecAdd time delta) time = delta.
Proof.
  unfold normalized, moderate, timespecAdd, timespecSubtract.
  change ONE_SECOND_IN_NANO_SECONDS with 1000000000.
  change (2^62) with 4611686018427387904.
  intros Ht Hd Mt Md. destruct delta as [ds dn]. cbn [tv_sec tv_nsec] in *.
  rewrite (i64_small (tv_sec time + ds))
    by (change (2^63) with 9223372036854775808; lia).
  rewrite (i64_small (tv_nsec time + dn))
    by (change (2^63) with 9223372036854775808; lia).
  destruct (Z.geb_spec (tv_nsec time + dn) 1000000000) as [Hc|Hc];
    cbn [tv_sec tv_nsec].
  - rewrite (i64_small (tv_sec time + ds + 1))
      by (change (2^63) with 9223372036854775808; lia).
    rewrite (i64_small (tv_nsec time + dn - 1000000000))
      by (change (2^63) with 9223372036854775808; lia).
    destruct (Z.geb_spec (tv_sec time + ds + 1) (tv_sec time)); [|lia].
    destruct (Z.geb_spec (tv_nsec time + dn - 1000000000) (tv_nsec time));
      [lia|].
    destruct (Z.gtb_spec (tv_sec time + ds + 1) (tv_sec time)); [|lia].
    rewrite (i64_small (tv_sec time + ds + 1 - tv_sec time))
      by (change (2^63) with 9223372036854775808; lia).
    rewrite (i64_small (1000000000 + (tv_nsec time + dn - 1000000000)))
      by (change (2^63) with 9223372036854775808; lia).
    rewrite !i64_small by (change (2^63) with 9223372036854775808; lia).
    f_equal; lia.
  - destruct (Z.geb_spec (tv_sec time + ds) (tv_sec time)); [|lia].
    destruct (Z.geb_spec (tv_nsec time + dn) (tv_nsec time)); [|lia].
    rewrite !i64_small by (change (2^63) with 9223372036854775808; lia).
    f_equal; lia.
Qed.

Lemma timespecAdd_Subtract_round_trip_witness :
  let time := mkTimespec 5 900000000 in
  let delta := mkTimespec 2 300000000 in
  (normalized time /\ normalized delta /\ moderate time
   /\ 0 <= tv_sec delta < 2^62)
  /\ timespecSubtract (timespecAdd time delta) time = delta.
Proof.
  intros time delta.
  assert (Ht : normalized time) by (vm_compute; split; congruence).
  assert (Hd : normalized delta) by (vm_compute; split; congruence).
  assert (Mt : moderate time) by (vm_compute; split; congruence).
  assert (Md : 0 <= tv_sec delta < 2^62) by (vm_compute; split; congruence).
  split; [tauto|].
  exact (timespecAdd_Subtract_round_trip time delta Ht Hd Mt Md).
Defined.

(** X4.  [raopClientGetProgress] answers the time played: the time since
    [playingTimeOffset] (zero while the clock is before that offset) plus
    the start time within the file, with nanoseconds below one second, for
    a clock, an offset and a start time that are not negative, have less
    than [2^62] seconds and nanoseconds below one second; it fails only
    when the clock cannot be read. *)
Theorem raopClientGetProgress_value (raopClient : RAOPClient)
    (currentTime progress : timespec) :
  normalized currentTime -> normalized (playingTimeOffset raopClient) ->
  normalized (startTime raopClient) ->
  0 <= tv_sec currentTime < 2^62 ->
  0 <= tv_sec (playingTimeOffset raopClient) < 2^62 ->
  0 <= tv_sec (startTime raopClient) < 2^62 ->
  fst (raopClientGetProgress raopClient (Some currentTime) progress) = true
  /\ normalized
       (snd (raopClientGetProgress raopClient (Some currentTime) progress))
  /\ nanoseconds
       (snd (raopClientGetProgress raopClient (Some currentTime) progress))
     = Z.max 0 (nanoseconds currentTime
                - nanoseconds (playingTimeOffset raopClient))
       + nanoseconds (startTime raopClient).
Proof.
  unfold raopClientGetProgress. cbn [fst snd].
  set (offset := playingTimeOffset raopClient).
  set (start := startTime raopClient).
  unfold normalized, nanoseconds, timespecAdd, timespecSubtract.
  change ONE_SECOND_IN_NANO_SECONDS with 1000000000.
  change (2^62) with 4611686018427387904.
  intros Hc Ho Hs Mc Mo Ms.
  split; [reflexivity|].
  assert (Hsub : exists d : timespec,
             (if tv_sec currentTime >=? tv_sec offset
              then if tv_nsec currentTime >=? tv_nsec offset
                   then mkTimespec (i64 (tv_sec currentTime - tv_sec offset))
                          (i64 (tv_nsec currentTime - tv_nsec offset))
                   else if tv_sec currentTime >? tv_sec offset
                        then mkTimespec
                               (i64 (i64 (tv_sec currentTime - tv_sec offset)
                                     - 1))
                               (i64 (i64 (1000000000 + tv_nsec currentTime)
                                     - tv_nsec offset))
                        else mkTimespec 0 0
              else mkTimespec 0 0) = d
             /\ 0 <= tv_nsec d < 1000000000
             /\ 0 <= tv_sec d < 4611686018427387904
             /\ tv_sec d * 1000000000 + tv_nsec d
                = Z.max 0 (tv_sec currentTime * 1000000000
                           + tv_nsec currentTime
                           - (tv_sec offset * 1000000000 + tv_nsec offset))).
  { eexists. split; [reflexivity|].
    destruct (Z.geb_spec (tv_sec currentTime) (tv_sec offset)) as [H1|H1];
      [|cbn [tv_sec tv_nsec]; lia].
    destruct (Z.geb_spec (tv_nsec currentTime) (tv_nsec offset)) as [H2|H2].
    - cbn [tv_sec tv_nsec].
      rewrite !i64_small by (change (2^63) with 9223372036854775808; lia). lia.
    - destruct (Z.gtb_spec (tv_sec currentTime) (tv_sec offset)) as [H3|H3];
        [|cbn [tv_sec tv_nsec]; lia].
      cbn [tv_sec tv_nsec].
      rewrite (i64_small (tv_sec currentTime - tv_sec offset))
        by (change (2^63) with 9223372036854775808; lia).
      rewrite (i64_small (1000000000 + tv_nsec currentTime))
        by (change (2^63) with 9223372036854775808; lia).
      rewrite !i64_small by (change (2^63) with 9223372036854775808; lia).
      lia. }
  destruct Hsub as (d & -> & Hd1 & Hd2 & Hd3).
  rewrite (i64_small (tv_sec d + tv_sec start))
    by (change (2^63) with 9223372036854775808; lia).
  rewrite (i64_small (tv_nsec d + tv_nsec start))
    by (change (2^63) with 9223372036854775808; lia).
  destruct (Z.geb_spec (tv_nsec d + tv_nsec start) 1000000000) as [H|H];
    cbn [tv_sec tv_nsec];
    rewrite ?i64_small by (change (2^63) with 9223372036854775808; lia); lia.
Qed.

Lemma raopClientGetProgress_value_witness :
  let raopClient :=
    mkRaop "airport" None 6000 true (float_of_double VOLUME_DEFAULT) None true
      (mkTimespec 100 500000000) (mkTimespec 30 0) in
  let currentTime := mkTimespec 107 250000000 in
  raopClientGetProgress raopClient (Some currentTime) (mkTimespec 0 0)
  = (true, mkTimespec 36 750000000)
  /\ nanoseconds
       (snd (raopClientGetProgress raopClient (Some currentTime)
               (mkTimespec 0 0)))
     = 36750000000.
Proof.
  intros raopClient currentTime.
  split; [vm_compute; reflexivity|].
  rewrite (proj2 (proj2 (raopClientGetProgress_value raopClient currentTime
                           (mkTimespec 0 0)
                           ltac:(vm_compute; split; congruence)
                           ltac:(vm_compute; split; congruence)
                           ltac:(vm_compute; split; congruence)
                           ltac:(vm_compute; split; congruence)
                           ltac:(vm_compute; split; congruence)
                           ltac:(vm_compute; split; congruence)))).
  vm_compute. reflexivity.
Defined.

(* ================================================================== *)
(** * buffer.c: making room *)

Lemma growSize_least (incrementSize needed : Z) (fuel : nat) :
  1 <= incrementSize ->
  forall newSize : Z,
    needed - newSize <= Z.of_nat fuel ->
    exists j : Z,
      0 <= j
      /\ growSize fuel newSize needed incrementSize
         = newSize + j * incrementSize
      /\ needed <= growSize fuel newSize needed incrementSize
      /\ (j = 0
          \/ growSize fuel newSize needed incrementSize - incrementSize
             < needed).
Proof.
  intros Hi. induction fuel as [|fuel IH]; intros newSize Hf;
    cbn [growSize].
  - exists 0. repeat split; lia.
  - destruct (Z.gtb_spec needed newSize) as [Hgt|Hle].
    + destruct (IH (newSize + incrementSize)) as (j & Hj & E & Hn & Hm);
        [lia|].
      exists (j + 1). split; [lia|]. split; [rewrite E; lia|].
      split; [exact Hn|]. right. destruct Hm as [-> | Hm]; [|exact Hm].
      rewrite E. lia.
    + exists 0. repeat split; lia.
Qed.

(** X5.  [bufferMakeRoom] leaves a buffer that holds the bytes in use and
    the bytes required: the size is kept when they fit, and otherwise it
    grows by the least number (at least one) of increments that makes them
    fit; the new size stays within [size_t] when
    [bufferSize + requiredSize + incrementSize] does. *)
Theorem bufferMakeRoom_least_growth
    (maxBufferSize bufferSize requiredSize incrementSize : Z) :
  0 <= maxBufferSize < 2^64 -> 0 <= bufferSize -> 0 <= requiredSize ->
  1 <= incrementSize ->
  bufferSize + requiredSize + incrementSize < 2^64 ->
  let newSize :=
    bufferMakeRoom maxBufferSize bufferSize requiredSize incrementSize in
  bufferSize + requiredSize <= newSize < 2^64
  /\ (bufferSize + requiredSize <= maxBufferSize -> newSize = maxBufferSize)
  /\ (maxBufferSize < bufferSize + requiredSize ->
      exists k : Z,
        1 <= k /\ newSize = maxBufferSize + k * incrementSize
        /\ (k = 1 \/ newSize - incrementSize < bufferSize + requiredSize)).
Proof.
  intros Hm Hb Hr Hi Hfit. cbv zeta. unfold bufferMakeRoom.
  destruct (Z.leb_spec (bufferSize + requiredSize) maxBufferSize) as [H|H].
  - split; [lia|]. split; [reflexivity | lia].
  - destruct (growSize_least incrementSize (bufferSize + requiredSize)
                (Z.to_nat (bufferSize + requiredSize)) Hi
                (maxBufferSize + incrementSize))
      as (j & Hj & E & Hn & Hmin); [lia|].
    split; [split; [exact Hn|]|].
    + destruct Hmin as [-> | Hmin]; lia.
    + split; [lia|]. intros _. exists (j + 1).
      split; [lia|]. split; [rewrite E; lia|].
      destruct Hmin as [-> | Hmin]; [left; lia | right; exact Hmin].
Qed.

Lemma bufferMakeRoom_least_growth_witness :
  bufferMakeRoom 1024 1024 512 512 = 1536
  /\ bufferMakeRoom 1024 1000 2000 512 = 3072
  /\ 1000 + 2000 <= bufferMakeRoom 1024 1000 2000 512 < 2^64.
Proof.
  split; [vm_compute; reflexivity|]. split; [vm_compute; reflexivity|].
  exact (proj1 (bufferMakeRoom_least_growth 1024 1000 2000 512
                  ltac:(vm_compute; split; congruence) ltac:(lia) ltac:(lia)
                  ltac:(lia) ltac:(vm_compute; reflexivity))).
Defined.

(* ================================================================== *)
(** * log.c: the log line *)

Lemma cstr_String (a : ascii) (s : string) :
  cstr (String a s) = String a s -> a <> NUL /\ cstr s = s.
Proof.
  cbn [cstr]. destruct (Ascii.eqb_spec a NUL) as [E|N]; [discriminate|].
  intros [= H]. split; assumption.
Qed.

Lemma cstr_substring (s : string) :
  cstr s = s -> forall n : nat, cstr (substring 0 n s) = substring 0 n s.
Proof.
  induction s as [|a s IH]; intros H n.
  - destruct n; reflexivity.
  - destruct (cstr_String a s H) as [Ha Hs].
    destruct n as [|n]; [reflexivity|].
    cbn [substring]. apply cstr_cons; [exact Ha | apply IH; exact Hs].
Qed.

Lemma cstr_take (n : Z) (s : string) : cstr s = s -> cstr (take n s) = take n s.
Proof. intros H. unfold take. apply cstr_substring. exact H. Qed.

Lemma strlen_take_le (n : Z) (s : string) : 0 <= n -> strlen (take n s) <= n.
Proof.
  intros Hn. unfold strlen, take.
  pose proof (length_substring_le s (Z.to_nat n)). lia.
Qed.

Lemma length_substring_full (s : string) :
  forall n : nat, (n <= String.length s)%nat ->
    String.length (substring 0 n s) = n.
Proof.
  induction s as [|a s IH]; intros n H; destruct n as [|n];
    cbn [substring String.length] in *; try lia.
  rewrite IH by lia. reflexivity.
Qed.

Lemma strlen_take_full (n : Z) (s : string) :
  0 <= n <= strlen s -> strlen (take n s) = n.
Proof.
  unfold strlen, take. intros H.
  rewrite length_substring_full by lia. lia.
Qed.

Lemma substring_substring (s : string) :
  forall n m : nat, (n <= m)%nat ->
    substring 0 n (substring 0 m s) = substring 0 n s.
Proof.
  induction s as [|a s IH]; intros n m H.
  - destruct n, m; reflexivity.
  - destruct n as [|n]; [destruct m; reflexivity|].
    destruct m as [|m]; [lia|]. cbn [substring]. rewrite IH by lia.
    reflexivity.
Qed.

Lemma take_take (n m : Z) (s : string) :
  0 <= n <= m -> take n (take m s) = take n s.
Proof. intros H. unfold take. apply substring_substring. lia. Qed.

Lemma cstr_zeros_string (n : nat) : cstr (zeros_string n) = zeros_string n.
Proof.
  unfold zeros_string. induction n as [|n IH]; [reflexivity|].
  cbn [repeat string_of_list_ascii]. apply cstr_cons; [discriminate|exact IH].
Qed.

Lemma cstr_print_u (n : Z) : 0 <= n -> cstr (print_u n) = print_u n.
Proof.
  intros H. unfold print_u. apply digits_clean; [lia | exact H | reflexivity].
Qed.

Lemma cstr_print_0d (width : nat) (n : Z) :
  cstr (print_0d width n) = print_0d width n.
Proof.
  unfold print_0d. destruct (Z.ltb_spec n 0) as [H|H].
  - apply cstr_append; [reflexivity|].
    apply cstr_append; [apply cstr_zeros_string | apply cstr_print_u; lia].
  - apply cstr_append; [apply cstr_zeros_string | apply cstr_print_u; lia].
Qed.

Lemma cstr_logPrefix (timeValue : tm) (logLevel : LogLevel)
    (componentName : option string) :
  cstr (logPrefix timeValue logLevel componentName)
  = logPrefix timeValue logLevel componentName.
Proof.
  unfold logPrefix.
  repeat (apply cstr_append;
          [first [apply cstr_print_0d | reflexivity
                 | destruct logLevel; reflexivity
                 | destruct componentName;
                   [apply cstr_idempotent | reflexivity]]|]).
  reflexivity.
Qed.

(* ================================================================== *)
(** * Printing a number and scanning it back *)

Lemma digit_value_digit_char (base d : Z) :
  2 <= base <= 16 -> 0 <= d < base ->
  digit_value base (digit_char d) = Some d.
Proof.
  intros Hb Hd.
  assert (Hc : d = 0 \/ d = 1 \/ d = 2 \/ d = 3 \/ d = 4 \/ d = 5 \/ d = 6
               \/ d = 7 \/ d = 8 \/ d = 9 \/ d = 10 \/ d = 11 \/ d = 12
               \/ d = 13 \/ d = 14 \/ d = 15) by lia.
  unfold digit_value.
  repeat (destruct Hc as [->|Hc]);
    try subst d;
    (match goal with
     | |- context [code (digit_char ?k)] =>
         let v := eval vm_compute in (code (digit_char k)) in
         change (code (digit_char k)) with v
     end);
    cbn -[Z.ltb];
    (match goal with
     | |- context [?x <? base] =>
         destruct (Z.ltb_spec x base); [reflexivity | lia]
     end).
Qed.

(** A digit is no white space, no sign and no [x]. *)
Lemma digit_char_plain (d : Z) :
  0 <= d < 16 ->
  isspace (digit_char d) = false
  /\ scan_sign (String (digit_char d) "") = (false, String (digit_char d) "")
  /\ Ascii.eqb (digit_char d) "x" = false
  /\ Ascii.eqb (digit_char d) "X" = false
  /\ is_newline (digit_char d) = false.
Proof.
  intros Hd.
  assert (Hc : d = 0 \/ d = 1 \/ d = 2 \/ d = 3 \/ d = 4 \/ d = 5 \/ d = 6
               \/ d = 7 \/ d = 8 \/ d = 9 \/ d = 10 \/ d = 11 \/ d = 12
               \/ d = 13 \/ d = 14 \/ d = 15) by lia.
  repeat (destruct Hc as [->|Hc]); try subst d;
    (split; [vm_compute; reflexivity|]);
    (split; [vm_compute; reflexivity|]);
    (split; [vm_compute; reflexivity|]);
    (split; vm_compute; reflexivity).
Qed.

Lemma scan_sign_digit (d : Z) (s : string) :
  0 <= d < 16 ->
  scan_sign (String (digit_char d) s) = (false, String (digit_char d) s).
Proof.
  intros Hd.
  assert (Hc : d = 0 \/ d = 1 \/ d = 2 \/ d = 3 \/ d = 4 \/ d = 5 \/ d = 6
               \/ d = 7 \/ d = 8 \/ d = 9 \/ d = 10 \/ d = 11 \/ d = 12
               \/ d = 13 \/ d = 14 \/ d = 15) by lia.
  repeat (destruct Hc as [->|Hc]); try subst d; reflexivity.
Qed.

(** Scanning the digits of [n] gives [n] back. *)
Lemma scan_digits_digits (base : Z) (rest : string) (fuel : nat) :
  2 <= base <= 16 ->
  forall (n : Z) (acc : string),
    0 <= n < base ^ Z.of_nat (S fuel) ->
    forall (a : Z) (any : bool),
      scan_digits base (digits (S fuel) base n acc +++ rest) a any
      = scan_digits base (acc +++ rest)
          (a * base ^ (strlen (digits (S fuel) base n acc) - strlen acc) + n)
          true.
Proof.
  intros Hb. induction fuel as [|fuel IH]; intros n acc Hn a any.
  - change (Z.of_nat 1) with 1 in Hn. rewrite Z.pow_1_r in Hn.
    rewrite digits_S. rewrite Z.div_small by lia. cbn [Z.eqb].
    rewrite Z.mod_small by lia.
    cbn [String.append scan_digits].
    rewrite digit_value_digit_char by lia.
    unfold strlen. cbn [String.length].
    replace (Z.of_nat (S (String.length acc)) - Z.of_nat (String.length acc))
      with 1 by lia.
    rewrite Z.pow_1_r. reflexivity.
  - rewrite digits_S.
    assert (Hm : 0 <= n mod base < base) by (apply Z.mod_pos_bound; lia).
    destruct (Z.eqb_spec (n / base) 0) as [E|N].
    + cbn [String.append scan_digits].
      rewrite digit_value_digit_char by lia.
      unfold strlen. cbn [String.length].
      replace (Z.of_nat (S (String.length acc))
               - Z.of_nat (String.length acc)) with 1 by lia.
      rewrite Z.pow_1_r.
      assert (n mod base = n).
      { rewrite (Z.div_mod n base) at 2 by lia. rewrite E. lia. }
      congruence.
    + assert (Hd : 0 <= n / base < base ^ Z.of_nat (S fuel)).
      { split; [apply Z.div_pos; lia|].
        apply Z.div_lt_upper_bound; [lia|].
        replace (Z.of_nat (S (S fuel))) with (1 + Z.of_nat (S fuel)) in Hn
          by lia.
        rewrite Z.pow_add_r, Z.pow_1_r in Hn by lia. lia. }
      rewrite (IH (n / base) (String (digit_char (n mod base)) acc) Hd a any).
      cbn [String.append scan_digits].
      rewrite digit_value_digit_char by lia.
      f_equal.
      set (body := digits (S fuel) base (n / base)
                     (String (digit_char (n mod base)) acc)).
      pose proof (digits_length_ge base (S fuel) (n / base)
                    (String (digit_char (n mod base)) acc)) as Hl.
      fold body in Hl. cbn [String.length] in Hl.
      unfold strlen. cbn [String.length].
      replace (Z.of_nat (String.length body) - Z.of_nat (String.length acc))
        with (Z.of_nat (String.length body)
              - Z.of_nat (S (String.length acc)) + 1) by lia.
      rewrite Z.pow_add_r, Z.pow_1_r by lia.
      rewrite (Z.div_mod n base) at 3 by lia. ring.
Qed.


(* ================================================================== *)
(** * rtspresponse.c: looking up a header field *)

Lemma prefix_append (p q : string) :
  forall s : string,
    String.prefix (p +++ q) s
    = String.prefix p s && String.prefix q (drop (String.length p) s).
Proof.
  induction p as [|a p IH]; intros s; [destruct s; reflexivity|].
  destruct s as [|b s]; [reflexivity|].
  cbn [String.append String.prefix String.length drop].
  destruct (ascii_dec a b); [apply IH | reflexivity].
Qed.

Lemma prefix_self (p s : string) : String.prefix p (p +++ s) = true.
Proof.
  induction p as [|a p IH]; [destruct s; reflexivity|].
  cbn [String.append String.prefix].
  destruct (ascii_dec a a); [exact IH | congruence].
Qed.

Lemma drop_append (p s : string) : drop (String.length p) (p +++ s) = s.
Proof. induction p as [|a p IH]; [reflexivity | exact IH]. Qed.

Lemma all_chars_append (f : ascii -> bool) (a b : string) :
  all_chars f (a +++ b) = all_chars f a && all_chars f b.
Proof.
  induction a as [|c a IH]; [reflexivity|].
  cbn [String.append all_chars]. rewrite IH. apply andb_assoc.
Qed.

(** A prefix made of characters that satisfy [f] does not reach beyond the
    first character that does not. *)
Lemma prefix_stops (f : ascii -> bool) (c : ascii) (p : string) :
  all_chars f p = true -> f c = false ->
  forall l X : string,
    String.prefix p (l +++ String c X) = true -> String.prefix p l = true.
Proof.
  intros Hp Hc. induction p as [|a p IH]; intros l X H;
    [destruct l; reflexivity|].
  cbn [all_chars] in Hp. apply andb_prop in Hp. destruct Hp as [Ha Hp].
  destruct l as [|b l].
  - cbn [String.append String.prefix] in H.
    destruct (ascii_dec a c) as [->|]; [congruence | discriminate].
  - cbn [String.append String.prefix] in H |- *.
    destruct (ascii_dec a b); [|discriminate].
    exact (IH Hp l X H).
Qed.

Lemma skip_while_all (f : ascii -> bool) (l : string) :
  all_chars f l = true ->
  forall X : string, skip_while f (l +++ X) = skip_while f X.
Proof.
  induction l as [|a l IH]; intros H X; [reflexivity|].
  cbn [all_chars] in H. apply andb_prop in H. destruct H as [Ha Hl].
  cbn [String.append skip_while]. rewrite Ha. apply IH. exact Hl.
Qed.

Lemma skip_while_stop (f : ascii -> bool) (a : ascii) (s : string) :
  f a = false -> skip_while f (String a s) = String a s.
Proof. intros H. cbn [skip_while]. rewrite H. reflexivity. Qed.

Lemma no_newline_all (l : string) :
  no_newline l = true ->
  all_chars (fun c => negb (is_newline c)) l = true.
Proof. intros H. exact H. Qed.

(** A line starts with a character that is no newline. *)
Lemma skip_newline_line (l : string) (c : ascii) (X : string) :
  no_newline l = true -> is_newline c = false ->
  skip_while is_newline (l +++ String c X) = l +++ String c X.
Proof.
  intros Hl Hc. destruct l as [|a l].
  - apply skip_while_stop. exact Hc.
  - cbn [String.append]. apply skip_while_stop.
    unfold no_newline in Hl. cbn [all_chars] in Hl.
    apply andb_prop in Hl. destruct Hl as [Ha _].
    destruct (is_newline a); [discriminate | reflexivity].
Qed.

(** From inside a line to the start of the next one. *)
Lemma next_line (prev T : string) :
  no_newline prev = true -> skip_while is_newline T = T ->
  skip_while is_newline
    (skip_while (fun c => negb (is_newline c)) (prev +++ CRLF +++ T))
  = T.
Proof.
  intros Hp HT.
  assert (E : prev +++ CRLF +++ T
              = (prev +++ String "013" "") +++ String "010" T).
  { unfold CRLF. rewrite append_assoc. reflexivity. }
  rewrite E. rewrite skip_while_all.
  - rewrite skip_while_stop by reflexivity.
    cbn [skip_while]. change (is_newline "010") with true. cbv iota.
    exact HT.
  - rewrite all_chars_append. unfold no_newline in Hp. rewrite Hp.
    reflexivity.
Qed.

Lemma line_nonempty (prev T : string) : prev +++ CRLF +++ T <> "".
Proof. destruct prev; discriminate. Qed.

(** The test of [rtspResponseFindValueForKey] for a key at the start of a
    line asks for the key and the separator. *)
Lemma keyed_prefix (key v : string) :
  (strlen key + 2 + 1 <=? strlen v) && starts_with key v
  && starts_with ": " (drop (String.length key) v) = true ->
  String.prefix (key +++ ": ") v = true.
Proof.
  unfold starts_with. intros H.
  apply andb_prop in H. destruct H as [H H2].
  apply andb_prop in H. destruct H as [_ H1].
  rewrite prefix_append, H1, H2. reflexivity.
Qed.

Lemma findKey_S (k : nat) (key : string) (subkey : option string)
    (v : string) :
  v <> "" ->
  findKey (S k) key subkey v
  = let v := skip_while is_newline
               (skip_while (fun c => negb (is_newline c)) v) in
    if (strlen key + 2 + 1 <=? strlen v) && starts_with key v
       && starts_with ": " (drop (String.length key) v)
    then
      let v := drop (String.length key + 2) v in
      match subkey with
      | Some sk =>
          match findSubkey (S (String.length v)) sk v with
          | inl found => Some found
          | inr v => findKey k key subkey v
          end
      | None => Some v
      end
    else findKey k key subkey v.
Proof. intros H. destruct v; [congruence | reflexivity]. Qed.

Lemma prefix_extend (p a b : string) :
  String.prefix p a = true -> String.prefix p (a +++ b) = true.
Proof.
  revert a. induction p as [|c p IH]; intros a H;
    [destruct (a +++ b); reflexivity|].
  destruct a as [|d a]; [discriminate|].
  cbn [String.append String.prefix] in H |- *.
  destruct (ascii_dec c d); [apply IH; exact H | discriminate].
Qed.

(** A line that is not the field is passed over. *)
Lemma other_line_not_keyed (key l X : string) :
  no_newline key = true -> other_line key l = true ->
  (strlen key + 2 + 1 <=? strlen (l +++ CRLF +++ X))
  && starts_with key (l +++ CRLF +++ X)
  && starts_with ": " (drop (String.length key) (l +++ CRLF +++ X)) = false.
Proof.
  intros Hk Hl. unfold other_line in Hl.
  apply andb_prop in Hl. destruct Hl as [Hn Hs].
  match goal with |- ?b = false => destruct b eqn:E end; [|reflexivity].
  apply keyed_prefix in E.
  assert (E2 : l +++ CRLF +++ X = (l +++ String "013" "") +++ String "010" X).
  { unfold CRLF. rewrite append_assoc. reflexivity. }
  rewrite E2 in E.
  apply (prefix_stops (fun c => negb (is_newline c))) in E.
  - apply (prefix_extend _ _ (String "010" "")) in E.
    rewrite append_assoc in E. unfold starts_with, CRLF in Hs.
    cbn [String.append] in E. rewrite E in Hs. discriminate.
  - rewrite all_chars_append. unfold no_newline in Hk. rewrite Hk.
    reflexivity.
  - reflexivity.
Qed.

Lemma headerLines_cons (l : string) (lines : list string) :
  headerLines (l :: lines) = l +++ CRLF +++ headerLines lines.
Proof. reflexivity. Qed.

(** The first line that holds the field answers the lookup. *)
Lemma findKey_found (key rest : string) :
  no_newline key = true -> 1 <= strlen rest ->
  forall (before : list string) (fuel : nat) (prev : string),
    (length before < fuel)%nat ->
    no_newline prev = true ->
    forallb (other_line key) before = true ->
    findKey fuel key None
      (prev +++ CRLF +++ headerLines before +++ key +++ ": " +++ rest)
    = Some rest.
Proof.
  intros Hk Hr. induction before as [|l before IH]; intros fuel prev Hf Hp Hb.
  - destruct fuel as [|k]; [simpl in Hf; lia|].
    rewrite findKey_S by apply line_nonempty.
    cbn [headerLines fold_right].
    change ("" +++ key +++ ": " +++ rest) with (key +++ ": " +++ rest).
    cbv zeta.
    rewrite next_line.
    + assert (Hlen : strlen (key +++ ": " +++ rest)
                     = strlen key + 2 + strlen rest).
      { rewrite !strlen_append. change (strlen ": ") with 2. lia. }
      rewrite Hlen.
      destruct (Z.leb_spec (strlen key + 2 + 1)
                  (strlen key + 2 + strlen rest)); [|lia].
      unfold starts_with. rewrite prefix_self, drop_append.
      rewrite prefix_self. cbn [andb].
      replace (String.length key + 2)%nat
        with (String.length (key +++ ": ")).
      * rewrite <- append_assoc. rewrite drop_append. reflexivity.
      * rewrite length_append. reflexivity.
    + exact Hp.
    + change (key +++ ": " +++ rest) with (key +++ String ":" (" " +++ rest)).
      apply skip_newline_line; [exact Hk | reflexivity].
  - destruct fuel as [|k]; [simpl in Hf; lia|].
    cbn [forallb] in Hb. apply andb_prop in Hb. destruct Hb as [Hl Hb].
    rewrite findKey_S by apply line_nonempty.
    rewrite headerLines_cons. cbv zeta.
    rewrite !append_assoc.
    rewrite next_line.
    + rewrite other_line_not_keyed by assumption.
      apply IH.
      * simpl in Hf. lia.
      * unfold other_line in Hl. apply andb_prop in Hl. tauto.
      * exact Hb.
    + exact Hp.
    + unfold CRLF. apply skip_newline_line; [|reflexivity].
      unfold other_line in Hl. apply andb_prop in Hl. tauto.
Qed.

(** Without a line that holds the field the lookup fails. *)
Lemma findKey_absent (key : string) (subkey : option string) :
  no_newline key = true ->
  forall (lines : list string) (fuel : nat) (prev : string),
    no_newline prev = true ->
    forallb (other_line key) lines = true ->
    findKey fuel key subkey (prev +++ CRLF +++ headerLines lines) = None.
Proof.
  intros Hk. induction lines as [|l lines IH]; intros fuel prev Hp Hb.
  - destruct fuel as [|k]; [reflexivity|].
    rewrite findKey_S by apply line_nonempty.
    cbn [headerLines fold_right]. cbv zeta.
    rewrite next_line by (exact Hp || reflexivity).
    change (strlen "") with 0.
    pose proof (strlen_nonneg key).
    destruct (Z.leb_spec (strlen key + 2 + 1) 0); [lia|].
    cbn [andb]. destruct k; reflexivity.
  - destruct fuel as [|k]; [reflexivity|].
    cbn [forallb] in Hb. apply andb_prop in Hb. destruct Hb as [Hl Hb].
    rewrite findKey_S by apply line_nonempty.
    rewrite headerLines_cons. cbv zeta.
    rewrite next_line.
    + rewrite other_line_not_keyed by assumption.
      apply IH; [|exact Hb].
      unfold other_line in Hl. apply andb_prop in Hl. tauto.
    + exact Hp.
    + unfold CRLF. apply skip_newline_line; [|reflexivity].
      unfold other_line in Hl. apply andb_prop in Hl. tauto.
Qed.

Lemma headerLines_length (lines : list string) :
  (length lines <= String.length (headerLines lines))%nat.
Proof.
  induction lines as [|l lines IH]; [simpl; lia|].
  rewrite headerLines_cons, !length_append. simpl length.
  change (String.length CRLF) with 2%nat. lia.
Qed.

(** X7.  [rtspResponseFindValueForKey] without a sub-key answers the text
    that follows the key and its separator on the first line, after the
    first line of the response, that starts with them; the first line of
    the response is never looked at. *)
Theorem rtspResponseFindValueForKey_first_field
    (first key rest : string) (before : list string) (maxSize : Z) :
  no_newline first = true -> no_newline key = true ->
  forallb (other_line key) before = true ->
  1 <= strlen rest ->
  rtspResponseFindValueForKey
    (mkResponse
       (Some (first +++ CRLF +++ headerLines before +++ key +++ ": " +++ rest))
       maxSize)
    key None
  = Some rest.
Proof.
  intros Hf Hk Hb Hr. unfold rtspResponseFindValueForKey.
  cbn [responseBuffer].
  apply findKey_found; try assumption.
  rewrite !length_append. pose proof (headerLines_length before). lia.
Qed.

Lemma rtspResponseFindValueForKey_first_field_witness :
  rtspResponseFindValueForKey
    (mkResponse
       (Some ("Session: 1" +++ CRLF
              +++ headerLines ["CSeq: 3"; "Session-Timeout: 60"]
              +++ "Session" +++ ": " +++ "DEADBEEF" +++ CRLF))
       1024)
    "Session" None
  = Some ("DEADBEEF" +++ CRLF).
Proof.
  apply (rtspResponseFindValueForKey_first_field "Session: 1" "Session"
           ("DEADBEEF" +++ CRLF) ["CSeq: 3"; "Session-Timeout: 60"] 1024);
    vm_compute; congruence.
Defined.

(** X8.  In a response none of whose lines after the first starts with the
    key and its separator, [rtspResponseFindValueForKey] finds nothing.
    Such a response without CSeq is accepted by
    [rtspResponseGetSequenceNumber], which stores no number; without
    Session, Transport or WWW-Authenticate the functions that read them
    fail. *)
Theorem rtspResponse_missing_field (first : string) (lines : list string)
    (maxSize : Z) :
  let response :=
    mkResponse (Some (first +++ CRLF +++ headerLines lines)) maxSize in
  no_newline first = true ->
  (forall (key : string) (subkey : option string),
     no_newline key = true -> forallb (other_line key) lines = true ->
     rtspResponseFindValueForKey response key subkey = None)
  /\ (forallb (other_line "CSeq") lines = true ->
      rtspResponseGetSequenceNumber response = (true, None))
  /\ (forallb (other_line "Session") lines = true ->
      rtspResponseGetSession response = (false, 0))
  /\ (forallb (other_line "Transport") lines = true ->
      rtspResponseGetServerPort response = (false, 0))
  /\ (forallb (other_line "WWW-Authenticate") lines = true ->
      forall maxRealmBufferSize maxNonceBufferSize : Z,
        rtspResponseGetAuthenticationResponse response maxRealmBufferSize
          maxNonceBufferSize = None).
Proof.
  intros response Hf.
  assert (H : forall (key : string) (subkey : option string),
             no_newline key = true -> forallb (other_line key) lines = true ->
             rtspResponseFindValueForKey response key subkey = None).
  { intros key subkey Hk Hl. unfold rtspResponseFindValueForKey, response.
    cbn [responseBuffer]. apply findKey_absent; assumption. }
  split; [exact H|].
  split; [|split; [|split]].
  - intros Hl. unfold rtspResponseGetSequenceNumber.
    rewrite (H "CSeq" None eq_refl Hl). reflexivity.
  - intros Hl. unfold rtspResponseGetSession.
    rewrite (H "Session" None eq_refl Hl). reflexivity.
  - intros Hl. unfold rtspResponseGetServerPort.
    rewrite (H "Transport" (Some "server_port") eq_refl Hl). reflexivity.
  - intros Hl ? ?. unfold rtspResponseGetAuthenticationResponse.
    rewrite (H "WWW-Authenticate" None eq_refl Hl). reflexivity.
Qed.

Lemma rtspResponse_missing_field_witness :
  let response :=
    mkResponse
      (Some ("RTSP/1.0 200 OK" +++ CRLF
             +++ headerLines ["Audio-Jack-Status: connected"; ""]))
      1024 in
  rtspResponseFindValueForKey response "CSeq" None = None
  /\ rtspResponseGetSequenceNumber response = (true, None)
  /\ rtspResponseGetSession response = (false, 0).
Proof.
  intros response.
  pose proof (rtspResponse_missing_field "RTSP/1.0 200 OK"
                ["Audio-Jack-Status: connected"; ""] 1024 eq_refl)
    as (H1 & H2 & H3 & _).
  split; [|split].
  - apply H1; reflexivity.
  - apply H2. reflexivity.
  - apply H3. reflexivity.
Defined.

(** The most significant digit of a number; it is not zero for a number
    that is not zero. *)
Lemma digits_head (base : Z) (fuel : nat) :
  2 <= base <= 16 ->
  forall (n : Z) (acc : string),
    0 <= n < base ^ Z.of_nat (S fuel) ->
    exists (d : Z) (s : string),
      digits (S fuel) base n acc = String (digit_char d) s
      /\ 0 <= d < base
      /\ (1 <= n -> 1 <= d)
      /\ (s = acc
          \/ exists (d' : Z) (s' : string),
               0 <= d' < base /\ s = String (digit_char d') s').
Proof.
  intros Hb. induction fuel as [|fuel IH]; intros n acc Hn.
  - change (Z.of_nat 1) with 1 in Hn. rewrite Z.pow_1_r in Hn.
    rewrite digits_S, Z.div_small by lia. cbn [Z.eqb].
    rewrite Z.mod_small by lia.
    exists n, acc. split; [reflexivity|]. split; [lia|].
    split; [tauto | left; reflexivity].
  - rewrite digits_S.
    assert (Hm : 0 <= n mod base < base) by (apply Z.mod_pos_bound; lia).
    destruct (Z.eqb_spec (n / base) 0) as [E|N].
    + assert (n mod base = n).
      { rewrite (Z.div_mod n base) at 2 by lia. rewrite E. lia. }
      exists (n mod base), acc. split; [reflexivity|]. split; [lia|].
      split; [lia | left; reflexivity].
    + assert (Hd : 0 <= n / base < base ^ Z.of_nat (S fuel)).
      { split; [apply Z.div_pos; lia|].
        apply Z.div_lt_upper_bound; [lia|].
        replace (Z.of_nat (S (S fuel))) with (1 + Z.of_nat (S fuel)) in Hn
          by lia.
        rewrite Z.pow_add_r, Z.pow_1_r in Hn by lia. lia. }
      destruct (IH (n / base) (String (digit_char (n mod base)) acc) Hd)
        as (d & s & E & Hr & Hz & Hs).
      exists d, s. split; [exact E|]. split; [exact Hr|].
      split; [intros _; apply Hz; lia|].
      right. destruct Hs as [->|Hs]; [|exact Hs].
      exists (n mod base), acc. split; [exact Hm | reflexivity].
Qed.

Lemma scan_digits_end (base : Z) (rest : string) (n : Z) :
  ends_number base rest -> scan_digits base rest n true = (n, true).
Proof.
  destruct rest as [|a rest]; [reflexivity|].
  cbn [ends_number scan_digits]. intros ->. reflexivity.
Qed.

(** The digits of [n] scanned as a whole. *)
Lemma scan_digits_number (base : Z) (fuel : nat) (n : Z) (rest : string) :
  2 <= base <= 16 -> 0 <= n < base ^ Z.of_nat (S fuel) ->
  ends_number base rest ->
  scan_digits base (digits (S fuel) base n "" +++ rest) 0 false = (n, true).
Proof.
  intros Hb Hn Hr. rewrite scan_digits_digits by assumption.
  change ("" +++ rest) with rest. rewrite Z.mul_0_l, Z.add_0_l.
  apply scan_digits_end. exact Hr.
Qed.

(** [%u] written and read back. *)
Lemma sscanf_u32_print_u (n : Z) (rest : string) :
  0 <= n < 2^32 -> ends_number 10 rest ->
  sscanf_u32 (print_u n +++ rest) = Some n.
Proof.
  intros Hn Hr.
  assert (Hb : 0 <= n < 10 ^ Z.of_nat 64).
  { change (10 ^ Z.of_nat 64) with (2^32 * (10^64 / 2^32)).
    change (10^64 / 2^32) with 2328306436538696289062500000000000000000000000000000000.
    lia. }
  unfold sscanf_u32, print_u.
  destruct (digits_head 10 63 ltac:(lia) n "" Hb) as (d & s & E & Hd & _ & _).
  rewrite E at 1. cbn [String.append].
  rewrite skip_while_stop by (apply digit_char_plain; lia).
  rewrite scan_sign_digit by lia.
  change (String (digit_char d) (s +++ rest))
    with (String (digit_char d) s +++ rest).
  rewrite <- E.
  rewrite scan_digits_number by (assumption || lia).
  unfold signed. rewrite u32_small by exact Hn. reflexivity.
Qed.

Lemma starts_with_0x_digits (d : Z) (s : string) :
  0 <= d < 16 ->
  (s = "" \/ exists (d' : Z) (s' : string),
              0 <= d' < 16 /\ s = String (digit_char d') s') ->
  forall r : string,
    starts_with "0x" (String (digit_char d) s +++ String "013" r)
    || starts_with "0X" (String (digit_char d) s +++ String "013" r) = false.
Proof.
  intros Hd Hs r. unfold starts_with.
  destruct Hs as [->|(d' & s' & Hd' & ->)]; cbn [String.append String.prefix].
  - destruct (ascii_dec "0" (digit_char d)); [|reflexivity].
    destruct (ascii_dec "x" "013"); [discriminate|].
    destruct (ascii_dec "X" "013"); [discriminate | reflexivity].
  - destruct (digit_char_plain d' Hd') as (_ & _ & Hx & HX & _).
    destruct (ascii_dec "0" (digit_char d)); [|reflexivity].
    destruct (ascii_dec "x" (digit_char d')) as [ex|_].
    { rewrite <- ex in Hx. discriminate. }
    destruct (ascii_dec "X" (digit_char d')) as [eX|_].
    { rewrite <- eX in HX. discriminate. }
    reflexivity.
Qed.

(** [%X] written and read back with [%x], before the end of a line. *)
Lemma sscanf_x32_print_X (n : Z) (r : string) :
  0 <= n < 2^32 ->
  sscanf_x32 (print_X n +++ CRLF +++ r) = Some n.
Proof.
  intros Hn.
  assert (Hb : 0 <= n < 16 ^ Z.of_nat 64).
  { change (16 ^ Z.of_nat 64) with (2^32 * (16^64 / 2^32)).
    change (16^64 / 2^32) with 26959946667150639794667015087019630673637144422540572481103610249216.
    lia. }
  unfold sscanf_x32, print_X.
  destruct (digits_head 16 63 ltac:(lia) n "" Hb) as (d & s & E & Hd & _ & Hs).
  rewrite E at 1. cbn [String.append].
  rewrite skip_while_stop by (apply digit_char_plain; lia).
  rewrite scan_sign_digit by lia.
  change (String (digit_char d) (s +++ CRLF +++ r))
    with (String (digit_char d) s +++ String "013" (String "010" r)).
  rewrite starts_with_0x_digits by assumption.
  rewrite <- E.
  rewrite scan_digits_number; [| lia | exact Hb | reflexivity].
  unfold signed. rewrite u32_small by exact Hn. reflexivity.
Qed.

(** X9.  The numbers that the client writes are read back from a response:
    a CSeq field holding the decimal digits of a 32-bit number gives that
    number in [rtspResponseGetSequenceNumber], and a Session field holding
    its hexadecimal digits in upper case gives it in
    [rtspResponseGetSession]. *)
Theorem rtspResponse_numbers_read_back (first : string)
    (before : list string) (n : Z) (rest : string) (maxSize : Z) :
  0 <= n < 2^32 -> no_newline first = true ->
  (forallb (other_line "CSeq") before = true ->
   rtspResponseGetSequenceNumber
     (mkResponse
        (Some (first +++ CRLF +++ headerLines before
               +++ "CSeq" +++ ": " +++ print_u n +++ CRLF +++ rest))
        maxSize)
   = (true, Some n))
  /\ (forallb (other_line "Session") before = true ->
      rtspResponseGetSession
        (mkResponse
           (Some (first +++ CRLF +++ headerLines before
                  +++ "Session" +++ ": " +++ print_X n +++ CRLF +++ rest))
           maxSize)
      = (true, n)).
Proof.
  intros Hn Hf. split; intros Hb.
  - unfold rtspResponseGetSequenceNumber, rtspResponseFindValueForKey.
    cbn [responseBuffer].
    rewrite findKey_found.
    + rewrite sscanf_u32_print_u by (exact Hn || reflexivity). reflexivity.
    + reflexivity.
    + rewrite strlen_append. unfold print_u.
      pose proof (digits_nonempty 63 10 n).
      pose proof (strlen_nonneg (CRLF +++ rest)). lia.
    + rewrite !length_append. pose proof (headerLines_length before). lia.
    + exact Hf.
    + exact Hb.
  - unfold rtspResponseGetSession, rtspResponseFindValueForKey.
    cbn [responseBuffer].
    rewrite findKey_found.
    + rewrite sscanf_x32_print_X by exact Hn. reflexivity.
    + reflexivity.
    + rewrite strlen_append. unfold print_X.
      pose proof (digits_nonempty 63 16 n).
      pose proof (strlen_nonneg (CRLF +++ rest)). lia.
    + rewrite !length_append. pose proof (headerLines_length before). lia.
    + exact Hf.
    + exact Hb.
Qed.

Lemma rtspResponse_numbers_read_back_witness :
  rtspResponseGetSequenceNumber
    (mkResponse
       (Some ("RTSP/1.0 200 OK" +++ CRLF
              +++ headerLines ["Audio-Jack-Status: connected"]
              +++ "CSeq" +++ ": " +++ print_u 4000000000 +++ CRLF +++ CRLF))
       1024)
  = (true, Some 4000000000)
  /\ rtspResponseGetSession
       (mkResponse
          (Some ("RTSP/1.0 200 OK" +++ CRLF
                 +++ headerLines ["Audio-Jack-Status: connected"]
                 +++ "Session" +++ ": " +++ print_X 4000000000 +++ CRLF
                 +++ CRLF))
          1024)
     = (true, 4000000000).
Proof.
  pose proof (rtspResponse_numbers_read_back "RTSP/1.0 200 OK"
                ["Audio-Jack-Status: connected"] 4000000000 CRLF 1024
                ltac:(vm_compute; split; congruence) eq_refl) as (H1 & H2).
  split; [apply H1; reflexivity | apply H2; reflexivity].
Defined.

Lemma i16_small (x : Z) : - 2^15 <= x < 2^15 -> i16 x = x.
Proof.
  intros H. unfold i16. rewrite Z.mod_small by lia. lia.
Qed.

(** A number that is not zero does not start with the digit 0. *)
Lemma prefix_0_digit (d : Z) (p t : string) :
  1 <= d < 10 -> String.prefix (String "0" p) (String (digit_char d) t) = false.
Proof.
  intros Hd.
  assert (Hc : d = 1 \/ d = 2 \/ d = 3 \/ d = 4 \/ d = 5 \/ d = 6
               \/ d = 7 \/ d = 8 \/ d = 9) by lia.
  repeat (destruct Hc as [->|Hc]); try subst d;
    cbn [String.prefix];
    (match goal with
     | |- context [ascii_dec ?a (digit_char ?k)] =>
         let v := eval vm_compute in (digit_char k) in
         change (digit_char k) with v;
         destruct (ascii_dec a v); [discriminate | reflexivity]
     end).
Qed.

(** [%u] written and read back with [%hi]. *)
Lemma sscanf_i16_print_u (n : Z) (rest : string) :
  1 <= n < 2^15 -> ends_number 10 rest ->
  sscanf_i16 (print_u n +++ rest) = Some n.
Proof.
  intros Hn Hr.
  assert (Hb : 0 <= n < 10 ^ Z.of_nat 64).
  { change (10 ^ Z.of_nat 64) with (2^15 * (10^64 / 2^15)).
    change (10^64 / 2^15) with 305175781250000000000000000000000000000000000000000000000000.
    lia. }
  unfold sscanf_i16, print_u.
  destruct (digits_head 10 63 ltac:(lia) n "" Hb) as (d & s & E & Hd & Hz & _).
  rewrite E at 1. cbn [String.append].
  rewrite skip_while_stop by (apply digit_char_plain; lia).
  rewrite scan_sign_digit by lia.
  unfold starts_with.
  rewrite !prefix_0_digit by lia. cbn [orb].
  change (String (digit_char d) (s +++ rest))
    with (String (digit_char d) s +++ rest).
  rewrite <- E.
  rewrite scan_digits_number by (assumption || lia).
  unfold signed. rewrite i16_small by lia. reflexivity.
Qed.

(** The status of a response that starts with the protocol name and
    version. *)
Lemma rtspResponseGetStatus_parsed (major minor : ascii) (status : Z)
    (rest : string) (maxSize : Z) :
  isdigit major = true -> isdigit minor = true ->
  1 <= status < 2^15 ->
  ends_number 10 rest -> 2 <= strlen rest ->
  rtspResponseGetStatus
    (mkResponse
       (Some ("RTSP/" +++ String major ("." +++ String minor (" "
              +++ print_u status +++ rest))))
       maxSize)
  = (true, status).
Proof.
  intros Hmajor Hminor Hs He Hr. unfold rtspResponseGetStatus.
  cbn [responseBuffer].
  change ("RTSP/" +++ String major ("." +++ String minor (" "
            +++ print_u status +++ rest)))
    with (String "R" (String "T" (String "S" (String "P" (String "/"
            (String major (String "." (String minor (String " "
               (print_u status +++ rest)))))))))).
  set (tail := print_u status +++ rest).
  assert (Hl : 12 <= strlen (String "R" (String "T" (String "S" (String "P"
                 (String "/" (String major (String "." (String minor
                    (String " " tail)))))))))).
  { unfold strlen. cbn [String.length]. unfold tail.
    rewrite length_append.
    pose proof (digits_nonempty 63 10 status) as Hd.
    fold (print_u status) in Hd. unfold strlen in Hd, Hr. lia. }
  match goal with
  | |- context [?a <? 12] => destruct (Z.ltb_spec a 12); [lia|]
  end.
  unfold starts_with, nth_char.
  cbn [String.prefix String.get drop].
  destruct (ascii_dec "R" "R"); [|congruence].
  destruct (ascii_dec "T" "T"); [|congruence].
  destruct (ascii_dec "S" "S"); [|congruence].
  destruct (ascii_dec "P" "P"); [|congruence].
  destruct (ascii_dec "/" "/"); [|congruence].
  assert (Hp : String.prefix "" (String major (String "."
                 (String minor (String " " tail)))) = true) by reflexivity.
  rewrite Hmajor, Hminor.
  change (Ascii.eqb "." ".") with true.
  change (Ascii.eqb " " " ") with true.
  cbn [negb orb].
  unfold tail. rewrite sscanf_i16_print_u by assumption. reflexivity.
Qed.

(** X10.  [rtspResponseGetStatus] answers the number that follows the
    protocol name and version: for a response that starts with RTSP/, a
    digit, a dot, a digit and a space, followed by the decimal digits of a
    status from 1 to 32767 and at least two more characters, it is that
    status.  A response of fewer than 12 characters has no status. *)
Theorem rtspResponseGetStatus_value (major minor : ascii) (status : Z)
    (rest : string) (maxSize : Z) :
  isdigit major = true -> isdigit minor = true ->
  1 <= status < 2^15 ->
  ends_number 10 rest -> 2 <= strlen rest ->
  rtspResponseGetStatus
    (mkResponse
       (Some ("RTSP/" +++ String major ("." +++ String minor (" "
              +++ print_u status +++ rest))))
       maxSize)
  = (true, status)
  /\ forall short : string,
       strlen short < 12 ->
       rtspResponseGetStatus (mkResponse (Some short) maxSize) = (false, 0).
Proof.
  intros Hmajor Hminor Hs He Hr. split.
  - apply rtspResponseGetStatus_parsed; assumption.
  - intros short Hshort. unfold rtspResponseGetStatus. cbn [responseBuffer].
    destruct (Z.ltb_spec (strlen short) 12); [reflexivity | lia].
Qed.

Lemma rtspResponseGetStatus_value_witness :
  rtspResponseGetStatus
    (mkResponse
       (Some ("RTSP/1.0 401 Unauthorized" +++ CRLF +++ "CSeq: 1" +++ CRLF))
       1024)
  = (true, 401).
Proof.
  exact (proj1 (rtspResponseGetStatus_value "1" "0" 401
                  (" Unauthorized" +++ CRLF +++ "CSeq: 1" +++ CRLF) 1024
                  eq_refl eq_refl ltac:(vm_compute; split; congruence) eq_refl
                  ltac:(vm_compute; congruence))).
Defined.

(* ================================================================== *)
(** * rtspresponse.c: looking up a field of a header value *)

Lemma findSubkey_S (k : nat) (subkey v : string) :
  findSubkey (S k) subkey v
  = match v with
    | EmptyString => inr v
    | String a _ =>
        if is_newline a then inr v else
        let v := skip_while
                   (fun c => negb (is_separator c) && negb (is_newline c))
                   v in
        let v := skip_while is_separator v in
        if starts_with subkey v then
          let after := drop (String.length subkey) v in
          if (strlen subkey + 1 + 1 <=? strlen v) && starts_with "=" after
          then inl (drop 1 after)
          else if starts_with ";" after then inl after
          else findSubkey k subkey v
        else findSubkey k subkey v
    end.
Proof. reflexivity. Qed.

Lemma fieldsText_cons (f : string) (fields : list string) :
  fieldsText (f :: fields) = f +++ ";" +++ fieldsText fields.
Proof. reflexivity. Qed.

Lemma plain_head (prev Y : string) :
  plain prev = true ->
  exists (a : ascii) (s : string),
    prev +++ String ";" Y = String a s /\ is_newline a = false.
Proof.
  intros Hp. destruct prev as [|a prev].
  - exists ";"%char, Y. split; reflexivity.
  - exists a, (prev +++ String ";" Y). split; [reflexivity|].
    unfold plain in Hp. cbn [all_chars] in Hp.
    apply andb_prop in Hp. destruct Hp as [Ha _].
    apply andb_prop in Ha. destruct Ha as [_ Ha].
    destruct (is_newline a); [discriminate | reflexivity].
Qed.

(** From inside a field to the start of the next one. *)
Lemma next_field_start (prev T : string) :
  plain prev = true -> skip_while is_separator T = T ->
  skip_while is_separator
    (skip_while (fun c => negb (is_separator c) && negb (is_newline c))
       (prev +++ String ";" T))
  = T.
Proof.
  intros Hp HT. rewrite skip_while_all by exact Hp.
  rewrite skip_while_stop by reflexivity.
  cbn [skip_while]. change (is_separator ";") with true. cbv iota. exact HT.
Qed.

Lemma skip_separator_field (f : string) (c : ascii) (X : string) :
  plain f = true -> is_separator c = false ->
  skip_while is_separator (f +++ String c X) = f +++ String c X.
Proof.
  intros Hf Hc. destruct f as [|a f].
  - apply skip_while_stop. exact Hc.
  - cbn [String.append]. apply skip_while_stop.
    unfold plain in Hf. cbn [all_chars] in Hf.
    apply andb_prop in Hf. destruct Hf as [Ha _].
    apply andb_prop in Ha. destruct Ha as [Ha _].
    destruct (is_separator a); [discriminate | reflexivity].
Qed.

Lemma skip_separator_nonempty (f X : string) :
  plain f = true -> 0 < strlen f ->
  skip_while is_separator (f +++ X) = f +++ X.
Proof.
  intros Hf Hn. destruct f as [|a f]; [unfold strlen in Hn; simpl in Hn; lia|].
  cbn [String.append]. apply skip_while_stop.
  unfold plain in Hf. cbn [all_chars] in Hf.
  apply andb_prop in Hf. destruct Hf as [Ha _].
  apply andb_prop in Ha. destruct Ha as [Ha _].
  destruct (is_separator a); [discriminate | reflexivity].
Qed.

Lemma other_field_skipped (subkey f X : string) :
  plain subkey = true -> other_field subkey f = true ->
  starts_with subkey (f +++ String ";" X) = false.
Proof.
  intros Hk Hf. unfold other_field in Hf.
  apply andb_prop in Hf. destruct Hf as [_ Hs].
  unfold starts_with in *.
  destruct (String.prefix subkey (f +++ String ";" X)) eqn:E; [|reflexivity].
  apply (prefix_stops
           (fun c => negb (is_separator c) && negb (is_newline c))) in E;
    [| exact Hk | reflexivity].
  apply (prefix_extend _ _ ";") in E. rewrite E in Hs. discriminate.
Qed.

(** The first field, after the first one, that starts with the sub-key and
    an equals sign answers the lookup. *)
Lemma findSubkey_found (subkey rest : string) :
  plain subkey = true -> 1 <= strlen rest ->
  forall (fields : list string) (fuel : nat) (prev : string),
    (length fields < fuel)%nat ->
    plain prev = true ->
    forallb (other_field subkey) fields = true ->
    findSubkey fuel subkey
      (prev +++ ";" +++ fieldsText fields +++ subkey +++ "=" +++ rest)
    = inl rest.
Proof.
  intros Hk Hr.
  induction fields as [|f fields IH]; intros fuel prev Hf Hp Hb.
  - destruct fuel as [|k]; [simpl in Hf; lia|].
    rewrite findSubkey_S.
    cbn [fieldsText fold_right].
    change ("" +++ subkey +++ "=" +++ rest) with (subkey +++ "=" +++ rest).
    change (prev +++ ";" +++ subkey +++ "=" +++ rest)
      with (prev +++ String ";" (subkey +++ "=" +++ rest)).
    destruct (plain_head prev (subkey +++ "=" +++ rest) Hp)
      as (a & s & E & Ha).
    rewrite E at 1. rewrite Ha. cbv zeta.
    rewrite next_field_start.
    + unfold starts_with. rewrite prefix_self, drop_append.
      assert (Hlen : strlen (subkey +++ "=" +++ rest)
                     = strlen subkey + 1 + strlen rest).
      { rewrite !strlen_append. change (strlen "=") with 1. lia. }
      rewrite Hlen.
      destruct (Z.leb_spec (strlen subkey + 1 + 1)
                  (strlen subkey + 1 + strlen rest)); [|lia].
      rewrite prefix_self. reflexivity.
    + exact Hp.
    + change (subkey +++ "=" +++ rest) with (subkey +++ String "=" rest).
      apply skip_separator_field; [exact Hk | reflexivity].
  - destruct fuel as [|k]; [simpl in Hf; lia|].
    cbn [forallb] in Hb. apply andb_prop in Hb. destruct Hb as [Hl Hb].
    assert (Hpf : plain f = true).
    { unfold other_field in Hl. apply andb_prop in Hl. destruct Hl as [Hl _].
      apply andb_prop in Hl. tauto. }
    rewrite findSubkey_S. rewrite fieldsText_cons, !append_assoc.
    set (X := fieldsText fields +++ subkey +++ "=" +++ rest).
    change (prev +++ ";" +++ f +++ ";" +++ X)
      with (prev +++ String ";" (f +++ String ";" X)).
    destruct (plain_head prev (f +++ String ";" X) Hp) as (a & s & E & Ha).
    rewrite E at 1. rewrite Ha. cbv zeta.
    rewrite next_field_start.
    + rewrite other_field_skipped by assumption.
      apply (IH k f); [simpl in Hf; lia | exact Hpf | exact Hb].
    + exact Hp.
    + apply skip_separator_nonempty; [exact Hpf|].
      unfold other_field in Hl. apply andb_prop in Hl. destruct Hl as [Hl _].
      apply andb_prop in Hl. destruct Hl as [_ Hl].
      apply Z.ltb_lt. exact Hl.
Qed.

Lemma fieldsText_length (fields : list string) :
  (length fields <= String.length (fieldsText fields))%nat.
Proof.
  induction fields as [|f fields IH]; [simpl; lia|].
  rewrite fieldsText_cons, !length_append. simpl length.
  change (String.length ";") with 1%nat. lia.
Qed.

(** The lookup of a key, with or without a sub-key, at the first line that
    holds the key. *)
Lemma findKey_found_subkey (key sk found rest : string) :
  no_newline key = true -> 1 <= strlen rest ->
  findSubkey (S (String.length rest)) sk rest = inl found ->
  forall (before : list string) (fuel : nat) (prev : string),
    (length before < fuel)%nat ->
    no_newline prev = true ->
    forallb (other_line key) before = true ->
    findKey fuel key (Some sk)
      (prev +++ CRLF +++ headerLines before +++ key +++ ": " +++ rest)
    = Some found.
Proof.
  intros Hk Hr Hs.
  induction before as [|l before IH]; intros fuel prev Hf Hp Hb.
  - destruct fuel as [|k]; [simpl in Hf; lia|].
    rewrite findKey_S by apply line_nonempty.
    cbn [headerLines fold_right].
    change ("" +++ key +++ ": " +++ rest) with (key +++ ": " +++ rest).
    cbv zeta.
    rewrite next_line.
    + assert (Hlen : strlen (key +++ ": " +++ rest)
                     = strlen key + 2 + strlen rest).
      { rewrite !strlen_append. change (strlen ": ") with 2. lia. }
      rewrite Hlen.
      destruct (Z.leb_spec (strlen key + 2 + 1)
                  (strlen key + 2 + strlen rest)); [|lia].
      unfold starts_with. rewrite prefix_self, drop_append.
      rewrite prefix_self. cbn [andb].
      replace (String.length key + 2)%nat
        with (String.length (key +++ ": ")).
      * rewrite <- append_assoc. rewrite drop_append. rewrite Hs.
        reflexivity.
      * rewrite length_append. reflexivity.
    + exact Hp.
    + change (key +++ ": " +++ rest) with (key +++ String ":" (" " +++ rest)).
      apply skip_newline_line; [exact Hk | reflexivity].
  - destruct fuel as [|k]; [simpl in Hf; lia|].
    cbn [forallb] in Hb. apply andb_prop in Hb. destruct Hb as [Hl Hb].
    rewrite findKey_S by apply line_nonempty.
    rewrite headerLines_cons. cbv zeta.
    rewrite !append_assoc.
    rewrite next_line.
    + rewrite other_line_not_keyed by assumption.
      apply IH.
      * simpl in Hf. lia.
      * unfold other_line in Hl. apply andb_prop in Hl. tauto.
      * exact Hb.
    + exact Hp.
    + unfold CRLF. apply skip_newline_line; [|reflexivity].
      unfold other_line in Hl. apply andb_prop in Hl. tauto.
Qed.

(** [%u] written and read back with [%hi] into an [int16_t]. *)
Lemma sscanf_i16_print_u_wide (n : Z) (rest : string) :
  1 <= n < 2^16 -> ends_number 10 rest ->
  sscanf_i16 (print_u n +++ rest) = Some (i16 n).
Proof.
  intros Hn Hr.
  assert (Hb : 0 <= n < 10 ^ Z.of_nat 64).
  { change (10 ^ Z.of_nat 64) with (2^16 * (10^64 / 2^16)).
    change (10^64 / 2^16) with 152587890625000000000000000000000000000000000000000000000000.
    lia. }
  unfold sscanf_i16, print_u.
  destruct (digits_head 10 63 ltac:(lia) n "" Hb) as (d & s & E & Hd & Hz & _).
  rewrite E at 1. cbn [String.append].
  rewrite skip_while_stop by (apply digit_char_plain; lia).
  rewrite scan_sign_digit by lia.
  unfold starts_with.
  rewrite !prefix_0_digit by lia. cbn [orb].
  change (String (digit_char d) (s +++ rest))
    with (String (digit_char d) s +++ rest).
  rewrite <- E.
  rewrite scan_digits_number by (assumption || lia).
  reflexivity.
Qed.

(** The server port of a Transport field; the number is followed, in the
    text that was received, by a character that is no digit. *)
Lemma rtspResponseGetServerPort_parsed (first : string)
    (before : list string) (firstField : string) (fields : list string)
    (port : Z) (rest : string) (maxSize : Z) :
  no_newline first = true ->
  forallb (other_line "Transport") before = true ->
  plain firstField = true ->
  forallb (other_field "server_port") fields = true ->
  1 <= port < 2^16 -> ends_number 10 rest -> rest <> "" ->
  rtspResponseGetServerPort
    (mkResponse
       (Some (first +++ CRLF +++ headerLines before
              +++ "Transport" +++ ": " +++ firstField +++ ";"
              +++ fieldsText fields
              +++ "server_port" +++ "=" +++ print_u port +++ rest))
       maxSize)
  = (true, i16 port).
Proof.
  intros Hf Hb Hp Hfs Hport Hr _.
  unfold rtspResponseGetServerPort, rtspResponseFindValueForKey.
  cbn [responseBuffer].
  assert (Hd : 1 <= strlen (print_u port +++ rest)).
  { rewrite strlen_append. unfold print_u.
    pose proof (digits_nonempty 63 10 port).
    pose proof (strlen_nonneg rest). lia. }
  rewrite (findKey_found_subkey "Transport" "server_port"
             (print_u port +++ rest)).
  - rewrite sscanf_i16_print_u_wide by assumption. reflexivity.
  - reflexivity.
  - rewrite !strlen_append. pose proof (strlen_nonneg firstField).
    change (strlen ";") with 1.
    pose proof (strlen_nonneg (fieldsText fields)).
    rewrite !strlen_append in Hd.
    change (strlen "server_port") with 11. change (strlen "=") with 1. lia.
  - apply findSubkey_found; try assumption; try reflexivity.
    rewrite !length_append. pose proof (fieldsText_length fields). lia.
  - rewrite !length_append. pose proof (headerLines_length before). lia.
  - exact Hf.
  - exact Hb.
Qed.

(** X11.  [rtspResponseGetServerPort] answers the number that follows
    [server_port=] in the first Transport line, for a number from 1 to
    65535 written in decimal, when that field is not the first one of the
    line and the number is followed, in the text that was received, by a
    character that is no digit: the number itself below 32768, and the
    number less 65536 from there on, since it is stored as an
    [int16_t]. *)
Theorem rtspResponseGetServerPort_value (first : string)
    (before : list string) (firstField : string) (fields : list string)
    (port : Z) (rest : string) (maxSize : Z) :
  no_newline first = true ->
  forallb (other_line "Transport") before = true ->
  plain firstField = true ->
  forallb (other_field "server_port") fields = true ->
  1 <= port < 2^16 -> ends_number 10 rest -> rest <> "" ->
  rtspResponseGetServerPort
    (mkResponse
       (Some (first +++ CRLF +++ headerLines before
              +++ "Transport" +++ ": " +++ firstField +++ ";"
              +++ fieldsText fields
              +++ "server_port" +++ "=" +++ print_u port +++ rest))
       maxSize)
  = (true, if port <? 2^15 then port else port - 2^16).
Proof.
  intros Hf Hb Hp Hfs Hport Hr Hne.
  rewrite rtspResponseGetServerPort_parsed by assumption.
  f_equal. unfold i16.
  change (2^15) with 32768 in *. change (2^16) with 65536 in *.
  destruct (Z.ltb_spec port 32768).
  - rewrite Z.mod_small by lia. lia.
  - replace (port + 32768) with (port - 32768 + 1 * 65536) by lia.
    rewrite Z.mod_add by lia. rewrite Z.mod_small by lia. lia.
Qed.

Lemma rtspResponseGetServerPort_value_witness :
  rtspResponseGetServerPort
    (mkResponse
       (Some ("RTSP/1.0 200 OK" +++ CRLF
              +++ headerLines ["CSeq: 3"; "Session: DEADBEEF"]
              +++ "Transport" +++ ": " +++ "RTP/AVP/TCP" +++ ";"
              +++ fieldsText ["unicast"; "mode=record"]
              +++ "server_port" +++ "=" +++ print_u 6000 +++ CRLF))
       1024)
  = (true, 6000)
  /\ rtspResponseGetServerPort
       (mkResponse
          (Some ("RTSP/1.0 200 OK" +++ CRLF
                 +++ headerLines ["CSeq: 3"; "Session: DEADBEEF"]
                 +++ "Transport" +++ ": " +++ "RTP/AVP/TCP" +++ ";"
                 +++ fieldsText ["unicast"; "mode=record"]
                 +++ "server_port" +++ "=" +++ print_u 49152 +++ CRLF))
          1024)
     = (true, -16384).
Proof.
  split.
  - exact (rtspResponseGetServerPort_value "RTSP/1.0 200 OK"
             ["CSeq: 3"; "Session: DEADBEEF"] "RTP/AVP/TCP"
             ["unicast"; "mode=record"] 6000 CRLF 1024
             eq_refl eq_refl eq_refl eq_refl
             ltac:(vm_compute; split; congruence) eq_refl
             ltac:(discriminate)).
  - exact (rtspResponseGetServerPort_value "RTSP/1.0 200 OK"
             ["CSeq: 3"; "Session: DEADBEEF"] "RTP/AVP/TCP"
             ["unicast"; "mode=record"] 49152 CRLF 1024
             eq_refl eq_refl eq_refl eq_refl
             ltac:(vm_compute; split; congruence) eq_refl
             ltac:(discriminate)).
Defined.

(** X12.  The audio connection is opened to the port of the SETUP answer
    as [raopClientSetAudioPort] stored it, for a [server_port] from 1 to
    65535 that is followed, in the text that was received, by a character
    that is no digit: for a [server_port] below 32768
    [raopClientSetupAudioConnection] hands its decimal digits to
    [networkOpenConnection], and for one from 32768 on the digits of that
    port plus 4294901760.  The function succeeds exactly when the
    connection is opened, and keeps it. *)
Theorem raopClientSetupAudioConnection_port
    (networkOpenConnection
       : string -> string -> option (NetworkConnection (list Z)))
    (raopClient : RAOPClient)
    (first : string) (before : list string) (firstField : string)
    (fields : list string) (port : Z) (rest : string) (maxSize : Z) :
  let response :=
    mkResponse
      (Some (first +++ CRLF +++ headerLines before
             +++ "Transport" +++ ": " +++ firstField +++ ";"
             +++ fieldsText fields
             +++ "server_port" +++ "=" +++ print_u port +++ rest))
      maxSize in
  let int16Value := snd (rtspResponseGetServerPort response) in
  let portName :=
    print_u (if port <? 2^15 then port else port + 4294901760) in
  let result :=
    raopClientSetupAudioConnection networkOpenConnection
      (snd (raopClientSetAudioPort raopClient int16Value)) in
  no_newline first = true ->
  forallb (other_line "Transport") before = true ->
  plain firstField = true ->
  forallb (other_field "server_port") fields = true ->
  1 <= port < 2^16 -> ends_number 10 rest -> rest <> "" ->
  audioConnection (snd result)
  = networkOpenConnection (hostName raopClient) portName
  /\ fst result
     = match networkOpenConnection (hostName raopClient) portName with
       | Some _ => true
       | None => false
       end.
Proof.
  intros response int16Value portName result Hf Hb Hp Hfs Hport Hr Hne.
  unfold result, int16Value, response.
  rewrite rtspResponseGetServerPort_parsed by assumption.
  unfold raopClientSetAudioPort, raopClientSetupAudioConnection.
  cbn [snd set_audioPort audioPort hostName].
  assert (Eu : u32 (i16 port)
               = if port <? 2^15 then port else port + 4294901760).
  { unfold i16, u32.
    change (2^15) with 32768 in *. change (2^16) with 65536 in *.
    change (2^32) with 4294967296.
    destruct (Z.ltb_spec port 32768).
    - rewrite (Z.mod_small (port + 32768)) by lia.
      rewrite Z.mod_small by lia. lia.
    - replace (port + 32768) with (port - 32768 + 1 * 65536) by lia.
      rewrite Z.mod_add by lia. rewrite (Z.mod_small (port - 32768)) by lia.
      replace (port - 32768 - 32768)
        with (port + 4294901760 + (-1) * 4294967296) by lia.
      rewrite Z.mod_add by lia. rewrite Z.mod_small by lia. reflexivity. }
  rewrite Eu. fold portName.
  assert (Hrange : 0 <= (if port <? 2^15 then port else port + 4294901760)
                   < 2^32).
  { change (2^15) with 32768 in *. change (2^16) with 65536 in *.
    change (2^32) with 4294967296.
    destruct (Z.ltb_spec port 32768); lia. }
  destruct (print_u_u32 _ Hrange) as [Hlen Htext]. fold portName in Hlen, Htext.
  rewrite Htext.
  destruct (Z.ltb_spec (strlen portName) 1); [lia|].
  destruct (networkOpenConnection (hostName raopClient) portName);
    split; reflexivity.
Qed.

Lemma raopClientSetupAudioConnection_port_witness :
  let response :=
    mkResponse
      (Some ("RTSP/1.0 200 OK" +++ CRLF
             +++ headerLines ["CSeq: 3"; "Session: DEADBEEF"]
             +++ "Transport" +++ ": " +++ "RTP/AVP/TCP" +++ ";"
             +++ fieldsText ["unicast"; "mode=record"]
             +++ "server_port" +++ "=" +++ print_u 49152 +++ CRLF))
      1024 in
  let networkOpenConnection :=
    fun host portName : string =>
      if String.eqb portName "49152" then Some freshAudio else None in
  fst (raopClientSetupAudioConnection networkOpenConnection
         (snd (raopClientSetAudioPort idle
                 (snd (rtspResponseGetServerPort response)))))
  = false.
Proof.
  intros response networkOpenConnection.
  etransitivity.
  - exact (proj2 (raopClientSetupAudioConnection_port networkOpenConnection
                    idle "RTSP/1.0 200 OK"
                    ["CSeq: 3"; "Session: DEADBEEF"] "RTP/AVP/TCP"
                    ["unicast"; "mode=record"] 49152 CRLF 1024
                    eq_refl eq_refl eq_refl eq_refl
                    ltac:(vm_compute; split; congruence) eq_refl
                    ltac:(discriminate))).
  - vm_compute. reflexivity.
Defined.

(* ================================================================== *)
(** * rtspresponse.c: the authentication challenge *)

Lemma before_newline_line (l X : string) :
  no_newline l = true -> before_newline (l +++ String "010" X) = Some l.
Proof.
  induction l as [|a l IH]; intros H; [reflexivity|].
  unfold no_newline in H. cbn [all_chars] in H.
  apply andb_prop in H. destruct H as [Ha Hl].
  cbn [String.append before_newline].
  destruct (is_newline a); [discriminate|].
  unfold no_newline in IH. rewrite (IH Hl). reflexivity.
Qed.

Lemma until_quote_value (v X : string) :
  unquoted v = true -> until_quote (v +++ String "034" X) = (v, String "034" X).
Proof.
  induction v as [|a v IH]; intros H; [reflexivity|].
  unfold unquoted in H. cbn [all_chars] in H.
  apply andb_prop in H. destruct H as [Ha Hv].
  apply andb_prop in Ha. destruct Ha as [Ha _].
  cbn [String.append until_quote].
  destruct (Ascii.eqb a "034"); [discriminate|].
  unfold unquoted in IH. rewrite (IH Hv). reflexivity.
Qed.

Lemma unquoted_no_newline (v : string) :
  unquoted v = true -> no_newline v = true.
Proof.
  induction v as [|a v IH]; intros H; [reflexivity|].
  unfold unquoted in H. cbn [all_chars] in H.
  apply andb_prop in H. destruct H as [Ha Hv].
  apply andb_prop in Ha. destruct Ha as [_ Ha].
  unfold no_newline. cbn [all_chars]. rewrite Ha.
  exact (IH Hv).
Qed.

Lemma authenticationFields_S (k : nat) (value : string)
    (realmValue nonceValue : option string) :
  authenticationFields (S k) value realmValue nonceValue
  = let both := match realmValue, nonceValue with
                | Some _, Some _ => true
                | _, _ => false
                end in
    if (0 <? strlen value) && negb both then
      let value := skip_while (fun c => Ascii.eqb c " "%char) value in
      if 0 <? strlen value then
        let field :=
          if (7 <=? strlen value) && starts_with ("realm=" +++ QUOTE) value
          then Some (1, drop 7 value)
          else if (7 <=? strlen value)
                  && starts_with ("nonce=" +++ QUOTE) value
          then Some (2, drop 7 value)
          else
            let '(name, rest) := until_quote value in
            match rest, last_char name with
            | String _ afterQuote, Some "="%char => Some (0, afterQuote)
            | _, _ => None
            end in
        match field with
        | None => None
        | Some (which, value) =>
            let '(fieldValue, rest) := until_quote value in
            match rest with
            | EmptyString => None
            | String _ afterQuote =>
                let realmValue :=
                  if which =? 1 then Some fieldValue else realmValue in
                let nonceValue :=
                  if which =? 2 then Some fieldValue else nonceValue in
                let value :=
                  skip_while (fun c => Ascii.eqb c " "%char
                                       || Ascii.eqb c ","%char) afterQuote in
                authenticationFields k value realmValue nonceValue
            end
        end
      else Some (realmValue, nonceValue)
    else Some (realmValue, nonceValue).
Proof. reflexivity. Qed.

(** Both values known: the loop ends. *)
Lemma authenticationFields_done (fuel : nat) (value r n : string) :
  authenticationFields fuel value (Some r) (Some n) = Some (Some r, Some n).
Proof.
  destruct fuel as [|k]; [reflexivity|].
  rewrite authenticationFields_S. cbv zeta.
  rewrite andb_false_r. reflexivity.
Qed.

(** One field [name="v"] at the start of the text, for the two names that
    the function knows. *)
Lemma authenticationFields_realm (k : nat) (v X : string)
    (realmValue nonceValue : option string) :
  unquoted v = true ->
  match realmValue, nonceValue with Some _, Some _ => False | _, _ => True end ->
  authenticationFields (S k)
    (("realm=" +++ QUOTE) +++ v +++ String "034" X) realmValue nonceValue
  = authenticationFields k
      (skip_while (fun c => Ascii.eqb c " "%char || Ascii.eqb c ","%char) X)
      (Some v) nonceValue.
Proof.
  intros Hv Hb. rewrite authenticationFields_S. cbv zeta.
  assert (Hlen : strlen (("realm=" +++ QUOTE) +++ v +++ String "034" X)
                 = 7 + strlen v + 1 + strlen X).
  { rewrite !strlen_append. unfold strlen. cbn [String.length QUOTE
      String.append]. lia. }
  pose proof (strlen_nonneg v). pose proof (strlen_nonneg X).
  assert (Hskip : skip_while (fun c => Ascii.eqb c " "%char)
                    (("realm=" +++ QUOTE) +++ v +++ String "034" X)
                  = ("realm=" +++ QUOTE) +++ v +++ String "034" X)
    by reflexivity.
  rewrite Hskip, Hlen.
  destruct (Z.ltb_spec 0 (7 + strlen v + 1 + strlen X)); [|lia].
  destruct (Z.leb_spec 7 (7 + strlen v + 1 + strlen X)); [|lia].
  assert (Hnb : negb match realmValue, nonceValue with
                     | Some _, Some _ => true
                     | _, _ => false
                     end = true).
  { destruct realmValue, nonceValue; try reflexivity. contradiction. }
  rewrite Hnb. cbn [andb].
  unfold starts_with. rewrite prefix_self. cbv iota.
  change 7%nat with (String.length ("realm=" +++ QUOTE)).
  rewrite drop_append. rewrite until_quote_value by exact Hv.
  reflexivity.
Qed.

Lemma authenticationFields_nonce (k : nat) (v X : string)
    (realmValue nonceValue : option string) :
  unquoted v = true ->
  match realmValue, nonceValue with Some _, Some _ => False | _, _ => True end ->
  authenticationFields (S k)
    (("nonce=" +++ QUOTE) +++ v +++ String "034" X) realmValue nonceValue
  = authenticationFields k
      (skip_while (fun c => Ascii.eqb c " "%char || Ascii.eqb c ","%char) X)
      realmValue (Some v).
Proof.
  intros Hv Hb. rewrite authenticationFields_S. cbv zeta.
  assert (Hlen : strlen (("nonce=" +++ QUOTE) +++ v +++ String "034" X)
                 = 7 + strlen v + 1 + strlen X).
  { rewrite !strlen_append. unfold strlen. cbn [String.length QUOTE
      String.append]. lia. }
  pose proof (strlen_nonneg v). pose proof (strlen_nonneg X).
  assert (Hskip : skip_while (fun c => Ascii.eqb c " "%char)
                    (("nonce=" +++ QUOTE) +++ v +++ String "034" X)
                  = ("nonce=" +++ QUOTE) +++ v +++ String "034" X)
    by reflexivity.
  rewrite Hskip, Hlen.
  destruct (Z.ltb_spec 0 (7 + strlen v + 1 + strlen X)); [|lia].
  destruct (Z.leb_spec 7 (7 + strlen v + 1 + strlen X)); [|lia].
  assert (Hnb : negb match realmValue, nonceValue with
                     | Some _, Some _ => true
                     | _, _ => false
                     end = true).
  { destruct realmValue, nonceValue; try reflexivity. contradiction. }
  rewrite Hnb. cbn [andb].
  assert (Hr : starts_with ("realm=" +++ QUOTE)
                 (("nonce=" +++ QUOTE) +++ v +++ String "034" X) = false)
    by reflexivity.
  rewrite Hr.
  unfold starts_with. rewrite prefix_self. cbv iota.
  change 7%nat with (String.length ("nonce=" +++ QUOTE)).
  rewrite drop_append. rewrite until_quote_value by exact Hv.
  reflexivity.
Qed.

(** The value of a WWW-Authenticate line that names the Digest method and
    gives two fields [a] and [b]. *)
Lemma challenge_line (first : string) (before : list string)
    (body rest : string) (maxSize : Z) :
  no_newline first = true ->
  forallb (other_line "WWW-Authenticate") before = true ->
  no_newline body = true ->
  rtspResponseFindValueForKey
    (mkResponse
       (Some (first +++ CRLF +++ headerLines before
              +++ "WWW-Authenticate" +++ ": "
              +++ ("Digest " +++ body) +++ CRLF +++ rest))
       maxSize)
    "WWW-Authenticate" None
  = Some (("Digest " +++ body) +++ CRLF +++ rest)
  /\ before_newline (("Digest " +++ body) +++ CRLF +++ rest)
     = Some ("Digest " +++ body +++ String "013" "").
Proof.
  intros Hf Hb Hbody. split.
  - unfold rtspResponseFindValueForKey. cbn [responseBuffer].
    apply findKey_found; try assumption; try reflexivity.
    + rewrite !strlen_append. change (strlen "Digest ") with 7.
      pose proof (strlen_nonneg body).
      pose proof (strlen_nonneg rest). change (strlen CRLF) with 2. lia.
    + rewrite !length_append. pose proof (headerLines_length before). lia.
  - replace (("Digest " +++ body) +++ CRLF +++ rest)
      with (("Digest " +++ body +++ String "013" "") +++ String "010" rest).
    + apply before_newline_line.
      unfold no_newline. rewrite !all_chars_append.
      unfold no_newline in Hbody. rewrite Hbody. reflexivity.
    + rewrite !append_assoc. reflexivity.
Qed.

(** X13.  [rtspResponseGetAuthenticationResponse] reads the realm and the
    nonce of a Digest challenge, in either order of the two fields: it
    answers both values when each fits the size given for it, and fails
    when one of them is longer. *)
Theorem rtspResponseGetAuthenticationResponse_challenge
    (first : string) (before : list string)
    (realmValue nonceValue tail rest : string)
    (maxRealmBufferSize maxNonceBufferSize maxSize : Z) :
  let answer :=
    if (maxRealmBufferSize <? strlen realmValue)
       || (maxNonceBufferSize <? strlen nonceValue)
    then None else Some (realmValue, nonceValue) in
  no_newline first = true ->
  forallb (other_line "WWW-Authenticate") before = true ->
  unquoted realmValue = true -> unquoted nonceValue = true ->
  no_newline tail = true ->
  rtspResponseGetAuthenticationResponse
    (mkResponse
       (Some (first +++ CRLF +++ headerLines before
              +++ "WWW-Authenticate" +++ ": "
              +++ ("Digest "
                   +++ ("realm=" +++ QUOTE) +++ realmValue +++ QUOTE +++ ", "
                   +++ ("nonce=" +++ QUOTE) +++ nonceValue +++ QUOTE +++ tail)
              +++ CRLF +++ rest))
       maxSize)
    maxRealmBufferSize maxNonceBufferSize
  = answer
  /\ rtspResponseGetAuthenticationResponse
       (mkResponse
          (Some (first +++ CRLF +++ headerLines before
                 +++ "WWW-Authenticate" +++ ": "
                 +++ ("Digest "
                      +++ ("nonce=" +++ QUOTE) +++ nonceValue +++ QUOTE
                      +++ ", "
                      +++ ("realm=" +++ QUOTE) +++ realmValue +++ QUOTE
                      +++ tail)
                 +++ CRLF +++ rest))
          maxSize)
       maxRealmBufferSize maxNonceBufferSize
     = answer.
Proof.
  intros answer Hf Hb Hr Hn Ht.
  pose proof (unquoted_no_newline _ Hr) as Hr'.
  pose proof (unquoted_no_newline _ Hn) as Hn'.
  split.
  - set (body := ("realm=" +++ QUOTE) +++ realmValue +++ QUOTE +++ ", "
                 +++ ("nonce=" +++ QUOTE) +++ nonceValue +++ QUOTE +++ tail).
    assert (Hbody : no_newline body = true).
    { unfold body, no_newline. rewrite !all_chars_append.
      unfold no_newline in Hr', Hn', Ht. rewrite Hr', Hn', Ht. reflexivity. }
    destruct (challenge_line first before body rest maxSize Hf Hb Hbody)
      as [E1 E2].
    unfold rtspResponseGetAuthenticationResponse. rewrite E1, E2.
    assert (Hl : strlen ("Digest " +++ body +++ String "013" "")
                 = 7 + strlen (body +++ String "013" "")).
    { rewrite strlen_append. reflexivity. }
    pose proof (strlen_nonneg (body +++ String "013" "")).
    rewrite Hl. destruct (Z.ltb_spec (7 + strlen (body +++ String "013" "")) 7);
      [lia|].
    unfold starts_with at 1. rewrite prefix_self. cbn [negb orb].
    change 7%nat with (String.length "Digest ") at 1.
    rewrite drop_append.
    rewrite length_append. change (String.length "Digest ") with 7%nat.
    cbn [Nat.add].
    replace (body +++ String "013" "")
      with (("realm=" +++ QUOTE) +++ realmValue
            +++ String "034"
                  (", " +++ ("nonce=" +++ QUOTE) +++ nonceValue
                   +++ String "034" (tail +++ String "013" "")))
      by (unfold body, QUOTE; rewrite !append_assoc; reflexivity).
    rewrite authenticationFields_realm by (exact Hr || exact I).
    change (skip_while (fun c => Ascii.eqb c " " || Ascii.eqb c ",")
              (", " +++ ("nonce=" +++ QUOTE) +++ nonceValue
               +++ String "034" (tail +++ String "013" "")))
      with (("nonce=" +++ QUOTE) +++ nonceValue
            +++ String "034" (tail +++ String "013" "")).
    rewrite authenticationFields_nonce by (exact Hn || exact I).
    rewrite authenticationFields_done. reflexivity.
  - set (body := ("nonce=" +++ QUOTE) +++ nonceValue +++ QUOTE +++ ", "
                 +++ ("realm=" +++ QUOTE) +++ realmValue +++ QUOTE +++ tail).
    assert (Hbody : no_newline body = true).
    { unfold body, no_newline. rewrite !all_chars_append.
      unfold no_newline in Hr', Hn', Ht. rewrite Hr', Hn', Ht. reflexivity. }
    destruct (challenge_line first before body rest maxSize Hf Hb Hbody)
      as [E1 E2].
    unfold rtspResponseGetAuthenticationResponse. rewrite E1, E2.
    assert (Hl : strlen ("Digest " +++ body +++ String "013" "")
                 = 7 + strlen (body +++ String "013" "")).
    { rewrite strlen_append. reflexivity. }
    pose proof (strlen_nonneg (body +++ String "013" "")).
    rewrite Hl. destruct (Z.ltb_spec (7 + strlen (body +++ String "013" "")) 7);
      [lia|].
    unfold starts_with at 1. rewrite prefix_self. cbn [negb orb].
    change 7%nat with (String.length "Digest ") at 1.
    rewrite drop_append.
    rewrite length_append. change (String.length "Digest ") with 7%nat.
    cbn [Nat.add].
    replace (body +++ String "013" "")
      with (("nonce=" +++ QUOTE) +++ nonceValue
            +++ String "034"
                  (", " +++ ("realm=" +++ QUOTE) +++ realmValue
                   +++ String "034" (tail +++ String "013" "")))
      by (unfold body, QUOTE; rewrite !append_assoc; reflexivity).
    rewrite authenticationFields_nonce by (exact Hn || exact I).
    change (skip_while (fun c => Ascii.eqb c " " || Ascii.eqb c ",")
              (", " +++ ("realm=" +++ QUOTE) +++ realmValue
               +++ String "034" (tail +++ String "013" "")))
      with (("realm=" +++ QUOTE) +++ realmValue
            +++ String "034" (tail +++ String "013" "")).
    rewrite authenticationFields_realm by (exact Hr || exact I).
    rewrite authenticationFields_done. reflexivity.
Qed.

Lemma rtspResponseGetAuthenticationResponse_challenge_witness :
  rtspResponseGetAuthenticationResponse
    (mkResponse
       (Some ("RTSP/1.0 401 Unauthorized" +++ CRLF
              +++ headerLines ["CSeq: 1"]
              +++ "WWW-Authenticate" +++ ": "
              +++ ("Digest "
                   +++ ("realm=" +++ QUOTE) +++ "AppleTV" +++ QUOTE +++ ", "
                   +++ ("nonce=" +++ QUOTE) +++ "abcdef" +++ QUOTE +++ "")
              +++ CRLF +++ CRLF))
       1024)
    MAX_REALM_SIZE MAX_NONCE_SIZE
  = Some ("AppleTV", "abcdef")
  /\ rtspResponseGetAuthenticationResponse
       (mkResponse
          (Some ("RTSP/1.0 401 Unauthorized" +++ CRLF
                 +++ headerLines ["CSeq: 1"]
                 +++ "WWW-Authenticate" +++ ": "
                 +++ ("Digest "
                      +++ ("realm=" +++ QUOTE) +++ "AirPort-Express-00001"
                      +++ QUOTE +++ ", "
                      +++ ("nonce=" +++ QUOTE) +++ "abcdef" +++ QUOTE +++ "")
                 +++ CRLF +++ CRLF))
          1024)
       MAX_REALM_SIZE MAX_NONCE_SIZE
     = None.
Proof.
  split.
  - exact (proj1 (rtspResponseGetAuthenticationResponse_challenge
                    "RTSP/1.0 401 Unauthorized" ["CSeq: 1"] "AppleTV"
                    "abcdef" "" CRLF MAX_REALM_SIZE MAX_NONCE_SIZE 1024
                    eq_refl eq_refl eq_refl eq_refl eq_refl)).
  - exact (proj1 (rtspResponseGetAuthenticationResponse_challenge
                    "RTSP/1.0 401 Unauthorized" ["CSeq: 1"]
                    "AirPort-Express-00001"
                    "abcdef" "" CRLF MAX_REALM_SIZE MAX_NONCE_SIZE 1024
                    eq_refl eq_refl eq_refl eq_refl eq_refl)).
Defined.

(* ================================================================== *)
(** * raopclient.c: the requests of a session, by method *)

(** [rtspClientSendRequest] hands one request of the method asked for to
    the connection, and answers what the connection answered. *)
Lemma rtspClientSendRequest_method (u : string) (c : RTSPClient)
    (requestMethod0 : RTSPRequestMethod) (raopClient : RAOPClient)
    (content : Content) :
  sessionInvariant u c ->
  exists (c' : RTSPClient) (message : string) (result : bool),
    rtspClientSendRequest c requestMethod0 raopClient (supplierOf content)
    = (result, c')
    /\ sent (networkConnection c')
       = sent (networkConnection c) ++ [(message, result)]
    /\ requestOf requestMethod0 u message
    /\ sessionInvariant u c'.
Proof.
  intros Hinv. pose proof Hinv as (Hu & Hlen & Hfit & Hseq & Hall).
  unfold rtspClientSendRequest.
  assert (Hfresh : exists r0,
             match rtspRequest c with
             | None => (true, rtspRequestCreate requestMethod0)
             | Some r => rtspRequestReset r requestMethod0
             end = (true, r0)
             /\ (headerBuffer r0 = None \/ headerBuffer r0 = Some "")
             /\ requestMethod r0 = requestMethod0).
  { destruct (rtspRequest c) as [r|].
    - eexists. split; [reflexivity|]. cbn [headerBuffer requestMethod].
      split; [|reflexivity].
      destruct (headerBuffer r); [right|left]; reflexivity.
    - eexists. split; [reflexivity|]. split; [left|]; reflexivity. }
  destruct Hfresh as (r0 & -> & Hh & M0). cbn [negb].
  destruct (rtspClientAddHeaderFields_headed requestMethod0 (set_request c r0)
              r0 eq_refl Hh) as (c2 & r2 & E2 & Er2 & H2 & M2 & U2 & S2 & N2).
  rewrite E2. cbn [negb].
  cbn [url sequenceNumber networkConnection set_request] in H2, U2, S2, N2.
  assert (Hcontent : exists c3 r3,
             match supplierOf content with
             | Some supplier =>
                 let '(ok, r) := supplier raopClient c2 (currentRequest c2) in
                 (ok, set_request c2 r)
             | None => (true, c2)
             end = (true, c3)
             /\ rtspRequest c3 = Some r3
             /\ headedByCSeq (u32 (sequenceNumber c + 1)) r3
             /\ requestMethod r3 = requestMethod0
             /\ url c3 = url c
             /\ sequenceNumber c3 = u32 (sequenceNumber c + 1)
             /\ networkConnection c3 = networkConnection c).
  { destruct (supplierOf content) as [supplier|] eqn:Es.
    - unfold currentRequest. rewrite Er2.
      destruct (supplierOf_headed (u32 (sequenceNumber c + 1)) content supplier
                  raopClient c2 r2 Es) as (r3 & E3 & H3 & M3);
        [rewrite N2; exact Hfit | exact H2 |].
      rewrite E3. eexists. exists r3. split; [reflexivity|].
      cbn [rtspRequest url sequenceNumber networkConnection set_request].
      split; [reflexivity|]. split; [exact H3|].
      split; [congruence|]. split; [exact U2|]. split; assumption.
    - exists c2, r2. split; [reflexivity|]. split; [exact Er2|].
      split; [exact H2|]. split; [congruence|].
      split; [exact U2|]. split; assumption. }
  destruct Hcontent as (c3 & r3 & -> & Er3 & H3 & M3 & U3 & S3 & N3).
  cbn [negb].
  unfold currentRequest. rewrite Er3, N3, U3, Hu.
  destruct (rtspRequestSend_headed (u32 (sequenceNumber c + 1)) r3 u
              (networkConnection c) Hlen H3) as (message & Es & Hm).
  pose proof (rtspRequestSend_message r3 u (networkConnection c) Hlen) as Em.
  rewrite Em in Es.
  assert (Hreq : requestOf requestMethod0 u message).
  { apply (f_equal (fun p => sent (snd p))) in Es.
    unfold networkSendMessage in Es. cbn [snd sent] in Es.
    apply app_inv_head in Es. injection Es as Es. rewrite <- Es, M3.
    eexists. reflexivity. }
  rewrite Em, Es.
  destruct (networkSendMessage (networkConnection c) message)
    as [result n'] eqn:En.
  assert (Hn' : n' = snd (networkSendMessage (networkConnection c) message))
    by (rewrite En; reflexivity).
  assert (Hr : result = fst (networkSendMessage (networkConnection c) message))
    by (rewrite En; reflexivity).
  assert (Hsent : sent n'
                  = sent (networkConnection c) ++ [(message, result)]).
  { rewrite Hn', Hr. reflexivity. }
  assert (Hstep : sessionInvariant u (set_connection c3 n')).
  { apply (sessionInvariant_step u c (set_connection c3 n') message result Hinv);
      cbn [url sequenceNumber networkConnection set_connection];
      first [assumption | congruence]. }
  exists (set_connection c3 n'), message, result.
  split; [destruct result; reflexivity|].
  split; [exact Hsent|]. split; assumption.
Qed.

(** What a command leaves of the RAOP client: the client itself, or the
    client with another audio port (after SETUP). *)
Lemma rtspClientSendCommand_raopClient (c : RTSPClient)
    (requestMethod0 : RTSPRequestMethod) (raopClient : RAOPClient)
    (supplier : option ContentSupplier) :
  let res := rtspClientSendCommand c requestMethod0 raopClient supplier in
  snd res = raopClient
  \/ exists p : Z, snd res = set_audioPort raopClient p.
Proof.
  cbv zeta. unfold rtspClientSendCommand.
  destruct (rtspClientSendRequest c requestMethod0 raopClient supplier)
    as [ok1 c1].
  destruct ok1; cbn [negb]; [|left; reflexivity].
  destruct (rtspClientReceiveResponse c1) as [ok2 c2].
  destruct ok2; cbn [negb]; [|left; reflexivity].
  match goal with
  | |- context [let '(ok, c) := ?X in _] => destruct X as [ok3 c3]
  end.
  destruct ok3; cbn [negb]; [|left; reflexivity].
  destruct (rtspResponseGetSequenceNumber _) as [ok ?].
  destruct ok; cbn [negb]; [|left; reflexivity].
  destruct (method_is_setup requestMethod0); [|left; reflexivity].
  destruct (rtspResponseGetSession _) as [ok v].
  destruct ok; cbn [negb]; [|left; reflexivity].
  destruct (rtspResponseGetServerPort _) as [ok p].
  destruct ok; cbn [negb]; [|left; reflexivity].
  right. exists p. reflexivity.
Qed.

(** [rtspClientSendCommand] sends one request of its method, and a second
    one when the peer asked for authentication; it sends nothing else. *)
Lemma rtspClientSendCommand_requests (u : string) (c : RTSPClient)
    (requestMethod0 : RTSPRequestMethod) (raopClient : RAOPClient)
    (content : Content) :
  sessionInvariant u c ->
  let res := rtspClientSendCommand c requestMethod0 raopClient
               (supplierOf content) in
  sessionInvariant u (snd (fst res))
  /\ exists extra : list (string * bool),
       (1 <= length extra <= 2)%nat
       /\ sent (networkConnection (snd (fst res)))
          = sent (networkConnection c) ++ extra
       /\ Forall (fun m => requestOf requestMethod0 u (fst m)) extra
       /\ (fst (fst res) = true -> Forall (fun m => snd m = true) extra).
Proof.
  intros Hinv. cbv zeta. unfold rtspClientSendCommand.
  destruct (rtspClientSendRequest_method u c requestMethod0 raopClient content
              Hinv) as (c1 & m1 & res1 & E1 & Hs1 & Hm1 & Hinv1).
  rewrite E1.
  assert (Hone : forall c' : RTSPClient,
             sent (networkConnection c') = sent (networkConnection c1) ->
             forall ok : bool, (ok = true -> res1 = true) ->
             exists extra : list (string * bool),
               (1 <= length extra <= 2)%nat
               /\ sent (networkConnection c')
                  = sent (networkConnection c) ++ extra
               /\ Forall (fun m => requestOf requestMethod0 u (fst m)) extra
               /\ (ok = true -> Forall (fun m => snd m = true) extra)).
  { intros c' Hc' ok Hok. exists [(m1, res1)].
    split; [simpl; lia|]. split; [rewrite Hc'; exact Hs1|].
    split; [constructor; [exact Hm1 | constructor]|].
    intros H. constructor; [exact (Hok H) | constructor]. }
  destruct res1; cbn [negb fst snd];
    [|split; [exact Hinv1 | apply (Hone c1 eq_refl); discriminate]].
  destruct (rtspClientReceiveResponse_session u c1 Hinv1) as [Hinv2 Hs2].
  destruct (rtspClientReceiveResponse c1) as [ok2 c2].
  cbn [snd] in Hinv2, Hs2.
  destruct ok2; cbn [negb fst snd];
    [|split; [exact Hinv2 | apply (Hone c2 Hs2); discriminate]].
  assert (Htail : forall c' : RTSPClient,
    sessionInvariant u c' ->
    forall P : RTSPClient -> bool -> Prop,
    (forall (c'' : RTSPClient) (ok : bool),
       sent (networkConnection c'') = sent (networkConnection c') ->
       P c'' ok) ->
    let res :=
      (let response := match rtspResponse c' with
                       | Some r => r
                       | None => rtspResponseCreate
                       end in
       let '(ok, _) := rtspResponseGetSequenceNumber response in
       if negb ok then (false, c', raopClient) else
       if method_is_setup requestMethod0 then
         let '(ok, uint32Value) := rtspResponseGetSession response in
         if negb ok then (false, c', raopClient) else
         let c'' := set_sessionId c' uint32Value in
         let '(ok, int16Value) := rtspResponseGetServerPort response in
         if negb ok then (false, c'', raopClient) else
         let '(_, raopClient') := raopClientSetAudioPort raopClient int16Value in
         (true, c'', raopClient')
       else (true, c', raopClient)) in
    sessionInvariant u (snd (fst res))
    /\ P (snd (fst res)) (fst (fst res))).
  { intros c' Hinv' P HP. cbn zeta.
    destruct (rtspResponseGetSequenceNumber _) as [ok ?].
    destruct ok; cbn [negb fst snd];
      [|split; [exact Hinv' | apply HP; reflexivity]].
    destruct (method_is_setup requestMethod0);
      [|split; [exact Hinv' | apply HP; reflexivity]].
    destruct (rtspResponseGetSession _) as [ok v].
    destruct ok; cbn [negb fst snd];
      [|split; [exact Hinv' | apply HP; reflexivity]].
    assert (Hset : sessionInvariant u (set_sessionId c' v))
      by (apply (sessionInvariant_ext u c' _ Hinv'); reflexivity).
    destruct (rtspResponseGetServerPort _) as [ok p].
    destruct ok; cbn [negb fst snd];
      [|split; [exact Hset | apply HP; reflexivity]].
    destruct (raopClientSetAudioPort raopClient p) as [? raopClient'].
    cbn [fst snd]. split; [exact Hset | apply HP; reflexivity]. }
  destruct (needAuthentication c2).
  - destruct (rtspClientSendRequest_method u c2 requestMethod0 raopClient
                content Hinv2) as (c3 & m3 & res3 & E3 & Hs3 & Hm3 & Hinv3).
    rewrite E3.
    assert (Htwo : forall c' : RTSPClient,
               sent (networkConnection c') = sent (networkConnection c3) ->
               forall ok : bool, (ok = true -> res3 = true) ->
               exists extra : list (string * bool),
                 (1 <= length extra <= 2)%nat
                 /\ sent (networkConnection c')
                    = sent (networkConnection c) ++ extra
                 /\ Forall (fun m => requestOf requestMethod0 u (fst m)) extra
                 /\ (ok = true -> Forall (fun m => snd m = true) extra)).
    { intros c' Hc' ok Hok. exists [(m1, true); (m3, res3)].
      split; [simpl; lia|].
      split; [rewrite Hc', Hs3, Hs2, Hs1, <- app_assoc; reflexivity|].
      split; [constructor; [exact Hm1 | constructor; [exact Hm3|constructor]]|].
      intros H. constructor; [reflexivity|].
      constructor; [exact (Hok H) | constructor]. }
    destruct res3; cbn [negb fst snd];
      [|split; [exact Hinv3 | apply (Htwo c3 eq_refl); discriminate]].
    destruct (rtspClientReceiveResponse_session u c3 Hinv3) as [Hinv4 Hs4].
    destruct (rtspClientReceiveResponse c3) as [ok4 c4].
    cbn [snd] in Hinv4, Hs4.
    destruct ok4; cbn [negb fst snd];
      [|split; [exact Hinv4 | apply (Htwo c4 Hs4); discriminate]].
    apply (Htail c4 Hinv4
             (fun c'' ok =>
                exists extra : list (string * bool),
                  (1 <= length extra <= 2)%nat
                  /\ sent (networkConnection c'')
                     = sent (networkConnection c) ++ extra
                  /\ Forall (fun m => requestOf requestMethod0 u (fst m))
                       extra
                  /\ (ok = true -> Forall (fun m => snd m = true) extra))).
    intros c'' ok Hc''. apply Htwo; [congruence | reflexivity].
  - cbn [negb].
    apply (Htail c2 Hinv2
             (fun c'' ok =>
                exists extra : list (string * bool),
                  (1 <= length extra <= 2)%nat
                  /\ sent (networkConnection c'')
                     = sent (networkConnection c) ++ extra
                  /\ Forall (fun m => requestOf requestMethod0 u (fst m))
                       extra
                  /\ (ok = true -> Forall (fun m => snd m = true) extra))).
    intros c'' ok Hc''. apply Hone; [congruence | reflexivity].
Qed.

Lemma rtspClientSendCommand_keeps (c : RTSPClient)
    (requestMethod0 : RTSPRequestMethod) (raopClient : RAOPClient)
    (supplier : option ContentSupplier) :
  let r := snd (rtspClientSendCommand c requestMethod0 raopClient supplier) in
  isSendingAudio r = isSendingAudio raopClient
  /\ audioThreadJoinable r = audioThreadJoinable raopClient
  /\ audioConnection r = audioConnection raopClient
  /\ m4aFile r = m4aFile raopClient
  /\ startTime r = startTime raopClient
  /\ volume r = volume raopClient.
Proof.
  cbv zeta.
  destruct (rtspClientSendCommand_raopClient c requestMethod0 raopClient
              supplier) as [E|[p E]]; rewrite E; repeat split.
Qed.

(** X14.  [raopClientStopPlaying] does nothing on a client that is not
    sending audio.  On one that is, it marks the client as stopped and
    sends FLUSH and then TEARDOWN (each once, or twice when the peer asks
    for authentication), the TEARDOWN also when the FLUSH failed; it
    answers true only if every request was handed over and the audio
    thread, if joinable, was joined. *)
Theorem raopClientStopPlaying_requests (u : string) (pthreadJoin : Z)
    (raopClient : RAOPClient) (rtspClient : RTSPClient) :
  sessionInvariant u rtspClient ->
  let res := raopClientStopPlaying pthreadJoin raopClient rtspClient in
  (isSendingAudio raopClient = false -> res = (true, raopClient, rtspClient))
  /\ (isSendingAudio raopClient = true ->
      isSendingAudio (snd (fst res)) = false
      /\ audioThreadJoinable (snd (fst res)) = false
      /\ exists flush teardown : list (string * bool),
           (1 <= length flush <= 2)%nat
           /\ (1 <= length teardown <= 2)%nat
           /\ sent (networkConnection (snd res))
              = sent (networkConnection rtspClient) ++ flush ++ teardown
           /\ Forall (fun m => requestOf RTSP_METHOD_FLUSH u (fst m)) flush
           /\ Forall (fun m => requestOf RTSP_METHOD_TEARDOWN u (fst m))
                teardown
           /\ (fst (fst res) = true ->
               Forall (fun m => snd m = true) (flush ++ teardown)
               /\ (audioThreadJoinable raopClient = true ->
                   pthreadJoin = 0))).
Proof.
  intros Hinv. cbv zeta. unfold raopClientStopPlaying. split.
  - intros ->. reflexivity.
  - intros ->. cbn [negb]. cbv zeta.
    set (r0 := set_isSendingAudio raopClient false).
    assert (Hjoin : exists (result : bool) (r1 : RAOPClient),
               (if audioThreadJoinable r0
                then
                  if negb (pthreadJoin =? 0)
                  then (false, set_audioThreadJoinable r0 false)
                  else (true, set_audioThreadJoinable r0 false)
                else (true, r0)) = (result, r1)
               /\ isSendingAudio r1 = false
               /\ audioThreadJoinable r1 = false
               /\ (result = true -> audioThreadJoinable raopClient = true ->
                   pthreadJoin = 0)).
    { unfold r0. cbn [audioThreadJoinable set_isSendingAudio].
      destruct (audioThreadJoinable raopClient) eqn:Ej.
      - destruct (Z.eqb_spec pthreadJoin 0) as [E|N]; cbn [negb];
          eexists; eexists; (split; [reflexivity|]);
          cbn [isSendingAudio audioThreadJoinable set_audioThreadJoinable
               set_isSendingAudio];
          (split; [reflexivity|]); (split; [reflexivity|]).
        + intros _ _. exact E.
        + discriminate.
      - eexists. eexists. split; [reflexivity|].
        cbn [isSendingAudio audioThreadJoinable set_isSendingAudio].
        split; [reflexivity|]. split; [exact Ej|]. discriminate. }
    destruct Hjoin as (result & r1 & -> & Hs1 & Hj1 & Hres).
    pose proof (rtspClientSendCommand_requests u rtspClient RTSP_METHOD_FLUSH
                  r1 NoContent Hinv) as Hf.
    pose proof (rtspClientSendCommand_keeps rtspClient RTSP_METHOD_FLUSH r1
                  None) as Hk.
    cbv zeta in Hf, Hk. cbn [supplierOf] in Hf.
    destruct (rtspClientSendCommand rtspClient RTSP_METHOD_FLUSH r1 None)
      as [[ok2 c2] r2].
    cbn [fst snd] in Hf, Hk.
    destruct Hf as (Hinv2 & flush & Hlf & Hsf & Hff & Hokf).
    destruct Hk as (Hs2 & Hj2 & _).
    pose proof (rtspClientSendCommand_requests u c2 RTSP_METHOD_TEARDOWN
                  r2 NoContent Hinv2) as Ht.
    pose proof (rtspClientSendCommand_keeps c2 RTSP_METHOD_TEARDOWN r2
                  None) as Hk.
    cbv zeta in Ht, Hk. cbn [supplierOf] in Ht.
    destruct (rtspClientSendCommand c2 RTSP_METHOD_TEARDOWN r2 None)
      as [[ok3 c3] r3].
    cbn [fst snd] in Ht, Hk |- *.
    destruct Ht as (Hinv3 & teardown & Hlt & Hst & Hft & Hokt).
    destruct Hk as (Hs3 & Hj3 & _).
    split; [congruence|]. split; [congruence|].
    exists flush, teardown.
    split; [exact Hlf|]. split; [exact Hlt|].
    split; [rewrite Hst, Hsf, <- app_assoc; reflexivity|].
    split; [exact Hff|]. split; [exact Hft|].
    intros Hok. destruct ok3; cbn [negb] in Hok; [|discriminate].
    destruct ok2; cbn [negb] in Hok; [|discriminate].
    split.
    + apply Forall_app. split; [apply Hokf | apply Hokt]; reflexivity.
    + apply Hres. exact Hok.
Qed.

Lemma raopClientStopPlaying_requests_witness :
  let rtspClient := challengedClient in
  let res := raopClientStopPlaying 0 playing rtspClient in
  isSendingAudio (snd (fst res)) = false
  /\ exists flush teardown : list (string * bool),
       sent (networkConnection (snd res)) = flush ++ teardown
       /\ Forall (fun m => requestOf RTSP_METHOD_FLUSH (url rtspClient) (fst m))
            flush
       /\ Forall (fun m =>
                    requestOf RTSP_METHOD_TEARDOWN (url rtspClient) (fst m))
            teardown.
Proof.
  intros rtspClient res.
  assert (Hinv : sessionInvariant (url rtspClient) rtspClient).
  { apply (rtspClientOpenConnection_session challenged rtspClient).
    - reflexivity.
    - split; vm_compute; discriminate.
    - vm_compute. reflexivity. }
  destruct (proj2 (raopClientStopPlaying_requests (url rtspClient) 0 playing
                     rtspClient Hinv) eq_refl)
    as (Hs & _ & flush & teardown & _ & _ & Hsent & Hf & Ht & _).
  split; [exact Hs|].
  exists flush, teardown. split; [exact Hsent|]. split; assumption.
Defined.

Ltac close_step :=
  first [ apply Forall_nil
        | assumption
        | (simpl; lia)
        | (let H := fresh in intros H; exfalso; apply H; reflexivity)
        | (intros _; assumption) ].

(** Closes one part of the statement about [raopClientPlayM4AFile] in a
    branch of its proof. *)
Ltac close_part :=
  intros;
  repeat match goal with
         | H : _ \/ _ |- _ => destruct H
         end;
  first [ congruence
        | assumption
        | (repeat split;
           first [reflexivity | assumption | congruence]) ].

(** X15.  [raopClientPlayM4AFile] sends its requests in the order OPTIONS,
    ANNOUNCE, SETUP, RECORD, SET_PARAMETER (each once, or twice when the
    peer asks for authentication), each step on the clients that the step
    before has left, and stops at the first step that fails: when
    [rtspClientSendCommand] answers false for one of the five, or the
    audio connection cannot be opened behind SETUP, the function answers
    false and no request of a later step is sent.  When it answers true,
    all five were sent, the audio connection is open and the client is
    sending audio on a joinable thread. *)
Theorem raopClientPlayM4AFile_requests (u : string)
    (networkOpenConnection
       : string -> string -> option (NetworkConnection (list Z)))
    (pthreadCreate : Z) (raopClient : RAOPClient) (rtspClient : RTSPClient)
    (file : M4AFile) (start : option timespec) :
  sessionInvariant u rtspClient ->
  let res :=
    raopClientPlayM4AFile networkOpenConnection pthreadCreate raopClient
      rtspClient file start in
  let raopClient0 :=
    match start with
    | Some t => set_startTime (set_m4aFile raopClient file) (timespecCopy t)
    | None => set_m4aFile raopClient file
    end in
  let s1 :=
    rtspClientSendCommand rtspClient RTSP_METHOD_OPTIONS raopClient0 None in
  let s2 :=
    rtspClientSendCommand (snd (fst s1)) RTSP_METHOD_ANNOUNCE (snd s1)
      (Some raopClientAnnounceContentSupplier) in
  let s3 :=
    rtspClientSendCommand (snd (fst s2)) RTSP_METHOD_SETUP (snd s2) None in
  let a := raopClientSetupAudioConnection networkOpenConnection (snd s3) in
  let s4 :=
    rtspClientSendCommand (snd (fst s3)) RTSP_METHOD_RECORD (snd a) None in
  let s5 :=
    rtspClientSendCommand (snd (fst s4)) RTSP_METHOD_SET_PARAMETER (snd s4)
      (Some raopClientSetVolumeContentSupplier) in
  let base := sent (networkConnection rtspClient) in
  exists options announce setup record setParameter : list (string * bool),
    sent (networkConnection (snd res))
    = base ++ options ++ announce ++ setup ++ record ++ setParameter
    /\ Forall (fun m => requestOf RTSP_METHOD_OPTIONS u (fst m)) options
    /\ Forall (fun m => requestOf RTSP_METHOD_ANNOUNCE u (fst m)) announce
    /\ Forall (fun m => requestOf RTSP_METHOD_SETUP u (fst m)) setup
    /\ Forall (fun m => requestOf RTSP_METHOD_RECORD u (fst m)) record
    /\ Forall (fun m => requestOf RTSP_METHOD_SET_PARAMETER u (fst m))
         setParameter
    /\ (1 <= length options <= 2)%nat
    /\ (length announce <= 2)%nat /\ (length setup <= 2)%nat
    /\ (length record <= 2)%nat /\ (length setParameter <= 2)%nat
    /\ (setup <> [] -> announce <> [])
    /\ (record <> [] -> setup <> [])
    /\ (setParameter <> [] -> record <> [])
    /\ (fst (fst res) = true ->
        setParameter <> []
        /\ audioConnection (snd (fst res)) <> None
        /\ isSendingAudio (snd (fst res)) = true
        /\ audioThreadJoinable (snd (fst res)) = true
        /\ m4aFile (snd (fst res)) = Some file)
    (* the requests of each step *)
    /\ sent (networkConnection (snd (fst s1))) = base ++ options
    /\ (fst (fst s1) = true ->
        sent (networkConnection (snd (fst s2))) = base ++ options ++ announce)
    /\ (fst (fst s1) = true -> fst (fst s2) = true ->
        sent (networkConnection (snd (fst s3)))
        = base ++ options ++ announce ++ setup)
    /\ (fst (fst s1) = true -> fst (fst s2) = true -> fst (fst s3) = true ->
        fst a = true ->
        sent (networkConnection (snd (fst s4)))
        = base ++ options ++ announce ++ setup ++ record)
    /\ (fst (fst s1) = true -> fst (fst s2) = true -> fst (fst s3) = true ->
        fst a = true -> fst (fst s4) = true ->
        sent (networkConnection (snd (fst s5)))
        = base ++ options ++ announce ++ setup ++ record ++ setParameter)
    (* the first step that fails is the last one *)
    /\ (fst (fst s1) = false ->
        fst (fst res) = false
        /\ announce = [] /\ setup = [] /\ record = [] /\ setParameter = [])
    /\ (fst (fst s1) = true -> fst (fst s2) = false ->
        fst (fst res) = false
        /\ setup = [] /\ record = [] /\ setParameter = [])
    /\ (fst (fst s1) = true -> fst (fst s2) = true ->
        fst (fst s3) = false \/ fst a = false ->
        fst (fst res) = false /\ record = [] /\ setParameter = [])
    /\ (fst (fst s1) = true -> fst (fst s2) = true -> fst (fst s3) = true ->
        fst a = true -> fst (fst s4) = false ->
        fst (fst res) = false /\ setParameter = [])
    /\ (fst (fst s1) = true -> fst (fst s2) = true -> fst (fst s3) = true ->
        fst a = true -> fst (fst s4) = true ->
        fst (fst res) = fst (fst s5) && (pthreadCreate =? 0)).
Proof.
  intros Hinv. cbv zeta. unfold raopClientPlayM4AFile.
  set (r0 := match start with
             | Some t => set_startTime (set_m4aFile raopClient file)
                           (timespecCopy t)
             | None => set_m4aFile raopClient file
             end).
  assert (Hm0 : m4aFile r0 = Some file) by (unfold r0; destruct start; reflexivity).
  (* OPTIONS *)
  pose proof (rtspClientSendCommand_requests u rtspClient RTSP_METHOD_OPTIONS
                r0 NoContent Hinv) as H1.
  pose proof (rtspClientSendCommand_keeps rtspClient RTSP_METHOD_OPTIONS r0
                None) as K1.
  cbv zeta in H1, K1. cbn [supplierOf] in H1.
  destruct (rtspClientSendCommand rtspClient RTSP_METHOD_OPTIONS r0 None)
    as [[ok1 c1] r1].
  cbn [fst snd] in H1, K1.
  destruct H1 as (Hinv1 & options & Hl1 & Hs1 & Hf1 & _).
  destruct K1 as (_ & _ & _ & Km1 & _).
  destruct ok1; cbn [negb fst snd].
  2:{ exists options, [], [], [], []. rewrite !app_nil_r.
      split; [exact Hs1|].
      do 13 (split; [close_step|]). split; [discriminate|].
      split; [exact Hs1|].
      do 8 (split; [close_part|]). close_part. }
  (* ANNOUNCE *)
  pose proof (rtspClientSendCommand_requests u c1 RTSP_METHOD_ANNOUNCE
                r1 AnnounceContent Hinv1) as H2.
  pose proof (rtspClientSendCommand_keeps c1 RTSP_METHOD_ANNOUNCE r1
                (Some raopClientAnnounceContentSupplier)) as K2.
  cbv zeta in H2, K2. cbn [supplierOf] in H2.
  destruct (rtspClientSendCommand c1 RTSP_METHOD_ANNOUNCE r1
              (Some raopClientAnnounceContentSupplier)) as [[ok2 c2] r2].
  cbn [fst snd] in H2, K2.
  destruct H2 as (Hinv2 & announce & Hl2 & Hs2 & Hf2 & _).
  destruct K2 as (_ & _ & _ & Km2 & _).
  assert (Hn2 : announce <> []) by (destruct announce; [simpl in Hl2; lia | discriminate]).
  assert (Hsent2 : sent (networkConnection c2)
                   = sent (networkConnection rtspClient)
                     ++ options ++ announce).
  { rewrite Hs2, Hs1, <- !app_assoc. reflexivity. }
  destruct ok2; cbn [negb fst snd].
  2:{ exists options, announce, [], [], []. rewrite !app_nil_r.
      split; [exact Hsent2|].
      do 13 (split; [close_step|]). split; [discriminate|].
      split; [exact Hs1|]. split; [intros _; exact Hsent2|].
      do 7 (split; [close_part|]). close_part. }
  (* SETUP *)
  pose proof (rtspClientSendCommand_requests u c2 RTSP_METHOD_SETUP
                r2 NoContent Hinv2) as H3.
  pose proof (rtspClientSendCommand_keeps c2 RTSP_METHOD_SETUP r2 None) as K3.
  cbv zeta in H3, K3. cbn [supplierOf] in H3.
  destruct (rtspClientSendCommand c2 RTSP_METHOD_SETUP r2 None)
    as [[ok3 c3] r3].
  cbn [fst snd] in H3, K3.
  destruct H3 as (Hinv3 & setup & Hl3 & Hs3 & Hf3 & _).
  destruct K3 as (_ & _ & _ & Km3 & _).
  assert (Hn3 : setup <> []) by (destruct setup; [simpl in Hl3; lia | discriminate]).
  assert (Hsent3 : sent (networkConnection c3)
                   = sent (networkConnection rtspClient)
                     ++ options ++ announce ++ setup).
  { rewrite Hs3, Hsent2, <- !app_assoc. reflexivity. }
  destruct ok3; cbn [negb fst snd].
  2:{ exists options, announce, setup, [], []. rewrite !app_nil_r.
      split; [exact Hsent3|].
      do 13 (split; [close_step|]). split; [discriminate|].
      split; [exact Hs1|]. split; [intros _; exact Hsent2|].
      split; [intros _ _; exact Hsent3|].
      do 6 (split; [close_part|]). close_part. }
  (* the audio connection *)
  assert (Ha : forall r r', raopClientSetupAudioConnection
                              networkOpenConnection r = (true, r') ->
                            audioConnection r' <> None
                            /\ m4aFile r' = m4aFile r).
  { intros r r'. unfold raopClientSetupAudioConnection.
    destruct (strlen (print_u (u32 (audioPort r))) <? 1); [discriminate|].
    destruct (networkOpenConnection _ _); [|discriminate].
    intros [= <-]. split; [discriminate | reflexivity]. }
  destruct (raopClientSetupAudioConnection networkOpenConnection r3)
    as [ok4 r4] eqn:E4.
  destruct ok4; cbn [negb fst snd].
  2:{ exists options, announce, setup, [], []. rewrite !app_nil_r.
      split; [exact Hsent3|].
      do 13 (split; [close_step|]). split; [discriminate|].
      split; [exact Hs1|]. split; [intros _; exact Hsent2|].
      split; [intros _ _; exact Hsent3|].
      do 6 (split; [close_part|]). close_part. }
  destruct (Ha r3 r4 E4) as [Hc4 Km4].
  (* RECORD *)
  pose proof (rtspClientSendCommand_requests u c3 RTSP_METHOD_RECORD
                r4 NoContent Hinv3) as H5.
  pose proof (rtspClientSendCommand_keeps c3 RTSP_METHOD_RECORD r4 None) as K5.
  cbv zeta in H5, K5. cbn [supplierOf] in H5.
  destruct (rtspClientSendCommand c3 RTSP_METHOD_RECORD r4 None)
    as [[ok5 c5] r5].
  cbn [fst snd] in H5, K5.
  destruct H5 as (Hinv5 & record & Hl5 & Hs5 & Hf5 & _).
  destruct K5 as (_ & _ & Kc5 & Km5 & _).
  assert (Hn5 : record <> []) by (destruct record; [simpl in Hl5; lia | discriminate]).
  assert (Hsent5 : sent (networkConnection c5)
                   = sent (networkConnection rtspClient)
                     ++ options ++ announce ++ setup ++ record).
  { rewrite Hs5, Hsent3, <- !app_assoc. reflexivity. }
  destruct ok5; cbn [negb fst snd].
  2:{ exists options, announce, setup, record, []. rewrite !app_nil_r.
      split; [exact Hsent5|].
      do 13 (split; [close_step|]). split; [discriminate|].
      split; [exact Hs1|]. split; [intros _; exact Hsent2|].
      split; [intros _ _; exact Hsent3|].
      split; [intros _ _ _ _; exact Hsent5|].
      do 5 (split; [close_part|]). close_part. }
  (* SET_PARAMETER *)
  pose proof (rtspClientSendCommand_requests u c5 RTSP_METHOD_SET_PARAMETER
                r5 VolumeContent Hinv5) as H6.
  pose proof (rtspClientSendCommand_keeps c5 RTSP_METHOD_SET_PARAMETER r5
                (Some raopClientSetVolumeContentSupplier)) as K6.
  cbv zeta in H6, K6. cbn [supplierOf] in H6.
  destruct (rtspClientSendCommand c5 RTSP_METHOD_SET_PARAMETER r5
              (Some raopClientSetVolumeContentSupplier)) as [[ok6 c6] r6].
  cbn [fst snd] in H6, K6.
  destruct H6 as (Hinv6 & setParameter & Hl6 & Hs6 & Hf6 & _).
  destruct K6 as (_ & _ & Kc6 & Km6 & _).
  assert (Hn6 : setParameter <> [])
    by (destruct setParameter; [simpl in Hl6; lia | discriminate]).
  assert (Hsent6 : sent (networkConnection c6)
                   = sent (networkConnection rtspClient)
                     ++ options ++ announce ++ setup ++ record
                     ++ setParameter).
  { rewrite Hs6, Hsent5, <- !app_assoc. reflexivity. }
  assert (Hcommon :
    forall (ok : bool) (r : RAOPClient),
      (ok = true ->
       audioConnection r <> None /\ isSendingAudio r = true
       /\ audioThreadJoinable r = true /\ m4aFile r = Some file) ->
      ok = ok6 && (pthreadCreate =? 0) ->
      exists options0 announce0 setup0 record0 setParameter0,
        sent (networkConnection c6)
        = sent (networkConnection rtspClient)
          ++ options0 ++ announce0 ++ setup0 ++ record0 ++ setParameter0
        /\ Forall (fun m => requestOf RTSP_METHOD_OPTIONS u (fst m)) options0
        /\ Forall (fun m => requestOf RTSP_METHOD_ANNOUNCE u (fst m)) announce0
        /\ Forall (fun m => requestOf RTSP_METHOD_SETUP u (fst m)) setup0
        /\ Forall (fun m => requestOf RTSP_METHOD_RECORD u (fst m)) record0
        /\ Forall (fun m => requestOf RTSP_METHOD_SET_PARAMETER u (fst m))
             setParameter0
        /\ (1 <= length options0 <= 2)%nat
        /\ (length announce0 <= 2)%nat /\ (length setup0 <= 2)%nat
        /\ (length record0 <= 2)%nat /\ (length setParameter0 <= 2)%nat
        /\ (setup0 <> [] -> announce0 <> [])
        /\ (record0 <> [] -> setup0 <> [])
        /\ (setParameter0 <> [] -> record0 <> [])
        /\ (ok = true ->
            setParameter0 <> []
            /\ audioConnection r <> None
            /\ isSendingAudio r = true
            /\ audioThreadJoinable r = true
            /\ m4aFile r = Some file)
        /\ sent (networkConnection c1)
           = sent (networkConnection rtspClient) ++ options0
        /\ (true = true ->
            sent (networkConnection c2)
            = sent (networkConnection rtspClient) ++ options0 ++ announce0)
        /\ (true = true -> true = true ->
            sent (networkConnection c3)
            = sent (networkConnection rtspClient)
              ++ options0 ++ announce0 ++ setup0)
        /\ (true = true -> true = true -> true = true -> true = true ->
            sent (networkConnection c5)
            = sent (networkConnection rtspClient)
              ++ options0 ++ announce0 ++ setup0 ++ record0)
        /\ (true = true -> true = true -> true = true -> true = true ->
            true = true ->
            sent (networkConnection c6)
            = sent (networkConnection rtspClient)
              ++ options0 ++ announce0 ++ setup0 ++ record0 ++ setParameter0)
        /\ (true = false ->
            ok = false
            /\ announce0 = [] /\ setup0 = [] /\ record0 = []
            /\ setParameter0 = [])
        /\ (true = true -> true = false ->
            ok = false /\ setup0 = [] /\ record0 = [] /\ setParameter0 = [])
        /\ (true = true -> true = true -> true = false \/ true = false ->
            ok = false /\ record0 = [] /\ setParameter0 = [])
        /\ (true = true -> true = true -> true = true -> true = true ->
            true = false -> ok = false /\ setParameter0 = [])
        /\ (true = true -> true = true -> true = true -> true = true ->
            true = true -> ok = ok6 && (pthreadCreate =? 0))).
  { intros ok r Hok Hres.
    exists options, announce, setup, record, setParameter.
    split; [exact Hsent6|].
    split; [exact Hf1|]. split; [exact Hf2|]. split; [exact Hf3|].
    split; [exact Hf5|]. split; [exact Hf6|].
    split; [exact Hl1|]. split; [lia|]. split; [lia|]. split; [lia|].
    split; [lia|].
    split; [intros _; exact Hn2|]. split; [intros _; exact Hn3|].
    split; [intros _; exact Hn5|].
    split; [intros H; split; [exact Hn6 | exact (Hok H)]|].
    split; [exact Hs1|]. split; [intros _; exact Hsent2|].
    split; [intros _ _; exact Hsent3|].
    split; [intros _ _ _ _; exact Hsent5|].
    split; [intros _ _ _ _ _; exact Hsent6|].
    split; [discriminate|]. split; [intros _; discriminate|].
    split; [intros _ _ [H|H]; discriminate|].
    split; [intros _ _ _ _; discriminate|].
    intros _ _ _ _ _. exact Hres. }
  destruct ok6; cbn [negb fst snd];
    [|apply Hcommon; [discriminate | reflexivity]].
  unfold raopClientStartPlaying.
  destruct (Z.eqb_spec pthreadCreate 0); cbn [negb fst snd];
    [|apply Hcommon; [discriminate | reflexivity]].
  apply Hcommon; [|reflexivity]. intros _.
  cbn [audioConnection isSendingAudio audioThreadJoinable m4aFile
       set_audioThreadJoinable set_isSendingAudio].
  split; [congruence|]. split; [reflexivity|]. split; [reflexivity|].
  congruence.
Qed.

(** The theorem applied to a peer that accepts OPTIONS and answers
    ANNOUNCE with 403: the function answers false, and the two requests
    are all that is sent. *)
Lemma raopClientPlayM4AFile_requests_witness :
  let rtspClient := refusing in
  let networkOpenConnection :=
    fun host portName : string => Some freshAudio in
  let res :=
    raopClientPlayM4AFile networkOpenConnection 0 idle rtspClient
      (parsed alacFile) None in
  fst (fst res) = false
  /\ exists options announce : list (string * bool),
       sent (networkConnection (snd res)) = options ++ announce
       /\ Forall (fun m =>
                    requestOf RTSP_METHOD_OPTIONS (url rtspClient) (fst m))
            options
       /\ Forall (fun m =>
                    requestOf RTSP_METHOD_ANNOUNCE (url rtspClient) (fst m))
            announce
       /\ length options = 1%nat /\ length announce = 1%nat.
Proof.
  intros rtspClient networkOpenConnection res.
  assert (Hinv : sessionInvariant (url rtspClient) rtspClient).
  { apply (rtspClientOpenConnection_session
             (networkConnection rtspClient) rtspClient).
    - reflexivity.
    - split; vm_compute; discriminate.
    - vm_compute. reflexivity. }
  destruct (raopClientPlayM4AFile_requests (url rtspClient)
              networkOpenConnection 0 idle rtspClient (parsed alacFile) None
              Hinv)
    as (options & announce & setup & record & setParameter & Hsent & Hf1
        & Hf2 & _ & _ & _ & _ & _ & _ & _ & _ & _ & _ & _ & _ & Hs1 & Hs2 & _
        & _ & _ & _ & Hfail & _).
  destruct (Hfail ltac:(vm_compute; reflexivity) ltac:(vm_compute; reflexivity))
    as (Hres & -> & -> & ->).
  split; [exact Hres|].
  exists options, announce.
  rewrite !app_nil_r in Hsent.
  change (sent (networkConnection rtspClient))
    with (@nil (string * bool)) in Hsent, Hs1.
  cbn [app] in Hsent, Hs1.
  split; [exact Hsent|]. split; [exact Hf1|]. split; [exact Hf2|].
  assert (L1 : length (sent (networkConnection (snd (fst
                 (rtspClientSendCommand rtspClient RTSP_METHOD_OPTIONS
                    (set_m4aFile idle (parsed alacFile)) None))))) = 1%nat)
    by (vm_compute; reflexivity).
  assert (L2 : length (sent (networkConnection (snd res))) = 2%nat)
    by (vm_compute; reflexivity).
  rewrite Hs1 in L1. unfold res in L2. rewrite Hsent, length_app in L2.
  split; [exact L1 | lia].
Defined.

(* ================================================================== *)
(** * rtspclient.c: receiving a response *)

(** A message that arrives in one piece and leaves room in the buffer is
    the response. *)
Lemma rtspResponseReceive_whole (r : RTSPResponse)
    (c : NetworkConnection string) (message : string)
    (rest : list (RecvEvent string)) :
  let maxSize := match responseBuffer r with
                 | None => RESPONSE_BUFFER_INITIAL_SIZE
                 | Some _ => maxResponseBufferSize r
                 end in
  incoming c = RecvData message :: rest ->
  RESPONSE_BUFFER_INCREMENT_SIZE <= maxSize -> strlen message < maxSize ->
  rtspResponseReceive r c
  = (true, mkResponse (Some message) maxSize,
     mkConnection (sent c) (sendResults c) rest (localAddressName c)
       (remoteAddressName c)).
Proof.
  intros maxSize Hin Hmin Hlen. unfold rtspResponseReceive. fold maxSize.
  assert (Hloop : forall fuel : nat,
             receiveLoop fuel "" maxSize c
             = (true, message, maxSize,
                mkConnection (sent c) (sendResults c) rest (localAddressName c)
                  (remoteAddressName c))).
  { intros fuel.
    assert (Hroom : bufferMakeRoom maxSize (strlen "")
                      RESPONSE_BUFFER_INCREMENT_SIZE
                      RESPONSE_BUFFER_INCREMENT_SIZE = maxSize).
    { unfold bufferMakeRoom. change (strlen "") with 0.
      destruct (Z.leb_spec (0 + RESPONSE_BUFFER_INCREMENT_SIZE) maxSize);
        [reflexivity | lia]. }
    destruct fuel as [|k]; cbn [receiveLoop]; rewrite Hroom;
      unfold networkReceiveMessage; rewrite Hin;
      (destruct (Z.leb_spec (strlen message) maxSize); [|lia]);
      cbn [negb]; change ("" +++ message) with message;
      (destruct (Z.eqb_spec (strlen message) maxSize); [lia|]);
      reflexivity. }
  rewrite Hloop. reflexivity.
Qed.

(** X16.  [rtspClientReceiveResponse] on a response that arrives in one
    piece and starts with the protocol name, the version and the decimal
    digits of a status from 1 to 32767: the response is accepted when the
    status is between 200 and 299 or is 401, and refused otherwise;
    [needAuthentication] is set for 401 and cleared for every other
    status. *)
Theorem rtspClientReceiveResponse_status (c : RTSPClient)
    (major minor : ascii) (status : Z) (tail : string)
    (rest : list (RecvEvent string)) :
  let message :=
    "RTSP/" +++ String major ("." +++ String minor (" "
      +++ print_u status +++ tail)) in
  let maxSize :=
    match rtspResponse c with
    | Some r => match responseBuffer r with
                | None => RESPONSE_BUFFER_INITIAL_SIZE
                | Some _ => maxResponseBufferSize r
                end
    | None => RESPONSE_BUFFER_INITIAL_SIZE
    end in
  let res := rtspClientReceiveResponse c in
  incoming (networkConnection c) = RecvData message :: rest ->
  RESPONSE_BUFFER_INCREMENT_SIZE <= maxSize -> strlen message < maxSize ->
  isdigit major = true -> isdigit minor = true ->
  1 <= status < 2^15 -> ends_number 10 tail -> 2 <= strlen tail ->
  fst res = ((200 <=? status) && (status <? 300)) || (status =? 401)
  /\ needAuthentication (snd res) = (status =? 401)
  /\ rtspResponse (snd res) = Some (mkResponse (Some message) maxSize)
  /\ incoming (networkConnection (snd res)) = rest
  /\ sent (networkConnection (snd res)) = sent (networkConnection c).
Proof.
  intros message maxSize res Hin Hmin Hlen Hmajor Hminor Hs He Ht.
  unfold res, rtspClientReceiveResponse.
  assert (Er : rtspResponseReceive
                 match rtspResponse c with
                 | Some r => r
                 | None => rtspResponseCreate
                 end (networkConnection c)
               = (true, mkResponse (Some message) maxSize,
                  mkConnection (sent (networkConnection c))
                    (sendResults (networkConnection c)) rest
                    (localAddressName (networkConnection c))
                    (remoteAddressName (networkConnection c)))).
  { unfold maxSize in *.
    destruct (rtspResponse c) as [r|];
      apply rtspResponseReceive_whole; assumption. }
  assert (Estatus : rtspResponseGetStatus (mkResponse (Some message) maxSize)
                    = (true, status))
    by (apply rtspResponseGetStatus_parsed; assumption).
  rewrite Er. cbn [negb]. rewrite Estatus. cbn [negb].
  unfold RTSP_RESPONSE_NEED_AUTHENTICATION.
  change (2^15) with 32768 in Hs.
  destruct (Z.eqb_spec status 200) as [E200|N200];
    destruct (Z.gtb_spec status 200) as [G|G];
    destruct (Z.ltb_spec status 300) as [L|L];
    destruct (Z.eqb_spec status 401) as [E|N];
    destruct (Z.leb_spec 200 status) as [L2|L2];
    try lia;
    cbn [andb orb negb fst snd needAuthentication set_needAuthentication
         rtspResponse set_connection set_response networkConnection incoming
         sent];
    repeat split.
Qed.

Lemma rtspClientReceiveResponse_status_witness :
  fst (rtspClientReceiveResponse challengedClient) = true
  /\ needAuthentication (snd (rtspClientReceiveResponse challengedClient))
     = true
  /\ fst (rtspClientReceiveResponse
            (mkClient (scripted [ok200 "1"]) "rtsp://192.168.1.10/1" None None
               0 1 true "" ""))
     = true
  /\ needAuthentication
       (snd (rtspClientReceiveResponse
               (mkClient (scripted [ok200 "1"]) "rtsp://192.168.1.10/1" None
                  None 0 1 true "" "")))
     = false.
Proof.
  pose proof (rtspClientReceiveResponse_status challengedClient "1" "0" 401
                (drop 3 (drop 9 (challenge "1")))
                [RecvData (ok200 "2"); RecvData (ok200 "3")]
                eq_refl ltac:(vm_compute; congruence)
                ltac:(vm_compute; reflexivity) eq_refl eq_refl
                ltac:(vm_compute; split; congruence) eq_refl
                ltac:(vm_compute; congruence)) as (H1 & H2 & _).
  pose proof (rtspClientReceiveResponse_status
                (mkClient (scripted [ok200 "1"]) "rtsp://192.168.1.10/1" None
                   None 0 1 true "" "")
                "1" "0" 200 (drop 3 (drop 9 (ok200 "1"))) []
                eq_refl ltac:(vm_compute; congruence)
                ltac:(vm_compute; reflexivity) eq_refl eq_refl
                ltac:(vm_compute; split; congruence) eq_refl
                ltac:(vm_compute; congruence)) as (H3 & H4 & _).
  split; [exact H1|]. split; [exact H2|]. split; [exact H3 | exact H4].
Defined.

(* ================================================================== *)
(** * m4afile.c: reading 32-bit numbers *)

Lemma lor_low_byte (hi lo : Z) :
  0 <= hi -> 0 <= lo < 256 -> Z.lor (hi * 256) lo = hi * 256 + lo.
Proof.
  intros Hh Hl.
  assert (Hland : Z.land (hi * 256) lo = 0).
  { apply Z.bits_inj'. intros n Hn.
    rewrite Z.land_spec, Z.bits_0.
    destruct (Z.lt_ge_cases n 8) as [L|G].
    - change 256 with (2^8). rewrite Z.mul_pow2_bits_low by lia. reflexivity.
    - destruct (Z.eq_dec lo 0) as [->|N].
      + rewrite Z.bits_0. apply andb_false_r.
      + rewrite (Z.bits_above_log2 lo n); [apply andb_false_r | lia |].
        assert (Z.log2 lo < 8) by (apply Z.log2_lt_pow2; lia). lia. }
  rewrite <- Z.lxor_lor by exact Hland.
  symmetry. apply Z.add_nocarry_lxor. exact Hland.
Qed.

Lemma fgetc_at (s : FILE) (before after : list Z) (b : Z) :
  content s = before ++ b :: after ->
  position s = Z.of_nat (length before) ->
  fgetc s = (b, mkFILE (content s) (position s + 1) (eof_flag s)
                  (error_flag s)).
Proof.
  intros Hc Hp. unfold fgetc. rewrite Hp, Hc, length_app. cbn [length].
  destruct (Z.leb_spec 0 (Z.of_nat (length before))); [|lia].
  destruct (Z.ltb_spec (Z.of_nat (length before))
              (Z.of_nat (length before + S (length after)))); [|lia].
  cbn [andb]. rewrite Nat2Z.id, nth_middle. reflexivity.
Qed.

(** Four bytes are read most significant byte first. *)
Lemma read4ByteUnsignedInt32_value (s : FILE) (before after : list Z)
    (b1 b2 b3 b4 : Z) :
  content s = before ++ b1 :: b2 :: b3 :: b4 :: after ->
  position s = Z.of_nat (length before) ->
  0 <= b1 < 256 -> 0 <= b2 < 256 -> 0 <= b3 < 256 -> 0 <= b4 < 256 ->
  read4ByteUnsignedInt32 s
  = (b1 * 2^24 + b2 * 2^16 + b3 * 2^8 + b4,
     mkFILE (content s) (position s + 4) (eof_flag s) (error_flag s)).
Proof.
  intros Hc Hp H1 H2 H3 H4. unfold read4ByteUnsignedInt32.
  rewrite (fgetc_at s before (b2 :: b3 :: b4 :: after) b1 Hc Hp).
  rewrite (fgetc_at _ (before ++ [b1]) (b3 :: b4 :: after) b2)
    by (cbn [content position];
        first [rewrite Hc, <- app_assoc; reflexivity
              | rewrite Hp, length_app; cbn [length]; lia]).
  cbn [content position eof_flag error_flag].
  rewrite (fgetc_at _ (before ++ [b1; b2]) (b4 :: after) b3)
    by (cbn [content position];
        first [rewrite Hc, <- app_assoc; reflexivity
              | rewrite Hp, length_app; cbn [length]; lia]).
  cbn [content position eof_flag error_flag].
  rewrite (fgetc_at _ (before ++ [b1; b2; b3]) after b4)
    by (cbn [content position];
        first [rewrite Hc, <- app_assoc; reflexivity
              | rewrite Hp, length_app; cbn [length]; lia]).
  cbn [content position eof_flag error_flag].
  change (2^24) with 16777216. change (2^16) with 65536.
  change (2^8) with 256.
  assert (Hu : forall x, 0 <= x < 4294967296 -> u32 x = x)
    by (intros x Hx; apply u32_small; change (2^32) with 4294967296; exact Hx).
  rewrite !Z.shiftl_mul_pow2 by lia. change (2^8) with 256.
  rewrite (Hu b1) by lia. rewrite (Hu b2) by lia.
  rewrite (Hu b3) by lia. rewrite (Hu b4) by lia.
  rewrite (Hu (b1 * 256)) by lia.
  rewrite (lor_low_byte b1 b2) by lia.
  rewrite (Hu ((b1 * 256 + b2) * 256)) by lia.
  rewrite (lor_low_byte (b1 * 256 + b2) b3) by lia.
  rewrite (Hu (((b1 * 256 + b2) * 256 + b3) * 256)) by lia.
  rewrite (lor_low_byte ((b1 * 256 + b2) * 256 + b3) b4) by lia.
  f_equal; [lia|]. f_equal. lia.
Qed.

(** Past the end of the file every read reports the end. *)
Lemma fgetc_past_end (s : FILE) :
  Z.of_nat (length (content s)) <= position s ->
  fgetc s = (EOF, mkFILE (content s) (position s) true (error_flag s)).
Proof.
  intros H. unfold fgetc.
  destruct (Z.ltb_spec (position s) (Z.of_nat (length (content s)))); [lia|].
  rewrite andb_false_r. reflexivity.
Qed.

(** With fewer than four bytes left the end-of-file indicator is set and
    the position stays inside or at the end of the file. *)
Lemma read4ByteUnsignedInt32_short (s : FILE) :
  0 <= position s ->
  Z.of_nat (length (content s)) < position s + 4 ->
  exists (v p : Z),
    read4ByteUnsignedInt32 s
    = (v, mkFILE (content s) p true (error_flag s))
    /\ position s <= p.
Proof.
  intros H0 Hs. unfold read4ByteUnsignedInt32.
  assert (Hstep : forall t : FILE,
             content t = content s -> error_flag t = error_flag s ->
             exists (c p : Z) (e : bool),
               fgetc t = (c, mkFILE (content s) p e (error_flag s))
               /\ (e = true /\ p = position t
                   \/ e = eof_flag t /\ p = position t + 1
                      /\ position t < Z.of_nat (length (content s)))).
  { intros t Hc He. unfold fgetc. rewrite Hc, He.
    destruct ((0 <=? position t)
              && (position t <? Z.of_nat (length (content s)))) eqn:E.
    - eexists. eexists. eexists. split; [reflexivity|]. right.
      apply andb_prop in E. destruct E as [_ E]. apply Z.ltb_lt in E.
      split; [reflexivity|]. split; [reflexivity | exact E].
    - eexists. eexists. eexists. split; [reflexivity|]. left.
      split; reflexivity. }
  destruct (Hstep s eq_refl eq_refl) as (c1 & p1 & e1 & -> & C1).
  destruct (Hstep (mkFILE (content s) p1 e1 (error_flag s)) eq_refl eq_refl)
    as (c2 & p2 & e2 & -> & C2).
  destruct (Hstep (mkFILE (content s) p2 e2 (error_flag s)) eq_refl eq_refl)
    as (c3 & p3 & e3 & -> & C3).
  destruct (Hstep (mkFILE (content s) p3 e3 (error_flag s)) eq_refl eq_refl)
    as (c4 & p4 & e4 & -> & C4).
  cbn [position eof_flag] in C2, C3, C4.
  exists (Z.lor (u32 (Z.shiftl (Z.lor (u32 (Z.shiftl (Z.lor (u32 (Z.shiftl
            (u32 c1) 8)) (u32 c2)) 8)) (u32 c3)) 8)) (u32 c4)), p4.
  assert (He4 : e4 = true /\ position s <= p4).
  { destruct C4 as [[-> ->]|(-> & -> & L4)].
    - split; [reflexivity|].
      destruct C3 as [[_ ->]|(_ & -> & _)];
        destruct C2 as [[_ ->]|(_ & -> & _)];
        destruct C1 as [[_ ->]|(_ & -> & _)]; lia.
    - destruct C3 as [[-> ->]|(-> & -> & L3)].
      + split; [reflexivity|].
        destruct C2 as [[_ ->]|(_ & -> & _)];
          destruct C1 as [[_ ->]|(_ & -> & _)]; lia.
      + destruct C2 as [[-> ->]|(-> & -> & L2)].
        * split; [reflexivity|]. destruct C1 as [[_ ->]|(_ & -> & _)]; lia.
        * destruct C1 as [[-> ->]|(-> & -> & L1)].
          -- split; [reflexivity | lia].
          -- lia. }
  destruct He4 as [-> Hp4]. split; [reflexivity | exact Hp4].
Qed.

(** X17.  [m4aFileReadUnsignedLong] reads four bytes as a number, most
    significant byte first, and moves the data stream four bytes on,
    touching nothing else.  With fewer than four bytes left it fails and
    sets the status of the file to the error status. *)
Theorem m4aFileReadUnsignedLong_big_endian (m : M4AFile) (boxType : Z) :
  eof_flag (dataStream m) = false -> error_flag (dataStream m) = false ->
  (forall (before after : list Z) (b1 b2 b3 b4 : Z),
     content (dataStream m) = before ++ b1 :: b2 :: b3 :: b4 :: after ->
     position (dataStream m) = Z.of_nat (length before) ->
     0 <= b1 < 256 -> 0 <= b2 < 256 -> 0 <= b3 < 256 -> 0 <= b4 < 256 ->
     m4aFileReadUnsignedLong m boxType
     = (true, b1 * 2^24 + b2 * 2^16 + b3 * 2^8 + b4,
        set_dataStream m
          (mkFILE (content (dataStream m)) (position (dataStream m) + 4)
             false false)))
  /\ (0 <= position (dataStream m) ->
      Z.of_nat (length (content (dataStream m)))
      < position (dataStream m) + 4 ->
      fst (fst (m4aFileReadUnsignedLong m boxType)) = false
      /\ status (snd (m4aFileReadUnsignedLong m boxType)) = M4AFILE_ERROR).
Proof.
  intros He Hr. split.
  - intros before after b1 b2 b3 b4 Hc Hp H1 H2 H3 H4.
    unfold m4aFileReadUnsignedLong.
    rewrite (read4ByteUnsignedInt32_value _ before after b1 b2 b3 b4 Hc Hp
               H1 H2 H3 H4).
    rewrite He, Hr. reflexivity.
  - intros H0 Hs. unfold m4aFileReadUnsignedLong.
    destruct (read4ByteUnsignedInt32_short _ H0 Hs) as (v & p & -> & _).
    split; reflexivity.
Qed.

Lemma m4aFileReadUnsignedLong_big_endian_witness :
  let m := m4aFileOpen zeroed [0; 0; 1; 2; 109; 111; 111] in
  fst (m4aFileReadUnsignedLong m NO_BOXTYPE) = (true, 258)
  /\ fst (fst (m4aFileReadUnsignedLong
                 (snd (m4aFileReadUnsignedLong m NO_BOXTYPE)) NO_BOXTYPE))
     = false.
Proof.
  intros m.
  destruct (m4aFileReadUnsignedLong_big_endian m NO_BOXTYPE eq_refl eq_refl)
    as [H1 _].
  rewrite (H1 [] [109; 111; 111] 0 0 1 2 eq_refl eq_refl
             ltac:(lia) ltac:(lia) ltac:(lia) ltac:(lia)).
  split; [reflexivity|].
  match goal with
  | |- context [m4aFileReadUnsignedLong ?m2 _] =>
      destruct (m4aFileReadUnsignedLong_big_endian m2 NO_BOXTYPE eq_refl
                  eq_refl) as [_ H2]
  end.
  apply H2; vm_compute; congruence.
Defined.

(* ================================================================== *)
(** * m4afile.c: the table of sample sizes *)

(** The four bytes of a 32-bit number, and the number they stand for. *)
Lemma be32_bytes (x : Z) :
  0 <= x < 2^32 ->
  exists b1 b2 b3 b4 : Z,
    be32 x = [b1; b2; b3; b4]
    /\ 0 <= b1 < 256 /\ 0 <= b2 < 256 /\ 0 <= b3 < 256 /\ 0 <= b4 < 256
    /\ b1 * 2^24 + b2 * 2^16 + b3 * 2^8 + b4 = x.
Proof.
  intros Hx. unfold be32. do 4 eexists. split; [reflexivity|].
  change (2^32) with 4294967296 in Hx.
  change (2^24) with 16777216. change (2^16) with 65536.
  change (2^8) with 256.
  repeat (split; [apply Z.mod_pos_bound; lia|]).
  rewrite (Z.mod_small (x / 16777216)) by
    (split; [apply Z.div_pos; lia | apply Z.div_lt_upper_bound; lia]).
  assert (E1 : x = 256 * (x / 256) + x mod 256) by (apply Z.div_mod; lia).
  assert (E2 : x / 256 = 256 * (x / 256 / 256) + (x / 256) mod 256)
    by (apply Z.div_mod; lia).
  assert (E3 : x / 65536 = 256 * (x / 65536 / 256) + (x / 65536) mod 256)
    by (apply Z.div_mod; lia).
  rewrite Z.div_div in E2, E3 by lia.
  change (256 * 256) with 65536 in E2.
  change (65536 * 256) with 16777216 in E3.
  lia.
Qed.

(** A number stored in the file is read back. *)
Lemma m4aFileReadUnsignedLong_at (m : M4AFile) (boxType x : Z)
    (before after : list Z) :
  content (dataStream m) = before ++ be32 x ++ after ->
  position (dataStream m) = Z.of_nat (length before) ->
  eof_flag (dataStream m) = false -> error_flag (dataStream m) = false ->
  0 <= x < 2^32 ->
  m4aFileReadUnsignedLong m boxType
  = (true, x,
     set_dataStream m
       (mkFILE (content (dataStream m)) (position (dataStream m) + 4)
          false false)).
Proof.
  intros Hc Hp He Hr Hx.
  destruct (be32_bytes x Hx) as (b1 & b2 & b3 & b4 & Eb & H1 & H2 & H3 & H4 & E).
  rewrite Eb in Hc. cbn [app] in Hc.
  unfold m4aFileReadUnsignedLong.
  rewrite (read4ByteUnsignedInt32_value _ before after b1 b2 b3 b4 Hc Hp
             H1 H2 H3 H4).
  rewrite He, Hr, E. reflexivity.
Qed.

Lemma u32_add_l (a b : Z) : u32 (u32 a + b) = u32 (a + b).
Proof. unfold u32. apply Z.add_mod_idemp_l. lia. Qed.

Lemma fold_max_ge (sizes : list Z) :
  forall largest : Z,
    largest <= fold_left Z.max sizes largest
    /\ Forall (fun s => s <= fold_left Z.max sizes largest) sizes.
Proof.
  induction sizes as [|s sizes IH]; intros largest; cbn [fold_left].
  - split; [lia | constructor].
  - destruct (IH (Z.max largest s)) as [H1 H2]. split; [lia|].
    constructor; [lia | exact H2].
Qed.

Lemma be32_length (x : Z) : length (be32 x) = 4%nat.
Proof. reflexivity. Qed.

(** The loop over the table: the sum of the sizes modulo [2^32] and the
    largest of them. *)
Lemma readSampleSizes_table (boxType : Z) (after : list Z) :
  forall (sizes : list Z) (m : M4AFile) (before : list Z)
         (total largest : Z),
    content (dataStream m) = before ++ flat_map be32 sizes ++ after ->
    position (dataStream m) = Z.of_nat (length before) ->
    eof_flag (dataStream m) = false -> error_flag (dataStream m) = false ->
    Forall (fun s => 0 <= s < 2^32) sizes ->
    0 <= total < 2^32 ->
    exists m' : M4AFile,
      readSampleSizes (length sizes) m boxType total largest
      = (true, u32 (total + fold_right Z.add 0 sizes),
         fold_left Z.max sizes largest, m')
      /\ content (dataStream m') = content (dataStream m)
      /\ position (dataStream m')
         = position (dataStream m) + 4 * Z.of_nat (length sizes)
      /\ eof_flag (dataStream m') = false
      /\ error_flag (dataStream m') = false
      /\ m' = set_dataStream m (dataStream m').
Proof.
  induction sizes as [|s sizes IH];
    intros m before total largest Hc Hp He Hr Hs Ht.
  - exists m. cbn [length readSampleSizes fold_right fold_left].
    rewrite Z.add_0_r, u32_small by exact Ht.
    split; [reflexivity|]. split; [reflexivity|].
    split; [cbn [length]; lia|]. split; [exact He|]. split; [exact Hr|].
    destruct m; reflexivity.
  - inversion Hs as [|s0 l0 Hs1 Hs2]; subst.
    cbn [length readSampleSizes flat_map fold_right fold_left].
    cbn [flat_map] in Hc. rewrite <- app_assoc in Hc.
    rewrite (m4aFileReadUnsignedLong_at m boxType s before
               (flat_map be32 sizes ++ after) Hc Hp He Hr Hs1).
    cbn [negb].
    set (m1 := set_dataStream m
                 (mkFILE (content (dataStream m))
                    (position (dataStream m) + 4) false false)).
    assert (Hmax : (if largest <? s then s else largest) = Z.max largest s).
    { destruct (Z.ltb_spec largest s); lia. }
    rewrite Hmax.
    destruct (IH m1 (before ++ be32 s) (u32 (total + s)) (Z.max largest s))
      as (m' & E & Hc' & Hp' & He' & Hr' & Hm').
    + unfold m1. cbn [dataStream set_dataStream content].
      rewrite Hc, <- app_assoc. reflexivity.
    + unfold m1. cbn [dataStream set_dataStream position].
      rewrite Hp, length_app, be32_length. lia.
    + reflexivity.
    + reflexivity.
    + exact Hs2.
    + apply u32_range.
    + exists m'. rewrite E, u32_add_l, Z.add_assoc.
      split; [reflexivity|].
      assert (Hc1 : content (dataStream m1) = content (dataStream m))
        by reflexivity.
      assert (Hp1 : position (dataStream m1) = position (dataStream m) + 4)
        by reflexivity.
      split; [congruence|]. split; [rewrite Hp', Hp1; lia|].
      split; [exact He'|]. split; [exact Hr'|].
      rewrite Hm'. reflexivity.
Qed.

(** X18.  [mp4BoxParseSampleSizes] on a table of [n] sample sizes (after a
    version and flags word of zero and a common size of zero) reports
    [12 + 4 n] bytes and records the number of samples, the place of the
    table in the file, the sum of the sizes modulo [2^32] (in a file whose
    total is not set yet) and the largest size, which is at least every
    size of the table; the status of the file is kept.  The size of the box
    is not consulted. *)
Theorem mp4BoxParseSampleSizes_table (m : M4AFile)
    (boxType boxBytesLeft : Z) (before after sizes : list Z) :
  let n := Z.of_nat (length sizes) in
  content (dataStream m)
  = before ++ be32 0 ++ be32 0 ++ be32 n ++ flat_map be32 sizes ++ after ->
  position (dataStream m) = Z.of_nat (length before) ->
  eof_flag (dataStream m) = false -> error_flag (dataStream m) = false ->
  Forall (fun s => 0 <= s < 2^32) sizes ->
  Z.of_nat (length before) + 12 + 4 * n < 2^32 ->
  totalSampleSize m = 0 ->
  exists m' : M4AFile,
    mp4BoxParseSampleSizes m boxType boxBytesLeft = (12 + 4 * n, m')
    /\ samplesCount m' = n
    /\ sizeOffset m' = Z.of_nat (length before) + 12
    /\ totalSampleSize m' = (fold_right Z.add 0 sizes) mod 2^32
    /\ largestSampleSize m' = fold_left Z.max sizes 0
    /\ Forall (fun s => s <= largestSampleSize m') sizes
    /\ status m' = status m
    /\ position (dataStream m') = position (dataStream m) + 12 + 4 * n.
Proof.
  intros n Hc Hp He Hr Hs Hfit Ht.
  change (2^32) with 4294967296 in Hfit.
  assert (Hn : 0 <= n < 2^32)
    by (change (2^32) with 4294967296; unfold n; lia).
  unfold mp4BoxParseSampleSizes, m4aFileCheckVersionAndFlags.
  rewrite (m4aFileReadUnsignedLong_at m boxType 0 before
             (be32 0 ++ be32 n ++ flat_map be32 sizes ++ after) Hc Hp He Hr)
    by (change (2^32) with 4294967296; lia).
  cbn [negb]. cbv zeta.
  rewrite !Z.land_0_l. change (u8 (Z.shiftr 0 24)) with 0.
  change (0 =? 0) with true.
  cbn [negb orb].
  set (m1 := set_dataStream m
               (mkFILE (content (dataStream m))
                  (position (dataStream m) + 4) false false)).
  rewrite (m4aFileReadUnsignedLong_at m1 boxType 0 (before ++ be32 0)
             (be32 n ++ flat_map be32 sizes ++ after))
    by (first [ unfold m1; cbn [dataStream set_dataStream content];
                rewrite Hc, <- app_assoc; reflexivity
              | unfold m1; cbn [dataStream set_dataStream position];
                rewrite Hp, length_app, be32_length; lia
              | reflexivity
              | change (2^32) with 4294967296; lia ]).
  cbn [negb]. change (0 =? 0) with true. cbn [negb].
  set (m2 := set_dataStream m1
               (mkFILE (content (dataStream m1))
                  (position (dataStream m1) + 4) false false)).
  rewrite (m4aFileReadUnsignedLong_at m2 boxType n
             ((before ++ be32 0) ++ be32 0)
             (flat_map be32 sizes ++ after))
    by (first [ unfold m2, m1; cbn [dataStream set_dataStream content];
                rewrite Hc, <- !app_assoc; reflexivity
              | unfold m2, m1; cbn [dataStream set_dataStream position];
                rewrite Hp, !length_app, !be32_length; lia
              | reflexivity
              | exact Hn ]).
  cbn [negb].
  set (m3 := set_samplesCount
               (set_dataStream m2
                  (mkFILE (content (dataStream m2))
                     (position (dataStream m2) + 4) false false)) n).
  assert (Hc3 : content (dataStream m3) = content (dataStream m))
    by reflexivity.
  assert (Hp3 : position (dataStream m3) = Z.of_nat (length before) + 12).
  { unfold m3, m2, m1.
    cbn [dataStream set_dataStream set_samplesCount position]. lia. }
  unfold m4aFileSetSizeOffset, m4aFileSetOffsetValue, ferror, ftell.
  assert (Hr3 : error_flag (dataStream (set_sizeOffset m3
                   (u32 (position (dataStream m3))))) = false)
    by reflexivity.
  rewrite Hr3. cbn [negb].
  set (m4 := set_sizeOffset m3 (u32 (position (dataStream m3)))).
  destruct (readSampleSizes_table boxType after sizes m4
              (((before ++ be32 0) ++ be32 0) ++ be32 n) 0 0)
    as (m5 & E5 & Hc5 & Hp5 & He5 & Hr5 & Hm5).
  - change (content (dataStream m4)) with (content (dataStream m)).
    rewrite Hc, <- !app_assoc. reflexivity.
  - change (position (dataStream m4)) with (position (dataStream m3)).
    rewrite Hp3, !length_app, !be32_length. lia.
  - reflexivity.
  - reflexivity.
  - exact Hs.
  - change (2^32) with 4294967296. lia.
  - replace (Z.to_nat n) with (length sizes)
      by (unfold n; rewrite Nat2Z.id; reflexivity).
    fold m4. rewrite E5. cbn [negb].
    unfold setTotalSampleSize.
    assert (Ht5 : totalSampleSize m5 = 0)
      by (rewrite Hm5; cbn [totalSampleSize set_dataStream]; exact Ht).
    rewrite Ht5. change (0 =? 0) with true. cbv iota. cbn [negb].
    eexists. split.
    + f_equal.
      assert (Hu : u32 (n * 4) = n * 4)
        by (apply u32_small; change (2^32) with 4294967296; lia).
      rewrite Hu. rewrite u32_small
        by (change (2^32) with 4294967296; lia). lia.
    + assert (Hsz : sizeOffset m5 = Z.of_nat (length before) + 12).
      { rewrite Hm5. cbn [sizeOffset set_dataStream]. unfold m4.
        cbn [sizeOffset set_sizeOffset]. rewrite Hp3.
        apply u32_small. change (2^32) with 4294967296. lia. }
      cbn [samplesCount sizeOffset totalSampleSize largestSampleSize status
           dataStream set_largestSampleSize set_totalSampleSize].
      split; [rewrite Hm5; reflexivity|].
      split; [exact Hsz|].
      split; [rewrite Z.add_0_l; reflexivity|].
      split; [reflexivity|].
      split; [apply fold_max_ge|].
      split; [rewrite Hm5; reflexivity|].
      rewrite Hp5. change (position (dataStream m4))
                     with (position (dataStream m3)).
      rewrite Hp3, Hp. unfold n. lia.
Qed.

Lemma mp4BoxParseSampleSizes_table_witness :
  let m := m4aFileInitialize
             (m4aFileOpen zeroed
                (be32 0 ++ be32 0 ++ be32 3 ++ flat_map be32 [3; 4; 2])) in
  exists m' : M4AFile,
    mp4BoxParseSampleSizes m (FOURCC "stsz") 24 = (24, m')
    /\ samplesCount m' = 3 /\ sizeOffset m' = 12
    /\ totalSampleSize m' = 9 /\ largestSampleSize m' = 4.
Proof.
  intros m.
  destruct (mp4BoxParseSampleSizes_table m (FOURCC "stsz") 24 [] [] [3; 4; 2]
              eq_refl eq_refl eq_refl eq_refl
              ltac:(repeat constructor; vm_compute; congruence)
              ltac:(vm_compute; reflexivity) eq_refl)
    as (m' & E & H1 & H2 & H3 & H4 & _).
  exists m'. split; [exact E|]. split; [exact H1|]. split; [exact H2|].
  split; [exact H3 | exact H4].
Defined.

(* ================================================================== *)
(** * m4afile.c: a container that the file does not fill *)

(** At the end of the file [mp4BoxParse] reports no byte and leaves the
    status OK. *)
Lemma mp4BoxParse_at_end (k : nat) (m : M4AFile) (containerBoxType : Z) :
  Z.of_nat (length (content (dataStream m))) <= position (dataStream m) ->
  exists m' : M4AFile,
    mp4BoxParse (S k) m containerBoxType = Ret (0, m')
    /\ status m' = M4AFILE_OK
    /\ content (dataStream m') = content (dataStream m)
    /\ position (dataStream m') = position (dataStream m).
Proof.
  intros H. cbn [mp4BoxParse]. unfold mp4BoxParseBody,
    m4aFileReadUnsignedLong, read4ByteUnsignedInt32.
  rewrite (fgetc_past_end _ H).
  rewrite (fgetc_past_end
             (mkFILE (content (dataStream m)) (position (dataStream m)) true
                (error_flag (dataStream m)))) by exact H.
  cbn [content position error_flag].
  rewrite (fgetc_past_end
             (mkFILE (content (dataStream m)) (position (dataStream m)) true
                (error_flag (dataStream m)))) by exact H.
  cbn [content position error_flag].
  rewrite (fgetc_past_end
             (mkFILE (content (dataStream m)) (position (dataStream m)) true
                (error_flag (dataStream m)))) by exact H.
  cbn [content position error_flag dataStream set_dataStream feof eof_flag
       negb set_status].
  eexists. split; [reflexivity|]. repeat split.
Qed.

(** The loop of a container that still expects bytes at the end of the
    file goes on for as long as it is run. *)
Lemma containerLoop_at_end (j : nat) (boxType boxBytesLeft : Z) :
  forall (n : nat) (m : M4AFile) (containerSize : Z),
    Z.of_nat (length (content (dataStream m))) <= position (dataStream m) ->
    status m <> M4AFILE_ERROR ->
    0 <= containerSize < 2^32 -> containerSize < boxBytesLeft ->
    containerLoop n (mp4BoxParse j) m boxType boxBytesLeft containerSize
    = Fuel.
Proof.
  induction n as [|n IH]; intros m containerSize He Hs Hc Hl.
  - cbn [containerLoop].
    destruct (status m); try congruence;
      (destruct (Z.ltb_spec containerSize boxBytesLeft); [reflexivity | lia]).
  - cbn [containerLoop].
    assert (Hcond : negb (status_eqb (status m) M4AFILE_ERROR)
                    && (containerSize <? boxBytesLeft) = true).
    { destruct (status m); try congruence;
        (destruct (Z.ltb_spec containerSize boxBytesLeft);
         [reflexivity | lia]). }
    rewrite Hcond.
    destruct j as [|k]; [reflexivity|].
    destruct (mp4BoxParse_at_end k m boxType He) as (m' & -> & Hs' & Hc' & Hp').
    rewrite Z.add_0_r, u32_small by exact Hc.
    apply IH; [rewrite Hc', Hp'; exact He | congruence | exact Hc | exact Hl].
Qed.

(** X19.  A container that still expects bytes when the end of the file is
    reached never ends: at the end of the file [mp4BoxParse] reports no
    byte and sets the status back to OK, so the loop of
    [mp4BoxParseContainerInternal] goes on however long it is run.  In
    particular [m4aFileParse] does not return on a file that is the header
    of a container box declaring more than its 8 bytes. *)
Theorem m4aFileParse_truncated_container_never_ends :
  (forall (n j : nat) (m : M4AFile) (boxType boxBytesLeft : Z),
     Z.of_nat (length (content (dataStream m))) <= position (dataStream m) ->
     status m <> M4AFILE_ERROR -> 0 < boxBytesLeft ->
     mp4BoxParseContainerInternal n m boxType boxBytesLeft (mp4BoxParse j)
     = Fuel)
  /\ (forall (allocated : M4AFile) (type : string) (size : Z) (fuel : nat),
        In type plainContainers -> 8 < size < 2^32 ->
        m4aFileParse fuel
          (m4aFileOpen allocated (be32 size ++ bytes_of_string type))
        = Fuel).
Proof.
  assert (Hloop : forall (n j : nat) (m : M4AFile) (boxType boxBytesLeft : Z),
     Z.of_nat (length (content (dataStream m))) <= position (dataStream m) ->
     status m <> M4AFILE_ERROR -> 0 < boxBytesLeft ->
     mp4BoxParseContainerInternal n m boxType boxBytesLeft (mp4BoxParse j)
     = Fuel).
  { intros n j m boxType boxBytesLeft He Hs Hl.
    unfold mp4BoxParseContainerInternal.
    rewrite containerLoop_at_end;
      [reflexivity | exact He | exact Hs
      | change (2^32) with 4294967296; lia | exact Hl]. }
  split; [exact Hloop|].
  intros allocated type size fuel Hin Hsize.
  change (2^32) with 4294967296 in Hsize.
  destruct (be32_bytes size ltac:(change (2^32) with 4294967296; lia))
    as (b1 & b2 & b3 & b4 & Eb & H1 & H2 & H3 & H4 & Ev).
  assert (Hgen : forall t1 t2 t3 t4 : Z,
             bytes_of_string type = [t1; t2; t3; t4] ->
             0 <= t1 < 256 -> 0 <= t2 < 256 -> 0 <= t3 < 256 ->
             0 <= t4 < 256 ->
             findBoxParser mp4BoxParserTable
               (t1 * 2^24 + t2 * 2^16 + t3 * 2^8 + t4)
             = (t1 * 2^24 + t2 * 2^16 + t3 * 2^8 + t4, Some ParseContainer)
             ->
             m4aFileParse fuel
               (m4aFileOpen allocated (be32 size ++ bytes_of_string type))
             = Fuel).
  { intros t1 t2 t3 t4 Et T1 T2 T3 T4 Ef.
    rewrite Eb, Et. cbn [app].
    set (m := m4aFileOpen allocated [b1; b2; b3; b4; t1; t2; t3; t4]).
    assert (Hc : content (dataStream m)
                 = [] ++ b1 :: b2 :: b3 :: b4 :: [t1; t2; t3; t4])
      by reflexivity.
    assert (Hp : position (dataStream m) = Z.of_nat (length (@nil Z)))
      by reflexivity.
    assert (Hst : status m = M4AFILE_OK) by reflexivity.
    unfold m4aFileParse.
    destruct fuel as [|k]; cbn [m4aFileParseLoop]; rewrite Hst;
      cbn [status_eqb negb]; [reflexivity|].
    assert (Hparse : mp4BoxParse (S k) m NO_BOXTYPE = Fuel).
    { cbn [mp4BoxParse]. unfold mp4BoxParseBody.
      unfold m4aFileReadUnsignedLong at 1.
      rewrite (read4ByteUnsignedInt32_value _ [] [t1; t2; t3; t4] b1 b2 b3 b4
                 Hc Hp H1 H2 H3 H4).
      cbn [dataStream set_dataStream feof ferror eof_flag error_flag negb].
      change (eof_flag (dataStream m)) with false.
      change (error_flag (dataStream m)) with false. cbv iota.
      unfold m4aFileReadUnsignedLong at 1.
      rewrite (read4ByteUnsignedInt32_value _ [b1; b2; b3; b4] [] t1 t2 t3 t4)
        by (first [ cbn [dataStream set_dataStream content]; exact Hc
                  | cbn [dataStream set_dataStream position length];
                    rewrite Hp; reflexivity
                  | assumption ]).
      cbn [dataStream set_dataStream feof ferror eof_flag error_flag negb
           content position].
      unfold mp4BoxParseDispatch. rewrite Ef.
      rewrite Z.eqb_refl. cbn [callBoxParser]. unfold mp4BoxParseContainer.
      rewrite Hloop; [reflexivity | | discriminate |].
      - cbn [dataStream set_dataStream content position].
        rewrite Hc, Hp. cbn [app length]. lia.
      - rewrite Ev. rewrite u32_small
          by (change (2^32) with 4294967296; lia). lia. }
    rewrite Hparse. reflexivity. }
  unfold plainContainers in Hin. cbn [In] in Hin.
  repeat (destruct Hin as [<-|Hin];
          [ apply (Hgen _ _ _ _ eq_refl);
            first [ vm_compute; split; congruence
                  | vm_compute; reflexivity ]
          |]).
  contradiction.
Qed.

Lemma m4aFileParse_truncated_container_never_ends_witness :
  m4aFileParse 1000 (m4aFileOpen zeroed (be32 4096 ++ bytes_of_string "moov"))
  = Fuel
  /\ exists r : bool * M4AFile,
       m4aFileParse 1000 (m4aFileOpen zeroed (box "moov" [])) = Ret r.
Proof.
  split.
  - apply (proj2 m4aFileParse_truncated_container_never_ends zeroed "moov"
             4096 1000%nat).
    + vm_compute. tauto.
    + vm_compute. split; congruence.
  - eexists. vm_compute. reflexivity.
Defined.

(* ================================================================== *)
(** * light-play.c: the command line *)

(** While the command line is read, a file name is only known once the
    url is. *)
Lemma parse_url_before_fileName (n : nat) :
  forall (argv : list string) (a a' : LightPlay.Arguments),
    (length argv <= n)%nat ->
    (LightPlay.fileName a <> None -> LightPlay.url a <> None) ->
    LightPlay.parse argv a = inr a' ->
    LightPlay.fileName a' <> None -> LightPlay.url a' <> None.
Proof.
  induction n as [|n IH]; intros argv a a' Hl Hinv H.
  - destruct argv; [|simpl in Hl; lia].
    cbn [LightPlay.parse] in H. injection H as <-. exact Hinv.
  - destruct argv as [|arg rest].
    { cbn [LightPlay.parse] in H. injection H as <-. exact Hinv. }
    cbn [LightPlay.parse] in H. cbv zeta in H. cbn [length] in Hl.
    repeat
      (match type of H with
       | context [if ?b then _ else _] => destruct b eqn:?
       | context [match ?r with [] => _ | _ :: _ => _ end] =>
           destruct r; cbn [length] in Hl
       | context [match LightPlay.offsetOf ?x with _ => _ end] =>
           destruct (LightPlay.offsetOf x)
       | context [match LightPlay.url ?x with _ => _ end] =>
           destruct (LightPlay.url x) eqn:?
       | context [match LightPlay.fileName ?x with _ => _ end] =>
           destruct (LightPlay.fileName x) eqn:?
       end);
      try discriminate;
      (refine (IH _ _ a' _ _ H); [lia|]);
      cbn [LightPlay.fileName LightPlay.url LightPlay.set_password
           LightPlay.set_portName LightPlay.set_logLevel
           LightPlay.set_logFileName LightPlay.set_offset LightPlay.set_url
           LightPlay.set_fileName];
      first [exact Hinv | congruence | discriminate].
Qed.

(** X20.  The command line is never refused for a missing file name: the
    message for it is not reachable, since a file name is only taken once
    the url is known.  A command line that is accepted has a url, and the
    url alone is accepted, with no file name. *)
Theorem arguments_filename_not_required (argv : list string) :
  LightPlay.arguments argv <> inl LightPlay.RequiredFilename
  /\ (forall a : LightPlay.Arguments,
        LightPlay.arguments argv = inr a -> LightPlay.url a <> None)
  /\ (forall address : string,
        Ascii.eqb (nth_char 0 address) "-" = false ->
        LightPlay.arguments [address]
        = inr (LightPlay.set_url LightPlay.initial address)
        /\ LightPlay.fileName (LightPlay.set_url LightPlay.initial address)
           = None).
Proof.
  split; [|split].
  - unfold LightPlay.arguments.
    destruct (LightPlay.parse argv LightPlay.initial) as [usage|a] eqn:E.
    + intros H. injection H as ->.
      clear - E. exfalso. revert E. generalize LightPlay.initial.
      assert (Hno : forall (n : nat) (l : list string)
                      (a : LightPlay.Arguments),
                 (length l <= n)%nat ->
                 LightPlay.parse l a <> inl LightPlay.RequiredFilename).
      { induction n as [|n IH]; intros l a Hl H.
        - destruct l; [discriminate | simpl in Hl; lia].
        - destruct l as [|arg rest]; [discriminate|].
          cbn [LightPlay.parse] in H. cbv zeta in H. cbn [length] in Hl.
          repeat
            (match type of H with
             | context [if ?b then _ else _] => destruct b eqn:?
             | context [match ?r with [] => _ | _ :: _ => _ end] =>
                 destruct r; cbn [length] in Hl
             | context [match LightPlay.offsetOf ?x with _ => _ end] =>
                 destruct (LightPlay.offsetOf x)
             | context [match LightPlay.url ?x with _ => _ end] =>
                 destruct (LightPlay.url x) eqn:?
             | context [match LightPlay.fileName ?x with _ => _ end] =>
                 destruct (LightPlay.fileName x) eqn:?
             end);
            try discriminate;
            (refine (IH _ _ _ H); lia). }
      intros a0 E. exact (Hno (length argv) argv a0 (le_n _) E).
    + destruct (LightPlay.url a) eqn:Eu; [discriminate|].
      destruct (LightPlay.fileName a) eqn:Ef; [|discriminate].
      exfalso.
      apply (parse_url_before_fileName (length argv) argv LightPlay.initial a
               (le_n _)); [intros H; exfalso; apply H; reflexivity | exact E
                          | congruence | exact Eu].
  - intros a. unfold LightPlay.arguments.
    destruct (LightPlay.parse argv LightPlay.initial) as [usage|a0];
      [discriminate|].
    destruct (LightPlay.url a0) eqn:Eu.
    + intros [= <-]. congruence.
    + destruct (LightPlay.fileName a0); discriminate.
  - intros address H. split; [|reflexivity].
    unfold LightPlay.arguments. cbn [LightPlay.parse].
    unfold LightPlay.is_char. rewrite H. reflexivity.
Qed.

Lemma arguments_filename_not_required_witness :
  LightPlay.arguments ["-p"; "5001"; "192.168.1.10"]
  = inr (LightPlay.mkArguments (Some "192.168.1.10") None "5001" None
           LOG_LEVEL_WARNING None (mkTimespec 0 0))
  /\ LightPlay.url
       (LightPlay.mkArguments (Some "192.168.1.10") None "5001" None
          LOG_LEVEL_WARNING None (mkTimespec 0 0)) <> None
  /\ LightPlay.arguments ["192.168.1.10"]
     = inr (LightPlay.set_url LightPlay.initial "192.168.1.10").
Proof.
  pose proof (arguments_filename_not_required ["-p"; "5001"; "192.168.1.10"])
    as (_ & H2 & _).
  pose proof (arguments_filename_not_required []) as (_ & _ & H3).
  split; [reflexivity|]. split.
  - apply H2. reflexivity.
  - apply (H3 "192.168.1.10"). reflexivity.
Defined.

(** X21.  An option that takes a value reads it from the rest of its own
    argument or, when nothing follows the option letter, from the next
    argument: for the options c, p, l and o the two ways of writing give
    the same result, whatever the arguments read before and after. *)
Theorem parse_attached_value (option : ascii) (value : string)
    (rest : list string) (a : LightPlay.Arguments) :
  In option ["c"; "p"; "l"; "o"]%char ->
  Ascii.eqb (nth_char 0 value) NUL = false ->
  LightPlay.parse (String "-" (String option value) :: rest) a
  = LightPlay.parse (String "-" (String option "") :: value :: rest) a.
Proof.
  intros Hin Hv. cbn [In] in Hin.
  assert (H2 : nth_char 2 (String "-" (String option value))
               = nth_char 0 value).
  { unfold nth_char. cbn [String.get]. destruct value; reflexivity. }
  assert (Hd : drop 2 (String "-" (String option value)) = value)
    by reflexivity.
  destruct Hin as [<-|[<-|[<-|[<-|[]]]]];
    cbn [LightPlay.parse]; cbv zeta; rewrite H2;
    unfold LightPlay.is_char at 1 2 3 4 5 6 7 8 9;
    cbn [nth_char String.get Ascii.eqb Bool.eqb andb orb negb];
    unfold LightPlay.is_char; rewrite ?Hv; rewrite ?Hd;
    cbn [nth_char String.get Ascii.eqb Bool.eqb andb orb negb];
    reflexivity.
Qed.

Lemma parse_attached_value_witness :
  LightPlay.parse ["-p5001"; "192.168.1.10"; "song.m4a"] LightPlay.initial
  = LightPlay.parse ["-p"; "5001"; "192.168.1.10"; "song.m4a"]
      LightPlay.initial
  /\ LightPlay.parse ["-o90"; "192.168.1.10"; "song.m4a"] LightPlay.initial
     = LightPlay.parse ["-o"; "90"; "192.168.1.10"; "song.m4a"]
         LightPlay.initial.
Proof.
  split.
  - apply (parse_attached_value "p" "5001"); [vm_compute; tauto | reflexivity].
  - apply (parse_attached_value "o" "90"); [vm_compute; tauto | reflexivity].
Defined.

Lemma scan_decimal_digits (rest : string) (fuel : nat) :
  forall (n : Z) (acc : string),
    0 <= n < 10 ^ Z.of_nat (S fuel) ->
    forall (a : Z) (any : bool),
      scan_decimal (digits (S fuel) 10 n acc +++ rest) a any
      = scan_decimal (acc +++ rest)
          (a * 10 ^ (strlen (digits (S fuel) 10 n acc) - strlen acc) + n)
          true.
Proof.
  induction fuel as [|fuel IH]; intros n acc Hn a any.
  - change (Z.of_nat 1) with 1 in Hn. rewrite Z.pow_1_r in Hn.
    rewrite digits_S. rewrite Z.div_small by lia. cbn [Z.eqb].
    rewrite Z.mod_small by lia.
    cbn [String.append scan_decimal].
    rewrite digit_value_digit_char by lia.
    unfold strlen. cbn [String.length].
    replace (Z.of_nat (S (String.length acc)) - Z.of_nat (String.length acc))
      with 1 by lia.
    rewrite Z.pow_1_r. reflexivity.
  - rewrite digits_S.
    assert (Hm : 0 <= n mod 10 < 10) by (apply Z.mod_pos_bound; lia).
    destruct (Z.eqb_spec (n / 10) 0) as [E|N].
    + cbn [String.append scan_decimal].
      rewrite digit_value_digit_char by lia.
      unfold strlen. cbn [String.length].
      replace (Z.of_nat (S (String.length acc))
               - Z.of_nat (String.length acc)) with 1 by lia.
      rewrite Z.pow_1_r.
      assert (n mod 10 = n).
      { rewrite (Z.div_mod n 10) at 2 by lia. rewrite E. lia. }
      congruence.
    + assert (Hd : 0 <= n / 10 < 10 ^ Z.of_nat (S fuel)).
      { split; [apply Z.div_pos; lia|].
        apply Z.div_lt_upper_bound; [lia|].
        replace (Z.of_nat (S (S fuel))) with (1 + Z.of_nat (S fuel)) in Hn
          by lia.
        rewrite Z.pow_add_r, Z.pow_1_r in Hn by lia. lia. }
      rewrite (IH (n / 10) (String (digit_char (n mod 10)) acc) Hd a any).
      cbn [String.append scan_decimal].
      rewrite digit_value_digit_char by lia.
      f_equal.
      set (body := digits (S fuel) 10 (n / 10)
                     (String (digit_char (n mod 10)) acc)).
      pose proof (digits_length_ge 10 (S fuel) (n / 10)
                    (String (digit_char (n mod 10)) acc)) as Hl.
      fold body in Hl. cbn [String.length] in Hl.
      unfold strlen. cbn [String.length].
      replace (Z.of_nat (String.length body) - Z.of_nat (String.length acc))
        with (Z.of_nat (String.length body)
              - Z.of_nat (S (String.length acc)) + 1) by lia.
      rewrite Z.pow_add_r, Z.pow_1_r by lia.
      rewrite (Z.div_mod n 10) at 3 by lia. ring.
Qed.

(** [strtoul] on the decimal digits of a number, with or without a minus
    sign, followed by a text that starts with no digit. *)
Lemma strtoul_print_u (n : Z) (rest : string) :
  0 <= n < 2^64 -> ends_number 10 rest ->
  strtoul (print_u n +++ rest) = (n, rest)
  /\ strtoul (String "-" (print_u n +++ rest)) = (u64 (- n), rest).
Proof.
  intros Hn Hr.
  assert (Hb : 0 <= n < 10 ^ Z.of_nat 64).
  { change (10 ^ Z.of_nat 64) with (2^64 * (10^64 / 2^64)).
    change (10^64 / 2^64) with 542101086242752217003726400434970855712890625.
    lia. }
  assert (Hscan : scan_decimal (print_u n +++ rest) 0 false = (n, true, rest)).
  { unfold print_u. rewrite scan_decimal_digits by exact Hb.
    change ("" +++ rest) with rest. rewrite Z.mul_0_l, Z.add_0_l.
    destruct rest as [|c rest]; [reflexivity|].
    cbn [ends_number] in Hr. cbn [scan_decimal]. rewrite Hr. reflexivity. }
  destruct (digits_head 10 63 ltac:(lia) n "" Hb) as (d & s & E & Hd & _ & _).
  fold (print_u n) in E.
  split.
  - unfold strtoul. rewrite E at 1. cbn [String.append].
    rewrite skip_while_stop by (apply digit_char_plain; lia).
    rewrite scan_sign_digit by lia.
    change (String (digit_char d) (s +++ rest))
      with (String (digit_char d) s +++ rest).
    rewrite <- E, Hscan.
    destruct (Z.gtb_spec n (2^64 - 1)); [lia|].
    unfold signed, u64. rewrite Z.mod_small by exact Hn. reflexivity.
  - unfold strtoul.
    rewrite skip_while_stop by reflexivity.
    cbn [scan_sign]. rewrite Hscan.
    destruct (Z.gtb_spec n (2^64 - 1)); [lia|].
    reflexivity.
Qed.

(** X22.  The offset of option o is read with [strtoul] and stored in a
    [time_t]: the decimal digits of a number below [2^63] give that number
    of seconds; a minus sign is accepted and gives a negative offset; a
    number from [2^63] to [2^64 - 1] gives that number less [2^64]; and a
    character that is no digit behind the number makes the option
    refused. *)
Theorem offsetOf_values (n : Z) :
  0 <= n < 2^64 ->
  LightPlay.offsetOf (print_u n) = inr (if n <? 2^63 then n else n - 2^64)
  /\ (1 <= n <= 2^63 ->
      LightPlay.offsetOf (String "-" (print_u n)) = inr (- n))
  /\ (forall (c : ascii) (text : string),
        digit_value 10 c = None -> Ascii.eqb c NUL = false ->
        LightPlay.offsetOf (print_u n +++ String c text)
        = inl (String c text)).
Proof.
  intros Hn.
  change (2^64) with 18446744073709551616 in *.
  change (2^63) with 9223372036854775808.
  split; [|split].
  - destruct (strtoul_print_u n "" Hn I) as [E _].
    rewrite append_nil_r in E.
    unfold LightPlay.offsetOf. rewrite E.
    change (negb (LightPlay.is_char NUL (nth_char 0 ""))) with false.
    cbv iota. f_equal. unfold i64.
    change (2^63) with 9223372036854775808.
    change (2^64) with 18446744073709551616.
    destruct (Z.ltb_spec n 9223372036854775808).
    + rewrite Z.mod_small by lia. lia.
    + replace (n + 9223372036854775808)
        with (n - 9223372036854775808 + 1 * 18446744073709551616) by lia.
      rewrite Z.mod_add by lia. rewrite Z.mod_small by lia. lia.
  - intros Hneg.
    destruct (strtoul_print_u n "" Hn I) as [_ E].
    rewrite append_nil_r in E.
    unfold LightPlay.offsetOf. rewrite E.
    change (negb (LightPlay.is_char NUL (nth_char 0 ""))) with false.
    cbv iota. f_equal. unfold i64, u64.
    change (2^63) with 9223372036854775808.
    change (2^64) with 18446744073709551616.
    replace (- n) with (18446744073709551616 - n
                        + (-1) * 18446744073709551616) by lia.
    rewrite Z.mod_add by lia.
    rewrite (Z.mod_small (18446744073709551616 - n)) by lia.
    replace (18446744073709551616 - n + 9223372036854775808)
      with (9223372036854775808 - n + 1 * 18446744073709551616) by lia.
    rewrite Z.mod_add by lia. rewrite Z.mod_small by lia. lia.
  - intros c text Hc Hnul.
    destruct (strtoul_print_u n (String c text) Hn Hc) as [E _].
    unfold LightPlay.offsetOf. rewrite E.
    unfold LightPlay.is_char, nth_char. cbn [String.get].
    rewrite Hnul. reflexivity.
Qed.

Lemma offsetOf_values_witness :
  LightPlay.offsetOf "90" = inr 90
  /\ LightPlay.offsetOf "-5" = inr (-5)
  /\ LightPlay.offsetOf "90s" = inl "s"
  /\ LightPlay.offsetOf "18446744073709551615" = inr (-1).
Proof.
  pose proof (offsetOf_values 90 ltac:(vm_compute; split; congruence))
    as (H1 & _ & H3).
  pose proof (offsetOf_values 5 ltac:(vm_compute; split; congruence))
    as (_ & H2 & _).
  pose proof (offsetOf_values 18446744073709551615
                ltac:(vm_compute; split; congruence)) as (H4 & _ & _).
  split; [exact H1|].
  split; [apply H2; vm_compute; split; congruence|].
  split; [exact (H3 "s"%char "" eq_refl eq_refl) | exact H4].
Defined.

(* ================================================================== *)
(** * rtspresponse.c: a response longer than the buffer *)

Lemma substring_drop (s : string) :
  forall a b : nat,
    substring 0 (a + b) s = substring 0 a s +++ substring 0 b (drop a s).
Proof.
  induction s as [|x s IH]; intros a b.
  - destruct a, b; reflexivity.
  - destruct a as [|a]; [reflexivity|].
    cbn [Nat.add substring drop String.append]. rewrite IH. reflexivity.
Qed.

Lemma take_drop (a b : Z) (s : string) :
  0 <= a -> 0 <= b ->
  take (a + b) s = take a s +++ take b (drop (Z.to_nat a) s).
Proof.
  intros Ha Hb. unfold take. rewrite Z2Nat.inj_add by lia.
  apply substring_drop.
Qed.

Lemma length_drop (s : string) :
  forall n : nat, String.length (drop n s) = (String.length s - n)%nat.
Proof.
  induction s as [|x s IH]; intros n; destruct n as [|n]; try reflexivity.
  cbn [drop String.length]. rewrite IH. reflexivity.
Qed.

Lemma strlen_drop (n : Z) (s : string) :
  0 <= n <= strlen s -> strlen (drop (Z.to_nat n) s) = strlen s - n.
Proof.
  intros H. unfold strlen in *. rewrite length_drop. lia.
Qed.

Lemma strlen_take (n : Z) (s : string) :
  0 <= n -> strlen (take n s) = Z.min n (strlen s).
Proof.
  intros Hn. destruct (Z.le_gt_cases n (strlen s)).
  - rewrite strlen_take_full by lia. lia.
  - rewrite take_all by lia. lia.
Qed.

(** X23.  [rtspResponseReceive] hands the size of the whole buffer to
    every [recv], also when part of the buffer is in use.  On a new
    response a message of more than 1536 characters is therefore stored
    beyond the buffer: 1024 characters are read, the buffer grows to 1536
    bytes, the next read stores up to 1536 characters behind the first
    1024, and the function answers true with more characters in use than
    the buffer has. *)
Theorem rtspResponseReceive_stores_beyond_buffer
    (c : NetworkConnection string) (data : string)
    (rest : list (RecvEvent string)) :
  incoming c = RecvData data :: rest -> 1536 < strlen data ->
  exists c' : NetworkConnection string,
    rtspResponseReceive rtspResponseCreate c
    = (true, mkResponse (Some (take 2560 data)) 1536, c')
    /\ maxResponseBufferSize (mkResponse (Some (take 2560 data)) 1536)
       < responseBufferSize (mkResponse (Some (take 2560 data)) 1536).
Proof.
  intros Hin Hlen.
  assert (Hsize : 1536 < strlen (take 2560 data)).
  { rewrite strlen_take by lia. lia. }
  unfold rtspResponseReceive, rtspResponseCreate. cbn [responseBuffer].
  unfold RESPONSE_BUFFER_INITIAL_SIZE.
  assert (Hfuel : exists k : nat, pending c = S k).
  { unfold pending. rewrite Hin. cbn [fold_right].
    unfold strlen in Hlen.
    destruct (String.length data) as [|k]; [simpl in Hlen; lia|].
    eexists. reflexivity. }
  destruct Hfuel as [k ->].
  cbn [receiveLoop].
  change (bufferMakeRoom 1024 (strlen "") RESPONSE_BUFFER_INCREMENT_SIZE
            RESPONSE_BUFFER_INCREMENT_SIZE) with 1024.
  unfold networkReceiveMessage at 1. rewrite Hin.
  destruct (Z.leb_spec (strlen data) 1024); [lia|].
  cbn [negb]. change ("" +++ take 1024 data) with (take 1024 data).
  rewrite (strlen_take_full 1024 data) by lia.
  change (1024 =? 1024) with true.
  unfold networkIsMessageAvailable at 1. cbn [incoming].
  rewrite strlen_drop by lia.
  destruct (Z.ltb_spec 0 (strlen data - 1024)); [|lia].
  cbn [andb].
  assert (Hsecond : forall (j : nat) (n : NetworkConnection string),
             incoming n = RecvData (drop (Z.to_nat 1024) data) :: rest ->
             exists c' : NetworkConnection string,
               receiveLoop j (take 1024 data) 1024 n
               = (true, take 2560 data, 1536, c')).
  { intros j n Hn.
    assert (Hroom : bufferMakeRoom 1024 (strlen (take 1024 data))
                      RESPONSE_BUFFER_INCREMENT_SIZE
                      RESPONSE_BUFFER_INCREMENT_SIZE = 1536).
    { rewrite (strlen_take_full 1024 data) by lia.
      vm_compute. reflexivity. }
    assert (Hbuffer : forall piece : string,
               piece = take 1536 (drop (Z.to_nat 1024) data) ->
               take 1024 data +++ piece = take 2560 data).
    { intros piece ->. change 2560 with (1024 + 1536).
      symmetry. apply take_drop; lia. }
    destruct j as [|j]; cbn [receiveLoop]; rewrite Hroom;
      unfold networkReceiveMessage; rewrite Hn;
      rewrite strlen_drop by lia;
      (destruct (Z.leb_spec (strlen data - 1024) 1536) as [Hfits|Hcut];
       cbn [negb];
       [ rewrite (Hbuffer (drop (Z.to_nat 1024) data))
           by (symmetry; apply take_all; rewrite strlen_drop by lia; lia)
       | rewrite (Hbuffer (take 1536 (drop (Z.to_nat 1024) data)))
           by reflexivity ]);
      (destruct (Z.eqb_spec (strlen (take 2560 data)) 1536); [lia|]);
      cbn [andb]; eexists; reflexivity. }
  destruct (Hsecond k
              (mkConnection (sent c) (sendResults c)
                 (RecvData (drop (Z.to_nat 1024) data) :: rest)
                 (localAddressName c) (remoteAddressName c)) eq_refl)
    as (c' & ->).
  exists c'. split; [reflexivity|].
  unfold responseBufferSize. cbn [responseBuffer maxResponseBufferSize].
  exact Hsize.
Qed.

Lemma rtspResponseReceive_stores_beyond_buffer_witness :
  let data := string_of_list_ascii (repeat "a"%char 3000) in
  incoming (scripted [data]) = [RecvData data]
  /\ exists c' : NetworkConnection string,
       rtspResponseReceive rtspResponseCreate (scripted [data])
       = (true, mkResponse (Some (take 2560 data)) 1536, c').
Proof.
  intros data. split; [reflexivity|].
  destruct (rtspResponseReceive_stores_beyond_buffer (scripted [data]) data []
              eq_refl ltac:(vm_compute; reflexivity)) as (c' & E & _).
  exists c'. exact E.
Defined.

(* ================================================================== *)
(** * raopclient.c: the content of ANNOUNCE *)

(** X24.  [raopClientAnnounceContentSupplier] never cuts the session
    description: with two address names that fit their buffers of
    [MAX_ADDR_STRING_LENGTH] bytes and a 32-bit timescale the text has 245
    characters at the most, less than [MAX_ANNOUNCE_CONTENT_SIZE].  The
    request gets the whole text as content, and the fields Content-Type
    and Content-Length, the latter with the length of the text. *)
Theorem raopClientAnnounceContentSupplier_whole (raopClient : RAOPClient)
    (rtspClient : RTSPClient) (rtspRequest : RTSPRequest) :
  let ts := match m4aFile raopClient with
            | Some m => m4aFileGetTimescale m
            | None => 0
            end in
  let text :=
    announceText (cstr (localAddressName (networkConnection rtspClient)))
      (cstr (remoteAddressName (networkConnection rtspClient))) ts in
  namesFit (networkConnection rtspClient) -> 0 <= ts < 2^32 ->
  strlen text <= 245
  /\ exists r' : RTSPRequest,
       raopClientAnnounceContentSupplier raopClient rtspClient rtspRequest
       = (true, r')
       /\ contentBuffer r' = Some text
       /\ contentBufferSize r' = strlen text
       /\ headerBuffer r'
          = Some (match headerBuffer rtspRequest with
                  | Some h => h
                  | None => ""
                  end
                  +++ "Content-Type: application/sdp" +++ CRLF
                  +++ "Content-Length: " +++ print_u (strlen text) +++ CRLF).
Proof.
  intros ts text [Hl Hr] Hts.
  assert (Hlen : strlen text <= 245).
  { unfold text, announceText. rewrite !strlen_append.
    change (strlen CRLF) with 2. change (strlen "v=0") with 3.
    change (strlen "o=iTunes 1 O IN IP4 ") with 20.
    change (strlen "s=iTunes") with 8. change (strlen "c=IN IP4 ") with 9.
    change (strlen "t=0 0") with 5.
    change (strlen "m=audio 0 RTP/AVP 96") with 20.
    change (strlen "a=rtpmap:96 AppleLossless") with 25.
    change (strlen "a=fmtp:96 4096 0 16 40 10 14 2 255 0 0 ") with 39.
    pose proof (print_u_length ts 10 ltac:(lia)) as Hp.
    assert (Hb : 0 <= ts < 10 ^ Z.of_nat 10).
    { change (10 ^ Z.of_nat 10) with 10000000000.
      change (2^32) with 4294967296 in Hts. lia. }
    specialize (Hp Hb). unfold MAX_ADDR_STRING_LENGTH in Hl, Hr. lia. }
  split; [exact Hlen|].
  unfold raopClientAnnounceContentSupplier, rtspClientGetLocalAddressName,
    rtspClientGetRemoteAddressName, networkGetLocalAddressName,
    networkGetRemoteAddressName, networkGetAddressName.
  destruct (Z.leb_spec
              (strlen (cstr (localAddressName (networkConnection rtspClient)))
               + 1) MAX_ADDR_STRING_LENGTH); [|lia].
  destruct (Z.leb_spec
              (strlen (cstr (remoteAddressName (networkConnection rtspClient)))
               + 1) MAX_ADDR_STRING_LENGTH); [|lia].
  cbn [negb]. fold ts.
  change ("v=0" +++ CRLF
          +++ "o=iTunes 1 O IN IP4 "
          +++ cstr (localAddressName (networkConnection rtspClient)) +++ CRLF
          +++ "s=iTunes" +++ CRLF
          +++ "c=IN IP4 "
          +++ cstr (remoteAddressName (networkConnection rtspClient))
          +++ CRLF
          +++ "t=0 0" +++ CRLF
          +++ "m=audio 0 RTP/AVP 96" +++ CRLF
          +++ "a=rtpmap:96 AppleLossless" +++ CRLF
          +++ "a=fmtp:96 4096 0 16 40 10 14 2 255 0 0 " +++ print_u ts
          +++ CRLF) with text.
  assert (Hs : snprintf MAX_ANNOUNCE_CONTENT_SIZE text = text).
  { unfold snprintf. apply take_all. vm_compute (MAX_ANNOUNCE_CONTENT_SIZE - 1).
    lia. }
  rewrite Hs.
  unfold rtspRequestSetContent, rtspRequestAddHeaderField.
  cbn [negb requestMethod headerBuffer contentBuffer contentBufferSize].
  eexists. split; [reflexivity|].
  cbn [contentBuffer contentBufferSize headerBuffer].
  split; [rewrite take_all by lia; reflexivity|]. split; [reflexivity|].
  rewrite cstr_print_u by apply strlen_nonneg.
  change (cstr "Content-Type") with "Content-Type".
  change (cstr "application/sdp") with "application/sdp".
  change (cstr "Content-Length") with "Content-Length".
  rewrite !append_assoc. reflexivity.
Qed.

Lemma raopClientAnnounceContentSupplier_whole_witness :
  let raopClient := streaming (parsed alacFile) in
  exists r' : RTSPRequest,
    raopClientAnnounceContentSupplier raopClient challengedClient
      (rtspRequestCreate RTSP_METHOD_ANNOUNCE)
    = (true, r')
    /\ contentBuffer r' = Some (announceText "192.168.1.2" "192.168.1.10" 44100).
Proof.
  intros raopClient.
  destruct (proj2 (raopClientAnnounceContentSupplier_whole raopClient
                     challengedClient (rtspRequestCreate RTSP_METHOD_ANNOUNCE)
                     ltac:(split; vm_compute; discriminate)
                     ltac:(vm_compute; split; congruence)))
    as (r' & E & Hc & _).
  exists r'. split; [exact E | exact Hc].
Defined.

(* ================================================================== *)
(** * m4afile.c: reading the samples one after the other *)

(** X25.  [m4aFileGetNextSample] reads the samples in the order of the
    table: with the size stream at an entry of the table that holds the
    size [n], and the data stream in front of [n] bytes, it answers these
    bytes and their number, leaves the size stream at the next entry and
    the data stream behind the bytes, and the index that
    [m4aFileGetCurrentSampleIndex] answers grows by one. *)
Theorem m4aFileGetNextSample_next (m : M4AFile) (sampleBuffer : Buffer)
    (before after dataBefore sample dataAfter : list Z) :
  let n := Z.of_nat (length sample) in
  content (sizeStream m) = before ++ be32 n ++ after ->
  position (sizeStream m) = Z.of_nat (length before) ->
  eof_flag (sizeStream m) = false -> error_flag (sizeStream m) = false ->
  content (dataStream m) = dataBefore ++ sample ++ dataAfter ->
  position (dataStream m) = Z.of_nat (length dataBefore) ->
  n < 2^32 ->
  0 <= sizeOffset m <= position (sizeStream m) ->
  position (sizeStream m) + 4 < 2^32 ->
  exists m' : M4AFile,
    m4aFileGetNextSample m sampleBuffer
    = (true, mkBuffer (capacity sampleBuffer) sample, n, m')
    /\ position (sizeStream m') = position (sizeStream m) + 4
    /\ position (dataStream m') = position (dataStream m) + n
    /\ content (sizeStream m') = content (sizeStream m)
    /\ content (dataStream m') = content (dataStream m)
    /\ status m' = status m
    /\ m4aFileGetCurrentSampleIndex m' = m4aFileGetCurrentSampleIndex m + 1.
Proof.
  intros n Hc Hp He Hr Hdc Hdp Hn Hso Hfit.
  change (2^32) with 4294967296 in *.
  assert (Hn0 : 0 <= n < 2^32)
    by (change (2^32) with 4294967296; unfold n; lia).
  destruct (be32_bytes n Hn0)
    as (b1 & b2 & b3 & b4 & Eb & H1 & H2 & H3 & H4 & Ev).
  rewrite Eb in Hc. cbn [app] in Hc.
  unfold m4aFileGetNextSample.
  rewrite (read4ByteUnsignedInt32_value _ before after b1 b2 b3 b4 Hc Hp
             H1 H2 H3 H4).
  rewrite Ev, He, Hr.
  unfold didReadErrorOccur, feof, ferror.
  cbn [sizeStream set_sizeStream eof_flag error_flag orb].
  unfold m4aFileReadData, fread.
  cbn [dataStream set_sizeStream].
  assert (Eread : firstn (Z.to_nat n)
                    (skipn (Z.to_nat (position (dataStream m)))
                       (content (dataStream m))) = sample).
  { rewrite Hdc, Hdp, Nat2Z.id, skipn_app, skipn_all, Nat.sub_diag.
    cbn [app skipn]. unfold n.
    rewrite Nat2Z.id, firstn_app, firstn_all, Nat.sub_diag.
    cbn [firstn]. apply app_nil_r. }
  rewrite Eread. fold n.
  destruct (Z.ltb_spec n n); [lia|].
  rewrite Z.eqb_refl. cbn [negb].
  eexists. split; [reflexivity|].
  cbn [sizeStream dataStream set_sizeStream set_dataStream position content
       status].
  split; [reflexivity|]. split; [reflexivity|].
  split; [reflexivity|]. split; [reflexivity|]. split; [reflexivity|].
  unfold m4aFileGetCurrentSampleIndex, ftell.
  cbn [sizeStream dataStream set_sizeStream set_dataStream position
       sizeOffset].
  assert (Hu : forall x, 0 <= x < 4294967296 -> u32 x = x)
    by (intros x Hx; apply u32_small; change (2^32) with 4294967296; exact Hx).
  rewrite (Hu (position (sizeStream m) + 4)) by lia.
  rewrite (Hu (position (sizeStream m))) by lia.
  rewrite !Hu by lia.
  replace (position (sizeStream m) + 4 - sizeOffset m)
    with (position (sizeStream m) - sizeOffset m + 1 * 4) by lia.
  rewrite Z.div_add by lia. reflexivity.
Qed.

Lemma m4aFileGetNextSample_next_witness :
  let m := parsed alacFile in
  exists m' : M4AFile,
    m4aFileGetNextSample m (mkBuffer 4 [])
    = (true,
       mkBuffer 4 (firstn 3 (skipn (Z.to_nat (dataOffset m)) alacFile)),
       3, m')
    /\ m4aFileGetCurrentSampleIndex m' = 1.
Proof.
  intros m.
  destruct (m4aFileGetNextSample_next m (mkBuffer 4 [])
              (firstn (Z.to_nat (sizeOffset m)) alacFile)
              (skipn (Z.to_nat (sizeOffset m) + 4) alacFile)
              (firstn (Z.to_nat (dataOffset m)) alacFile)
              (firstn 3 (skipn (Z.to_nat (dataOffset m)) alacFile))
              (skipn (Z.to_nat (dataOffset m) + 3) alacFile)
              ltac:(vm_compute; reflexivity) ltac:(vm_compute; reflexivity)
              eq_refl eq_refl
              ltac:(vm_compute; reflexivity) ltac:(vm_compute; reflexivity)
              ltac:(vm_compute; reflexivity)
              ltac:(vm_compute; split; congruence)
              ltac:(vm_compute; reflexivity))
    as (m' & E & _ & _ & _ & _ & _ & Hi).
  exists m'. split; [exact E|].
  rewrite Hi. vm_compute. reflexivity.
Defined.

(* ================================================================== *)
(** * raopclient.c: the audio frames *)










(** A sample larger than [largestSampleSize] is stored beyond the block of
    the audio message.  The file holds a sample of 100 bytes and a size
    table that announces two samples and ends behind the first entry: the
    box parser leaves [largestSampleSize] at 0, the parse answers true, the
    block gets 16 bytes and the first sample is read behind it. *)
Lemma raopClientSendAudioMessages_stores_beyond_block :
  m4aFileParse 20 (m4aFileOpen zeroed cutTableFile)
  = Ret (true, parsed cutTableFile)
  /\ largestSampleSize (parsed cutTableFile) = 0
  /\ sampleSizeAt (parsed cutTableFile) 0 = 100
  /\ raopClientSendAudioMessages 5 (fun _ => true)
       (streaming (parsed cutTableFile)) = Fault.
Proof.
  split; [vm_compute; reflexivity|]. split; [vm_compute; reflexivity|].
  split; vm_compute; reflexivity.
Qed.



(* ================================================================== *)
(** * log.c: the line that is written *)

(** A text is written up to its first zero byte. *)
Lemma cstr_stops (a r : string) :
  cstr a = a -> cstr (a +++ String NUL r) = a.
Proof.
  induction a as [|x a IH]; intros H; [reflexivity|].
  destruct (cstr_String x a H) as [Hx Ha].
  cbn [String.append cstr].
  destruct (Ascii.eqb_spec x NUL) as [E|_]; [contradiction|].
  rewrite IH by exact Ha. reflexivity.
Qed.

(** Cutting a text behind a zero byte keeps the zero byte. *)
Lemma take_past (n : Z) (a r : string) :
  strlen a < n ->
  exists r' : string, take n (a +++ String NUL r) = a +++ String NUL r'.
Proof.
  intros H. pose proof (strlen_nonneg a) as H0.
  assert (Ea : take (strlen a) (a +++ String NUL r) = a).
  { unfold take, strlen. rewrite Nat2Z.id.
    clear. induction a as [|x a IH]; [reflexivity|].
    cbn [String.length String.append substring]. rewrite IH. reflexivity. }
  assert (Ed : drop (Z.to_nat (strlen a)) (a +++ String NUL r)
               = String NUL r)
    by (unfold strlen; rewrite Nat2Z.id; apply drop_append).
  replace n with (strlen a + (n - strlen a)) by lia.
  rewrite take_drop by lia. rewrite Ea, Ed.
  unfold take. destruct (Z.to_nat (n - strlen a)) as [|k] eqn:Ek; [lia|].
  cbn [substring]. eexists. reflexivity.
Qed.

(** X6.  [logWrite] writes nothing and returns true for a level above the
    current one, and also when the prefix alone (time, level and component
    name) has 512 characters or more.  Otherwise the buffer holds the
    prefix and the message followed by a newline when these have at most
    510 characters, and else their first 507 characters followed by three
    dots and a newline; the buffer is handed to [fputs] once, for the log
    file when one is set and for stderr otherwise, so that what is written
    is the buffer up to its first zero byte, at most 511 characters.  For
    a message without a zero byte this is the whole buffer, a line that
    ends with the newline.  For a message that holds a zero byte among
    the first 507 characters of the buffer (the format [%c] prints one for
    the argument 0) it is the prefix and the message up to that byte, and
    no newline is written. *)
Theorem logWrite_line (s : LogState) (timeValue : tm) (logLevel : LogLevel)
    (componentName : option string) (message : string) (fputsResult : Z) :
  let prefix := logPrefix timeValue logLevel componentName in
  let full := prefix +++ message in
  let buffer :=
    if strlen full <=? 510 then full +++ LOG_MESSAGE_ENDLINE
    else take 507 full +++ "..." +++ LOG_MESSAGE_ENDLINE in
  let stream := match logFile s with Some f => f | None => Stderr end in
  let result :=
    logWrite s timeValue logLevel componentName (Some message) fputsResult in
  (logLevelValue logLevel > logLevelValue (defaultLogLevel s) ->
   result = (None, true))
  /\ (logLevelValue logLevel <= logLevelValue (defaultLogLevel s) ->
      (LOG_BUFFER_SIZE <= strlen prefix -> result = (None, true))
      /\ (strlen prefix < LOG_BUFFER_SIZE ->
          result = (Some (stream, cstr buffer), fputsResult >? 0)
          /\ strlen (cstr buffer) <= LOG_BUFFER_SIZE - 1
          /\ (cstr message = message -> cstr buffer = buffer)
          /\ (forall a b : string,
                message = a +++ String NUL b -> cstr a = a ->
                strlen prefix + strlen a < 507 ->
                cstr buffer = prefix +++ a))).
Proof.
  cbv zeta.
  set (prefix := logPrefix timeValue logLevel componentName).
  pose proof (strlen_nonneg prefix) as Hp0.
  pose proof (strlen_nonneg message) as Hm0.
  assert (Hpre : cstr prefix = prefix) by apply cstr_logPrefix.
  change LOG_BUFFER_SIZE with 512.
  split.
  - intros H. unfold logWrite.
    destruct (Z.gtb_spec (logLevelValue logLevel)
                (logLevelValue (defaultLogLevel s))); [reflexivity | lia].
  - intros Hl. unfold logWrite, logWriteMessage.
    destruct (Z.gtb_spec (logLevelValue logLevel)
                (logLevelValue (defaultLogLevel s))); [lia|].
    fold prefix.
    destruct (Z.geb_spec (strlen prefix) 0); [|lia].
    change LOG_BUFFER_SIZE with 512.
    change LOG_MESSAGE_ENDLINE_SIZE with 2.
    change LOG_MESSAGE_TOO_BIG_ENDLINE_SIZE with 5.
    change (512 - 1) with 511. change (512 - 5) with 507.
    split.
    + intros Hbig.
      destruct (Z.ltb_spec (strlen prefix) 512); [lia|]. cbn [andb].
      destruct (Z.gtb_spec (strlen prefix) 0); [reflexivity | lia].
    + intros Hsmall.
      destruct (Z.ltb_spec (strlen prefix) 512); [|lia]. cbn [andb].
      assert (Hlen : strlen (prefix +++ message)
                     = strlen prefix + strlen message)
        by apply strlen_append.
      assert (Hbuf :
        (if strlen message + strlen prefix + 2 >? 512
         then take 507 (take 511 (prefix +++ message))
              +++ LOG_MESSAGE_TOO_BIG_ENDLINE
         else take 511 (prefix +++ message) +++ LOG_MESSAGE_ENDLINE)
        = (if strlen (prefix +++ message) <=? 510
           then (prefix +++ message) +++ LOG_MESSAGE_ENDLINE
           else take 507 (prefix +++ message) +++ "..."
                +++ LOG_MESSAGE_ENDLINE)).
      { destruct (Z.gtb_spec (strlen message + strlen prefix + 2) 512);
          destruct (Z.leb_spec (strlen (prefix +++ message)) 510); try lia.
        - rewrite take_take by lia. reflexivity.
        - rewrite take_all by lia. reflexivity. }
      rewrite Hbuf.
      split; [reflexivity|].
      split; [|split].
      * destruct (Z.leb_spec (strlen (prefix +++ message)) 510).
        -- pose proof (strlen_cstr_le ((prefix +++ message)
                                       +++ LOG_MESSAGE_ENDLINE)) as Hc.
           rewrite strlen_append in Hc.
           change (strlen LOG_MESSAGE_ENDLINE) with 1 in Hc. lia.
        -- pose proof (strlen_cstr_le (take 507 (prefix +++ message)
                                       +++ "..." +++ LOG_MESSAGE_ENDLINE))
             as Hc.
           rewrite strlen_append, strlen_take_full in Hc by lia.
           change (strlen ("..." +++ LOG_MESSAGE_ENDLINE)) with 4 in Hc. lia.
      * intros Hm.
        assert (Hfull : cstr (prefix +++ message) = prefix +++ message)
          by (apply cstr_append; assumption).
        destruct (Z.leb_spec (strlen (prefix +++ message)) 510).
        -- apply cstr_append; [exact Hfull | reflexivity].
        -- apply cstr_append; [apply cstr_take; exact Hfull | reflexivity].
      * intros a b -> Ha Hshort.
        assert (Hpa : cstr (prefix +++ a) = prefix +++ a)
          by (apply cstr_append; assumption).
        rewrite <- (append_assoc prefix a (String NUL b)).
        destruct (Z.leb_spec (strlen ((prefix +++ a) +++ String NUL b)) 510).
        -- rewrite append_assoc. cbn [String.append].
           apply cstr_stops. exact Hpa.
        -- destruct (take_past 507 (prefix +++ a) b) as [r' Er'].
           { rewrite strlen_append. lia. }
           rewrite Er', append_assoc. cbn [String.append].
           apply cstr_stops. exact Hpa.
Qed.

Lemma logWrite_line_witness :
  let s := mkLogState LOG_LEVEL_WARNING (Some (LogFileStream "play.log")) true
  in
  let timeValue := mkTm 126 9 30 7 5 9 in
  logWrite s timeValue LOG_LEVEL_INFO (Some "m4afile.c") (Some "Parsing") 1
  = (None, true)
  /\ logWrite s timeValue LOG_LEVEL_ERROR (Some "m4afile.c")
       (Some "Cannot read") 1
     = (Some (LogFileStream "play.log",
              "2026-10-30 07:05:09 - [ERROR] - [m4afile.c] - Cannot read"
              +++ LOG_MESSAGE_ENDLINE), true)
  /\ logWrite s timeValue LOG_LEVEL_WARNING (Some "m4afile.c")
       (Some ("A box of type " +++ String NUL "bcd is not known")) 1
     = (Some (LogFileStream "play.log",
              "2026-10-30 07:05:09 - [WARNING] - [m4afile.c] - A box of type "),
        true).
Proof.
  intros s timeValue. split; [|split].
  - apply (proj1 (logWrite_line s timeValue LOG_LEVEL_INFO (Some "m4afile.c")
                    "Parsing" 1)).
    vm_compute. reflexivity.
  - destruct (proj2 (proj2 (logWrite_line s timeValue LOG_LEVEL_ERROR
                              (Some "m4afile.c") "Cannot read" 1)
                       ltac:(vm_compute; discriminate))
                ltac:(vm_compute; reflexivity))
      as (E & _ & Hfit & _).
    rewrite E. rewrite (Hfit eq_refl). vm_compute. reflexivity.
  - destruct (proj2 (proj2 (logWrite_line s timeValue LOG_LEVEL_WARNING
                              (Some "m4afile.c")
                              ("A box of type " +++ String NUL
                                 "bcd is not known") 1)
                       ltac:(vm_compute; discriminate))
                ltac:(vm_compute; reflexivity))
      as (E & _ & _ & Hcut).
    rewrite E.
    rewrite (Hcut "A box of type " "bcd is not known" eq_refl eq_refl
               ltac:(vm_compute; reflexivity)).
    vm_compute. reflexivity.
Defined.
